(** * Order-management backend: stock ledger, order state machine,
      cache keys, storage gateways and the order orchestrator.

    A shallow embedding of the Go packages [domain], [storage] and
    [application].  Go's [int] is the 64-bit two's-complement integer, modelled
    as [Z] with the wrap-around of [+] and [-] written out; a [uuid.UUID] is
    its 128-bit value; a [time.Time] is an instant on the integer time line
    whose zero value is [0].  Methods with a pointer receiver return the
    receiver's new state next to the error, so that what a failing call leaves
    behind is visible. *)

From Stdlib Require Import ZArith NArith String List Lia.
From Stdlib.Strings Require Import Byte.
From stdpp Require Import base option gmap list strings sorting.

Open Scope string_scope.
Open Scope Z_scope.
Open Scope list_scope.

(* ================================================================== *)
(** ** Machine integers, identifiers, instants *)

Abbreviation UUID := N (only parsing).
Abbreviation Time := Z (only parsing).
Abbreviation CacheKey := N (only parsing).

Definition MaxInt : Z := 2 ^ 63 - 1.
Definition MinInt : Z := - 2 ^ 63.

(** The value a 64-bit signed register holds after an operation whose exact
    result is [z]. *)
Definition wrap (z : Z) : Z := (z + 2 ^ 63) mod 2 ^ 64 - 2 ^ 63.

Definition is_int (z : Z) : Prop := MinInt <= z <= MaxInt.

Definition int_add (a b : Z) : Z := wrap (a + b).
Definition int_sub (a b : Z) : Z := wrap (a - b).

(** Go's [*] on [int]. *)
Definition int_mul (a b : Z) : Z := wrap (a * b).

(** Go's [/] on [int], for a divisor that is not zero: the quotient is
    truncated towards zero. *)
Definition int_div (a b : Z) : Z := wrap (Z.quot a b).

(** [uuid.Nil] *)
Definition Nil : UUID := 0%N.

(** [time.Time.IsZero] *)
Definition IsZero (t : Time) : bool := Z.eqb t 0.

(** [time.Hour], in the unit of the time line (nanoseconds). *)
Definition Hour : Z := 3600 * 1000000000.

(* ================================================================== *)
(** ** Bytes *)

Definition byte_of_Z (z : Z) : byte :=
  default x00 (Byte.of_N (Z.to_N (z mod 256))).

(** [uint32(v)] of a Go [int]. *)
Definition uint32 (v : Z) : Z := v mod 2 ^ 32.

(** [binary.BigEndian.AppendUint32(buf, v)] *)
Definition AppendUint32 (buf : list byte) (v : Z) : list byte :=
  buf ++ [byte_of_Z (Z.shiftr v 24); byte_of_Z (Z.shiftr v 16);
          byte_of_Z (Z.shiftr v 8); byte_of_Z v].

(** [id[:]], the sixteen bytes of a UUID, most significant first. *)
Definition uuidBytes (u : UUID) : list byte :=
  map (fun i : nat => byte_of_Z (Z.shiftr (Z.of_N u) (8 * (15 - Z.of_nat i))))
      (seq 0 16).

(** [[]byte(s)] *)
Definition stringBytes (s : string) : list byte := list_byte_of_string s.

(* ================================================================== *)
(** ** Errors *)

(** The sentinel errors of [domain], one kind for the opaque failures of the
    database driver, and one for a run-time panic (a nil pointer
    dereferenced), which is no error value in Go but ends the call. *)
Inductive ErrKind : Type :=
  | ErrUserValidation
  | ErrUserNotFound
  | ErrProductValidation
  | ErrProductNotFound
  | ErrOrderValidation
  | ErrOrderNotFound
  | ErrInsufficientStock
  | ErrInvalidQuantity
  | ErrStorage
  | Panic.

Inductive FmtArg : Type :=
  | ArgStr (s : string)
  | ArgInt (z : Z)
  | ArgUUID (u : UUID).

(** [fmt.Errorf(format, sentinel, args...)]: the wrapped sentinel, the format
    and the remaining arguments, unformatted. *)
Record error : Type := Errorf {
  kind : ErrKind;
  format : string;
  args : list FmtArg
}.

(** A sentinel returned as it is. *)
Definition Sentinel (k : ErrKind) : error := Errorf k "%w" [].

#[global] Instance ErrKind_eq_dec : EqDecision ErrKind.
Proof. solve_decision. Defined.

Inductive result (A : Type) : Type :=
  | Ok (a : A)
  | Err (e : error).
Arguments Ok {A} a.
Arguments Err {A} e.

(* ================================================================== *)
(** ** What the program takes from outside *)

(** Library functions and run-time choices the repository does not define:
    the SHA-256 digest, [strings.TrimSpace], the database's [LIKE] match of a
    pattern tag against a row's stored tags, the identifiers [uuid.New]
    draws, and the order in which [range] visits the entries of a map (Go
    leaves it unspecified and varies it from loop to loop). *)
Record Env : Type := {
  Sum256 : list byte -> CacheKey;
  TrimSpace : string -> string;
  tagsLike : string -> list string -> bool;
  uuidNew : nat -> UUID;
  mapRange : nat -> list (UUID * Z) -> list (UUID * Z)
}.

(** [range] visits every entry of the map exactly once. *)
Definition RangeOk (env : Env) : Prop :=
  forall (n : nat) (l : list (UUID * Z)), mapRange env n l ≡ₚ l.

(** The process's clock and the position in its stream of random choices. *)
Record Runtime : Type := {
  clock : Time;
  seed : nat
}.

(** [uuid.New()] *)
Definition uuid_New (env : Env) (rt : Runtime) : UUID * Runtime :=
  (uuidNew env (seed rt), {| clock := clock rt; seed := S (seed rt) |}).

(** [time.Now()] *)
Definition Now (rt : Runtime) : Time := clock rt.

(** What the transport layer takes from outside: [strconv.Atoi] and
    [uuid.Parse], [None] standing for a returned error. *)
Record Http : Type := {
  Atoi : string -> option Z;
  uuidParse : string -> option UUID
}.

(** The parts of a [fiber.Ctx] the handlers read: the query parameters and
    the route parameters, an absent one reading as the empty string. *)
Record Ctx : Type := {
  Query : string -> string;
  Params : string -> string
}.


(** [bcrypt.GenerateFromPassword] at the default cost, which draws a salt of
    its own (the position in the stream of random choices is its first
    argument) and returns the hash or the text of an error, and
    [bcrypt.CompareHashAndPassword], [true] standing for a nil error. *)
Record Crypto : Type := {
  GenerateFromPassword : nat -> list byte -> list byte + string;
  CompareHashAndPassword : list byte -> list byte -> bool
}.

(** [encoding/hex]: [EncodeToString] and [DecodeString], the latter giving
    the text of its error on the right. *)
Record Hex : Type := {
  EncodeToString : list byte -> string;
  DecodeString : string -> list byte + string
}.

(* ================================================================== *)
(** ** domain: products *)

Module Product.

Record t : Type := {
  Id : UUID;
  Description : string;
  Tags : list string;
  Quantity : Z;
  CreatedAt : Time;
  UpdatedAt : Time
}.

Definition cleanTags (env : Env) (tags : list string) : list string :=
  filter (fun tag => tag <> "") (map (TrimSpace env) tags).

Definition Validate (env : Env) (p : t) (rt : Runtime)
  : (t * option error) * Runtime :=
  let '(id, rt1) :=
    if N.eqb (Id p) Nil then uuid_New env rt else (Id p, rt) in
  let created := if IsZero (CreatedAt p) then Now rt1 else CreatedAt p in
  let p1 := {| Id := id; Description := Description p; Tags := Tags p;
               Quantity := Quantity p; CreatedAt := created;
               UpdatedAt := Now rt1 |} in
  if String.eqb (TrimSpace env (Description p)) "" then
    (p1, Some (Errorf ErrProductValidation "%w: description is required" []), rt1)
  else if Quantity p <? 0 then
    (p1, Some (Errorf ErrProductValidation "%w: quantity cannot be negative" []), rt1)
  else
    ({| Id := id; Description := Description p;
        Tags := cleanTags env (Tags p);
        Quantity := Quantity p; CreatedAt := created;
        UpdatedAt := Now rt1 |}, None, rt1).

Definition IsAvailable (p : t) : bool := 0 <? Quantity p.

(** [now] is what [time.Now()] returns when the call reaches it. *)
Definition ReserveQuantity (now : Time) (quantity : Z) (p : t)
  : t * option error :=
  if quantity <=? 0 then
    (p, Some (Errorf ErrInvalidQuantity "%w: quantity must be positive" []))
  else if Quantity p <? quantity then
    (p, Some (Errorf ErrInsufficientStock
                "%w: requested %d but only %d available"
                [ArgInt quantity; ArgInt (Quantity p)]))
  else
    ({| Id := Id p; Description := Description p; Tags := Tags p;
        Quantity := int_sub (Quantity p) quantity;
        CreatedAt := CreatedAt p; UpdatedAt := now |}, None).

Definition RestoreQuantity (now : Time) (quantity : Z) (p : t)
  : t * option error :=
  if quantity <=? 0 then
    (p, Some (Errorf ErrInvalidQuantity "%w: quantity must be positive" []))
  else
    ({| Id := Id p; Description := Description p; Tags := Tags p;
        Quantity := int_add (Quantity p) quantity;
        CreatedAt := CreatedAt p; UpdatedAt := now |}, None).

End Product.

Module CreateProductRequest.

Record t : Type := {
  Description : string;
  Tags : list string;
  Quantity : Z
}.

Definition Validate (env : Env) (r : t) : option error :=
  if String.eqb (TrimSpace env (Description r)) "" then
    Some (Errorf ErrProductValidation "%w: description is required" [])
  else if Quantity r <? 0 then
    Some (Errorf ErrProductValidation "%w: quantity cannot be negative" [])
  else None.

(** The product of the request, its identifier and timestamps still at
    their zero values. *)
Definition ToDomain (env : Env) (r : t) : result Product.t :=
  match Validate env r with
  | Some err => Err err
  | None =>
      Ok {| Product.Id := Nil;
            Product.Description := TrimSpace env (Description r);
            Product.Tags := Tags r;
            Product.Quantity := Quantity r;
            Product.CreatedAt := 0;
            Product.UpdatedAt := 0 |}
  end.

End CreateProductRequest.

Module UpdateProductRequest.

(** [Description *string] and [Quantity *int] are optional. *)
Record t : Type := {
  Id : UUID;
  Description : option string;
  Tags : list string;
  Quantity : option Z
}.

Definition Validate (env : Env) (r : t) : option error :=
  if N.eqb (Id r) Nil then
    Some (Errorf ErrProductValidation "%w: product ID is required" [])
  else if match Description r with
          | Some d => String.eqb (TrimSpace env d) ""
          | None => false
          end then
    Some (Errorf ErrProductValidation "%w: description cannot be empty" [])
  else if match Quantity r with
          | Some q => q <? 0
          | None => false
          end then
    Some (Errorf ErrProductValidation "%w: quantity cannot be negative" [])
  else None.

End UpdateProductRequest.

(** The limit and offset clamping shared by the three list requests. *)
Definition clampLimit (limit : Z) : Z :=
  let l := if limit <=? 0 then 10 else limit in
  if 100 <? l then 100 else l.

Definition clampOffset (offset : Z) : Z :=
  if offset <? 0 then 0 else offset.

Module GetProductsRequest.

(** [Available *bool] is optional. *)
Record t : Type := {
  Ids : list UUID;
  Tags : list string;
  Available : option bool;
  Limit : Z;
  Offset : Z
}.

Definition Validate (r : t) : t :=
  {| Ids := Ids r; Tags := Tags r; Available := Available r;
     Limit := clampLimit (Limit r); Offset := clampOffset (Offset r) |}.

(** The buffer [CacheKey] hands to the digest. *)
Definition CacheKeyBuf (r : t) : list byte :=
  let buf := [] in
  let buf := AppendUint32 buf (uint32 (Z.of_nat (length (Ids r)))) in
  let buf := fold_left (fun b id => b ++ uuidBytes id) (Ids r) buf in
  let buf := AppendUint32 buf (uint32 (Z.of_nat (length (Tags r)))) in
  let buf := fold_left (fun b tag => b ++ stringBytes tag) (Tags r) buf in
  let buf := match Available r with
             | Some true => buf ++ [x01]
             | Some false => buf ++ [x00]
             | None => buf ++ [x02]
             end in
  let buf := AppendUint32 buf (uint32 (Limit r)) in
  let buf := AppendUint32 buf (uint32 (Offset r)) in
  buf.

Definition CacheKey (env : Env) (r : t) : CacheKey :=
  Sum256 env (CacheKeyBuf r).

End GetProductsRequest.

(* ================================================================== *)
(** ** domain: users *)

Module User.

Record t : Type := {
  Id : UUID;
  FirstName : string;
  LastName : string;
  Age : Z;
  IsMarried : bool;
  PasswordHash : list byte;
  Salt : list byte;
  CreatedAt : Time
}.

Definition Validate (env : Env) (u : t) (rt : Runtime)
  : (t * option error) * Runtime :=
  let '(id, rt1) :=
    if N.eqb (Id u) Nil then uuid_New env rt else (Id u, rt) in
  let created := if IsZero (CreatedAt u) then Now rt1 else CreatedAt u in
  let u1 := {| Id := id; FirstName := FirstName u; LastName := LastName u;
               Age := Age u; IsMarried := IsMarried u;
               PasswordHash := PasswordHash u; Salt := Salt u;
               CreatedAt := created |} in
  if String.eqb (TrimSpace env (FirstName u)) "" then
    (u1, Some (Errorf ErrUserValidation "%w: first name is required" []), rt1)
  else if String.eqb (TrimSpace env (LastName u)) "" then
    (u1, Some (Errorf ErrUserValidation "%w: last name is required" []), rt1)
  else if Age u <? 18 then
    (u1, Some (Errorf ErrUserValidation
                 "%w: user must be at least 18 years old" []), rt1)
  else if Nat.eqb (length (PasswordHash u)) 0 then
    (u1, Some (Errorf ErrUserValidation "%w: password hash is required" []), rt1)
  else if Nat.eqb (length (Salt u)) 0 then
    (u1, Some (Errorf ErrUserValidation "%w: salt is required" []), rt1)
  else (u1, None, rt1).

Definition FullName (env : Env) (u : t) : string :=
  TrimSpace env (FirstName u ++ " " ++ LastName u).

Definition withSalt (salt : list byte) (u : t) : t :=
  {| Id := Id u; FirstName := FirstName u; LastName := LastName u;
     Age := Age u; IsMarried := IsMarried u;
     PasswordHash := PasswordHash u; Salt := salt;
     CreatedAt := CreatedAt u |}.

Definition withPasswordHash (hash : list byte) (u : t) : t :=
  {| Id := Id u; FirstName := FirstName u; LastName := LastName u;
     Age := Age u; IsMarried := IsMarried u;
     PasswordHash := hash; Salt := Salt u;
     CreatedAt := CreatedAt u |}.

(** The salt is written before the hash is computed, so a failing hash
    leaves the user with the new salt. *)
Definition SetPassword (env : Env) (crypto : Crypto) (password : string)
    (u : t) (rt : Runtime) : (t * option error) * Runtime :=
  if (String.length password <? 8)%nat then
    (u, Some (Errorf ErrUserValidation
                "%w: password must be at least 8 characters long" []), rt)
  else
    let '(salt, rt1) := uuid_New env rt in
    let u1 := withSalt (uuidBytes salt) u in
    let saltedPassword := (stringBytes password ++ Salt u1)%list in
    let rt2 := {| clock := clock rt1; seed := S (seed rt1) |} in
    match GenerateFromPassword crypto (seed rt1) saltedPassword with
    | inr err =>
        (u1, Some (Errorf ErrUserValidation
                     "%w: failed to hash password: %v" [ArgStr err]), rt2)
    | inl hash => (withPasswordHash hash u1, None, rt2)
    end.

Definition VerifyPassword (crypto : Crypto) (password : string) (u : t)
  : bool :=
  let saltedPassword := (stringBytes password ++ Salt u)%list in
  CompareHashAndPassword crypto (PasswordHash u) saltedPassword.

End User.

Module CreateUserRequest.

Record t : Type := {
  FirstName : string;
  LastName : string;
  Age : Z;
  IsMarried : bool;
  Password : string
}.

Definition Validate (env : Env) (r : t) : option error :=
  if String.eqb (TrimSpace env (FirstName r)) "" then
    Some (Errorf ErrUserValidation "%w: first name is required" [])
  else if String.eqb (TrimSpace env (LastName r)) "" then
    Some (Errorf ErrUserValidation "%w: last name is required" [])
  else if Age r <? 18 then
    Some (Errorf ErrUserValidation
            "%w: user must be at least 18 years old" [])
  else if (String.length (Password r) <? 8)%nat then
    Some (Errorf ErrUserValidation
            "%w: password must be at least 8 characters long" [])
  else None.

Definition ToDomain (env : Env) (crypto : Crypto) (r : t) (rt : Runtime)
  : result User.t * Runtime :=
  match Validate env r with
  | Some err => (Err err, rt)
  | None =>
      let user := {| User.Id := Nil;
                     User.FirstName := TrimSpace env (FirstName r);
                     User.LastName := TrimSpace env (LastName r);
                     User.Age := Age r;
                     User.IsMarried := IsMarried r;
                     User.PasswordHash := [];
                     User.Salt := [];
                     User.CreatedAt := 0 |} in
      match User.SetPassword env crypto (Password r) user rt with
      | (_, Some err, rt') => (Err err, rt')
      | (user', None, rt') => (Ok user', rt')
      end
  end.

End CreateUserRequest.

Module GetUsersRequest.

Record t : Type := {
  Ids : list UUID;
  Limit : Z;
  Offset : Z
}.

Definition Validate (r : t) : t :=
  {| Ids := Ids r;
     Limit := clampLimit (Limit r); Offset := clampOffset (Offset r) |}.

Definition CacheKeyBuf (r : t) : list byte :=
  let buf := [] in
  let buf := AppendUint32 buf (uint32 (Z.of_nat (length (Ids r)))) in
  let buf := fold_left (fun b id => b ++ uuidBytes id) (Ids r) buf in
  let buf := AppendUint32 buf (uint32 (Limit r)) in
  let buf := AppendUint32 buf (uint32 (Offset r)) in
  buf.

Definition CacheKey (env : Env) (r : t) : CacheKey :=
  Sum256 env (CacheKeyBuf r).

End GetUsersRequest.

(* ================================================================== *)
(** ** domain: orders *)

(** [OrderStatus = string] *)
Definition OrderStatusPending : string := "pending".
Definition OrderStatusConfirmed : string := "confirmed".
Definition OrderStatusCancelled : string := "cancelled".
Definition OrderStatusCompleted : string := "completed".

Module ProductSnapshot.

Record t : Type := {
  Description : string;
  Tags : list string
}.

End ProductSnapshot.

Module OrderItem.

Record t : Type := {
  Id : UUID;
  OrderId : UUID;
  ProductId : UUID;
  Quantity : Z;
  Snapshot : ProductSnapshot.t;
  CreatedAt : Time
}.

Definition withOrderId (orderId : UUID) (item : t) : t :=
  {| Id := Id item; OrderId := orderId; ProductId := ProductId item;
     Quantity := Quantity item; Snapshot := Snapshot item;
     CreatedAt := CreatedAt item |}.

Definition Validate (env : Env) (item : t) (rt : Runtime)
  : (t * option error) * Runtime :=
  let '(id, rt1) :=
    if N.eqb (Id item) Nil then uuid_New env rt else (Id item, rt) in
  let created :=
    if IsZero (CreatedAt item) then Now rt1 else CreatedAt item in
  let item1 := {| Id := id; OrderId := OrderId item;
                  ProductId := ProductId item; Quantity := Quantity item;
                  Snapshot := Snapshot item; CreatedAt := created |} in
  if N.eqb (OrderId item) Nil then
    (item1, Some (Errorf ErrOrderValidation "%w: order ID is required" []), rt1)
  else if N.eqb (ProductId item) Nil then
    (item1, Some (Errorf ErrOrderValidation "%w: product ID is required" []), rt1)
  else if Quantity item <=? 0 then
    (item1, Some (Errorf ErrOrderValidation "%w: quantity must be positive" []), rt1)
  else if String.eqb (ProductSnapshot.Description (Snapshot item)) "" then
    (item1, Some (Errorf ErrOrderValidation
                    "%w: product snapshot description is required" []), rt1)
  else (item1, None, rt1).

End OrderItem.

Module Order.

Record t : Type := {
  Id : UUID;
  UserId : UUID;
  Status : string;
  Items : list OrderItem.t;
  CreatedAt : Time;
  UpdatedAt : Time
}.

Definition withItems (items : list OrderItem.t) (o : t) : t :=
  {| Id := Id o; UserId := UserId o; Status := Status o; Items := items;
     CreatedAt := CreatedAt o; UpdatedAt := UpdatedAt o |}.

Definition withStatus (status : string) (now : Time) (o : t) : t :=
  {| Id := Id o; UserId := UserId o; Status := status; Items := Items o;
     CreatedAt := CreatedAt o; UpdatedAt := now |}.

(** The loop over [o.Items] in [Validate]: every item met gets the order's
    id and is validated in place; the first failure stops the loop and
    leaves the items after it as they were. *)
Fixpoint validateItems (env : Env) (orderId : UUID)
    (items : list OrderItem.t) (rt : Runtime)
  : (list OrderItem.t * option error) * Runtime :=
  match items with
  | [] => ([], None, rt)
  | item :: rest =>
      let '(item', err, rt1) :=
        OrderItem.Validate env (OrderItem.withOrderId orderId item) rt in
      match err with
      | Some e => (item' :: rest, Some e, rt1)
      | None =>
          let '(rest', err', rt2) := validateItems env orderId rest rt1 in
          (item' :: rest', err', rt2)
      end
  end.

Definition Validate (env : Env) (o : t) (rt : Runtime)
  : (t * option error) * Runtime :=
  let '(id, rt1) :=
    if N.eqb (Id o) Nil then uuid_New env rt else (Id o, rt) in
  let created := if IsZero (CreatedAt o) then Now rt1 else CreatedAt o in
  let o1 := {| Id := id; UserId := UserId o; Status := Status o;
               Items := Items o; CreatedAt := created;
               UpdatedAt := Now rt1 |} in
  if N.eqb (UserId o) Nil then
    (o1, Some (Errorf ErrOrderValidation "%w: user ID is required" []), rt1)
  else
    let status :=
      if String.eqb (Status o) "" then OrderStatusPending else Status o in
    let o2 := {| Id := id; UserId := UserId o; Status := status;
                 Items := Items o; CreatedAt := created;
                 UpdatedAt := Now rt1 |} in
    if Nat.eqb (length (Items o)) 0 then
      (o2, Some (Errorf ErrOrderValidation
                   "%w: order must contain at least one item" []), rt1)
    else
      let '(items', err, rt2) := validateItems env id (Items o) rt1 in
      (withItems items' o2, err, rt2).

Definition TotalQuantity (o : t) : Z :=
  fold_left (fun total item => int_add total (OrderItem.Quantity item))
            (Items o) 0.

Definition CanBeCancelled (o : t) : bool :=
  String.eqb (Status o) OrderStatusPending
  || String.eqb (Status o) OrderStatusConfirmed.

Definition Cancel (now : Time) (o : t) : t * option error :=
  if negb (CanBeCancelled o) then
    (o, Some (Errorf ErrOrderValidation
                "%w: order cannot be cancelled in status %s"
                [ArgStr (Status o)]))
  else (withStatus OrderStatusCancelled now o, None).

Definition Confirm (now : Time) (o : t) : t * option error :=
  if negb (String.eqb (Status o) OrderStatusPending) then
    (o, Some (Errorf ErrOrderValidation
                "%w: order cannot be confirmed in status %s"
                [ArgStr (Status o)]))
  else (withStatus OrderStatusConfirmed now o, None).

Definition Complete (now : Time) (o : t) : t * option error :=
  if negb (String.eqb (Status o) OrderStatusConfirmed) then
    (o, Some (Errorf ErrOrderValidation
                "%w: order cannot be completed in status %s"
                [ArgStr (Status o)]))
  else (withStatus OrderStatusCompleted now o, None).

End Order.

Module CreateOrderItemRequest.

Record t : Type := {
  ProductId : UUID;
  Quantity : Z
}.

Definition Validate (r : t) : option error :=
  if N.eqb (ProductId r) Nil then
    Some (Errorf ErrOrderValidation "%w: product ID is required" [])
  else if Quantity r <=? 0 then
    Some (Errorf ErrOrderValidation "%w: quantity must be positive" [])
  else None.

End CreateOrderItemRequest.

Module CreateOrderRequest.

Record t : Type := {
  UserId : UUID;
  Items : list CreateOrderItemRequest.t
}.

Fixpoint validateItems (items : list CreateOrderItemRequest.t)
  : option error :=
  match items with
  | [] => None
  | item :: rest =>
      match CreateOrderItemRequest.Validate item with
      | Some e => Some e
      | None => validateItems rest
      end
  end.

Definition Validate (r : t) : option error :=
  if N.eqb (UserId r) Nil then
    Some (Errorf ErrOrderValidation "%w: user ID is required" [])
  else if Nat.eqb (length (Items r)) 0 then
    Some (Errorf ErrOrderValidation
            "%w: order must contain at least one item" [])
  else validateItems (Items r).

End CreateOrderRequest.

Module UpdateOrderRequest.

Record t : Type := {
  Id : UUID;
  Status : string
}.

Definition validStatuses : list string :=
  [OrderStatusPending; OrderStatusConfirmed;
   OrderStatusCancelled; OrderStatusCompleted].

Definition Validate (r : t) : option error :=
  if N.eqb (Id r) Nil then
    Some (Errorf ErrOrderValidation "%w: order ID is required" [])
  else if negb (existsb (String.eqb (Status r)) validStatuses) then
    Some (Errorf ErrOrderValidation "%w: invalid order status %s"
            [ArgStr (Status r)])
  else None.

End UpdateOrderRequest.

Module GetOrdersRequest.

Record t : Type := {
  Ids : list UUID;
  UserIds : list UUID;
  Statuses : list string;
  Limit : Z;
  Offset : Z
}.

Definition Validate (r : t) : t :=
  {| Ids := Ids r; UserIds := UserIds r; Statuses := Statuses r;
     Limit := clampLimit (Limit r); Offset := clampOffset (Offset r) |}.

Definition CacheKeyBuf (r : t) : list byte :=
  let buf := [] in
  let buf := AppendUint32 buf (uint32 (Z.of_nat (length (Ids r)))) in
  let buf := fold_left (fun b id => b ++ uuidBytes id) (Ids r) buf in
  let buf := AppendUint32 buf (uint32 (Z.of_nat (length (UserIds r)))) in
  let buf := fold_left (fun b id => b ++ uuidBytes id) (UserIds r) buf in
  let buf := AppendUint32 buf (uint32 (Z.of_nat (length (Statuses r)))) in
  let buf := fold_left (fun b status => b ++ stringBytes status)
                       (Statuses r) buf in
  let buf := AppendUint32 buf (uint32 (Limit r)) in
  let buf := AppendUint32 buf (uint32 (Offset r)) in
  buf.

Definition CacheKey (env : Env) (r : t) : CacheKey :=
  Sum256 env (CacheKeyBuf r).

End GetOrdersRequest.

(* ================================================================== *)
(** ** The relational store *)

(** The four tables.  A row is kept as the domain value its DTO decodes to
    (hex and JSON encodings of the DTOs are inverse to their decodings); an
    [orders] row carries no items. *)
Record DB : Type := {
  users : list User.t;
  products : list Product.t;
  orders : list Order.t;
  order_items : list OrderItem.t
}.

(** [ORDER BY created_at DESC, id] *)
Definition byCreatedDescId {A : Type} (created : A -> Time) (id : A -> UUID)
  : relation A :=
  fun a b => created b < created a
             \/ (created a = created b /\ (id a <= id b)%N).

#[global] Instance byCreatedDescId_dec {A : Type}
  (created : A -> Time) (id : A -> UUID)
  : RelDecision (byCreatedDescId created id).
Proof. intros a b. unfold byCreatedDescId. apply _. Defined.

(** [ORDER BY created_at] *)
Definition byCreated {A : Type} (created : A -> Time) : relation A :=
  fun a b => created a <= created b.

#[global] Instance byCreated_dec {A : Type} (created : A -> Time)
  : RelDecision (byCreated created).
Proof. intros a b. unfold byCreated. apply _. Defined.

(** [LIMIT limit OFFSET offset] *)
Definition page {A : Type} (limit offset : Z) (rows : list A) : list A :=
  take (Z.to_nat limit) (drop (Z.to_nat offset) rows).

(** [WHERE col IN (ids)], added only when [ids] is not empty. *)
Definition inIfAny {K : Type} `{EqDecision K} (ids : list K) (k : K) : bool :=
  match ids with
  | [] => true
  | _ => bool_decide (k ∈ ids)
  end.

Module SQL.

Definition selectUsers (r : GetUsersRequest.t) (d : DB) : list User.t :=
  page (GetUsersRequest.Limit r) (GetUsersRequest.Offset r)
    (merge_sort (byCreatedDescId User.CreatedAt User.Id)
       (filter (fun u => inIfAny (GetUsersRequest.Ids r) (User.Id u))
               (users d))).

Definition productMatches (env : Env) (r : GetProductsRequest.t)
    (p : Product.t) : bool :=
  inIfAny (GetProductsRequest.Ids r) (Product.Id p)
  && forallb (fun tag => tagsLike env tag (Product.Tags p))
             (GetProductsRequest.Tags r)
  && match GetProductsRequest.Available r with
     | Some true => 0 <? Product.Quantity p
     | Some false => Product.Quantity p =? 0
     | None => true
     end.

Definition selectProducts (env : Env) (r : GetProductsRequest.t) (d : DB)
  : list Product.t :=
  page (GetProductsRequest.Limit r) (GetProductsRequest.Offset r)
    (merge_sort (byCreatedDescId Product.CreatedAt Product.Id)
       (filter (fun p => productMatches env r p) (products d))).

Definition orderMatches (r : GetOrdersRequest.t) (o : Order.t) : bool :=
  inIfAny (GetOrdersRequest.Ids r) (Order.Id o)
  && inIfAny (GetOrdersRequest.UserIds r) (Order.UserId o)
  && inIfAny (GetOrdersRequest.Statuses r) (Order.Status o).

Definition selectOrders (r : GetOrdersRequest.t) (d : DB) : list Order.t :=
  page (GetOrdersRequest.Limit r) (GetOrdersRequest.Offset r)
    (merge_sort (byCreatedDescId Order.CreatedAt Order.Id)
       (filter (fun o => orderMatches r o) (orders d))).

(** The items query of [loadOrderItems]. *)
Definition selectOrderItems (orderIds : list UUID) (d : DB)
  : list OrderItem.t :=
  merge_sort (byCreated OrderItem.CreatedAt)
    (filter (fun it => bool_decide (OrderItem.OrderId it ∈ orderIds))
            (order_items d)).

Definition insertUser (u : User.t) (d : DB) : DB :=
  {| users := users d ++ [u]; products := products d;
     orders := orders d; order_items := order_items d |}.

Definition insertProduct (p : Product.t) (d : DB) : DB :=
  {| users := users d; products := products d ++ [p];
     orders := orders d; order_items := order_items d |}.

Definition insertOrder (o : Order.t) (d : DB) : DB :=
  {| users := users d; products := products d;
     orders := orders d ++ [Order.withItems [] o];
     order_items := order_items d |}.

Definition insertOrderItem (it : OrderItem.t) (d : DB) : DB :=
  {| users := users d; products := products d;
     orders := orders d; order_items := order_items d ++ [it] |}.

(** The [SET] clauses [UpdateProduct] builds, applied to one row. *)
Definition setProduct (env : Env) (now : Time)
    (r : UpdateProductRequest.t) (p : Product.t) : Product.t :=
  {| Product.Id := Product.Id p;
     Product.Description :=
       match UpdateProductRequest.Description r with
       | Some d => TrimSpace env d
       | None => Product.Description p
       end;
     Product.Tags :=
       match UpdateProductRequest.Tags r with
       | [] => Product.Tags p
       | tags => tags
       end;
     Product.Quantity :=
       match UpdateProductRequest.Quantity r with
       | Some q => q
       | None => Product.Quantity p
       end;
     Product.CreatedAt := Product.CreatedAt p;
     Product.UpdatedAt := now |}.

(** [UPDATE products SET ... WHERE id = r.Id] *)
Definition updateProduct (env : Env) (now : Time)
    (r : UpdateProductRequest.t) (d : DB) : DB :=
  {| users := users d;
     products :=
       map (fun p => if N.eqb (Product.Id p) (UpdateProductRequest.Id r)
                     then setProduct env now r p else p) (products d);
     orders := orders d; order_items := order_items d |}.

(** [UPDATE orders SET status, updated_at WHERE id = r.Id] *)
Definition updateOrder (now : Time) (r : UpdateOrderRequest.t) (d : DB)
  : DB :=
  {| users := users d; products := products d;
     orders :=
       map (fun o => if N.eqb (Order.Id o) (UpdateOrderRequest.Id r)
                     then Order.withStatus (UpdateOrderRequest.Status r) now o
                     else o) (orders d);
     order_items := order_items d |}.

(** [RowsAffected()] of that update. *)
Definition rowsAffected (r : UpdateOrderRequest.t) (d : DB) : nat :=
  length (filter (fun o => N.eqb (Order.Id o) (UpdateOrderRequest.Id r))
                 (orders d)).

End SQL.

(* ================================================================== *)
(** ** The TTL cache *)

Module ttlcache.

Record Item (V : Type) : Type := {
  value : list V;
  expiresAt : Time
}.
Arguments value {V} _.
Arguments expiresAt {V} _.

Definition isExpired {V : Type} (now : Time) (it : Item V) : bool :=
  expiresAt it <? now.

Definition DeleteAll {V : Type} (c : gmap CacheKey (Item V))
  : gmap CacheKey (Item V) := ∅.

Definition DeleteExpired {V : Type} (now : Time)
    (c : gmap CacheKey (Item V)) : gmap CacheKey (Item V) :=
  filter (fun kv => isExpired now (snd kv) = false) c.

(** A hit on a live item returns its value and renews its expiry. *)
Definition Get {V : Type} (now : Time) (k : CacheKey)
    (c : gmap CacheKey (Item V))
  : option (list V) * gmap CacheKey (Item V) :=
  match c !! k with
  | Some it =>
      if isExpired now it then (None, c)
      else (Some (value it),
            <[k := {| value := value it; expiresAt := now + Hour |}]> c)
  | None => (None, c)
  end.

(** [Set(key, value, DefaultTTL)] of a cache built [WithTTL(time.Hour)]. *)
Definition Set_ {V : Type} (now : Time) (k : CacheKey) (v : list V)
    (c : gmap CacheKey (Item V)) : gmap CacheKey (Item V) :=
  <[k := {| value := v; expiresAt := now + Hour |}]> c.

End ttlcache.

(* ================================================================== *)
(** ** The world the storage components live in *)

(** What one round trip to the database will do: fail or not, and how long
    it takes. *)
Record IOOutcome : Type := {
  failed : bool;
  elapsed : N
}.

Record World : Type := {
  db : DB;
  userCache : gmap CacheKey (ttlcache.Item User.t);
  productCache : gmap CacheKey (ttlcache.Item Product.t);
  orderCache : gmap CacheKey (ttlcache.Item Order.t);
  io : list IOOutcome;
  rt : Runtime
}.

Definition withDb (d : DB) (w : World) : World :=
  {| db := d; userCache := userCache w; productCache := productCache w;
     orderCache := orderCache w; io := io w; rt := rt w |}.

Definition withUserCache (c : gmap CacheKey (ttlcache.Item User.t))
    (w : World) : World :=
  {| db := db w; userCache := c; productCache := productCache w;
     orderCache := orderCache w; io := io w; rt := rt w |}.

Definition withProductCache (c : gmap CacheKey (ttlcache.Item Product.t))
    (w : World) : World :=
  {| db := db w; userCache := userCache w; productCache := c;
     orderCache := orderCache w; io := io w; rt := rt w |}.

Definition withOrderCache (c : gmap CacheKey (ttlcache.Item Order.t))
    (w : World) : World :=
  {| db := db w; userCache := userCache w; productCache := productCache w;
     orderCache := c; io := io w; rt := rt w |}.

Definition withRt (r : Runtime) (w : World) : World :=
  {| db := db w; userCache := userCache w; productCache := productCache w;
     orderCache := orderCache w; io := io w; rt := r |}.

(** The error the driver returns when a round trip fails. *)
Definition driverError : error := Errorf ErrStorage "pgx" [].

(** One round trip on the pool: the next scripted outcome is consumed and
    the clock moves on by its duration; with the script used up, round trips
    succeed at once.  Returns whether the trip failed.  A query and the
    reading of its rows count as one round trip. *)
Definition roundTrip (w : World) : bool * World :=
  match io w with
  | [] => (false, w)
  | o :: rest =>
      (failed o,
       {| db := db w; userCache := userCache w;
          productCache := productCache w; orderCache := orderCache w;
          io := rest;
          rt := {| clock := clock (rt w) + Z.of_N (elapsed o);
                   seed := seed (rt w) |} |})
  end.

(** No round trip still to come fails. *)
Definition Reliable (w : World) : Prop :=
  Forall (fun o => failed o = false) (io w).

(** Computations over the world that may stop with an error. *)
Definition M (A : Type) : Type := World -> result A * World.

Definition ret {A : Type} (a : A) : M A := fun w => (Ok a, w).

Definition throw {A : Type} (e : error) : M A := fun w => (Err e, w).

Definition bind {A B : Type} (m : M A) (k : A -> M B) : M B :=
  fun w => match m w with
           | (Ok a, w') => k a w'
           | (Err e, w') => (Err e, w')
           end.

Notation "x <- c1 ;; c2" := (bind c1 (fun x => c2))
  (at level 100, c1 at next level, right associativity).

(** [pool.Exec] / [pool.Query] / [tx.Exec]: a round trip that ends the
    computation with the driver's error when it fails. *)
Definition roundTripM : M unit :=
  fun w => match roundTrip w with
           | (true, w') => (Err driverError, w')
           | (false, w') => (Ok tt, w')
           end.

Definition getWorld : M World := fun w => (Ok w, w).

Definition modify (f : World -> World) : M unit := fun w => (Ok tt, f w).

(** [range m]: the entries of the map in the order this loop meets them. *)
Definition rangeMap (env : Env) (m : gmap UUID Z) : M (list (UUID * Z)) :=
  fun w =>
    (Ok (mapRange env (seed (rt w)) (map_to_list m)),
     withRt {| clock := clock (rt w); seed := S (seed (rt w)) |} w).

(* ================================================================== *)
(** ** storage: the user row *)

Module userDto.

Record t : Type := {
  Id : UUID;
  FirstName : string;
  LastName : string;
  Age : Z;
  IsMarried : bool;
  PasswordHash : string;
  Salt : string;
  CreatedAt : Time
}.

(** An error is that of the decoder, returned as it is. *)
Definition toDomain (hex : Hex) (dto : t) : User.t + string :=
  let user := {| User.Id := Id dto; User.FirstName := FirstName dto;
                 User.LastName := LastName dto; User.Age := Age dto;
                 User.IsMarried := IsMarried dto;
                 User.PasswordHash := []; User.Salt := [];
                 User.CreatedAt := CreatedAt dto |} in
  match (if negb (String.eqb (PasswordHash dto) "") then
           match DecodeString hex (PasswordHash dto) with
           | inr err => inr err
           | inl passwordHash => inl (User.withPasswordHash passwordHash user)
           end
         else inl user) with
  | inr err => inr err
  | inl user =>
      if negb (String.eqb (Salt dto) "") then
        match DecodeString hex (Salt dto) with
        | inr err => inr err
        | inl salt => inl (User.withSalt salt user)
        end
      else inl user
  end.

(** The error [toUserDto] returns is always nil. *)
Definition toUserDto (hex : Hex) (user : User.t) : t + string :=
  inl {| Id := User.Id user; FirstName := User.FirstName user;
         LastName := User.LastName user; Age := User.Age user;
         IsMarried := User.IsMarried user;
         PasswordHash :=
           if (0 <? length (User.PasswordHash user))%nat
           then EncodeToString hex (User.PasswordHash user) else "";
         Salt :=
           if (0 <? length (User.Salt user))%nat
           then EncodeToString hex (User.Salt user) else "";
         CreatedAt := User.CreatedAt user |}.

End userDto.

(* ================================================================== *)
(** ** storage: users *)

(** The storage components hand out the same pointers they keep in their
    caches.  Every in-memory mutation the callers below make to a loaded
    aggregate ([ReserveQuantity], [RestoreQuantity], [Cancel]) is followed,
    before any further read, by a write call on the same component, whose first
    statement empties that cache; so cached values are kept by value. *)

Module userStorage.

Definition CreateUser (env : Env) (user : User.t)
  : World -> (User.t * option error) * World :=
  fun w =>
    let w := withUserCache (ttlcache.DeleteAll (userCache w)) w in
    let '(user', err, rt') := User.Validate env user (rt w) in
    let w := withRt rt' w in
    match err with
    | Some e => (user', Some e, w)
    | None =>
        match roundTrip w with
        | (true, w') => (user', Some driverError, w')
        | (false, w') =>
            (user', None, withDb (SQL.insertUser user' (db w')) w')
        end
    end.

Definition Users (env : Env) (req : GetUsersRequest.t) : M (list User.t) :=
  fun w =>
    let w := withUserCache
               (ttlcache.DeleteExpired (Now (rt w)) (userCache w)) w in
    let req := GetUsersRequest.Validate req in
    match ttlcache.Get (Now (rt w)) (GetUsersRequest.CacheKey env req)
                       (userCache w) with
    | (Some cached, c) => (Ok cached, withUserCache c w)
    | (None, c) =>
        match roundTrip (withUserCache c w) with
        | (true, w') => (Err driverError, w')
        | (false, w') =>
            let users := SQL.selectUsers req (db w') in
            (Ok users,
             withUserCache
               (ttlcache.Set_ (Now (rt w'))
                  (GetUsersRequest.CacheKey env req) users (userCache w'))
               w')
        end
    end.

(** The row count query on [users], filtered as [Users] filters; the cache is
    not consulted. *)
Definition CountUsers (env : Env) (req : GetUsersRequest.t) : M Z :=
  let req := GetUsersRequest.Validate req in
  _ <- roundTripM ;;
  w <- getWorld ;;
  ret (Z.of_nat
         (length (filter (fun u => inIfAny (GetUsersRequest.Ids req)
                                           (User.Id u))
                         (users (db w))))).

End userStorage.

(* ================================================================== *)
(** ** storage: products *)

Module productStorage.

Definition CreateProduct (env : Env) (product : Product.t)
  : World -> (Product.t * option error) * World :=
  fun w =>
    let w := withProductCache (ttlcache.DeleteAll (productCache w)) w in
    let '(product', err, rt') := Product.Validate env product (rt w) in
    let w := withRt rt' w in
    match err with
    | Some e => (product', Some e, w)
    | None =>
        match roundTrip w with
        | (true, w') => (product', Some driverError, w')
        | (false, w') =>
            (product', None,
             withDb (SQL.insertProduct product' (db w')) w')
        end
    end.

Definition Products (env : Env) (req : GetProductsRequest.t)
  : M (list Product.t) :=
  fun w =>
    let w := withProductCache
               (ttlcache.DeleteExpired (Now (rt w)) (productCache w)) w in
    let req := GetProductsRequest.Validate req in
    match ttlcache.Get (Now (rt w)) (GetProductsRequest.CacheKey env req)
                       (productCache w) with
    | (Some cached, c) => (Ok cached, withProductCache c w)
    | (None, c) =>
        match roundTrip (withProductCache c w) with
        | (true, w') => (Err driverError, w')
        | (false, w') =>
            let products := SQL.selectProducts env req (db w') in
            (Ok products,
             withProductCache
               (ttlcache.Set_ (Now (rt w'))
                  (GetProductsRequest.CacheKey env req) products
                  (productCache w'))
               w')
        end
    end.

(** The request [UpdateProduct] re-reads the row with. *)
Definition byId (id : UUID) : GetProductsRequest.t :=
  {| GetProductsRequest.Ids := [id]; GetProductsRequest.Tags := [];
     GetProductsRequest.Available := None;
     GetProductsRequest.Limit := 1; GetProductsRequest.Offset := 0 |}.

Definition UpdateProduct (env : Env) (req : UpdateProductRequest.t)
  : M Product.t :=
  _ <- modify (fun w =>
         withProductCache (ttlcache.DeleteAll (productCache w)) w) ;;
  match UpdateProductRequest.Validate env req with
  | Some e => throw e
  | None =>
      w <- getWorld ;;
      let now := Now (rt w) in
      _ <- roundTripM ;;
      _ <- modify (fun w => withDb (SQL.updateProduct env now req (db w)) w) ;;
      products <- Products env (byId (UpdateProductRequest.Id req)) ;;
      match products with
      | [] => throw (Sentinel ErrProductNotFound)
      | product :: _ => ret product
      end
  end.

(** The row count query on [products], filtered as [Products] filters; the
    cache is not consulted. *)
Definition CountProducts (env : Env) (req : GetProductsRequest.t) : M Z :=
  let req := GetProductsRequest.Validate req in
  _ <- roundTripM ;;
  w <- getWorld ;;
  ret (Z.of_nat
         (length (filter (fun p => SQL.productMatches env req p)
                         (products (db w))))).

End productStorage.

(* ================================================================== *)
(** ** storage: orders *)

Module orderStorage.

(** [tx.Exec]: one statement on the open transaction's view of the data. *)
Definition txExec (stmt : DB -> DB) (tx : DB) (w : World)
  : result DB * World :=
  match roundTrip w with
  | (true, w') => (Err driverError, w')
  | (false, w') => (Ok (stmt tx), w')
  end.

Fixpoint insertItems (items : list OrderItem.t) (tx : DB) (w : World)
  : result DB * World :=
  match items with
  | [] => (Ok tx, w)
  | item :: rest =>
      match txExec (SQL.insertOrderItem item) tx w with
      | (Ok tx', w') => insertItems rest tx' w'
      | (Err e, w') => (Err e, w')
      end
  end.

(** [tx.Commit]: the transaction's view becomes the data, or nothing
    changes. *)
Definition txCommit (tx : DB) (w : World) : option error * World :=
  match roundTrip w with
  | (true, w') => (Some driverError, w')
  | (false, w') => (None, withDb tx w')
  end.

(** The deferred [tx.Rollback] on a transaction still open: a round trip
    whose outcome is ignored; the transaction's view is dropped. *)
Definition txRollback (w : World) : World := snd (roundTrip w).

Definition CreateOrder (env : Env) (order : Order.t)
  : World -> (Order.t * option error) * World :=
  fun w =>
    let w := withOrderCache (ttlcache.DeleteAll (orderCache w)) w in
    let '(order', err, rt') := Order.Validate env order (rt w) in
    let w := withRt rt' w in
    match err with
    | Some e => (order', Some e, w)
    | None =>
        match roundTrip w with
        | (true, w1) => (order', Some driverError, w1)
        | (false, w1) =>
            match txExec (SQL.insertOrder order') (db w1) w1 with
            | (Err e, w2) => (order', Some e, txRollback w2)
            | (Ok tx, w2) =>
                match insertItems (Order.Items order') tx w2 with
                | (Err e, w3) => (order', Some e, txRollback w3)
                | (Ok tx', w3) =>
                    let '(err, w4) := txCommit tx' w3 in
                    (order', err, w4)
                end
            end
        end
    end.

(** [loadOrderItems]: the rows of the items query, grouped by order. *)
Definition assignItems (items : list OrderItem.t) (orders : list Order.t)
  : list Order.t :=
  map (fun o =>
         Order.withItems
           (filter (fun it => N.eqb (OrderItem.OrderId it) (Order.Id o))
                   items) o)
      orders.

Definition loadOrderItems (orders : list Order.t) : M (list Order.t) :=
  _ <- roundTripM ;;
  w <- getWorld ;;
  ret (assignItems (SQL.selectOrderItems (map Order.Id orders) (db w))
                   orders).

Definition Orders (env : Env) (req : GetOrdersRequest.t)
  : M (list Order.t) :=
  fun w =>
    let w := withOrderCache
               (ttlcache.DeleteExpired (Now (rt w)) (orderCache w)) w in
    let req := GetOrdersRequest.Validate req in
    match ttlcache.Get (Now (rt w)) (GetOrdersRequest.CacheKey env req)
                       (orderCache w) with
    | (Some cached, c) => (Ok cached, withOrderCache c w)
    | (None, c) =>
        match roundTrip (withOrderCache c w) with
        | (true, w') => (Err driverError, w')
        | (false, w') =>
            let rows := SQL.selectOrders req (db w') in
            match (match rows with
                   | [] => ret rows
                   | _ => loadOrderItems rows
                   end) w' with
            | (Err e, w'') => (Err e, w'')
            | (Ok orders, w'') =>
                (Ok orders,
                 withOrderCache
                   (ttlcache.Set_ (Now (rt w''))
                      (GetOrdersRequest.CacheKey env req) orders
                      (orderCache w''))
                   w'')
            end
        end
    end.

(** The request [UpdateOrder] and [CancelOrder] read one order with. *)
Definition byId (id : UUID) : GetOrdersRequest.t :=
  {| GetOrdersRequest.Ids := [id]; GetOrdersRequest.UserIds := [];
     GetOrdersRequest.Statuses := [];
     GetOrdersRequest.Limit := 1; GetOrdersRequest.Offset := 0 |}.

Definition UpdateOrder (env : Env) (req : UpdateOrderRequest.t)
  : M Order.t :=
  _ <- modify (fun w =>
         withOrderCache (ttlcache.DeleteAll (orderCache w)) w) ;;
  match UpdateOrderRequest.Validate req with
  | Some e => throw e
  | None =>
      w <- getWorld ;;
      let now := Now (rt w) in
      _ <- roundTripM ;;
      w <- getWorld ;;
      _ <- modify (fun w => withDb (SQL.updateOrder now req (db w)) w) ;;
      if Nat.eqb (SQL.rowsAffected req (db w)) 0 then
        throw (Sentinel ErrOrderNotFound)
      else
        orders <- Orders env (byId (UpdateOrderRequest.Id req)) ;;
        match orders with
        | [] => throw (Sentinel ErrOrderNotFound)
        | order :: _ => ret order
        end
  end.

End orderStorage.

(* ================================================================== *)
(** ** application: the order orchestrator *)

Module orderAppService.

(** [m[k] += q] on a [map[uuid.UUID]int]: a missing key reads as 0. *)
Definition addQuantity (m : gmap UUID Z) (k : UUID) (q : Z) : gmap UUID Z :=
  <[k := int_add (default 0 (m !! k)) q]> m.

(** The first loop of [CreateOrder]: the ids in request order and the
    quantity asked of each distinct product. *)
Definition productIds (items : list CreateOrderItemRequest.t) : list UUID :=
  map CreateOrderItemRequest.ProductId items.

Definition requestedQuantities (items : list CreateOrderItemRequest.t)
  : gmap UUID Z :=
  fold_left (fun m item =>
               addQuantity m (CreateOrderItemRequest.ProductId item)
                             (CreateOrderItemRequest.Quantity item))
            items ∅.

(** The batch request: ids only, no limit given. *)
Definition batch (ids : list UUID) : GetProductsRequest.t :=
  {| GetProductsRequest.Ids := ids; GetProductsRequest.Tags := [];
     GetProductsRequest.Available := None;
     GetProductsRequest.Limit := 0; GetProductsRequest.Offset := 0 |}.

Definition userById (id : UUID) : GetUsersRequest.t :=
  {| GetUsersRequest.Ids := [id];
     GetUsersRequest.Limit := 1; GetUsersRequest.Offset := 0 |}.

Definition productMap (products : list Product.t) : gmap UUID Product.t :=
  fold_left (fun m product => <[Product.Id product := product]> m)
            products ∅.

(** The loop that checks existence and stock, over the entries of
    [requestedQuantities] in the order [range] yields them. *)
Fixpoint checkStock (pm : gmap UUID Product.t) (entries : list (UUID * Z))
  : option error :=
  match entries with
  | [] => None
  | (productId, requestedQty) :: rest =>
      match pm !! productId with
      | None =>
          Some (Errorf ErrProductNotFound "%w: product %s not found"
                  [ArgUUID productId])
      | Some product =>
          if Product.Quantity product <? requestedQty then
            Some (Errorf ErrInsufficientStock
                    "%w: product %s has only %d items but %d requested"
                    [ArgUUID productId; ArgInt (Product.Quantity product);
                     ArgInt requestedQty])
          else checkStock pm rest
      end
  end.

(** The loop that reserves and persists; it returns the product map with
    the reserved products as they are in memory afterwards. *)
Fixpoint reserveAll (env : Env) (pm : gmap UUID Product.t)
    (entries : list (UUID * Z)) : M (gmap UUID Product.t) :=
  match entries with
  | [] => ret pm
  | (productId, requestedQty) :: rest =>
      match pm !! productId with
      | None => throw (Errorf Panic "nil pointer dereference" [])
      | Some product =>
          w <- getWorld ;;
          let '(product', err) :=
            Product.ReserveQuantity (Now (rt w)) requestedQty product in
          match err with
          | Some e => throw e
          | None =>
              _ <- productStorage.UpdateProduct env
                     {| UpdateProductRequest.Id := Product.Id product';
                        UpdateProductRequest.Description := None;
                        UpdateProductRequest.Tags := [];
                        UpdateProductRequest.Quantity :=
                          Some (Product.Quantity product') |} ;;
              reserveAll env (<[productId := product']> pm) rest
          end
      end
  end.

(** One order item per requested line, with the product's description and
    tags as they are in the product map. *)
Fixpoint buildItems (pm : gmap UUID Product.t)
    (items : list CreateOrderItemRequest.t) : option (list OrderItem.t) :=
  match items with
  | [] => Some []
  | itemReq :: rest =>
      match pm !! CreateOrderItemRequest.ProductId itemReq with
      | None => None
      | Some product =>
          match buildItems pm rest with
          | None => None
          | Some built =>
              Some ({| OrderItem.Id := Nil; OrderItem.OrderId := Nil;
                       OrderItem.ProductId :=
                         CreateOrderItemRequest.ProductId itemReq;
                       OrderItem.Quantity :=
                         CreateOrderItemRequest.Quantity itemReq;
                       OrderItem.Snapshot :=
                         {| ProductSnapshot.Description :=
                              Product.Description product;
                            ProductSnapshot.Tags := Product.Tags product |};
                       OrderItem.CreatedAt := 0 |} :: built)
          end
      end
  end.

(** [CreateOrder] from the reserve loop on, given the product map the stock
    check passed on. *)
Definition afterCheck (env : Env) (req : CreateOrderRequest.t)
  (pm : gmap UUID Product.t) : M Order.t :=
  entries <- rangeMap env
               (requestedQuantities (CreateOrderRequest.Items req)) ;;
  pm <- reserveAll env pm entries ;;
  match buildItems pm (CreateOrderRequest.Items req) with
  | None => throw (Errorf Panic "nil pointer dereference" [])
  | Some items =>
      fun w =>
        match orderStorage.CreateOrder env
                {| Order.Id := Nil;
                   Order.UserId := CreateOrderRequest.UserId req;
                   Order.Status := OrderStatusPending;
                   Order.Items := items;
                   Order.CreatedAt := 0;
                   Order.UpdatedAt := 0 |} w with
        | (_, Some e, w') => (Err e, w')
        | (order, None, w') => (Ok order, w')
        end
  end.

Definition CreateOrder (env : Env) (req : CreateOrderRequest.t)
  : M Order.t :=
  match CreateOrderRequest.Validate req with
  | Some e => throw e
  | None =>
      users <- userStorage.Users env
                 (userById (CreateOrderRequest.UserId req)) ;;
      match users with
      | [] => throw (Sentinel ErrUserNotFound)
      | _ =>
          let requested :=
            requestedQuantities (CreateOrderRequest.Items req) in
          products <- productStorage.Products env
                        (batch (productIds (CreateOrderRequest.Items req))) ;;
          let pm := productMap products in
          entries <- rangeMap env requested ;;
          match checkStock pm entries with
          | Some e => throw e
          | None => afterCheck env req pm
          end
      end
  end.

(** The quantity to give back to each distinct product of an order. *)
Definition productQuantityToRestore (items : list OrderItem.t)
  : gmap UUID Z :=
  fold_left (fun m item =>
               addQuantity m (OrderItem.ProductId item)
                             (OrderItem.Quantity item))
            items ∅.

Fixpoint restoreAll (env : Env) (entries : list (UUID * Z)) : M unit :=
  match entries with
  | [] => ret tt
  | (productId, quantityToRestore) :: rest =>
      products <- productStorage.Products env
                    (productStorage.byId productId) ;;
      match products with
      | [] => restoreAll env rest
      | product :: _ =>
          w <- getWorld ;;
          let '(product', err) :=
            Product.RestoreQuantity (Now (rt w)) quantityToRestore product in
          match err with
          | Some e => throw e
          | None =>
              _ <- productStorage.UpdateProduct env
                     {| UpdateProductRequest.Id := Product.Id product';
                        UpdateProductRequest.Description := None;
                        UpdateProductRequest.Tags := [];
                        UpdateProductRequest.Quantity :=
                          Some (Product.Quantity product') |} ;;
              restoreAll env rest
          end
      end
  end.

Definition CancelOrder (env : Env) (orderId : UUID) : M Order.t :=
  orders <- orderStorage.Orders env (orderStorage.byId orderId) ;;
  match orders with
  | [] => throw (Sentinel ErrOrderNotFound)
  | order :: _ =>
      if negb (Order.CanBeCancelled order) then
        throw (Errorf ErrOrderValidation
                 "%w: order in status %s cannot be cancelled"
                 [ArgStr (Order.Status order)])
      else
        entries <- rangeMap env
                     (productQuantityToRestore (Order.Items order)) ;;
        _ <- restoreAll env entries ;;
        w <- getWorld ;;
        let '(order', err) := Order.Cancel (Now (rt w)) order in
        match err with
        | Some e => throw e
        | None =>
            orderStorage.UpdateOrder env
              {| UpdateOrderRequest.Id := Order.Id order';
                 UpdateOrderRequest.Status := Order.Status order' |}
        end
  end.

(** [UpdateOrder] and [Orders] log and hand the request to the order
    storage; the log lines are left out. *)
Definition UpdateOrder (env : Env) (req : UpdateOrderRequest.t) : M Order.t :=
  orderStorage.UpdateOrder env req.

Definition Orders (env : Env) (req : GetOrdersRequest.t)
  : M (list Order.t) :=
  orderStorage.Orders env req.

End orderAppService.

(* ================================================================== *)
(** ** application: products and users *)

(** The log lines of the application services are left out. *)

Module productAppService.

Definition CreateProduct (env : Env) (req : CreateProductRequest.t)
  : M Product.t :=
  fun w =>
    match CreateProductRequest.ToDomain env req with
    | Err err => (Err err, w)
    | Ok product =>
        match productStorage.CreateProduct env product w with
        | (_, Some err, w') => (Err err, w')
        | (product', None, w') => (Ok product', w')
        end
    end.

Definition UpdateProduct (env : Env) (req : UpdateProductRequest.t)
  : M Product.t :=
  productStorage.UpdateProduct env req.

Definition Products (env : Env) (req : GetProductsRequest.t)
  : M (list Product.t) :=
  productStorage.Products env req.

Definition CountProducts (env : Env) (req : GetProductsRequest.t) : M Z :=
  productStorage.CountProducts env req.

End productAppService.

Module userAppService.

Definition RegisterUser (env : Env) (crypto : Crypto)
    (req : CreateUserRequest.t) : M User.t :=
  fun w =>
    match CreateUserRequest.ToDomain env crypto req (rt w) with
    | (Err err, rt') => (Err err, withRt rt' w)
    | (Ok user, rt') =>
        match userStorage.CreateUser env user (withRt rt' w) with
        | (_, Some err, w') => (Err err, w')
        | (user', None, w') => (Ok user', w')
        end
    end.

Definition Users (env : Env) (req : GetUsersRequest.t) : M (list User.t) :=
  userStorage.Users env req.

Definition CountUsers (env : Env) (req : GetUsersRequest.t) : M Z :=
  userStorage.CountUsers env req.

End userAppService.

(* ================================================================== *)
(** ** Sequences of stock operations *)

Inductive StockOp : Type :=
  | Reserve (quantity : Z)
  | Restore (quantity : Z).

(** One call on the ledger at instant [now]: the new state after a
    successful call, the old state after a failed one. *)
Definition stockStep (p : Product.t) (call : Time * StockOp) : Product.t :=
  let '(p', err) :=
    match snd call with
    | Reserve q => Product.ReserveQuantity (fst call) q p
    | Restore q => Product.RestoreQuantity (fst call) q p
    end in
  match err with
  | None => p'
  | Some _ => p
  end.

Definition stockRun (calls : list (Time * StockOp)) (p : Product.t)
  : Product.t :=
  fold_left stockStep calls p.

(** No restore of the sequence takes the quantity past the largest [int]. *)
Fixpoint withinInt (p : Product.t) (calls : list (Time * StockOp)) : Prop :=
  match calls with
  | [] => True
  | call :: rest =>
      match snd call with
      | Restore q => 0 < q -> Product.Quantity p + q <= MaxInt
      | Reserve _ => True
      end
      /\ withinInt (stockStep p call) rest
  end.

(* ================================================================== *)
(** ** What the store answers, and caches that agree with it *)

(** The answer of the store to a list request for orders, items loaded. *)
Definition ordersAnswer (req : GetOrdersRequest.t) (d : DB) : list Order.t :=
  match SQL.selectOrders req d with
  | [] => []
  | rows =>
      orderStorage.assignItems
        (SQL.selectOrderItems (map Order.Id rows) d) rows
  end.

(** If the cache holds an item under the key of [req], it is the answer
    the store gives to [req] now. *)
Definition usersFresh (env : Env) (req : GetUsersRequest.t) (w : World)
  : Prop :=
  forall it,
    userCache w !! GetUsersRequest.CacheKey env (GetUsersRequest.Validate req)
    = Some it ->
    ttlcache.value it = SQL.selectUsers (GetUsersRequest.Validate req) (db w).

Definition productsFresh (env : Env) (req : GetProductsRequest.t) (w : World)
  : Prop :=
  forall it,
    productCache w
    !! GetProductsRequest.CacheKey env (GetProductsRequest.Validate req)
    = Some it ->
    ttlcache.value it
    = SQL.selectProducts env (GetProductsRequest.Validate req) (db w).

Definition ordersFresh (env : Env) (req : GetOrdersRequest.t) (w : World)
  : Prop :=
  forall it,
    orderCache w
    !! GetOrdersRequest.CacheKey env (GetOrdersRequest.Validate req)
    = Some it ->
    ttlcache.value it = ordersAnswer (GetOrdersRequest.Validate req) (db w).

(** The product map [CreateOrder] builds from the store's answer to its
    batch request. *)
Definition loadedProducts (env : Env) (req : CreateOrderRequest.t) (d : DB)
  : gmap UUID Product.t :=
  orderAppService.productMap
    (SQL.selectProducts env
       (GetProductsRequest.Validate
          (orderAppService.batch
             (orderAppService.productIds (CreateOrderRequest.Items req))))
       d).

(** The quantities of the request lines (or order items) that name
    product [k], and their exact sum. *)
Definition linesOf (k : UUID) (items : list CreateOrderItemRequest.t)
  : list Z :=
  map CreateOrderItemRequest.Quantity
      (filter (fun item => CreateOrderItemRequest.ProductId item = k) items).

Definition itemsOf (k : UUID) (items : list OrderItem.t) : list Z :=
  map OrderItem.Quantity
      (filter (fun item => OrderItem.ProductId item = k) items).

Definition sumZ (l : list Z) : Z := fold_right Z.add 0 l.

(** The world [CreateOrder] leaves when it has done its two list reads and
    drawn the order of the check loop, and nothing else. *)
Definition afterReads (env : Env) (req : CreateOrderRequest.t) (w : World)
  : World :=
  snd (rangeMap env
         (orderAppService.requestedQuantities (CreateOrderRequest.Items req))
         (snd (productStorage.Products env
                 (orderAppService.batch
                    (orderAppService.productIds
                       (CreateOrderRequest.Items req)))
                 (snd (userStorage.Users env
                         (orderAppService.userById
                            (CreateOrderRequest.UserId req)) w))))).

(* ================================================================== *)
(** ** Worlds with one cache emptied *)

Definition clearUsers (w : World) : World := withUserCache ∅ w.
Definition clearProducts (w : World) : World := withProductCache ∅ w.
Definition clearOrders (w : World) : World := withOrderCache ∅ w.

(* ================================================================== *)
(** ** Cancelling: what is given back *)

(** Row [p'] is row [p] with [amount] of its id added to the quantity (the
    update timestamp aside). *)
Definition restoredBy (amount : UUID -> Z) (p p' : Product.t) : Prop :=
  Product.Id p' = Product.Id p
  /\ Product.Description p' = Product.Description p
  /\ Product.Tags p' = Product.Tags p
  /\ Product.CreatedAt p' = Product.CreatedAt p
  /\ Product.Quantity p' = Product.Quantity p + amount (Product.Id p).

(** The quantity a list of map entries holds for key [k]. *)
Definition amountOf (entries : list (UUID * Z)) (k : UUID) : Z :=
  sumZ (map snd (filter (fun entry => fst entry = k) entries)).

(** The key under which the product cache holds a lookup by id. *)
Definition productKey (env : Env) (id : UUID) : CacheKey :=
  GetProductsRequest.CacheKey env
    (GetProductsRequest.Validate (productStorage.byId id)).

(** What the data and the caches of a sane system satisfy when [order] is
    about to be cancelled: ids are set and product ids are unique (primary
    keys), item quantities are positive, stock is non-negative and giving
    back the order's quantities stays within [int]; what the product cache
    holds for the order's products agrees with the store, and the lookups of
    two of them do not share a key. *)
Record CancelReady (env : Env) (w : World) (order : Order.t) : Prop := {
  ready_order_id : Order.Id order <> Nil;
  ready_unique : NoDup (map Product.Id (products (db w)));
  ready_items : forall item, item ∈ Order.Items order ->
      OrderItem.ProductId item <> Nil /\ 0 < OrderItem.Quantity item;
  ready_stock : forall p item,
      p ∈ products (db w) -> item ∈ Order.Items order ->
      OrderItem.ProductId item = Product.Id p ->
      0 <= Product.Quantity p
      /\ Product.Quantity p + sumZ (itemsOf (Product.Id p) (Order.Items order))
         <= MaxInt;
  ready_fresh : forall item, item ∈ Order.Items order ->
      productsFresh env (productStorage.byId (OrderItem.ProductId item)) w;
  ready_keys : forall a b,
      a ∈ Order.Items order -> b ∈ Order.Items order ->
      productKey env (OrderItem.ProductId a)
      = productKey env (OrderItem.ProductId b) ->
      OrderItem.ProductId a = OrderItem.ProductId b
}.

(* ================================================================== *)
(** ** Time passing between calls *)

(** The world after [d] nanoseconds in which no call is made. *)
Definition elapse (d : Z) (w : World) : World :=
  withRt {| clock := clock (rt w) + d; seed := seed (rt w) |} w.

(* ================================================================== *)
(** ** Sequences of order transitions *)

Inductive OrderOp : Type :=
  | OpConfirm
  | OpComplete
  | OpCancel.

(** One transition call on the aggregate at instant [now]; a failing call
    returns before it has written anything. *)
Definition orderStep (o : Order.t) (call : Time * OrderOp) : Order.t :=
  fst match snd call with
      | OpConfirm => Order.Confirm (fst call) o
      | OpComplete => Order.Complete (fst call) o
      | OpCancel => Order.Cancel (fst call) o
      end.

Definition orderRun (calls : list (Time * OrderOp)) (o : Order.t) : Order.t :=
  fold_left orderStep calls o.

(* ================================================================== *)
(** ** transport: pagination *)

Module Pagination.

Record t : Type := {
  Page : Z;
  Size : Z;
  Total : Z;
  TotalPages : Z
}.

Definition Limit (p : t) : Z :=
  if Size p <=? 0 then 10
  else if 100 <? Size p then 100
  else Size p.

Definition Offset (p : t) : Z :=
  if Page p <=? 0 then 0
  else int_mul (int_sub (Page p) 1) (Limit p).

Definition NewPaginationFromRequest (http : Http) (c : Ctx) : t :=
  let page := 1 in
  let size := 10 in
  let page :=
    if String.eqb (Query c "page") "" then page
    else match Atoi http (Query c "page") with
         | Some p => if 0 <? p then p else page
         | None => page
         end in
  let size :=
    if String.eqb (Query c "size") "" then size
    else match Atoi http (Query c "size") with
         | Some s => if (0 <? s) && (s <=? 100) then s else size
         | None => size
         end in
  {| Page := page; Size := size; Total := 0; TotalPages := 0 |}.

Definition withTotal (total : Z) (p : t) : t :=
  {| Page := Page p; Size := Size p; Total := total;
     TotalPages := TotalPages p |}.

Definition CalculateTotalPages (p : t) : t :=
  if Size p <=? 0 then
    {| Page := Page p; Size := Size p; Total := Total p; TotalPages := 0 |}
  else
    {| Page := Page p; Size := Size p; Total := Total p;
       TotalPages :=
         int_div (int_sub (int_add (Total p) (Size p)) 1) (Size p) |}.

End Pagination.

(** The page the handlers would ask for as page number [k] with [size] items
    a page. *)
Definition pageNo (size k : Z) : Pagination.t :=
  {| Pagination.Page := k; Pagination.Size := size;
     Pagination.Total := 0; Pagination.TotalPages := 0 |}.

(* ================================================================== *)
(** ** transport: the order models and the cancel handler *)

Module restModel.

Module ProductSnapshot.

Record t : Type := {
  Description : string;
  Tags : list string
}.

End ProductSnapshot.

Module OrderItem.

Record t : Type := {
  Id : UUID;
  ProductId : UUID;
  Quantity : Z;
  Snapshot : ProductSnapshot.t;
  CreatedAt : Time
}.

End OrderItem.

Module Order.

Record t : Type := {
  Id : UUID;
  UserId : UUID;
  Status : string;
  Items : list OrderItem.t;
  TotalQuantity : Z;
  CreatedAt : Time;
  UpdatedAt : Time
}.

End Order.

Module OrdersResponse.

Record t : Type := {
  Orders : list Order.t;
  Pagination : Pagination.t
}.

End OrdersResponse.

Module Product.

Record t : Type := {
  Id : UUID;
  Description : string;
  Tags : list string;
  Quantity : Z;
  Available : bool;
  CreatedAt : Time;
  UpdatedAt : Time
}.

End Product.

Module ProductsResponse.

Record t : Type := {
  Products : list Product.t;
  Pagination : Pagination.t
}.

End ProductsResponse.

Module User.

Record t : Type := {
  Id : UUID;
  FirstName : string;
  LastName : string;
  FullName : string;
  Age : Z;
  IsMarried : bool;
  CreatedAt : Time
}.

End User.

Module UsersResponse.

Record t : Type := {
  Users : list User.t;
  Pagination : Pagination.t
}.

End UsersResponse.

End restModel.

(** The text of an error response: a literal, or [err.Error()] of an error,
    kept as the error. *)
Inductive Message : Type :=
  | MsgText (s : string)
  | MsgError (e : error).

(** What a handler answers: [c.Status(status).JSON(body)], or the
    [fiber.NewError(status, message)] it returns. *)
Inductive Response (A : Type) : Type :=
  | Json (status : Z) (body : A)
  | NewError (status : Z) (message : Message).
Arguments Json {A} status body.
Arguments NewError {A} status message.

Definition StatusOK : Z := 200.
Definition StatusCreated : Z := 201.
Definition StatusBadRequest : Z := 400.
Definition StatusNotFound : Z := 404.
Definition StatusInternalServerError : Z := 500.

(** [errors.Is(err, sentinel)] *)
Definition errors_Is (e : error) (sentinel : ErrKind) : bool :=
  bool_decide (kind e = sentinel).

Module rest.

Definition NewOrderItem (domainItem : OrderItem.t) : restModel.OrderItem.t :=
  {| restModel.OrderItem.Id := OrderItem.Id domainItem;
     restModel.OrderItem.ProductId := OrderItem.ProductId domainItem;
     restModel.OrderItem.Quantity := OrderItem.Quantity domainItem;
     restModel.OrderItem.Snapshot :=
       {| restModel.ProductSnapshot.Description :=
            ProductSnapshot.Description (OrderItem.Snapshot domainItem);
          restModel.ProductSnapshot.Tags :=
            ProductSnapshot.Tags (OrderItem.Snapshot domainItem) |};
     restModel.OrderItem.CreatedAt := OrderItem.CreatedAt domainItem |}.

Definition NewOrder (domainOrder : Order.t) : restModel.Order.t :=
  {| restModel.Order.Id := Order.Id domainOrder;
     restModel.Order.UserId := Order.UserId domainOrder;
     restModel.Order.Status := Order.Status domainOrder;
     restModel.Order.Items := map NewOrderItem (Order.Items domainOrder);
     restModel.Order.TotalQuantity := Order.TotalQuantity domainOrder;
     restModel.Order.CreatedAt := Order.CreatedAt domainOrder;
     restModel.Order.UpdatedAt := Order.UpdatedAt domainOrder |}.

Definition NewProduct (domainProduct : Product.t) : restModel.Product.t :=
  {| restModel.Product.Id := Product.Id domainProduct;
     restModel.Product.Description := Product.Description domainProduct;
     restModel.Product.Tags := Product.Tags domainProduct;
     restModel.Product.Quantity := Product.Quantity domainProduct;
     restModel.Product.Available := Product.IsAvailable domainProduct;
     restModel.Product.CreatedAt := Product.CreatedAt domainProduct;
     restModel.Product.UpdatedAt := Product.UpdatedAt domainProduct |}.

Definition NewProductsResponse (domainProducts : list Product.t)
    (pagination : Pagination.t) : restModel.ProductsResponse.t :=
  {| restModel.ProductsResponse.Products := map NewProduct domainProducts;
     restModel.ProductsResponse.Pagination := pagination |}.

Definition NewUser (env : Env) (domainUser : User.t) : restModel.User.t :=
  {| restModel.User.Id := User.Id domainUser;
     restModel.User.FirstName := User.FirstName domainUser;
     restModel.User.LastName := User.LastName domainUser;
     restModel.User.FullName := User.FullName env domainUser;
     restModel.User.Age := User.Age domainUser;
     restModel.User.IsMarried := User.IsMarried domainUser;
     restModel.User.CreatedAt := User.CreatedAt domainUser |}.

Definition NewUsersResponse (env : Env) (domainUsers : list User.t)
    (pagination : Pagination.t) : restModel.UsersResponse.t :=
  {| restModel.UsersResponse.Users := map (NewUser env) domainUsers;
     restModel.UsersResponse.Pagination := pagination |}.

(** [&domain.GetProductsRequest{}] and [&domain.GetUsersRequest{}] *)
Definition noProductFilter : GetProductsRequest.t :=
  {| GetProductsRequest.Ids := []; GetProductsRequest.Tags := [];
     GetProductsRequest.Available := None;
     GetProductsRequest.Limit := 0; GetProductsRequest.Offset := 0 |}.

Definition noUserFilter : GetUsersRequest.t :=
  {| GetUsersRequest.Ids := []; GetUsersRequest.Limit := 0;
     GetUsersRequest.Offset := 0 |}.

(** [productHandler.getProducts] *)
Definition getProducts (http : Http) (env : Env) (c : Ctx)
  : World -> Response restModel.ProductsResponse.t * World :=
  fun w =>
    let pagination := Pagination.NewPaginationFromRequest http c in
    match productAppService.Products env noProductFilter w with
    | (Err err, w') =>
        (NewError StatusInternalServerError (MsgError err), w')
    | (Ok products, w') =>
        match productAppService.CountProducts env noProductFilter w' with
        | (Err err, w'') =>
            (NewError StatusInternalServerError (MsgError err), w'')
        | (Ok count, w'') =>
            let pagination :=
              Pagination.CalculateTotalPages
                (Pagination.withTotal count pagination) in
            (Json StatusOK (NewProductsResponse products pagination), w'')
        end
    end.

(** [userHandler.getUsers] *)
Definition getUsers (http : Http) (env : Env) (c : Ctx)
  : World -> Response restModel.UsersResponse.t * World :=
  fun w =>
    let pagination := Pagination.NewPaginationFromRequest http c in
    match userAppService.Users env
            {| GetUsersRequest.Ids := [];
               GetUsersRequest.Limit := Pagination.Limit pagination;
               GetUsersRequest.Offset := Pagination.Offset pagination |}
            w with
    | (Err err, w') =>
        (NewError StatusInternalServerError (MsgError err), w')
    | (Ok users, w') =>
        match userAppService.CountUsers env noUserFilter w' with
        | (Err err, w'') =>
            (NewError StatusInternalServerError (MsgError err), w'')
        | (Ok count, w'') =>
            let pagination :=
              Pagination.CalculateTotalPages
                (Pagination.withTotal count pagination) in
            (Json StatusOK (NewUsersResponse env users pagination), w'')
        end
    end.

Definition NewOrdersResponse (domainOrders : list Order.t)
    (pagination : Pagination.t) : restModel.OrdersResponse.t :=
  {| restModel.OrdersResponse.Orders := map NewOrder domainOrders;
     restModel.OrdersResponse.Pagination := pagination |}.

(** The request [getOrders] builds: no filter but the optional user. *)
Definition ordersOf (userIds : list UUID) : GetOrdersRequest.t :=
  {| GetOrdersRequest.Ids := []; GetOrdersRequest.UserIds := userIds;
     GetOrdersRequest.Statuses := [];
     GetOrdersRequest.Limit := 0; GetOrdersRequest.Offset := 0 |}.

(** [orderHandler.getOrders] *)
Definition getOrders (http : Http) (env : Env) (c : Ctx)
  : World -> Response restModel.OrdersResponse.t * World :=
  fun w =>
    let pagination := Pagination.NewPaginationFromRequest http c in
    let userIdStr := Query c "user_id" in
    match (if String.eqb userIdStr "" then Some []
           else match uuidParse http userIdStr with
                | None => None
                | Some userId => Some [userId]
                end) with
    | None => (NewError StatusBadRequest (MsgText "invalid user_id format"), w)
    | Some userIds =>
        match orderAppService.Orders env (ordersOf userIds) w with
        | (Err err, w') =>
            (NewError StatusInternalServerError (MsgError err), w')
        | (Ok orders, w') =>
            let pagination :=
              Pagination.CalculateTotalPages
                (Pagination.withTotal (Z.of_nat (length orders))
                   pagination) in
            (Json StatusOK (NewOrdersResponse orders pagination), w')
        end
    end.

(** [orderHandler.cancelOrder] *)
Definition cancelOrder (http : Http) (env : Env) (c : Ctx)
  : World -> Response restModel.Order.t * World :=
  fun w =>
    match uuidParse http (Params c "order_id") with
    | None => (NewError StatusBadRequest (MsgText "invalid order ID format"), w)
    | Some orderId =>
        let updateReq :=
          {| UpdateOrderRequest.Id := orderId;
             UpdateOrderRequest.Status := OrderStatusCancelled |} in
        match orderAppService.UpdateOrder env updateReq w with
        | (Err err, w') =>
            let statusCode :=
              if errors_Is err ErrOrderNotFound then StatusNotFound
              else if errors_Is err ErrOrderValidation then StatusBadRequest
              else StatusInternalServerError in
            (NewError statusCode (MsgError err), w')
        | (Ok order, w') => (Json StatusOK (NewOrder order), w')
        end
    end.

End rest.

(* ================================================================== *)
(** ** A reference environment and sample data *)

(** A digest without collisions (the bytes read as digits in base 257),
    standing in for SHA-256 where a concrete one is needed. *)
Definition plainDigest (buf : list byte) : CacheKey :=
  fold_left (fun acc b => (acc * 257 + (Byte.to_N b + 1))%N) buf 0%N.

Definition isSpace (c : Ascii.ascii) : bool :=
  let n := Ascii.nat_of_ascii c in
  (Nat.eqb n 32 || (Nat.leb 9 n && Nat.leb n 13))%bool.

Fixpoint trimLeft (s : string) : string :=
  match s with
  | String c rest => if isSpace c then trimLeft rest else s
  | EmptyString => EmptyString
  end.

Definition reverseString (s : string) : string :=
  string_of_list_ascii (rev (list_ascii_of_string s)).

(** [strings.TrimSpace] on ASCII text. *)
Definition asciiTrimSpace (s : string) : string :=
  reverseString (trimLeft (reverseString (trimLeft s))).

Fixpoint hasSubstring (pat s : string) : bool :=
  (String.prefix pat s
   || match s with
      | String _ rest => hasSubstring pat rest
      | EmptyString => false
      end)%bool.

(** The reference environment: fresh identifiers count up from 1000 and
    [range] meets the entries of a map in the order [order] puts them. *)
Definition refEnv (order : list (UUID * Z) -> list (UUID * Z)) : Env :=
  {| Sum256 := plainDigest;
     TrimSpace := asciiTrimSpace;
     tagsLike := fun tag tags => existsb (hasSubstring tag) tags;
     uuidNew := fun n => (1000 + N.of_nat n)%N;
     mapRange := fun _ => order |}.

Definition emptyDB : DB :=
  {| users := []; products := []; orders := []; order_items := [] |}.

Definition freshWorld (d : DB) : World :=
  {| db := d; userCache := ∅; productCache := ∅; orderCache := ∅;
     io := []; rt := {| clock := 1; seed := 0 |} |}.

Definition sampleProduct (id : UUID) (quantity : Z) : Product.t :=
  {| Product.Id := id; Product.Description := "widget";
     Product.Tags := []; Product.Quantity := quantity;
     Product.CreatedAt := 1; Product.UpdatedAt := 1 |}.

Definition sampleUser (id : UUID) : User.t :=
  {| User.Id := id; User.FirstName := "Ann"; User.LastName := "Lee";
     User.Age := 30; User.IsMarried := false;
     User.PasswordHash := [x01]; User.Salt := [x02];
     User.CreatedAt := 1 |}.

Definition sampleOrder (id userId : UUID) (status : string) : Order.t :=
  {| Order.Id := id; Order.UserId := userId; Order.Status := status;
     Order.Items := []; Order.CreatedAt := 1; Order.UpdatedAt := 1 |}.

Definition sampleItem (id orderId productId : UUID) (quantity : Z)
  : OrderItem.t :=
  {| OrderItem.Id := id; OrderItem.OrderId := orderId;
     OrderItem.ProductId := productId; OrderItem.Quantity := quantity;
     OrderItem.Snapshot :=
       {| ProductSnapshot.Description := "widget";
          ProductSnapshot.Tags := [] |};
     OrderItem.CreatedAt := 1 |}.

Definition line (productId : UUID) (quantity : Z)
  : CreateOrderItemRequest.t :=
  {| CreateOrderItemRequest.ProductId := productId;
     CreateOrderItemRequest.Quantity := quantity |}.

Definition sampleDB : DB :=
  {| users := [sampleUser 7];
     products := [sampleProduct 2 10];
     orders := []; order_items := [] |}.

(** An update request that fails validation: no product id. *)
Definition updateWithoutId : UpdateProductRequest.t :=
  {| UpdateProductRequest.Id := Nil;
     UpdateProductRequest.Description := None;
     UpdateProductRequest.Tags := [];
     UpdateProductRequest.Quantity := Some 3 |}.

(** The specification's example: product 2 has 4 in stock, user 7 asks for
    3 and then 2 of it. *)
Definition shortDB : DB :=
  {| users := [sampleUser 7];
     products := [sampleProduct 2 4];
     orders := []; order_items := [] |}.

Definition twoLines : CreateOrderRequest.t :=
  {| CreateOrderRequest.UserId := 7%N;
     CreateOrderRequest.Items := [line 2 3; line 2 2] |}.

(** Product 2 has 4 in stock and product 3 has 10; user 7 asks for the
    largest [int] of product 2, one more of it, and one of product 3. *)
Definition pairDB : DB :=
  {| users := [sampleUser 7];
     products := [sampleProduct 2 4; sampleProduct 3 10];
     orders := []; order_items := [] |}.

Definition hugeLines : CreateOrderRequest.t :=
  {| CreateOrderRequest.UserId := 7%N;
     CreateOrderRequest.Items := [line 2 MaxInt; line 2 1; line 3 1] |}.

(** User 7 asks for one of product 1, which does not exist, and five of
    product 2, which has one in stock. *)
Definition lowDB : DB :=
  {| users := [sampleUser 7];
     products := [sampleProduct 2 1];
     orders := []; order_items := [] |}.

Definition missingAndShort : CreateOrderRequest.t :=
  {| CreateOrderRequest.UserId := 7%N;
     CreateOrderRequest.Items := [line 1 1; line 2 5] |}.

(** Eleven products with ten in stock each; user 7 asks for one of each. *)
Definition crowdedDB : DB :=
  {| users := [sampleUser 7];
     products := map (fun n => sampleProduct (N.of_nat n) 10) (seq 1 11);
     orders := []; order_items := [] |}.

Definition elevenLines : CreateOrderRequest.t :=
  {| CreateOrderRequest.UserId := 7%N;
     CreateOrderRequest.Items := map (fun n => line (N.of_nat n) 1) (seq 1 11) |}.

(** User 7 asks for four of product 2, which has ten in stock. *)
Definition fourOfTen : CreateOrderRequest.t :=
  {| CreateOrderRequest.UserId := 7%N;
     CreateOrderRequest.Items := [line 2 4] |}.

(** The specification's scenario: user 7 has ordered four of product 2,
    which had ten; this is the world that leaves and the order it
    created. *)
Definition placedWorld : World :=
  snd (orderAppService.CreateOrder (refEnv (fun l => l)) fourOfTen
         (freshWorld sampleDB)).

Definition placedOrder : Order.t :=
  {| Order.Id := 1002; Order.UserId := 7; Order.Status := "pending";
     Order.Items :=
       [{| OrderItem.Id := 1003; OrderItem.OrderId := 1002;
           OrderItem.ProductId := 2; OrderItem.Quantity := 4;
           OrderItem.Snapshot :=
             {| ProductSnapshot.Description := "widget";
                ProductSnapshot.Tags := [] |};
           OrderItem.CreatedAt := 1 |}];
     Order.CreatedAt := 1; Order.UpdatedAt := 1 |}.

(** A store whose only order, 5, is completed. *)
Definition doneDB : DB :=
  {| users := [sampleUser 7];
     products := [sampleProduct 2 10];
     orders := [sampleOrder 5 7 "completed"];
     order_items := [sampleItem 6 5 2 4] |}.

(** A store whose only order, 5, is pending and holds one of product 2,
    whose stock has meanwhile been set to the largest [int]. *)
Definition fullDB : DB :=
  {| users := [sampleUser 7];
     products := [sampleProduct 2 MaxInt];
     orders := [sampleOrder 5 7 "pending"];
     order_items := [sampleItem 6 5 2 1] |}.

(* ================================================================== *)
(** ** Reference transport externals and more sample data *)

Definition digitValue (c : Ascii.ascii) : option N :=
  let n := Ascii.N_of_ascii c in
  if ((48 <=? n) && (n <=? 57))%N then Some (n - 48)%N else None.

Fixpoint parseDigits (acc : N) (s : string) : option N :=
  match s with
  | EmptyString => Some acc
  | String c rest =>
      match digitValue c with
      | Some d => parseDigits (acc * 10 + d)%N rest
      | None => None
      end
  end.

(** A non-empty string of decimal digits. *)
Definition parseDecimal (s : string) : option N :=
  match s with
  | EmptyString => None
  | _ => parseDigits 0%N s
  end.

(** Reference externals of the transport layer: [Atoi] on unsigned decimal
    numerals within [int], and identifiers written as decimal numerals in
    place of the textual form [uuid.Parse] reads. *)
Definition refHttp : Http :=
  {| Atoi := fun s =>
       match parseDecimal s with
       | Some n => if Z.of_N n <=? MaxInt then Some (Z.of_N n) else None
       | None => None
       end;
     uuidParse := parseDecimal |}.

Definition ctxOf (query params : list (string * string)) : Ctx :=
  let get := fun (l : list (string * string)) (key : string) =>
    match find (fun kv => String.eqb (fst kv) key) l with
    | Some kv => snd kv
    | None => ""
    end in
  {| Query := get query; Params := get params |}.

(** User 7 asks for one and then three of product 2 and, in between, two of
    product 3. *)
Definition splitLines : CreateOrderRequest.t :=
  {| CreateOrderRequest.UserId := 7%N;
     CreateOrderRequest.Items := [line 2 1; line 3 2; line 2 3] |}.

(** A product request with blanks around its description and among its
    tags, and one without a description. *)
Definition newProduct : CreateProductRequest.t :=
  {| CreateProductRequest.Description := " gadget ";
     CreateProductRequest.Tags := [" new "; "  "; "small"];
     CreateProductRequest.Quantity := 3 |}.

Definition blankProduct : CreateProductRequest.t :=
  {| CreateProductRequest.Description := "   ";
     CreateProductRequest.Tags := [];
     CreateProductRequest.Quantity := 3 |}.

(** A stand-in for bcrypt where a concrete one is needed: the hash is the
    input behind a marker byte, and a hash is accepted for the input it was
    made from. *)
Definition refCrypto : Crypto :=
  {| GenerateFromPassword := fun _ password => inl (x24 :: password);
     CompareHashAndPassword := fun hash password =>
       if List.list_eq_dec Byte.byte_eq_dec hash (x24 :: password)
       then true else false |}.

Definition annRequest : CreateUserRequest.t :=
  {| CreateUserRequest.FirstName := " Ann ";
     CreateUserRequest.LastName := "Lee";
     CreateUserRequest.Age := 30;
     CreateUserRequest.IsMarried := false;
     CreateUserRequest.Password := "12345678" |}.

Definition minorRequest : CreateUserRequest.t :=
  {| CreateUserRequest.FirstName := "Tom";
     CreateUserRequest.LastName := "Lee";
     CreateUserRequest.Age := 17;
     CreateUserRequest.IsMarried := false;
     CreateUserRequest.Password := "12345678" |}.

(** Two outcomes for the script of round trips. *)
Definition answers : IOOutcome := {| failed := false; elapsed := 5 |}.
Definition breaks : IOOutcome := {| failed := true; elapsed := 5 |}.

(** A store that answers one round trip and then breaks. *)
Definition oneAnswerWorld : World :=
  {| db := sampleDB; userCache := ∅; productCache := ∅; orderCache := ∅;
     io := [answers; breaks]; rt := {| clock := 1; seed := 0 |} |}.

Definition allUsers : GetUsersRequest.t :=
  {| GetUsersRequest.Ids := []; GetUsersRequest.Limit := 0;
     GetUsersRequest.Offset := 0 |}.

Definition firstTenUsers : GetUsersRequest.t :=
  {| GetUsersRequest.Ids := []; GetUsersRequest.Limit := 10;
     GetUsersRequest.Offset := -3 |}.
(** Three users made at the same instant, stored out of order. *)
Definition threeUsersDB : DB :=
  {| users := [sampleUser 9; sampleUser 7; sampleUser 8];
     products := []; orders := []; order_items := [] |}.


(** Eleven pending orders of user 7 and one of user 8. *)
Definition manyOrdersDB : DB :=
  {| users := [sampleUser 7; sampleUser 8];
     products := [];
     orders := map (fun n => sampleOrder (N.of_nat n) 7 OrderStatusPending)
                   (seq 1 11)
               ++ [sampleOrder 20 8 OrderStatusPending];
     order_items := [] |}.

(** Lower-case hexadecimal, two digits a byte. *)
Definition hexDigit (n : N) : Ascii.ascii :=
  Ascii.ascii_of_N (if (n <? 10)%N then 48 + n else 87 + n)%N.

Definition fromHexChar (c : Ascii.ascii) : option N :=
  let n := Ascii.N_of_ascii c in
  if ((48 <=? n) && (n <=? 57))%N then Some (n - 48)%N
  else if ((97 <=? n) && (n <=? 102))%N then Some (n - 87)%N
  else if ((65 <=? n) && (n <=? 70))%N then Some (n - 55)%N
  else None.

Fixpoint hexEncode (src : list byte) : string :=
  match src with
  | [] => EmptyString
  | b :: rest =>
      String (hexDigit (Byte.to_N b / 16))
        (String (hexDigit (Byte.to_N b mod 16)) (hexEncode rest))
  end.

Fixpoint hexDecode (s : string) : list byte + string :=
  match s with
  | EmptyString => inl []
  | String _ EmptyString => inr "encoding/hex: odd length hex string"
  | String hi (String lo rest) =>
      match fromHexChar hi, fromHexChar lo with
      | Some h, Some l =>
          match Byte.of_N (16 * h + l) with
          | Some b =>
              match hexDecode rest with
              | inl bytes => inl (b :: bytes)
              | inr err => inr err
              end
          | None => inr "encoding/hex: invalid byte"
          end
      | _, _ => inr "encoding/hex: invalid byte"
      end
  end.

Definition refHex : Hex :=
  {| EncodeToString := hexEncode; DecodeString := hexDecode |}.
(** A store that answers four round trips and breaks at the fifth. *)
Definition fifthBreaksWorld : World :=
  {| db := pairDB; userCache := ∅; productCache := ∅; orderCache := ∅;
     io := [answers; answers; answers; answers; breaks];
     rt := {| clock := 1; seed := 0 |} |}.

(* ================================================================== *)
(** * Machine integers *)

Lemma wrap_id (z : Z) : is_int z -> wrap z = z.
Proof.
  unfold is_int, wrap, MinInt, MaxInt. intros H.
  rewrite Z.mod_small by lia. lia.
Qed.

Lemma wrap_is_int (z : Z) : is_int (wrap z).
Proof.
  unfold is_int, wrap, MinInt, MaxInt.
  pose proof (Z.mod_pos_bound (z + 2 ^ 63) (2 ^ 64)). lia.
Qed.

(* ================================================================== *)
(** * The stock ledger *)

Section StockLedger.

Implicit Types (p : Product.t) (q : Z) (now : Time).

Lemma ReserveQuantity_ok now q p :
  0 < q -> q <= Product.Quantity p ->
  Product.ReserveQuantity now q p =
    ({| Product.Id := Product.Id p;
        Product.Description := Product.Description p;
        Product.Tags := Product.Tags p;
        Product.Quantity := int_sub (Product.Quantity p) q;
        Product.CreatedAt := Product.CreatedAt p;
        Product.UpdatedAt := now |}, None).
Proof.
  intros Hq Hle. unfold Product.ReserveQuantity.
  destruct (Z.leb_spec q 0); [lia|].
  destruct (Z.ltb_spec (Product.Quantity p) q); [lia|]. reflexivity.
Qed.

Lemma RestoreQuantity_ok now q p :
  0 < q ->
  Product.RestoreQuantity now q p =
    ({| Product.Id := Product.Id p;
        Product.Description := Product.Description p;
        Product.Tags := Product.Tags p;
        Product.Quantity := int_add (Product.Quantity p) q;
        Product.CreatedAt := Product.CreatedAt p;
        Product.UpdatedAt := now |}, None).
Proof.
  intros Hq. unfold Product.RestoreQuantity.
  destruct (Z.leb_spec q 0); [lia|]. reflexivity.
Qed.

Lemma ReserveQuantity_failure_keeps now q p e :
  snd (Product.ReserveQuantity now q p) = Some e ->
  fst (Product.ReserveQuantity now q p) = p.
Proof.
  unfold Product.ReserveQuantity.
  destruct (q <=? 0); [reflexivity|].
  destruct (Product.Quantity p <? q); [reflexivity|]. discriminate.
Qed.

Lemma RestoreQuantity_failure_keeps now q p e :
  snd (Product.RestoreQuantity now q p) = Some e ->
  fst (Product.RestoreQuantity now q p) = p.
Proof.
  unfold Product.RestoreQuantity.
  destruct (q <=? 0); [reflexivity|]. discriminate.
Qed.

(** One call keeps a non-negative [int] quantity non-negative, as long as
    a restore does not pass [MaxInt]. *)
Lemma stockStep_nonneg p call :
  0 <= Product.Quantity p <= MaxInt ->
  match snd call with
  | Restore q => 0 < q -> Product.Quantity p + q <= MaxInt
  | Reserve _ => True
  end ->
  0 <= Product.Quantity (stockStep p call) <= MaxInt.
Proof.
  intros Hp Hcap. destruct call as [now [q|q]]; unfold stockStep; simpl in *.
  - unfold Product.ReserveQuantity.
    destruct (Z.leb_spec q 0); [exact Hp|].
    destruct (Z.ltb_spec (Product.Quantity p) q); [exact Hp|].
    simpl. unfold int_sub. rewrite wrap_id; unfold is_int, MinInt, MaxInt in *; lia.
  - unfold Product.RestoreQuantity.
    destruct (Z.leb_spec q 0); [exact Hp|].
    simpl. unfold int_add.
    rewrite wrap_id; unfold is_int, MinInt, MaxInt in *; lia.
Qed.

Lemma stockRun_nonneg calls : forall p,
  0 <= Product.Quantity p <= MaxInt ->
  withinInt p calls ->
  0 <= Product.Quantity (stockRun calls p) <= MaxInt.
Proof.
  induction calls as [|call rest IH]; intros p Hp Hw; [exact Hp|].
  destruct Hw as [Hcap Hrest]. unfold stockRun. simpl.
  apply IH; [apply stockStep_nonneg; assumption | exact Hrest].
Qed.

Lemma withinInt_take calls : forall p n,
  withinInt p calls -> withinInt p (take n calls).
Proof.
  induction calls as [|call rest IH]; intros p n Hw.
  - destruct n; exact I.
  - destruct n as [|n]; [exact I|]. destruct Hw as [Hcap Hrest].
    simpl. split; [exact Hcap | apply IH; exact Hrest].
Qed.

End StockLedger.

(** C5, as the specification states it, fails: a restore on a quantity at
    the top of the [int] range wraps around to a negative quantity. *)
Lemma stock_restore_wraps_negative :
  0 <= Product.Quantity (sampleProduct 1 MaxInt)
  /\ Product.RestoreQuantity 2 1 (sampleProduct 1 MaxInt)
     = ({| Product.Id := 1; Product.Description := "widget";
           Product.Tags := []; Product.Quantity := MinInt;
           Product.CreatedAt := 1; Product.UpdatedAt := 2 |}, None)
  /\ Product.Quantity (stockRun (take 1 [(2, Restore 1)])
                                (sampleProduct 1 MaxInt)) < 0.
Proof. vm_compute. repeat split; congruence. Qed.

(** C5 (amended): for every product whose quantity is a non-negative [int]
    and every finite sequence of [ReserveQuantity] and [RestoreQuantity]
    calls in which no restore takes the quantity past the largest [int],
    the quantity is non-negative after every prefix of the sequence. *)
Theorem stock_never_negative
    (p : Product.t) (calls : list (Time * StockOp)) (n : nat) :
  0 <= Product.Quantity p ->
  is_int (Product.Quantity p) ->
  withinInt p calls ->
  0 <= Product.Quantity (stockRun (take n calls) p).
Proof.
  intros Hp [_ Hmax] Hw.
  apply (stockRun_nonneg (take n calls) p); [lia|].
  apply withinInt_take; exact Hw.
Qed.

Lemma stock_never_negative_witness :
  0 <= Product.Quantity
         (stockRun (take 3 [(2, Reserve 4); (3, Restore 9); (4, Reserve 20)])
                   (sampleProduct 1 10)).
Proof.
  apply (stock_never_negative (sampleProduct 1 10)
           [(2, Reserve 4); (3, Restore 9); (4, Reserve 20)] 3).
  - simpl. lia.
  - unfold is_int, MinInt, MaxInt. simpl. lia.
  - vm_compute. repeat split; intros; congruence.
Defined.

(** C6: for every product and every [q] with [0 < q <= Quantity],
    [ReserveQuantity q] succeeds, [RestoreQuantity q] on its result succeeds,
    and the quantity is back at its value before the reserve. *)
Theorem reserve_restore_round_trip
    (now1 now2 : Time) (p : Product.t) (q : Z) :
  is_int (Product.Quantity p) ->
  0 < q <= Product.Quantity p ->
  exists p1 p2,
    Product.ReserveQuantity now1 q p = (p1, None)
    /\ Product.RestoreQuantity now2 q p1 = (p2, None)
    /\ Product.Quantity p2 = Product.Quantity p.
Proof.
  intros Hint [Hq Hle].
  eexists. eexists. split; [apply ReserveQuantity_ok; lia|].
  split; [apply RestoreQuantity_ok; lia|].
  simpl. unfold int_add, int_sub.
  rewrite (wrap_id (Product.Quantity p - q))
    by (unfold is_int, MinInt, MaxInt in *; lia).
  rewrite wrap_id by (unfold is_int in *; lia). lia.
Qed.

Lemma reserve_restore_round_trip_witness :
  exists p1 p2,
    Product.ReserveQuantity 2 4 (sampleProduct 1 10) = (p1, None)
    /\ Product.RestoreQuantity 3 4 p1 = (p2, None)
    /\ Product.Quantity p2 = Product.Quantity (sampleProduct 1 10).
Proof.
  apply (reserve_restore_round_trip 2 3 (sampleProduct 1 10) 4).
  - unfold is_int, MinInt, MaxInt. simpl. lia.
  - simpl. lia.
Defined.

(** C7: [ReserveQuantity q] with [q <= 0] fails with [InvalidQuantity], with
    [0 < q] and [q > Quantity] it fails with [InsufficientStock],
    [RestoreQuantity q] with [q <= 0] fails with [InvalidQuantity], and every
    failing call of either leaves the whole product as it was. *)
Theorem stock_failures_leave_product (now : Time) (p : Product.t) (q : Z) :
  (q <= 0 ->
     exists e, Product.ReserveQuantity now q p = (p, Some e)
               /\ kind e = ErrInvalidQuantity)
  /\ (0 < q -> Product.Quantity p < q ->
     exists e, Product.ReserveQuantity now q p = (p, Some e)
               /\ kind e = ErrInsufficientStock)
  /\ (q <= 0 ->
     exists e, Product.RestoreQuantity now q p = (p, Some e)
               /\ kind e = ErrInvalidQuantity)
  /\ (forall e, snd (Product.ReserveQuantity now q p) = Some e ->
                fst (Product.ReserveQuantity now q p) = p)
  /\ (forall e, snd (Product.RestoreQuantity now q p) = Some e ->
                fst (Product.RestoreQuantity now q p) = p).
Proof.
  repeat split.
  - intros Hq. unfold Product.ReserveQuantity.
    destruct (Z.leb_spec q 0); [|lia]. eexists; split; reflexivity.
  - intros Hq Hlt. unfold Product.ReserveQuantity.
    destruct (Z.leb_spec q 0); [lia|].
    destruct (Z.ltb_spec (Product.Quantity p) q); [|lia].
    eexists; split; reflexivity.
  - intros Hq. unfold Product.RestoreQuantity.
    destruct (Z.leb_spec q 0); [|lia]. eexists; split; reflexivity.
  - apply ReserveQuantity_failure_keeps.
  - apply RestoreQuantity_failure_keeps.
Qed.

Lemma stock_failures_leave_product_witness :
  (exists e, Product.ReserveQuantity 2 0 (sampleProduct 1 10)
             = (sampleProduct 1 10, Some e)
             /\ kind e = ErrInvalidQuantity)
  /\ (exists e, Product.ReserveQuantity 2 11 (sampleProduct 1 10)
                = (sampleProduct 1 10, Some e)
                /\ kind e = ErrInsufficientStock)
  /\ (exists e, Product.RestoreQuantity 2 0 (sampleProduct 1 10)
                = (sampleProduct 1 10, Some e)
                /\ kind e = ErrInvalidQuantity).
Proof.
  destruct (stock_failures_leave_product 2 (sampleProduct 1 10) 0)
    as (Hres & _ & Hrst & _).
  destruct (stock_failures_leave_product 2 (sampleProduct 1 10) 11)
    as (_ & Hins & _).
  split; [apply Hres; lia|].
  split; [apply Hins; simpl; lia | apply Hrst; lia].
Defined.

(* ================================================================== *)
(** * The order state machine *)

Section OrderStateMachine.

Implicit Types (o : Order.t) (now : Time).

Lemma CanBeCancelled_spec o :
  Order.CanBeCancelled o = true
  <-> Order.Status o = OrderStatusPending
      \/ Order.Status o = OrderStatusConfirmed.
Proof.
  unfold Order.CanBeCancelled. rewrite orb_true_iff, !String.eqb_eq.
  reflexivity.
Qed.

Lemma Confirm_spec now o :
  (Order.Status o = OrderStatusPending ->
     Order.Confirm now o
     = (Order.withStatus OrderStatusConfirmed now o, None))
  /\ (Order.Status o <> OrderStatusPending ->
     Order.Confirm now o
     = (o, Some (Errorf ErrOrderValidation
                   "%w: order cannot be confirmed in status %s"
                   [ArgStr (Order.Status o)]))).
Proof.
  unfold Order.Confirm.
  destruct (String.eqb_spec (Order.Status o) OrderStatusPending);
    split; intros; simpl; congruence.
Qed.

Lemma Complete_spec now o :
  (Order.Status o = OrderStatusConfirmed ->
     Order.Complete now o
     = (Order.withStatus OrderStatusCompleted now o, None))
  /\ (Order.Status o <> OrderStatusConfirmed ->
     Order.Complete now o
     = (o, Some (Errorf ErrOrderValidation
                   "%w: order cannot be completed in status %s"
                   [ArgStr (Order.Status o)]))).
Proof.
  unfold Order.Complete.
  destruct (String.eqb_spec (Order.Status o) OrderStatusConfirmed);
    split; intros; simpl; congruence.
Qed.

Lemma Cancel_spec now o :
  (Order.CanBeCancelled o = true ->
     Order.Cancel now o
     = (Order.withStatus OrderStatusCancelled now o, None))
  /\ (Order.CanBeCancelled o = false ->
     Order.Cancel now o
     = (o, Some (Errorf ErrOrderValidation
                   "%w: order cannot be cancelled in status %s"
                   [ArgStr (Order.Status o)]))).
Proof.
  unfold Order.Cancel.
  destruct (Order.CanBeCancelled o); split; intros; simpl; congruence.
Qed.

End OrderStateMachine.

(** C8: the transition operations of the order aggregate permit exactly the
    legal moves.  [Confirm] succeeds from pending and only from it,
    [Complete] from confirmed and only from it, [Cancel] from pending or
    confirmed and only from them ([CanBeCancelled] is true exactly there); a
    successful move sets the target status; every other call fails with
    [OrderValidation], naming the attempted transition and the current
    status, and returns the order unchanged; so cancelled and completed
    allow no move. *)
Theorem order_transitions_legal (now : Time) (o : Order.t) :
  (Order.CanBeCancelled o = true
   <-> Order.Status o = OrderStatusPending
       \/ Order.Status o = OrderStatusConfirmed)
  /\ (Order.Status o = OrderStatusPending ->
        Order.Confirm now o
        = (Order.withStatus OrderStatusConfirmed now o, None))
  /\ (Order.Status o <> OrderStatusPending ->
        Order.Confirm now o
        = (o, Some (Errorf ErrOrderValidation
                      "%w: order cannot be confirmed in status %s"
                      [ArgStr (Order.Status o)])))
  /\ (Order.Status o = OrderStatusConfirmed ->
        Order.Complete now o
        = (Order.withStatus OrderStatusCompleted now o, None))
  /\ (Order.Status o <> OrderStatusConfirmed ->
        Order.Complete now o
        = (o, Some (Errorf ErrOrderValidation
                      "%w: order cannot be completed in status %s"
                      [ArgStr (Order.Status o)])))
  /\ (Order.Status o = OrderStatusPending
      \/ Order.Status o = OrderStatusConfirmed ->
        Order.Cancel now o
        = (Order.withStatus OrderStatusCancelled now o, None))
  /\ (Order.Status o <> OrderStatusPending ->
      Order.Status o <> OrderStatusConfirmed ->
        Order.Cancel now o
        = (o, Some (Errorf ErrOrderValidation
                      "%w: order cannot be cancelled in status %s"
                      [ArgStr (Order.Status o)])))
  /\ (Order.Status o = OrderStatusCancelled
      \/ Order.Status o = OrderStatusCompleted ->
        (exists e, Order.Confirm now o = (o, Some e)
                   /\ kind e = ErrOrderValidation)
        /\ (exists e, Order.Complete now o = (o, Some e)
                      /\ kind e = ErrOrderValidation)
        /\ (exists e, Order.Cancel now o = (o, Some e)
                      /\ kind e = ErrOrderValidation)).
Proof.
  pose proof (CanBeCancelled_spec o) as Hcan.
  destruct (Confirm_spec now o) as [Hc1 Hc2].
  destruct (Complete_spec now o) as [Hd1 Hd2].
  destruct (Cancel_spec now o) as [Hx1 Hx2].
  assert (Hnot : Order.Status o <> OrderStatusPending ->
                 Order.Status o <> OrderStatusConfirmed ->
                 Order.CanBeCancelled o = false).
  { intros H1 H2. destruct (Order.CanBeCancelled o) eqn:E; [|reflexivity].
    destruct (proj1 (CanBeCancelled_spec o) E); contradiction. }
  split; [exact Hcan|]. split; [exact Hc1|]. split; [exact Hc2|].
  split; [exact Hd1|]. split; [exact Hd2|].
  split; [intros H; apply Hx1, Hcan, H|].
  split; [intros H1 H2; apply Hx2, Hnot; assumption|].
  intros Hterm.
  assert (Hp : Order.Status o <> OrderStatusPending)
    by (destruct Hterm as [E|E]; rewrite E; discriminate).
  assert (Hq : Order.Status o <> OrderStatusConfirmed)
    by (destruct Hterm as [E|E]; rewrite E; discriminate).
  split; [eexists; split; [apply Hc2, Hp | reflexivity]|].
  split; [eexists; split; [apply Hd2, Hq | reflexivity]|].
  eexists; split; [apply Hx2, Hnot; assumption | reflexivity].
Qed.

Lemma order_transitions_legal_witness :
  Order.Confirm 5 (sampleOrder 1 2 "pending")
  = (Order.withStatus "confirmed" 5 (sampleOrder 1 2 "pending"), None)
  /\ Order.Complete 5 (sampleOrder 1 2 "pending")
     = (sampleOrder 1 2 "pending",
        Some (Errorf ErrOrderValidation
                "%w: order cannot be completed in status %s"
                [ArgStr "pending"]))
  /\ Order.Cancel 5 (sampleOrder 1 2 "pending")
     = (Order.withStatus "cancelled" 5 (sampleOrder 1 2 "pending"), None)
  /\ Order.Cancel 5 (sampleOrder 1 2 "completed")
     = (sampleOrder 1 2 "completed",
        Some (Errorf ErrOrderValidation
                "%w: order cannot be cancelled in status %s"
                [ArgStr "completed"])).
Proof.
  destruct (order_transitions_legal 5 (sampleOrder 1 2 "pending"))
    as (_ & Hconfirm & _ & _ & Hcomplete & Hcancel & _).
  destruct (order_transitions_legal 5 (sampleOrder 1 2 "completed"))
    as (_ & _ & _ & _ & _ & _ & Hcancel' & _).
  split; [apply Hconfirm; reflexivity|].
  split; [apply Hcomplete; discriminate|].
  split; [apply Hcancel; left; reflexivity|].
  apply Hcancel'; discriminate.
Defined.

(* ================================================================== *)
(** * Cache keys *)

Section CacheKeys.

Variable env : Env.

(** Requests with equal fields have equal keys. *)
Lemma CacheKey_products_deterministic (r1 r2 : GetProductsRequest.t) :
  GetProductsRequest.Validate r1 = GetProductsRequest.Validate r2 ->
  GetProductsRequest.CacheKey env (GetProductsRequest.Validate r1)
  = GetProductsRequest.CacheKey env (GetProductsRequest.Validate r2).
Proof. intros ->. reflexivity. Qed.

(** Offsets 0 and 10 give different buffers. *)
Lemma CacheKeyBuf_users_offset_0_10 (ids : list UUID) (limit : Z) :
  GetUsersRequest.CacheKeyBuf
    {| GetUsersRequest.Ids := ids; GetUsersRequest.Limit := limit;
       GetUsersRequest.Offset := 0 |}
  <> GetUsersRequest.CacheKeyBuf
       {| GetUsersRequest.Ids := ids; GetUsersRequest.Limit := limit;
          GetUsersRequest.Offset := 10 |}.
Proof.
  unfold GetUsersRequest.CacheKeyBuf. simpl.
  unfold AppendUint32 at 1 3. intros H.
  apply app_inv_head in H. vm_compute in H. discriminate.
Qed.

End CacheKeys.

(** C3 does not hold of the code: the tags (and the order statuses) are
    written to the buffer with their count only, not their lengths, so two
    normalized product requests that differ in their tag lists can give the
    same bytes, and therefore the same key under every digest. *)
Theorem CacheKey_tag_lists_collide (env : Env) :
  let r1 := {| GetProductsRequest.Ids := [];
               GetProductsRequest.Tags := ["ab"; "c"];
               GetProductsRequest.Available := None;
               GetProductsRequest.Limit := 10;
               GetProductsRequest.Offset := 0 |} in
  let r2 := {| GetProductsRequest.Ids := [];
               GetProductsRequest.Tags := ["a"; "bc"];
               GetProductsRequest.Available := None;
               GetProductsRequest.Limit := 10;
               GetProductsRequest.Offset := 0 |} in
  GetProductsRequest.Validate r1 = r1
  /\ GetProductsRequest.Validate r2 = r2
  /\ GetProductsRequest.Tags r1 <> GetProductsRequest.Tags r2
  /\ GetProductsRequest.CacheKeyBuf r1 = GetProductsRequest.CacheKeyBuf r2
  /\ GetProductsRequest.CacheKey env r1 = GetProductsRequest.CacheKey env r2.
Proof.
  intros r1 r2.
  assert (Hbuf : GetProductsRequest.CacheKeyBuf r1
                 = GetProductsRequest.CacheKeyBuf r2) by (vm_compute; reflexivity).
  split; [reflexivity|]. split; [reflexivity|].
  split; [discriminate|]. split; [exact Hbuf|].
  unfold GetProductsRequest.CacheKey. rewrite Hbuf. reflexivity.
Qed.

(* ================================================================== *)
(** * Round trips and transactions *)

Section RoundTrips.

Implicit Types (w : World) (d tx : DB).

Lemma roundTrip_db w : db (snd (roundTrip w)) = db w.
Proof. unfold roundTrip. destruct (io w); reflexivity. Qed.

Lemma roundTrip_caches w :
  userCache (snd (roundTrip w)) = userCache w
  /\ productCache (snd (roundTrip w)) = productCache w
  /\ orderCache (snd (roundTrip w)) = orderCache w.
Proof. unfold roundTrip. destruct (io w); repeat split; reflexivity. Qed.

Lemma roundTrip_seed w : seed (rt (snd (roundTrip w))) = seed (rt w).
Proof. unfold roundTrip. destruct (io w); reflexivity. Qed.

Lemma roundTrip_reliable w :
  Reliable w -> fst (roundTrip w) = false /\ Reliable (snd (roundTrip w)).
Proof.
  unfold Reliable, roundTrip. intros H.
  destruct (io w) as [|o rest] eqn:E; simpl.
  - rewrite E. split; [reflexivity | constructor].
  - inversion H; subst. split; assumption.
Qed.

Lemma txRollback_db w : db (orderStorage.txRollback w) = db w.
Proof. apply roundTrip_db. Qed.

Lemma txExec_db stmt tx w :
  db (snd (orderStorage.txExec stmt tx w)) = db w.
Proof.
  unfold orderStorage.txExec. pose proof (roundTrip_db w) as H.
  destruct (roundTrip w) as [[|] w']; exact H.
Qed.

Lemma txExec_ok stmt tx w tx' w' :
  orderStorage.txExec stmt tx w = (Ok tx', w') -> tx' = stmt tx.
Proof.
  unfold orderStorage.txExec.
  destruct (roundTrip w) as [[|] w1]; intros H; inversion H; reflexivity.
Qed.

(** The item inserts leave the data alone and, when all succeed, add the
    items in order to the transaction's view. *)
Lemma insertItems_spec items : forall tx w,
  db (snd (orderStorage.insertItems items tx w)) = db w
  /\ forall tx' w',
       orderStorage.insertItems items tx w = (Ok tx', w') ->
       tx' = {| users := users tx; products := products tx;
                orders := orders tx;
                order_items := order_items tx ++ items |}.
Proof.
  induction items as [|item rest IH]; intros tx w; simpl.
  - split; [reflexivity|]. intros tx' w' H. inversion H; subst.
    rewrite app_nil_r. destruct tx'; reflexivity.
  - pose proof (txExec_db (SQL.insertOrderItem item) tx w) as Hdb.
    destruct (orderStorage.txExec (SQL.insertOrderItem item) tx w)
      as [[tx1|e] w1] eqn:E; simpl in Hdb.
    + destruct (IH tx1 w1) as [IHdb IHok]. split; [congruence|].
      intros tx' w' H. rewrite (IHok _ _ H).
      apply txExec_ok in E. subst tx1. simpl.
      rewrite <- app_assoc. reflexivity.
    + split; [exact Hdb|]. intros tx' w' H. discriminate.
Qed.

End RoundTrips.

(* ================================================================== *)
(** * Validation of an order keeps what was ordered *)

Lemma OrderItem_Validate_keeps env item r :
  let item' := fst (fst (OrderItem.Validate env item r)) in
  OrderItem.OrderId item' = OrderItem.OrderId item
  /\ OrderItem.ProductId item' = OrderItem.ProductId item
  /\ OrderItem.Quantity item' = OrderItem.Quantity item
  /\ OrderItem.Snapshot item' = OrderItem.Snapshot item.
Proof.
  unfold OrderItem.Validate.
  destruct (if (OrderItem.Id item =? Nil)%N then uuid_New env r
            else (OrderItem.Id item, r)) as [id r1].
  repeat match goal with
         | |- context [if ?c then _ else _] => destruct c
         end; simpl; repeat split; reflexivity.
Qed.

Lemma Order_validateItems_keeps env orderId items : forall r,
  snd (fst (Order.validateItems env orderId items r)) = None ->
  Forall2 (fun item item' =>
             OrderItem.OrderId item' = orderId
             /\ OrderItem.ProductId item' = OrderItem.ProductId item
             /\ OrderItem.Quantity item' = OrderItem.Quantity item
             /\ OrderItem.Snapshot item' = OrderItem.Snapshot item)
          items (fst (fst (Order.validateItems env orderId items r))).
Proof.
  induction items as [|item rest IH]; intros r Hok; simpl in *.
  - constructor.
  - pose proof (OrderItem_Validate_keeps env
                  (OrderItem.withOrderId orderId item) r) as Hk.
    destruct (OrderItem.Validate env (OrderItem.withOrderId orderId item) r)
      as [[item' [e|]] r1]; simpl in *; [discriminate|].
    specialize (IH r1).
    destruct (Order.validateItems env orderId rest r1)
      as [[rest' err'] r2]; simpl in *.
    constructor; [|apply IH; exact Hok].
    destruct Hk as (H1 & H2 & H3 & H4). repeat split; assumption.
Qed.

Lemma Order_Validate_keeps env o r :
  snd (fst (Order.Validate env o r)) = None ->
  let o' := fst (fst (Order.Validate env o r)) in
  Order.UserId o' = Order.UserId o
  /\ Forall2 (fun item item' =>
                OrderItem.OrderId item' = Order.Id o'
                /\ OrderItem.ProductId item' = OrderItem.ProductId item
                /\ OrderItem.Quantity item' = OrderItem.Quantity item
                /\ OrderItem.Snapshot item' = OrderItem.Snapshot item)
             (Order.Items o) (Order.Items o').
Proof.
  unfold Order.Validate.
  destruct (if (Order.Id o =? Nil)%N then uuid_New env r
            else (Order.Id o, r)) as [id r1].
  destruct (Order.UserId o =? Nil)%N; [discriminate|].
  destruct (length (Order.Items o) =? 0)%nat; [discriminate|].
  pose proof (Order_validateItems_keeps env id (Order.Items o) r1) as Hk.
  destruct (Order.validateItems env id (Order.Items o) r1)
    as [[items' err] r2]; simpl in *.
  intros Hok. split; [reflexivity|]. apply Hk. exact Hok.
Qed.

(* ================================================================== *)
(** * The order storage's transaction *)

(** C9: for every order passed to the order storage's [CreateOrder], with
    any of its round trips failing or none, the call either returns no error
    and the data is the old data plus the order's row and all of its item
    rows (the validated items, one per item passed, for the same product and
    quantity), or it returns an error and the data is what it was: neither
    the order nor any of its items is in the store. *)
Theorem CreateOrder_all_or_nothing (env : Env) (order : Order.t) (w : World) :
  let order' := fst (fst (orderStorage.CreateOrder env order w)) in
  let err := snd (fst (orderStorage.CreateOrder env order w)) in
  let w' := snd (orderStorage.CreateOrder env order w) in
  (err = None
   /\ db w' = {| users := users (db w); products := products (db w);
                 orders := orders (db w) ++ [Order.withItems [] order'];
                 order_items := order_items (db w) ++ Order.Items order' |}
   /\ Forall2 (fun item item' =>
                 OrderItem.OrderId item' = Order.Id order'
                 /\ OrderItem.ProductId item' = OrderItem.ProductId item
                 /\ OrderItem.Quantity item' = OrderItem.Quantity item
                 /\ OrderItem.Snapshot item' = OrderItem.Snapshot item)
              (Order.Items order) (Order.Items order'))
  \/ (err <> None /\ db w' = db w).
Proof.
  unfold orderStorage.CreateOrder.
  change (rt (withOrderCache (ttlcache.DeleteAll (orderCache w)) w))
    with (rt w).
  pose proof (Order_Validate_keeps env order (rt w)) as Hkeep.
  destruct (Order.Validate env order (rt w)) as [[o' [e|]] r'] eqn:EV;
    simpl in *.
  { right. split; [discriminate | reflexivity]. }
  specialize (Hkeep eq_refl). destruct Hkeep as [_ Hitems].
  set (w0 := withRt r' (withOrderCache (ttlcache.DeleteAll (orderCache w)) w)).
  assert (Hdb0 : db w0 = db w) by reflexivity.
  pose proof (roundTrip_db w0) as Hdb1.
  destruct (roundTrip w0) as [[|] w1]; simpl in *.
  { right. split; [discriminate | congruence]. }
  pose proof (txExec_db (SQL.insertOrder o') (db w1) w1) as Hdb2.
  pose proof (txExec_ok (SQL.insertOrder o') (db w1) w1) as Hok2.
  destruct (orderStorage.txExec (SQL.insertOrder o') (db w1) w1)
    as [[tx|e] w2]; simpl in *.
  2: { right. split; [discriminate|]. rewrite txRollback_db. congruence. }
  specialize (Hok2 _ _ eq_refl). subst tx.
  destruct (insertItems_spec (Order.Items o')
              (SQL.insertOrder o' (db w1)) w2) as [Hdb3 Hok3].
  destruct (orderStorage.insertItems (Order.Items o')
              (SQL.insertOrder o' (db w1)) w2) as [[tx'|e] w3]; simpl in *.
  2: { right. split; [discriminate|]. rewrite txRollback_db. congruence. }
  specialize (Hok3 _ _ eq_refl). subst tx'.
  unfold orderStorage.txCommit.
  pose proof (roundTrip_db w3) as Hdb4.
  destruct (roundTrip w3) as [[|] w4]; simpl in *.
  { right. split; [discriminate | congruence]. }
  left. split; [reflexivity|]. split; [|exact Hitems].
  rewrite Hdb1. reflexivity.
Qed.

(* ================================================================== *)
(** * The read paths and their caches *)

Section ReadPaths.

Variable env : Env.

Implicit Types (w : World).

Lemma Get_miss_on_empty {V : Type} now k :
  ttlcache.Get now k (∅ : gmap CacheKey (ttlcache.Item V)) = (None, ∅).
Proof. unfold ttlcache.Get. rewrite lookup_empty. reflexivity. Qed.

Lemma DeleteExpired_empty {V : Type} now :
  ttlcache.DeleteExpired now (∅ : gmap CacheKey (ttlcache.Item V)) = ∅.
Proof. unfold ttlcache.DeleteExpired. apply map_filter_empty. Qed.

(** A list read touches nothing but its own cache (and the clock and the
    script of round trips). *)
Lemma Users_frame req w :
  db (snd (userStorage.Users env req w)) = db w
  /\ productCache (snd (userStorage.Users env req w)) = productCache w
  /\ orderCache (snd (userStorage.Users env req w)) = orderCache w
  /\ seed (rt (snd (userStorage.Users env req w))) = seed (rt w).
Proof.
  unfold userStorage.Users. simpl.
  destruct (ttlcache.Get _ _ _) as [[cached|] c]; simpl;
    [repeat split; reflexivity|].
  match goal with |- context [roundTrip ?x] =>
    pose proof (roundTrip_db x) as Hd;
    pose proof (roundTrip_caches x) as (_ & Hp & Ho);
    pose proof (roundTrip_seed x) as Hs;
    destruct (roundTrip x) as [[|] w'] end;
    simpl in *; repeat split; assumption.
Qed.

Lemma Products_frame req w :
  db (snd (productStorage.Products env req w)) = db w
  /\ userCache (snd (productStorage.Products env req w)) = userCache w
  /\ orderCache (snd (productStorage.Products env req w)) = orderCache w
  /\ seed (rt (snd (productStorage.Products env req w))) = seed (rt w).
Proof.
  unfold productStorage.Products. simpl.
  destruct (ttlcache.Get _ _ _) as [[cached|] c]; simpl;
    [repeat split; reflexivity|].
  match goal with |- context [roundTrip ?x] =>
    pose proof (roundTrip_db x) as Hd;
    pose proof (roundTrip_caches x) as (Hu & _ & Ho);
    pose proof (roundTrip_seed x) as Hs;
    destruct (roundTrip x) as [[|] w'] end;
    simpl in *; repeat split; assumption.
Qed.

Lemma loadOrderItems_frame rows w :
  db (snd (orderStorage.loadOrderItems rows w)) = db w
  /\ userCache (snd (orderStorage.loadOrderItems rows w)) = userCache w
  /\ productCache (snd (orderStorage.loadOrderItems rows w)) = productCache w
  /\ orderCache (snd (orderStorage.loadOrderItems rows w)) = orderCache w
  /\ seed (rt (snd (orderStorage.loadOrderItems rows w))) = seed (rt w).
Proof.
  unfold orderStorage.loadOrderItems, bind, roundTripM, getWorld, ret.
  pose proof (roundTrip_db w) as Hd.
  pose proof (roundTrip_caches w) as (Hu & Hp & Ho).
  pose proof (roundTrip_seed w) as Hs.
  destruct (roundTrip w) as [[|] w']; simpl in *; repeat split; assumption.
Qed.

Lemma Orders_frame req w :
  db (snd (orderStorage.Orders env req w)) = db w
  /\ userCache (snd (orderStorage.Orders env req w)) = userCache w
  /\ productCache (snd (orderStorage.Orders env req w)) = productCache w
  /\ seed (rt (snd (orderStorage.Orders env req w))) = seed (rt w).
Proof.
  unfold orderStorage.Orders. simpl.
  destruct (ttlcache.Get _ _ _) as [[cached|] c]; simpl;
    [repeat split; reflexivity|].
  match goal with |- context [roundTrip ?x] =>
    pose proof (roundTrip_db x) as Hd;
    pose proof (roundTrip_caches x) as (Hu & Hp & _);
    pose proof (roundTrip_seed x) as Hs;
    destruct (roundTrip x) as [[|] w'] end;
    simpl in *; [repeat split; assumption|].
  destruct (SQL.selectOrders _ (db w')) as [|row rows].
  - unfold ret. simpl. repeat split; assumption.
  - pose proof (loadOrderItems_frame (row :: rows) w')
      as (Hd' & Hu' & Hp' & _ & Hs').
    destruct (orderStorage.loadOrderItems (row :: rows) w') as [[os|e] w''];
      simpl in *; repeat split; congruence.
Qed.

(** A read that ends with an error stores nothing in its cache. *)
Lemma Products_error_on_empty req w e :
  productCache w = ∅ ->
  fst (productStorage.Products env req w) = Err e ->
  productCache (snd (productStorage.Products env req w)) = ∅.
Proof.
  intros Hc. unfold productStorage.Products. simpl. rewrite Hc.
  rewrite DeleteExpired_empty, Get_miss_on_empty.
  match goal with |- context [roundTrip ?x] =>
    pose proof (roundTrip_caches x) as (_ & Hp & _);
    destruct (roundTrip x) as [[|] w'] end; simpl in *.
  - intros _. exact Hp.
  - discriminate.
Qed.

Lemma Orders_error_on_empty req w e :
  orderCache w = ∅ ->
  fst (orderStorage.Orders env req w) = Err e ->
  orderCache (snd (orderStorage.Orders env req w)) = ∅.
Proof.
  intros Hc. unfold orderStorage.Orders. simpl. rewrite Hc.
  rewrite DeleteExpired_empty, Get_miss_on_empty.
  match goal with |- context [roundTrip ?x] =>
    pose proof (roundTrip_caches x) as (_ & _ & Ho);
    destruct (roundTrip x) as [[|] w'] end; simpl in *.
  - intros _. exact Ho.
  - destruct (SQL.selectOrders _ (db w')) as [|row rows].
    + unfold ret. simpl. discriminate.
    + pose proof (loadOrderItems_frame (row :: rows) w')
        as (_ & _ & _ & Ho' & _).
      destruct (orderStorage.loadOrderItems (row :: rows) w')
        as [[os|e'] w'']; simpl in *; [discriminate|].
      intros _. congruence.
Qed.

End ReadPaths.

(* ================================================================== *)
(** * The write paths and their caches *)

Section WritePaths.

Variable env : Env.

Implicit Types (w : World).

Lemma CreateUser_cache user w :
  userStorage.CreateUser env user (clearUsers w)
  = userStorage.CreateUser env user w
  /\ userCache (snd (userStorage.CreateUser env user w)) = ∅
  /\ productCache (snd (userStorage.CreateUser env user w)) = productCache w
  /\ orderCache (snd (userStorage.CreateUser env user w)) = orderCache w
  /\ (snd (fst (userStorage.CreateUser env user w)) <> None ->
      db (snd (userStorage.CreateUser env user w)) = db w).
Proof.
  unfold userStorage.CreateUser, clearUsers, ttlcache.DeleteAll. simpl.
  split; [reflexivity|].
  destruct (User.Validate env user (rt w)) as [[u' [e|]] r']; simpl;
    [repeat split; reflexivity|].
  match goal with |- context [roundTrip ?x] =>
    pose proof (roundTrip_db x) as Hd;
    pose proof (roundTrip_caches x) as (Hu & Hp & Ho);
    destruct (roundTrip x) as [[|] w'] end; simpl in *;
    repeat split; try assumption; congruence.
Qed.

Lemma CreateProduct_cache product w :
  productStorage.CreateProduct env product (clearProducts w)
  = productStorage.CreateProduct env product w
  /\ productCache (snd (productStorage.CreateProduct env product w)) = ∅
  /\ userCache (snd (productStorage.CreateProduct env product w))
     = userCache w
  /\ orderCache (snd (productStorage.CreateProduct env product w))
     = orderCache w
  /\ (snd (fst (productStorage.CreateProduct env product w)) <> None ->
      db (snd (productStorage.CreateProduct env product w)) = db w).
Proof.
  unfold productStorage.CreateProduct, clearProducts, ttlcache.DeleteAll.
  simpl. split; [reflexivity|].
  destruct (Product.Validate env product (rt w)) as [[p' [e|]] r']; simpl;
    [repeat split; reflexivity|].
  match goal with |- context [roundTrip ?x] =>
    pose proof (roundTrip_db x) as Hd;
    pose proof (roundTrip_caches x) as (Hu & Hp & Ho);
    destruct (roundTrip x) as [[|] w'] end; simpl in *;
    repeat split; try assumption; congruence.
Qed.

Lemma insertItems_caches items : forall tx w,
  userCache (snd (orderStorage.insertItems items tx w)) = userCache w
  /\ productCache (snd (orderStorage.insertItems items tx w))
     = productCache w
  /\ orderCache (snd (orderStorage.insertItems items tx w)) = orderCache w.
Proof.
  induction items as [|item rest IH]; intros tx w; simpl;
    [repeat split; reflexivity|].
  unfold orderStorage.txExec.
  pose proof (roundTrip_caches w) as (Hu & Hp & Ho).
  destruct (roundTrip w) as [[|] w1]; simpl in *;
    [repeat split; assumption|].
  destruct (IH (SQL.insertOrderItem item tx) w1) as (Hu' & Hp' & Ho').
  repeat split; congruence.
Qed.

Lemma CreateOrder_cache order w :
  orderStorage.CreateOrder env order (clearOrders w)
  = orderStorage.CreateOrder env order w
  /\ orderCache (snd (orderStorage.CreateOrder env order w)) = ∅
  /\ userCache (snd (orderStorage.CreateOrder env order w)) = userCache w
  /\ productCache (snd (orderStorage.CreateOrder env order w))
     = productCache w.
Proof.
  unfold orderStorage.CreateOrder, clearOrders, ttlcache.DeleteAll.
  split; [reflexivity|].
  change (rt (withOrderCache ∅ w)) with (rt w).
  destruct (Order.Validate env order (rt w)) as [[o' [e|]] r']; simpl;
    [repeat split; reflexivity|].
  set (w0 := withRt r' (withOrderCache ∅ w)).
  pose proof (roundTrip_caches w0) as (Hu1 & Hp1 & Ho1).
  destruct (roundTrip w0) as [[|] w1]; simpl in *;
    [repeat split; assumption|].
  unfold orderStorage.txExec.
  pose proof (roundTrip_caches w1) as (Hu2 & Hp2 & Ho2).
  destruct (roundTrip w1) as [[|] w2]; simpl in *.
  { unfold orderStorage.txRollback.
    pose proof (roundTrip_caches w2) as (Hu3 & Hp3 & Ho3).
    repeat split; congruence. }
  pose proof (insertItems_caches (Order.Items o')
                (SQL.insertOrder o' (db w1)) w2) as (Hu3 & Hp3 & Ho3).
  destruct (orderStorage.insertItems (Order.Items o')
              (SQL.insertOrder o' (db w1)) w2) as [[tx'|e] w3]; simpl in *.
  2: { unfold orderStorage.txRollback.
       pose proof (roundTrip_caches w3) as (Hu4 & Hp4 & Ho4).
       repeat split; congruence. }
  unfold orderStorage.txCommit.
  pose proof (roundTrip_caches w3) as (Hu4 & Hp4 & Ho4).
  destruct (roundTrip w3) as [[|] w4]; simpl in *; repeat split; congruence.
Qed.

Lemma UpdateProduct_cache req w :
  productStorage.UpdateProduct env req (clearProducts w)
  = productStorage.UpdateProduct env req w
  /\ userCache (snd (productStorage.UpdateProduct env req w)) = userCache w
  /\ orderCache (snd (productStorage.UpdateProduct env req w))
     = orderCache w
  /\ (forall e, UpdateProductRequest.Validate env req = Some e ->
        productStorage.UpdateProduct env req w = (Err e, clearProducts w))
  /\ (forall e, fst (productStorage.UpdateProduct env req w) = Err e ->
        kind e <> ErrProductNotFound ->
        productCache (snd (productStorage.UpdateProduct env req w)) = ∅).
Proof.
  unfold productStorage.UpdateProduct, clearProducts, bind, modify,
    getWorld, throw, ret, roundTripM, ttlcache.DeleteAll. simpl.
  split; [reflexivity|].
  destruct (UpdateProductRequest.Validate env req) as [e0|]; simpl.
  { repeat split; try reflexivity; intros e H; inversion H; reflexivity. }
  set (w0 := withProductCache ∅ w).
  pose proof (roundTrip_caches w0) as (Hu1 & Hp1 & Ho1).
  destruct (roundTrip w0) as [[|] w1]; simpl in *.
  { repeat split; try assumption; [discriminate|]. intros; assumption. }
  set (w2 := withDb (SQL.updateProduct env (Now (rt w)) req (db w1)) w1).
  pose proof (Products_frame env
                (productStorage.byId (UpdateProductRequest.Id req)) w2)
    as (_ & Hu3 & Ho3 & _).
  pose proof (Products_error_on_empty env
                (productStorage.byId (UpdateProductRequest.Id req)) w2)
    as Herr.
  destruct (productStorage.Products env
              (productStorage.byId (UpdateProductRequest.Id req)) w2)
    as [[[|p ps]|e1] w3]; simpl in *.
  - repeat split; try congruence.
    intros e H. inversion H; subst. simpl. congruence.
  - repeat split; try congruence.
  - repeat split; try congruence.
    intros e H _. apply (Herr e1); [exact Hp1 | reflexivity].
Qed.

Lemma UpdateOrder_cache req w :
  orderStorage.UpdateOrder env req (clearOrders w)
  = orderStorage.UpdateOrder env req w
  /\ userCache (snd (orderStorage.UpdateOrder env req w)) = userCache w
  /\ productCache (snd (orderStorage.UpdateOrder env req w))
     = productCache w
  /\ (forall e, UpdateOrderRequest.Validate req = Some e ->
        orderStorage.UpdateOrder env req w = (Err e, clearOrders w))
  /\ (forall e, fst (orderStorage.UpdateOrder env req w) = Err e ->
        kind e <> ErrOrderNotFound ->
        orderCache (snd (orderStorage.UpdateOrder env req w)) = ∅).
Proof.
  unfold orderStorage.UpdateOrder, clearOrders, bind, modify,
    getWorld, throw, ret, roundTripM, ttlcache.DeleteAll. simpl.
  split; [reflexivity|].
  destruct (UpdateOrderRequest.Validate req) as [e0|]; simpl.
  { repeat split; try reflexivity; intros e H; inversion H; reflexivity. }
  set (w0 := withOrderCache ∅ w).
  pose proof (roundTrip_caches w0) as (Hu1 & Hp1 & Ho1).
  destruct (roundTrip w0) as [[|] w1]; simpl in *.
  { repeat split; try assumption; [discriminate|]. intros; assumption. }
  destruct (Nat.eqb (SQL.rowsAffected req (db w1)) 0); simpl.
  { repeat split; try assumption; [discriminate|].
    intros e H. inversion H; subst. simpl. congruence. }
  set (w2 := withDb (SQL.updateOrder (Now (rt w)) req (db w1)) w1).
  pose proof (Orders_frame env
                (orderStorage.byId (UpdateOrderRequest.Id req)) w2)
    as (_ & Hu3 & Hp3 & _).
  pose proof (Orders_error_on_empty env
                (orderStorage.byId (UpdateOrderRequest.Id req)) w2)
    as Herr.
  destruct (orderStorage.Orders env
              (orderStorage.byId (UpdateOrderRequest.Id req)) w2)
    as [[[|o os]|e1] w3]; simpl in *.
  - repeat split; try congruence.
    intros e H. inversion H; subst. simpl. congruence.
  - repeat split; try congruence.
  - repeat split; try congruence.
    intros e H _. apply (Herr e1); [exact Ho1 | reflexivity].
Qed.

End WritePaths.

(** C10: every write operation of a collection ([CreateUser],
    [CreateProduct], [UpdateProduct], [CreateOrder], [UpdateOrder]) empties
    that collection's cache as its first step, whatever follows: the call
    behaves as on the world with that cache already empty; after the three
    creates the cache is empty whether they succeed, fail validation or meet a
    driver error, and a failed create of a user or product writes no row; an
    update that fails validation stops with the cache empty and nothing else
    changed, and after an update that ends with any error but not-found
    (validation, driver) the cache is empty; the other two collections'
    caches are what they were. *)
Theorem writes_clear_own_cache (env : Env) (w : World) :
  (forall user,
     userStorage.CreateUser env user (clearUsers w)
     = userStorage.CreateUser env user w
     /\ userCache (snd (userStorage.CreateUser env user w)) = ∅
     /\ productCache (snd (userStorage.CreateUser env user w))
        = productCache w
     /\ orderCache (snd (userStorage.CreateUser env user w)) = orderCache w
     /\ (snd (fst (userStorage.CreateUser env user w)) <> None ->
         db (snd (userStorage.CreateUser env user w)) = db w))
  /\ (forall product,
     productStorage.CreateProduct env product (clearProducts w)
     = productStorage.CreateProduct env product w
     /\ productCache (snd (productStorage.CreateProduct env product w)) = ∅
     /\ userCache (snd (productStorage.CreateProduct env product w))
        = userCache w
     /\ orderCache (snd (productStorage.CreateProduct env product w))
        = orderCache w
     /\ (snd (fst (productStorage.CreateProduct env product w)) <> None ->
         db (snd (productStorage.CreateProduct env product w)) = db w))
  /\ (forall req,
     productStorage.UpdateProduct env req (clearProducts w)
     = productStorage.UpdateProduct env req w
     /\ userCache (snd (productStorage.UpdateProduct env req w))
        = userCache w
     /\ orderCache (snd (productStorage.UpdateProduct env req w))
        = orderCache w
     /\ (forall e, UpdateProductRequest.Validate env req = Some e ->
           productStorage.UpdateProduct env req w
           = (Err e, clearProducts w))
     /\ (forall e, fst (productStorage.UpdateProduct env req w) = Err e ->
           kind e <> ErrProductNotFound ->
           productCache (snd (productStorage.UpdateProduct env req w)) = ∅))
  /\ (forall order,
     orderStorage.CreateOrder env order (clearOrders w)
     = orderStorage.CreateOrder env order w
     /\ orderCache (snd (orderStorage.CreateOrder env order w)) = ∅
     /\ userCache (snd (orderStorage.CreateOrder env order w)) = userCache w
     /\ productCache (snd (orderStorage.CreateOrder env order w))
        = productCache w)
  /\ (forall req,
     orderStorage.UpdateOrder env req (clearOrders w)
     = orderStorage.UpdateOrder env req w
     /\ userCache (snd (orderStorage.UpdateOrder env req w)) = userCache w
     /\ productCache (snd (orderStorage.UpdateOrder env req w))
        = productCache w
     /\ (forall e, UpdateOrderRequest.Validate req = Some e ->
           orderStorage.UpdateOrder env req w = (Err e, clearOrders w))
     /\ (forall e, fst (orderStorage.UpdateOrder env req w) = Err e ->
           kind e <> ErrOrderNotFound ->
           orderCache (snd (orderStorage.UpdateOrder env req w)) = ∅)).
Proof.
  split; [intros user; apply CreateUser_cache|].
  split; [intros product; apply CreateProduct_cache|].
  split; [intros req; apply UpdateProduct_cache|].
  split; [intros order; apply CreateOrder_cache|].
  intros req; apply UpdateOrder_cache.
Qed.

Lemma writes_clear_own_cache_witness :
  let env := refEnv (fun l => l) in
  let w := snd (productStorage.Products env (productStorage.byId 2)
                  (freshWorld sampleDB)) in
  productCache w <> ∅
  /\ productCache
       (snd (productStorage.UpdateProduct env updateWithoutId w)) = ∅
  /\ db (snd (productStorage.UpdateProduct env updateWithoutId w)) = db w.
Proof.
  intros env w.
  destruct (writes_clear_own_cache env w) as (_ & _ & Hupdate & _).
  destruct (Hupdate updateWithoutId) as (_ & _ & _ & Hinvalid & _).
  split.
  - intros Hempty.
    assert (H : productCache w
                !! GetProductsRequest.CacheKey env
                     (GetProductsRequest.Validate (productStorage.byId 2))
                = None) by (rewrite Hempty; apply lookup_empty).
    vm_compute in H. discriminate.
  - rewrite (Hinvalid _ eq_refl). split; reflexivity.
Defined.

(* ================================================================== *)
(** * Reads on a reliable store with an agreeing cache *)

Section ReliableReads.

Variable env : Env.

Implicit Types (w : World).

Lemma bind_ok {A B : Type} (m : M A) (k : A -> M B) w a w' :
  m w = (Ok a, w') -> bind m k w = k a w'.
Proof. unfold bind. intros ->. reflexivity. Qed.

Lemma bind_err {A B : Type} (m : M A) (k : A -> M B) w e w' :
  m w = (Err e, w') -> bind m k w = (Err e, w').
Proof. unfold bind. intros ->. reflexivity. Qed.

Lemma Get_DeleteExpired {V : Type} now k (c : gmap CacheKey (ttlcache.Item V)) :
  match fst (ttlcache.Get now k (ttlcache.DeleteExpired now c)) with
  | Some v => exists it, c !! k = Some it /\ ttlcache.value it = v
  | None => True
  end.
Proof.
  unfold ttlcache.Get, ttlcache.DeleteExpired.
  destruct (filter _ c !! k) as [it|] eqn:E; simpl; [|exact I].
  apply map_lookup_filter_Some in E. destruct E as [E _].
  destruct (ttlcache.isExpired now it); simpl; [exact I|].
  exists it. split; [exact E | reflexivity].
Qed.

Lemma Users_reliable req w :
  Reliable w -> usersFresh env req w ->
  userStorage.Users env req w
  = (Ok (SQL.selectUsers (GetUsersRequest.Validate req) (db w)),
     snd (userStorage.Users env req w))
  /\ Reliable (snd (userStorage.Users env req w)).
Proof.
  intros Hrel Hfresh. unfold userStorage.Users. simpl.
  pose proof (Get_DeleteExpired (Now (rt w))
                (GetUsersRequest.CacheKey env (GetUsersRequest.Validate req))
                (userCache w)) as Hget.
  destruct (ttlcache.Get _ _ _) as [[cached|] c]; simpl in *.
  - destruct Hget as (it & Hit & Hv). rewrite <- Hv, (Hfresh it Hit).
    split; [reflexivity | exact Hrel].
  - match goal with |- context [roundTrip ?x] =>
      pose proof (roundTrip_db x) as Hd;
      destruct (roundTrip_reliable x Hrel) as [Hok Hrel'];
      destruct (roundTrip x) as [b w'] end; simpl in *. subst b.
    simpl. rewrite Hd. split; [reflexivity | exact Hrel'].
Qed.

Lemma Products_reliable req w :
  Reliable w -> productsFresh env req w ->
  productStorage.Products env req w
  = (Ok (SQL.selectProducts env (GetProductsRequest.Validate req) (db w)),
     snd (productStorage.Products env req w))
  /\ Reliable (snd (productStorage.Products env req w)).
Proof.
  intros Hrel Hfresh. unfold productStorage.Products. simpl.
  pose proof (Get_DeleteExpired (Now (rt w))
                (GetProductsRequest.CacheKey env
                   (GetProductsRequest.Validate req))
                (productCache w)) as Hget.
  destruct (ttlcache.Get _ _ _) as [[cached|] c]; simpl in *.
  - destruct Hget as (it & Hit & Hv). rewrite <- Hv, (Hfresh it Hit).
    split; [reflexivity | exact Hrel].
  - match goal with |- context [roundTrip ?x] =>
      pose proof (roundTrip_db x) as Hd;
      destruct (roundTrip_reliable x Hrel) as [Hok Hrel'];
      destruct (roundTrip x) as [b w'] end; simpl in *. subst b.
    simpl. rewrite Hd. split; [reflexivity | exact Hrel'].
Qed.

Lemma Orders_reliable req w :
  Reliable w -> ordersFresh env req w ->
  orderStorage.Orders env req w
  = (Ok (ordersAnswer (GetOrdersRequest.Validate req) (db w)),
     snd (orderStorage.Orders env req w))
  /\ Reliable (snd (orderStorage.Orders env req w)).
Proof.
  intros Hrel Hfresh. unfold orderStorage.Orders. simpl.
  pose proof (Get_DeleteExpired (Now (rt w))
                (GetOrdersRequest.CacheKey env
                   (GetOrdersRequest.Validate req))
                (orderCache w)) as Hget.
  destruct (ttlcache.Get _ _ _) as [[cached|] c]; simpl in *.
  - destruct Hget as (it & Hit & Hv). rewrite <- Hv, (Hfresh it Hit).
    split; [reflexivity | exact Hrel].
  - match goal with |- context [roundTrip ?x] =>
      pose proof (roundTrip_db x) as Hd;
      destruct (roundTrip_reliable x Hrel) as [Hok Hrel'];
      destruct (roundTrip x) as [b w'] end; simpl in *. subst b.
    simpl. unfold ordersAnswer. rewrite Hd.
    destruct (SQL.selectOrders (GetOrdersRequest.Validate req) (db w))
      as [|row rows] eqn:Erows.
    + unfold ret. simpl. split; [reflexivity | exact Hrel'].
    + unfold orderStorage.loadOrderItems, bind, roundTripM, getWorld, ret.
      pose proof (roundTrip_db w') as Hd'.
      destruct (roundTrip_reliable w' Hrel') as [Hok' Hrel''].
      destruct (roundTrip w') as [b w'']; simpl in *. subst b. simpl.
      rewrite Hd', Hd. split; [reflexivity | exact Hrel''].
Qed.

End ReliableReads.

(* ================================================================== *)
(** * Queries and maps *)

Section Queries.

Variable env : Env.

Lemma page_subseteq {A : Type} (limit offset : Z) (rows : list A) (x : A) :
  x ∈ page limit offset rows -> x ∈ rows.
Proof.
  unfold page. intros H. apply subseteq_take in H.
  apply subseteq_drop in H. exact H.
Qed.

Lemma page_first {A : Type} (rows : list A) :
  rows <> [] -> page 1 0 rows <> [].
Proof. destruct rows; [congruence | discriminate]. Qed.

Lemma page_all {A : Type} (limit : Z) (rows : list A) :
  (length rows <= Z.to_nat limit)%nat -> page limit 0 rows = rows.
Proof. intros H. unfold page. simpl. apply take_ge. exact H. Qed.

Lemma selectProducts_elem r d p :
  p ∈ SQL.selectProducts env r d ->
  p ∈ products d /\ SQL.productMatches env r p = true.
Proof.
  unfold SQL.selectProducts. intros H. apply page_subseteq in H.
  rewrite merge_sort_Permutation in H.
  apply list_elem_of_filter in H. destruct H as [Hm Hin].
  split; [exact Hin | apply Is_true_eq_true; exact Hm].
Qed.

Lemma inIfAny_singleton (id k : UUID) : inIfAny [id] k = true <-> k = id.
Proof.
  unfold inIfAny. rewrite bool_decide_eq_true. apply list_elem_of_singleton.
Qed.

Lemma productMatches_byId id p :
  SQL.productMatches env
    (GetProductsRequest.Validate (productStorage.byId id)) p = true
  <-> Product.Id p = id.
Proof.
  unfold SQL.productMatches. simpl. rewrite !andb_true_r.
  apply inIfAny_singleton.
Qed.

Lemma productMatches_batch ids p :
  ids <> [] ->
  SQL.productMatches env
    (GetProductsRequest.Validate (orderAppService.batch ids)) p = true
  <-> Product.Id p ∈ ids.
Proof.
  intros Hne. unfold SQL.productMatches. simpl. rewrite !andb_true_r.
  unfold inIfAny. destruct ids; [congruence|]. apply bool_decide_eq_true.
Qed.

(** A row with the id is in the table: looking it up by id finds one. *)
Lemma selectProducts_byId_found id d :
  (exists p, p ∈ products d /\ Product.Id p = id) ->
  SQL.selectProducts env
    (GetProductsRequest.Validate (productStorage.byId id)) d <> [].
Proof.
  intros (p & Hin & Hid). unfold SQL.selectProducts.
  change (GetProductsRequest.Limit _) with (clampLimit 1).
  change (GetProductsRequest.Offset _) with (clampOffset 0).
  change (clampLimit 1) with 1. change (clampOffset 0) with 0.
  apply page_first. intros Hnil.
  assert (Hp : p ∈ merge_sort (byCreatedDescId Product.CreatedAt Product.Id)
                 (filter (fun p => SQL.productMatches env
                            (GetProductsRequest.Validate
                               (productStorage.byId id)) p) (products d))).
  { rewrite merge_sort_Permutation. apply list_elem_of_filter.
    split; [|exact Hin]. apply Is_true_eq_left.
    apply productMatches_byId. exact Hid. }
  rewrite Hnil in Hp. apply not_elem_of_nil in Hp. exact Hp.
Qed.

Lemma selectProducts_byId_elem id d p :
  p ∈ SQL.selectProducts env
        (GetProductsRequest.Validate (productStorage.byId id)) d ->
  p ∈ products d /\ Product.Id p = id.
Proof.
  intros H. apply selectProducts_elem in H. destruct H as [Hin Hm].
  split; [exact Hin | apply productMatches_byId; exact Hm].
Qed.

(** The product map built from a list holds, under each key, a product of
    the list with that id; and every id of the list is a key. *)
Lemma productMap_fold_lookup (l : list Product.t) :
  forall (m : gmap UUID Product.t) k p,
    fold_left (fun m product => <[Product.Id product := product]> m) l m
    !! k = Some p ->
    (p ∈ l /\ Product.Id p = k) \/ m !! k = Some p.
Proof.
  induction l as [|x l IH]; intros m k p H; simpl in H; [right; exact H|].
  apply IH in H. destruct H as [[Hin Hid]|H].
  - left. split; [apply list_elem_of_further; exact Hin | exact Hid].
  - destruct (decide (Product.Id x = k)) as [E|NE].
    + rewrite E, lookup_insert_eq in H. inversion H; subst.
      left. split; [apply list_elem_of_here | reflexivity].
    + rewrite lookup_insert_ne in H by exact NE. right. exact H.
Qed.

Lemma productMap_lookup l k p :
  orderAppService.productMap l !! k = Some p -> p ∈ l /\ Product.Id p = k.
Proof.
  intros H. apply productMap_fold_lookup in H.
  destruct H as [H|H]; [exact H|]. rewrite lookup_empty in H. discriminate.
Qed.

Lemma productMap_fold_is_Some (l : list Product.t) :
  forall (m : gmap UUID Product.t) k,
    (exists p, p ∈ l /\ Product.Id p = k) \/ is_Some (m !! k) ->
    is_Some (fold_left (fun m product => <[Product.Id product := product]> m)
                       l m !! k).
Proof.
  induction l as [|x l IH]; intros m k H; simpl.
  - destruct H as [(p & Hin & _)|H]; [|exact H].
    apply not_elem_of_nil in Hin. contradiction.
  - apply IH. destruct H as [(p & Hin & Hid)|H].
    + apply elem_of_cons in Hin. destruct Hin as [->|Hin].
      * right. rewrite Hid, lookup_insert_eq. eauto.
      * left. exists p. split; assumption.
    + right. destruct (decide (Product.Id x = k)) as [E|NE].
      * rewrite E, lookup_insert_eq. eauto.
      * rewrite lookup_insert_ne by exact NE. exact H.
Qed.

Lemma productMap_is_Some l k :
  (exists p, p ∈ l /\ Product.Id p = k) ->
  is_Some (orderAppService.productMap l !! k).
Proof. intros H. apply productMap_fold_is_Some. left. exact H. Qed.

(** What the batch load returned is in the table under its id. *)
Lemma loadedProducts_sound req d k p :
  loadedProducts env req d !! k = Some p ->
  p ∈ products d /\ Product.Id p = k.
Proof.
  unfold loadedProducts. intros H. apply productMap_lookup in H.
  destruct H as [Hin Hid]. apply selectProducts_elem in Hin.
  split; [apply Hin | exact Hid].
Qed.

End Queries.

(* ================================================================== *)
(** * Aggregating quantities per product *)

Section Aggregation.

Lemma wrap_add_l (a b : Z) : wrap (wrap a + b) = wrap (a + b).
Proof.
  unfold wrap. f_equal.
  replace ((a + 2 ^ 63) mod 2 ^ 64 - 2 ^ 63 + b + 2 ^ 63)
    with ((a + 2 ^ 63) mod 2 ^ 64 + b) by lia.
  rewrite Zplus_mod_idemp_l. f_equal. lia.
Qed.

(** [m[k] += q] over a list of (key, quantity) pairs, generically. *)
Lemma addQuantity_fold_lookup {A : Type} (key : A -> UUID) (qty : A -> Z)
    (items : list A) : forall (m : gmap UUID Z) (k : UUID),
  fold_left (fun m item => orderAppService.addQuantity m (key item) (qty item))
            items m !! k
  = match map qty (filter (fun item => key item = k) items) with
    | [] => m !! k
    | qs => Some (wrap (default 0 (m !! k) + sumZ qs))
    end.
Proof.
  induction items as [|item rest IH]; intros m k; simpl; [reflexivity|].
  rewrite IH. unfold orderAppService.addQuantity at 1 2.
  rewrite filter_cons. destruct (decide (key item = k)) as [E|NE].
  - rewrite E, lookup_insert_eq. simpl.
    destruct (map qty (filter (fun item => key item = k) rest)) as [|q qs].
    + unfold int_add, sumZ. simpl. do 2 f_equal. lia.
    + simpl. unfold int_add. rewrite wrap_add_l. do 2 f_equal.
      unfold sumZ. simpl. lia.
  - rewrite lookup_insert_ne by exact NE. reflexivity.
Qed.

Lemma requestedQuantities_lookup items k :
  orderAppService.requestedQuantities items !! k
  = match linesOf k items with
    | [] => None
    | qs => Some (wrap (sumZ qs))
    end.
Proof.
  unfold orderAppService.requestedQuantities, linesOf.
  rewrite (addQuantity_fold_lookup CreateOrderItemRequest.ProductId
             CreateOrderItemRequest.Quantity).
  rewrite lookup_empty. reflexivity.
Qed.

Lemma productQuantityToRestore_lookup items k :
  orderAppService.productQuantityToRestore items !! k
  = match itemsOf k items with
    | [] => None
    | qs => Some (wrap (sumZ qs))
    end.
Proof.
  unfold orderAppService.productQuantityToRestore, itemsOf.
  rewrite (addQuantity_fold_lookup OrderItem.ProductId OrderItem.Quantity).
  rewrite lookup_empty. reflexivity.
Qed.

Lemma linesOf_nonempty items k :
  linesOf k items <> [] <-> k ∈ orderAppService.productIds items.
Proof.
  unfold linesOf, orderAppService.productIds.
  induction items as [|item rest IH]; simpl.
  - split; [congruence | intros H; apply not_elem_of_nil in H; contradiction].
  - rewrite filter_cons, elem_of_cons.
    destruct (decide (CreateOrderItemRequest.ProductId item = k)) as [E|NE].
    + split; [intros _; left; congruence | discriminate].
    + rewrite IH. split; [intros H; right; exact H|].
      intros [H|H]; [congruence | exact H].
Qed.

Lemma requestedQuantities_is_Some items k :
  is_Some (orderAppService.requestedQuantities items !! k)
  <-> k ∈ orderAppService.productIds items.
Proof.
  rewrite requestedQuantities_lookup, <- linesOf_nonempty.
  destruct (linesOf k items); split; intros H;
    try congruence; try (destruct H; discriminate); eauto.
Qed.

End Aggregation.

(* ================================================================== *)
(** * The stock check *)

Section StockCheck.

Implicit Types (pm : gmap UUID Product.t) (entries : list (UUID * Z)).

Lemma checkStock_None pm entries :
  orderAppService.checkStock pm entries = None <->
  forall k q, (k, q) ∈ entries ->
    exists p, pm !! k = Some p /\ q <= Product.Quantity p.
Proof.
  induction entries as [|[k0 q0] rest IH]; simpl.
  - split; [|reflexivity]. intros _ k q H.
    apply not_elem_of_nil in H. contradiction.
  - destruct (pm !! k0) as [p0|] eqn:E.
    + destruct (Z.ltb_spec (Product.Quantity p0) q0).
      * split; [discriminate|]. intros H'.
        destruct (H' k0 q0 (list_elem_of_here _ _)) as (p & Hp & Hle).
        rewrite E in Hp. inversion Hp; subst. lia.
      * rewrite IH. split.
        -- intros H' k q Hin. apply elem_of_cons in Hin.
           destruct Hin as [Heq|Hin]; [|apply H'; exact Hin].
           inversion Heq; subst. exists p0. split; [exact E | lia].
        -- intros H' k q Hin. apply H'. apply list_elem_of_further. exact Hin.
    + split; [discriminate|]. intros H'.
      destruct (H' k0 q0 (list_elem_of_here _ _)) as (p & Hp & _).
      rewrite E in Hp. discriminate.
Qed.

Lemma checkStock_Some pm entries e :
  orderAppService.checkStock pm entries = Some e ->
  exists k q, (k, q) ∈ entries
    /\ ((pm !! k = None
         /\ e = Errorf ErrProductNotFound "%w: product %s not found"
                  [ArgUUID k])
        \/ (exists p, pm !! k = Some p /\ Product.Quantity p < q
            /\ e = Errorf ErrInsufficientStock
                     "%w: product %s has only %d items but %d requested"
                     [ArgUUID k; ArgInt (Product.Quantity p); ArgInt q])).
Proof.
  induction entries as [|[k0 q0] rest IH]; simpl; [discriminate|].
  destruct (pm !! k0) as [p0|] eqn:E.
  - destruct (Z.ltb_spec (Product.Quantity p0) q0).
    + intros H'. inversion H'; subst. exists k0, q0.
      split; [apply list_elem_of_here|]. right. exists p0. auto.
    + intros H'. destruct (IH H') as (k & q & Hin & Hcase).
      exists k, q. split; [apply list_elem_of_further; exact Hin | exact Hcase].
  - intros H'. inversion H'; subst. exists k0, q0.
    split; [apply list_elem_of_here|]. left. auto.
Qed.

End StockCheck.

(* ================================================================== *)
(** * The orchestrator: creating an order *)

Section CreateOrderChecks.

Variable env : Env.

Implicit Types (w : World) (req : CreateOrderRequest.t).

Lemma inIfAny_users_byId id u :
  inIfAny (GetUsersRequest.Ids
             (GetUsersRequest.Validate (orderAppService.userById id)))
          (User.Id u) = true
  <-> User.Id u = id.
Proof. simpl. apply inIfAny_singleton. Qed.

Lemma selectUsers_byId_found id d :
  (exists u, u ∈ users d /\ User.Id u = id) ->
  SQL.selectUsers (GetUsersRequest.Validate (orderAppService.userById id)) d
  <> [].
Proof.
  intros (u & Hin & Hid). unfold SQL.selectUsers.
  change (GetUsersRequest.Limit _) with 1.
  change (GetUsersRequest.Offset _) with 0.
  apply page_first. intros Hnil.
  assert (Hu : u ∈ merge_sort (byCreatedDescId User.CreatedAt User.Id)
                 (filter (fun u => inIfAny
                            (GetUsersRequest.Ids
                               (GetUsersRequest.Validate
                                  (orderAppService.userById id)))
                            (User.Id u)) (users d))).
  { rewrite merge_sort_Permutation. apply list_elem_of_filter.
    split; [|exact Hin]. apply Is_true_eq_left.
    apply inIfAny_users_byId. exact Hid. }
  rewrite Hnil in Hu. apply not_elem_of_nil in Hu. exact Hu.
Qed.

Lemma selectUsers_byId_none id d :
  (forall u, u ∈ users d -> User.Id u <> id) ->
  SQL.selectUsers (GetUsersRequest.Validate (orderAppService.userById id)) d
  = [].
Proof.
  intros Hnone.
  destruct (SQL.selectUsers _ d) as [|u us] eqn:E; [reflexivity|].
  assert (Hu : u ∈ SQL.selectUsers
                 (GetUsersRequest.Validate (orderAppService.userById id)) d)
    by (rewrite E; apply list_elem_of_here).
  unfold SQL.selectUsers in Hu. apply page_subseteq in Hu.
  rewrite merge_sort_Permutation in Hu.
  apply list_elem_of_filter in Hu. destruct Hu as [Hm Hin].
  apply Is_true_eq_true, inIfAny_users_byId in Hm.
  exfalso. exact (Hnone u Hin Hm).
Qed.

Lemma productsFresh_frame preq w w' :
  db w' = db w -> productCache w' = productCache w ->
  productsFresh env preq w -> productsFresh env preq w'.
Proof. unfold productsFresh. intros -> ->. auto. Qed.

Lemma rangeMap_entries (m : gmap UUID Z) w :
  RangeOk env ->
  exists entries,
    rangeMap env m w
    = (Ok entries,
       withRt {| clock := clock (rt w); seed := S (seed (rt w)) |} w)
    /\ forall k q, (k, q) ∈ entries <-> m !! k = Some q.
Proof.
  intros Hrange. eexists. split; [reflexivity|]. intros k q.
  rewrite (Hrange (seed (rt w)) (map_to_list m)).
  apply elem_of_map_to_list.
Qed.

(** Up to the check loop: on a reliable store with agreeing caches and an
    existing user, [CreateOrder] is the stock check on the loaded products,
    in the world the two reads leave, and then the rest. *)
Lemma CreateOrder_until_check req w :
  CreateOrderRequest.Validate req = None ->
  RangeOk env -> Reliable w ->
  usersFresh env (orderAppService.userById (CreateOrderRequest.UserId req)) w ->
  productsFresh env
    (orderAppService.batch
       (orderAppService.productIds (CreateOrderRequest.Items req))) w ->
  (exists u, u ∈ users (db w) /\ User.Id u = CreateOrderRequest.UserId req) ->
  exists entries,
    (forall k q, (k, q) ∈ entries <->
       orderAppService.requestedQuantities (CreateOrderRequest.Items req)
       !! k = Some q)
    /\ db (afterReads env req w) = db w
    /\ Reliable (afterReads env req w)
    /\ orderAppService.CreateOrder env req w
       = match orderAppService.checkStock
                 (loadedProducts env req (db w)) entries with
         | Some e => (Err e, afterReads env req w)
         | None =>
             orderAppService.afterCheck env req
               (loadedProducts env req (db w)) (afterReads env req w)
         end.
Proof.
  intros Hvalid Hrange Hrel Hufresh Hpfresh Huser.
  set (ureq := orderAppService.userById (CreateOrderRequest.UserId req)).
  set (preq := orderAppService.batch
                 (orderAppService.productIds (CreateOrderRequest.Items req))).
  destruct (Users_reliable env ureq w Hrel Hufresh) as [HU Hrel1].
  destruct (Users_frame env ureq w) as (Hdb1 & Hpc1 & _ & _).
  set (w1 := snd (userStorage.Users env ureq w)) in *.
  assert (Hpfresh1 : productsFresh env preq w1)
    by (apply (productsFresh_frame preq w w1); assumption).
  destruct (Products_reliable env preq w1 Hrel1 Hpfresh1) as [HP Hrel2].
  destruct (Products_frame env preq w1) as (Hdb2 & _ & _ & _).
  set (w2 := snd (productStorage.Products env preq w1)) in *.
  destruct (rangeMap_entries
              (orderAppService.requestedQuantities
                 (CreateOrderRequest.Items req)) w2 Hrange)
    as (entries & HR & Hentries).
  assert (Hafter : afterReads env req w
                   = withRt {| clock := clock (rt w2);
                               seed := S (seed (rt w2)) |} w2).
  { unfold afterReads. fold ureq preq w1 w2. rewrite HR. reflexivity. }
  exists entries. split; [exact Hentries|].
  split; [rewrite Hafter; simpl; congruence|].
  split; [rewrite Hafter; exact Hrel2|].
  unfold orderAppService.CreateOrder. rewrite Hvalid. fold ureq preq.
  rewrite (bind_ok _ _ _ _ _ HU).
  assert (Hne : SQL.selectUsers (GetUsersRequest.Validate ureq) (db w) <> [])
    by (apply selectUsers_byId_found; exact Huser).
  destruct (SQL.selectUsers (GetUsersRequest.Validate ureq) (db w))
    as [|u us]; [congruence|].
  rewrite (bind_ok _ _ _ _ _ HP).
  rewrite (bind_ok _ _ _ _ _ HR).
  unfold loadedProducts. fold preq.
  rewrite Hdb1, Hafter.
  destruct (orderAppService.checkStock _ entries); reflexivity.
Qed.

End CreateOrderChecks.

(** C1 (amended): on a reliable store whose caches agree with it, for every
    request that passed validation and whose user and products were found:
    the quantity asked of each distinct product id is the [int] sum (it
    wraps around past [MaxInt]) of the quantities of the lines naming it,
    and if some requested product has less in stock than that sum as
    computed, [CreateOrder] fails with
    [InsufficientStock] naming such a product, what it has and what was
    asked of it; the world is then the one the two list reads leave: the
    data is untouched, no product was changed in memory, no update was
    issued. *)
Theorem CreateOrder_insufficient_stock
    (env : Env) (req : CreateOrderRequest.t) (w : World) :
  CreateOrderRequest.Validate req = None ->
  RangeOk env -> Reliable w ->
  usersFresh env (orderAppService.userById (CreateOrderRequest.UserId req)) w ->
  productsFresh env
    (orderAppService.batch
       (orderAppService.productIds (CreateOrderRequest.Items req))) w ->
  (exists u, u ∈ users (db w) /\ User.Id u = CreateOrderRequest.UserId req) ->
  (forall k, k ∈ orderAppService.productIds (CreateOrderRequest.Items req) ->
             is_Some (loadedProducts env req (db w) !! k)) ->
  (exists k p,
      k ∈ orderAppService.productIds (CreateOrderRequest.Items req)
      /\ loadedProducts env req (db w) !! k = Some p
      /\ Product.Quantity p
         < wrap (sumZ (linesOf k (CreateOrderRequest.Items req)))) ->
  exists k p,
    k ∈ orderAppService.productIds (CreateOrderRequest.Items req)
    /\ p ∈ products (db w) /\ Product.Id p = k
    /\ Product.Quantity p
       < wrap (sumZ (linesOf k (CreateOrderRequest.Items req)))
    /\ orderAppService.CreateOrder env req w
       = (Err (Errorf ErrInsufficientStock
                 "%w: product %s has only %d items but %d requested"
                 [ArgUUID k; ArgInt (Product.Quantity p);
                  ArgInt (wrap (sumZ (linesOf k
                                        (CreateOrderRequest.Items req))))]),
          afterReads env req w)
    /\ db (afterReads env req w) = db w.
Proof.
  intros Hvalid Hrange Hrel Hufresh Hpfresh Huser Hall (k0 & p0 & Hk0 & Hp0 & Hlt0).
  destruct (CreateOrder_until_check env req w Hvalid Hrange Hrel Hufresh
              Hpfresh Huser) as (entries & Hentries & Hdb & _ & Hfail).
  assert (Hreq : forall k q, (k, q) ∈ entries ->
            k ∈ orderAppService.productIds (CreateOrderRequest.Items req)
            /\ q = wrap (sumZ (linesOf k (CreateOrderRequest.Items req)))).
  { intros k q Hin. apply Hentries in Hin.
    split; [apply requestedQuantities_is_Some; eauto|].
    rewrite requestedQuantities_lookup in Hin.
    destruct (linesOf k (CreateOrderRequest.Items req)); congruence. }
  destruct (orderAppService.checkStock (loadedProducts env req (db w)) entries)
    as [e|] eqn:Hcheck.
  - destruct (checkStock_Some _ _ _ Hcheck) as (k & q & Hin & Hcase).
    destruct (Hreq k q Hin) as [Hk Hq].
    destruct Hcase as [[Hnone _]|(p & Hp & Hlt & He)].
    + destruct (Hall k Hk) as [p Hp]. congruence.
    + destruct (loadedProducts_sound env req (db w) k p Hp) as [Hrow Hid].
      exists k, p. subst q e.
      repeat split; try assumption.
  - exfalso. clear Hfail. rewrite checkStock_None in Hcheck.
    assert (Hin0 : (k0, wrap (sumZ (linesOf k0 (CreateOrderRequest.Items req))))
                   ∈ entries).
    { apply Hentries. rewrite requestedQuantities_lookup.
      apply linesOf_nonempty in Hk0.
      destruct (linesOf k0 (CreateOrderRequest.Items req));
        [congruence | reflexivity]. }
    destruct (Hcheck _ _ Hin0) as (p & Hp & Hle).
    rewrite Hp0 in Hp. inversion Hp; subst. lia.
Qed.

Lemma CreateOrder_insufficient_stock_witness :
  orderAppService.CreateOrder (refEnv (fun l => l)) twoLines
    (freshWorld shortDB)
  = (Err (Errorf ErrInsufficientStock
            "%w: product %s has only %d items but %d requested"
            [ArgUUID 2; ArgInt 4; ArgInt 5]),
     afterReads (refEnv (fun l => l)) twoLines (freshWorld shortDB))
  /\ db (afterReads (refEnv (fun l => l)) twoLines (freshWorld shortDB))
     = shortDB.
Proof.
  destruct (CreateOrder_insufficient_stock (refEnv (fun l => l)) twoLines
              (freshWorld shortDB)) as (k & p & Hk & Hp & Hid & _ & Hres & Hdb).
  - reflexivity.
  - intros n l. reflexivity.
  - constructor.
  - intros it H. cbn [userCache freshWorld] in H.
    rewrite lookup_empty in H. discriminate.
  - intros it H. cbn [productCache freshWorld] in H.
    rewrite lookup_empty in H. discriminate.
  - exists (sampleUser 7). split; [apply list_elem_of_here | reflexivity].
  - intros k Hk. vm_compute in Hk.
    apply elem_of_cons in Hk. destruct Hk as [->|Hk].
    + vm_compute. eauto.
    + apply list_elem_of_singleton in Hk. subst k. vm_compute. eauto.
  - exists 2%N, (sampleProduct 2 4).
    split; [apply list_elem_of_here|]. split; vm_compute; reflexivity.
  - simpl in Hp. apply list_elem_of_singleton in Hp. subst p.
    simpl in Hid. subst k. split; [exact Hres | exact Hdb].
Defined.

(** C1, as the specification states it, fails: the quantities of the lines
    of a product are added as [int]s.  Lines asking for [MaxInt] and for 1
    of product 2 add up to 2^63, far more than the 4 in stock, but the
    [int] sum is [MinInt], which the stock check lets through; when the
    reserve loop meets product 3 first, its stock goes from 10 to 9 and the
    update is stored, then the reservation of product 2 is refused with
    [InvalidQuantity], and no order is created. *)
Lemma CreateOrder_overflowing_sum_reserves :
  CreateOrderRequest.Validate hugeLines = None
  /\ RangeOk (refEnv (@rev _))
  /\ sampleProduct 2 4 ∈ products pairDB
  /\ sumZ (linesOf 2 (CreateOrderRequest.Items hugeLines)) = 2 ^ 63
  /\ Product.Quantity (sampleProduct 2 4)
     < sumZ (linesOf 2 (CreateOrderRequest.Items hugeLines))
  /\ fst (orderAppService.CreateOrder (refEnv (@rev _)) hugeLines
            (freshWorld pairDB))
     = Err (Errorf ErrInvalidQuantity "%w: quantity must be positive" [])
  /\ map Product.Quantity
       (products (db (snd (orderAppService.CreateOrder (refEnv (@rev _))
                             hugeLines (freshWorld pairDB)))))
     = [4; 9]
  /\ orders (db (snd (orderAppService.CreateOrder (refEnv (@rev _))
                        hugeLines (freshWorld pairDB))))
     = [].
Proof.
  split; [reflexivity|].
  split; [intros n l; symmetry; apply Permutation_rev|].
  split; [apply list_elem_of_here|].
  split; [vm_compute; reflexivity|].
  split; [vm_compute; reflexivity|].
  vm_compute. repeat split; reflexivity.
Qed.

(* ================================================================== *)
(** * Updating a product on a reliable store *)

Section ReliableUpdate.

Variable env : Env.

Implicit Types (w : World).

Lemma updateProduct_ids now req d :
  map Product.Id (products (SQL.updateProduct env now req d))
  = map Product.Id (products d).
Proof.
  unfold SQL.updateProduct. simpl. rewrite map_map. apply map_ext.
  intros p. destruct (Product.Id p =? UpdateProductRequest.Id req)%N;
    reflexivity.
Qed.

Lemma has_row_map_Id (d d' : DB) id :
  map Product.Id (products d') = map Product.Id (products d) ->
  (exists p, p ∈ products d /\ Product.Id p = id) ->
  exists p, p ∈ products d' /\ Product.Id p = id.
Proof.
  intros Hids (p & Hin & Hid).
  assert (H : id ∈ map Product.Id (products d')).
  { rewrite Hids, <- Hid. apply (list_elem_of_fmap_2 Product.Id). exact Hin. }
  apply (list_elem_of_fmap_1 Product.Id) in H.
  destruct H as (p' & Hid' & Hin'). exists p'. split; [exact Hin' | congruence].
Qed.

(** The re-read after an update, on an emptied cache: it asks the store and
    leaves exactly one cache entry. *)
Lemma Products_on_empty req w :
  Reliable w -> productCache w = ∅ ->
  productStorage.Products env req w
  = (Ok (SQL.selectProducts env (GetProductsRequest.Validate req) (db w)),
     snd (productStorage.Products env req w))
  /\ Reliable (snd (productStorage.Products env req w))
  /\ forall k,
       k <> GetProductsRequest.CacheKey env (GetProductsRequest.Validate req) ->
       productCache (snd (productStorage.Products env req w)) !! k = None.
Proof.
  intros Hrel Hc.
  assert (Hfresh : productsFresh env req w).
  { intros it H. rewrite Hc, lookup_empty in H. discriminate. }
  destruct (Products_reliable env req w Hrel Hfresh) as [HP Hrel'].
  split; [exact HP|]. split; [exact Hrel'|].
  intros k Hk. unfold productStorage.Products. simpl. rewrite Hc.
  rewrite DeleteExpired_empty, Get_miss_on_empty.
  match goal with |- context [roundTrip ?x] =>
    pose proof (roundTrip_caches x) as (_ & Hp & _);
    destruct (roundTrip x) as [[|] w'] end; simpl in *.
  - rewrite Hp. apply lookup_empty.
  - unfold ttlcache.Set_. rewrite lookup_insert_ne by congruence.
    rewrite Hp. apply lookup_empty.
Qed.

Lemma UpdateProduct_reliable req w :
  Reliable w ->
  UpdateProductRequest.Validate env req = None ->
  (exists p, p ∈ products (db w)
             /\ Product.Id p = UpdateProductRequest.Id req) ->
  let w' := snd (productStorage.UpdateProduct env req w) in
  (exists p, productStorage.UpdateProduct env req w = (Ok p, w'))
  /\ Reliable w'
  /\ db w' = SQL.updateProduct env (Now (rt w)) req (db w)
  /\ userCache w' = userCache w
  /\ orderCache w' = orderCache w
  /\ seed (rt w') = seed (rt w)
  /\ forall k,
       k <> GetProductsRequest.CacheKey env
              (GetProductsRequest.Validate
                 (productStorage.byId (UpdateProductRequest.Id req))) ->
       productCache w' !! k = None.
Proof.
  intros Hrel Hvalid Hrow.
  unfold productStorage.UpdateProduct, bind, modify, getWorld, throw, ret,
    roundTripM, ttlcache.DeleteAll. simpl. rewrite Hvalid.
  set (w0 := withProductCache ∅ w).
  assert (Hrel0 : Reliable w0) by exact Hrel.
  pose proof (roundTrip_db w0) as Hd1.
  pose proof (roundTrip_caches w0) as (Hu1 & Hp1 & Ho1).
  pose proof (roundTrip_seed w0) as Hs1.
  destruct (roundTrip_reliable w0 Hrel0) as [Hok1 Hrel1].
  destruct (roundTrip w0) as [b w1]; simpl in *. subst b.
  set (w2 := withDb (SQL.updateProduct env (Now (rt w)) req (db w1)) w1).
  assert (Hrel2 : Reliable w2) by exact Hrel1.
  assert (Hc2 : productCache w2 = ∅) by exact Hp1.
  destruct (Products_on_empty
              (productStorage.byId (UpdateProductRequest.Id req)) w2
              Hrel2 Hc2) as (HP & Hrel3 & Hkeys).
  destruct (Products_frame env
              (productStorage.byId (UpdateProductRequest.Id req)) w2)
    as (Hd3 & Hu3 & Ho3 & Hs3).
  assert (Hfound : SQL.selectProducts env
                     (GetProductsRequest.Validate
                        (productStorage.byId (UpdateProductRequest.Id req)))
                     (db w2) <> []).
  { apply selectProducts_byId_found.
    apply (has_row_map_Id (db w) (db w2)); [|exact Hrow].
    unfold w2. simpl. rewrite Hd1. apply updateProduct_ids. }
  rewrite HP.
  destruct (SQL.selectProducts env _ (db w2)) as [|p ps]; [congruence|].
  simpl. split; [eauto|]. split; [exact Hrel3|].
  split; [rewrite Hd3; unfold w2; simpl; rewrite Hd1; reflexivity|].
  split; [rewrite Hu3; exact Hu1|]. split; [rewrite Ho3; exact Ho1|].
  split; [rewrite Hs3; exact Hs1|]. exact Hkeys.
Qed.

End ReliableUpdate.

(* ================================================================== *)
(** * Which errors the steps after the stock check can return *)

Section ErrorKinds.

Variable env : Env.

Implicit Types (w : World).

Lemma ReserveQuantity_error_kind now q p e :
  snd (Product.ReserveQuantity now q p) = Some e ->
  kind e = ErrInvalidQuantity \/ kind e = ErrInsufficientStock.
Proof.
  unfold Product.ReserveQuantity.
  destruct (q <=? 0); [intros H; inversion H; auto|].
  destruct (Product.Quantity p <? q); [intros H; inversion H; auto|].
  discriminate.
Qed.

Lemma ReserveQuantity_Id now q p :
  Product.Id (fst (Product.ReserveQuantity now q p)) = Product.Id p.
Proof.
  unfold Product.ReserveQuantity.
  destruct (q <=? 0); [reflexivity|].
  destruct (Product.Quantity p <? q); reflexivity.
Qed.

Lemma UpdateProductRequest_Validate_kind req e :
  UpdateProductRequest.Validate env req = Some e ->
  kind e = ErrProductValidation.
Proof.
  unfold UpdateProductRequest.Validate.
  repeat match goal with
         | |- context [if ?c then _ else _] => destruct c
         end; intros H; inversion H; reflexivity.
Qed.

Lemma OrderItem_Validate_kind item r e :
  snd (fst (OrderItem.Validate env item r)) = Some e ->
  kind e = ErrOrderValidation.
Proof.
  unfold OrderItem.Validate.
  destruct (if (OrderItem.Id item =? Nil)%N then uuid_New env r
            else (OrderItem.Id item, r)) as [id r1].
  repeat match goal with
         | |- context [if ?c then _ else _] => destruct c
         end; simpl; intros H; inversion H; reflexivity.
Qed.

Lemma Order_validateItems_kind orderId items : forall r e,
  snd (fst (Order.validateItems env orderId items r)) = Some e ->
  kind e = ErrOrderValidation.
Proof.
  induction items as [|item rest IH]; intros r e; simpl; [discriminate|].
  pose proof (OrderItem_Validate_kind (OrderItem.withOrderId orderId item) r)
    as Hk.
  destruct (OrderItem.Validate env (OrderItem.withOrderId orderId item) r)
    as [[item' [e0|]] r1]; simpl in *.
  - intros H. inversion H; subst. apply Hk. reflexivity.
  - specialize (IH r1 e).
    destruct (Order.validateItems env orderId rest r1) as [[rest' err'] r2].
    simpl in *. exact IH.
Qed.

Lemma Order_Validate_kind o r e :
  snd (fst (Order.Validate env o r)) = Some e -> kind e = ErrOrderValidation.
Proof.
  unfold Order.Validate.
  destruct (if (Order.Id o =? Nil)%N then uuid_New env r
            else (Order.Id o, r)) as [id r1].
  destruct (Order.UserId o =? Nil)%N;
    [simpl; intros H; inversion H; reflexivity|].
  destruct (length (Order.Items o) =? 0)%nat;
    [simpl; intros H; inversion H; reflexivity|].
  pose proof (Order_validateItems_kind id (Order.Items o) r1 e) as Hk.
  destruct (Order.validateItems env id (Order.Items o) r1)
    as [[items' err] r2]; simpl in *. exact Hk.
Qed.

Lemma txExec_error stmt tx w e w' :
  orderStorage.txExec stmt tx w = (Err e, w') -> e = driverError.
Proof.
  unfold orderStorage.txExec.
  destruct (roundTrip w) as [[|] w1]; intros H; inversion H; reflexivity.
Qed.

Lemma insertItems_error items : forall tx w e w',
  orderStorage.insertItems items tx w = (Err e, w') -> e = driverError.
Proof.
  induction items as [|item rest IH]; intros tx w e w'; simpl; [discriminate|].
  destruct (orderStorage.txExec (SQL.insertOrderItem item) tx w)
    as [[tx1|e1] w1] eqn:E.
  - apply IH.
  - intros H. inversion H; subst. eapply txExec_error. exact E.
Qed.

Lemma storage_CreateOrder_error_kind order w e :
  snd (fst (orderStorage.CreateOrder env order w)) = Some e ->
  kind e = ErrOrderValidation \/ kind e = ErrStorage.
Proof.
  unfold orderStorage.CreateOrder.
  change (rt (withOrderCache (ttlcache.DeleteAll (orderCache w)) w))
    with (rt w).
  pose proof (Order_Validate_kind order (rt w)) as Hk.
  destruct (Order.Validate env order (rt w)) as [[o' [e0|]] r']; simpl in *.
  { intros H. inversion H; subst. left. apply Hk. reflexivity. }
  destruct (roundTrip _) as [[|] w1]; simpl.
  { intros H. inversion H; subst. right. reflexivity. }
  destruct (orderStorage.txExec (SQL.insertOrder o') (db w1) w1)
    as [[tx|e1] w2] eqn:E1; simpl.
  2: { intros H. inversion H; subst. apply txExec_error in E1. subst.
       right. reflexivity. }
  destruct (orderStorage.insertItems (Order.Items o') tx w2)
    as [[tx'|e2] w3] eqn:E2; simpl.
  2: { intros H. inversion H; subst. apply insertItems_error in E2. subst.
       right. reflexivity. }
  unfold orderStorage.txCommit.
  destruct (roundTrip w3) as [[|] w4]; simpl; [|discriminate].
  intros H. inversion H; subst. right. reflexivity.
Qed.

(** The reserve loop on a reliable store, over products that all have a
    row: no step of it reports a missing user or product. *)
Lemma reserveAll_no_not_found entries : forall pm w e,
  Reliable w ->
  (forall k p, pm !! k = Some p ->
     exists row, row ∈ products (db w) /\ Product.Id row = Product.Id p) ->
  fst (orderAppService.reserveAll env pm entries w) = Err e ->
  kind e <> ErrUserNotFound /\ kind e <> ErrProductNotFound.
Proof.
  induction entries as [|[k q] rest IH]; intros pm w e Hrel Hrows; simpl;
    [discriminate|].
  destruct (pm !! k) as [p|] eqn:Ek.
  2: { unfold throw. simpl. intros H. inversion H; subst.
       split; discriminate. }
  unfold bind, getWorld, throw.
  pose proof (ReserveQuantity_error_kind (Now (rt w)) q p) as Hkind.
  pose proof (ReserveQuantity_Id (Now (rt w)) q p) as Hid.
  destruct (Product.ReserveQuantity (Now (rt w)) q p) as [p' [e0|]];
    simpl in *.
  { intros H. inversion H; subst.
    destruct (Hkind _ eq_refl) as [-> | ->]; split; discriminate. }
  set (ureq := {| UpdateProductRequest.Id := Product.Id p';
                  UpdateProductRequest.Description := None;
                  UpdateProductRequest.Tags := [];
                  UpdateProductRequest.Quantity :=
                    Some (Product.Quantity p') |}).
  destruct (UpdateProductRequest.Validate env ureq) as [ev|] eqn:Ev.
  { destruct (UpdateProduct_cache env ureq w) as (_ & _ & _ & Hinv & _).
    rewrite (Hinv ev Ev). intros H. inversion H; subst.
    rewrite (UpdateProductRequest_Validate_kind _ _ Ev). split; discriminate. }
  assert (Hrow : exists row, row ∈ products (db w)
                   /\ Product.Id row = UpdateProductRequest.Id ureq).
  { simpl. rewrite Hid. apply (Hrows k p Ek). }
  destruct (UpdateProduct_reliable env ureq w Hrel Ev Hrow)
    as ((pr & HU) & Hrel' & Hdb' & _).
  rewrite HU. apply IH; [exact Hrel'|].
  intros k1 p1 H1.
  apply (has_row_map_Id (db w)).
  { rewrite Hdb'. apply updateProduct_ids. }
  destruct (decide (k = k1)) as [->|NE].
  - rewrite lookup_insert_eq in H1. inversion H1; subst.
    rewrite Hid. apply (Hrows k1 p Ek).
  - rewrite lookup_insert_ne in H1 by exact NE. apply (Hrows k1 p1 H1).
Qed.

End ErrorKinds.

(* ================================================================== *)
(** * The orchestrator: users and products that are not there *)

Section NotFound.

Variable env : Env.

Implicit Types (w : World) (req : CreateOrderRequest.t).

Lemma Validate_has_items req :
  CreateOrderRequest.Validate req = None ->
  orderAppService.productIds (CreateOrderRequest.Items req) <> [].
Proof.
  unfold CreateOrderRequest.Validate.
  destruct (CreateOrderRequest.UserId req =? Nil)%N; [discriminate|].
  destruct (CreateOrderRequest.Items req); [discriminate|].
  intros _. discriminate.
Qed.

(** When the rows carrying a referenced id fit the default page of ten,
    the batch load returns each of them. *)
Lemma loadedProducts_complete req d k :
  CreateOrderRequest.Validate req = None ->
  (length (filter (fun p => Product.Id p
                            ∈ orderAppService.productIds
                                (CreateOrderRequest.Items req))
                  (products d)) <= 10)%nat ->
  k ∈ orderAppService.productIds (CreateOrderRequest.Items req) ->
  (exists p, p ∈ products d /\ Product.Id p = k) ->
  is_Some (loadedProducts env req d !! k).
Proof.
  intros Hvalid Hlen Hk (p & Hin & Hid).
  pose proof (Validate_has_items req Hvalid) as Hne.
  set (ids := orderAppService.productIds (CreateOrderRequest.Items req)) in *.
  unfold loadedProducts. fold ids. apply productMap_is_Some.
  exists p. split; [|exact Hid].
  unfold SQL.selectProducts.
  change (GetProductsRequest.Limit _) with 10.
  change (GetProductsRequest.Offset _) with 0.
  assert (Hfilter :
    filter (fun p => SQL.productMatches env
                       (GetProductsRequest.Validate
                          (orderAppService.batch ids)) p) (products d)
    = filter (fun p => Product.Id p ∈ ids) (products d)).
  { apply list_filter_iff. intros x.
    rewrite <- (productMatches_batch env ids x Hne).
    split; [apply Is_true_eq_true | apply Is_true_eq_left]. }
  rewrite Hfilter, page_all.
  - rewrite merge_sort_Permutation. apply list_elem_of_filter.
    split; [rewrite Hid; exact Hk | exact Hin].
  - rewrite merge_sort_Permutation. exact Hlen.
Qed.

Lemma CreateOrder_user_not_found req w :
  CreateOrderRequest.Validate req = None ->
  Reliable w ->
  usersFresh env (orderAppService.userById (CreateOrderRequest.UserId req)) w ->
  (forall u, u ∈ users (db w) -> User.Id u <> CreateOrderRequest.UserId req) ->
  fst (orderAppService.CreateOrder env req w) = Err (Sentinel ErrUserNotFound)
  /\ db (snd (orderAppService.CreateOrder env req w)) = db w.
Proof.
  intros Hvalid Hrel Hufresh Hnone.
  destruct (Users_reliable env _ w Hrel Hufresh) as [HU _].
  destruct (Users_frame env
              (orderAppService.userById (CreateOrderRequest.UserId req)) w)
    as (Hdb & _).
  unfold orderAppService.CreateOrder. rewrite Hvalid.
  rewrite (bind_ok _ _ _ _ _ HU).
  rewrite (selectUsers_byId_none _ _ Hnone). unfold throw. simpl.
  split; [reflexivity | exact Hdb].
Qed.

(** After a stock check that passed, on products that all have a row, no
    step reports a missing user or product. *)
Lemma afterCheck_no_not_found req pm w e :
  Reliable w ->
  (forall k p, pm !! k = Some p ->
     exists row, row ∈ products (db w) /\ Product.Id row = Product.Id p) ->
  fst (orderAppService.afterCheck env req pm w) = Err e ->
  kind e <> ErrUserNotFound /\ kind e <> ErrProductNotFound.
Proof.
  intros Hrel Hrows. unfold orderAppService.afterCheck, bind, rangeMap.
  set (w1 := withRt _ w).
  assert (Hrel1 : Reliable w1) by exact Hrel.
  assert (Hrows1 : forall k p, pm !! k = Some p ->
            exists row, row ∈ products (db w1)
                        /\ Product.Id row = Product.Id p) by exact Hrows.
  pose proof (reserveAll_no_not_found env
                (mapRange env (seed (rt w))
                   (map_to_list
                      (orderAppService.requestedQuantities
                         (CreateOrderRequest.Items req))))
                pm w1 e Hrel1 Hrows1) as Hloop.
  destruct (orderAppService.reserveAll env pm _ w1) as [[pm'|e1] w2];
    simpl in *;
    [|intros H; inversion H; subst; apply Hloop; reflexivity].
  destruct (orderAppService.buildItems pm' (CreateOrderRequest.Items req))
    as [items|].
  2: { unfold throw. simpl. intros H. inversion H; subst. split; discriminate. }
  match goal with |- context [orderStorage.CreateOrder env ?o w2] =>
    pose proof (storage_CreateOrder_error_kind env o w2) as Hk;
    destruct (orderStorage.CreateOrder env o w2) as [[o' [e2|]] w3] end;
    simpl in *; [|discriminate].
  intros H. inversion H; subst.
  destruct (Hk e eq_refl) as [-> | ->]; split; discriminate.
Qed.

End NotFound.

(** C4, as the specification states it, fails: the loop that looks for
    missing products is the loop that checks the stock, and it meets the
    products in the order of a Go map; with product 1 missing and product 2
    short, an iteration that meets product 2 first reports the stock. *)
Lemma CreateOrder_missing_product_reports_stock :
  CreateOrderRequest.Validate missingAndShort = None
  /\ sampleUser 7 ∈ users lowDB
  /\ 1%N ∈ orderAppService.productIds
             (CreateOrderRequest.Items missingAndShort)
  /\ (forall p, p ∈ products lowDB -> Product.Id p <> 1%N)
  /\ fst (orderAppService.CreateOrder (refEnv (fun l => l)) missingAndShort
            (freshWorld lowDB))
     = Err (Errorf ErrInsufficientStock
              "%w: product %s has only %d items but %d requested"
              [ArgUUID 2; ArgInt 1; ArgInt 5]).
Proof.
  split; [reflexivity|]. split; [apply list_elem_of_here|].
  split; [apply list_elem_of_here|].
  split; [|vm_compute; reflexivity].
  intros p Hp. apply list_elem_of_singleton in Hp. subst p. discriminate.
Qed.

(** The same request when the iteration meets product 1 first. *)
Lemma CreateOrder_missing_product_met_first :
  fst (orderAppService.CreateOrder (refEnv (@rev _)) missingAndShort
         (freshWorld lowDB))
  = Err (Errorf ErrProductNotFound "%w: product %s not found" [ArgUUID 1]).
Proof. vm_compute. reflexivity. Qed.

(** The batch request carries no limit, so the default page of ten
    applies: with eleven existing products ordered, one of them is reported
    missing. *)
Lemma CreateOrder_eleven_products_not_found :
  CreateOrderRequest.Validate elevenLines = None
  /\ (forall k, k ∈ orderAppService.productIds
                      (CreateOrderRequest.Items elevenLines) ->
                exists p, p ∈ products crowdedDB /\ Product.Id p = k)
  /\ fst (orderAppService.CreateOrder (refEnv (fun l => l)) elevenLines
            (freshWorld crowdedDB))
     = Err (Errorf ErrProductNotFound "%w: product %s not found"
              [ArgUUID 11]).
Proof.
  split; [reflexivity|]. split; [|vm_compute; reflexivity].
  intros k Hk. exists (sampleProduct k 10).
  split; [|reflexivity].
  apply list_elem_of_In in Hk. apply list_elem_of_In.
  simpl in Hk |- *.
  repeat (destruct Hk as [<-|Hk]; [tauto|]). contradiction.
Qed.

(** C4 (amended): on a reliable store whose caches agree with it, for every
    request that passes shape validation:
    - if no user has the requested id, [CreateOrder] fails with
      [UserNotFound] and the data is untouched;
    - if the user exists and some referenced id has no product, it fails,
      with the data untouched, either with [ProductNotFound] naming a
      referenced id the batch load did not return, or with
      [InsufficientStock] naming a loaded product that is short, whichever
      the check loop meets first; it is [ProductNotFound] when no loaded
      product is short;
    - if the user and every referenced product exist and the rows carrying
      a referenced id are at most ten, it does not fail with a not-found
      error. *)
Theorem CreateOrder_not_found
    (env : Env) (req : CreateOrderRequest.t) (w : World) :
  CreateOrderRequest.Validate req = None ->
  RangeOk env -> Reliable w ->
  usersFresh env (orderAppService.userById (CreateOrderRequest.UserId req)) w ->
  productsFresh env
    (orderAppService.batch
       (orderAppService.productIds (CreateOrderRequest.Items req))) w ->
  let ids := orderAppService.productIds (CreateOrderRequest.Items req) in
  let asked k := wrap (sumZ (linesOf k (CreateOrderRequest.Items req))) in
  let loaded := loadedProducts env req (db w) in
  let userExists :=
    exists u, u ∈ users (db w) /\ User.Id u = CreateOrderRequest.UserId req in
  ((forall u, u ∈ users (db w) -> User.Id u <> CreateOrderRequest.UserId req) ->
     fst (orderAppService.CreateOrder env req w)
     = Err (Sentinel ErrUserNotFound)
     /\ db (snd (orderAppService.CreateOrder env req w)) = db w)
  /\ (userExists ->
      (exists k, k ∈ ids /\ forall p, p ∈ products (db w) -> Product.Id p <> k) ->
      exists e,
        orderAppService.CreateOrder env req w = (Err e, afterReads env req w)
        /\ db (afterReads env req w) = db w
        /\ ((exists k, k ∈ ids /\ loaded !! k = None
               /\ e = Errorf ErrProductNotFound "%w: product %s not found"
                        [ArgUUID k])
            \/ (exists k p, k ∈ ids /\ loaded !! k = Some p
                  /\ Product.Quantity p < asked k
                  /\ e = Errorf ErrInsufficientStock
                           "%w: product %s has only %d items but %d requested"
                           [ArgUUID k; ArgInt (Product.Quantity p);
                            ArgInt (asked k)]))
        /\ ((forall k p, k ∈ ids -> loaded !! k = Some p ->
                         asked k <= Product.Quantity p) ->
            kind e = ErrProductNotFound))
  /\ (userExists ->
      (forall k, k ∈ ids -> exists p, p ∈ products (db w) /\ Product.Id p = k) ->
      (length (filter (fun p => Product.Id p ∈ ids) (products (db w))) <= 10)%nat ->
      forall e, fst (orderAppService.CreateOrder env req w) = Err e ->
                kind e <> ErrUserNotFound /\ kind e <> ErrProductNotFound).
Proof.
  intros Hvalid Hrange Hrel Hufresh Hpfresh ids asked loaded userExists.
  split; [apply CreateOrder_user_not_found; assumption|].
  assert (Hcommon : userExists ->
    exists entries,
      (forall k q, (k, q) ∈ entries <-> k ∈ ids /\ q = asked k)
      /\ db (afterReads env req w) = db w
      /\ Reliable (afterReads env req w)
      /\ orderAppService.CreateOrder env req w
         = match orderAppService.checkStock loaded entries with
           | Some e => (Err e, afterReads env req w)
           | None => orderAppService.afterCheck env req loaded
                       (afterReads env req w)
           end).
  { intros Huser.
    destruct (CreateOrder_until_check env req w Hvalid Hrange Hrel Hufresh
                Hpfresh Huser) as (entries & Hentries & Hdb & Hrel' & Heq).
    exists entries. split; [|auto]. intros k q. rewrite Hentries.
    rewrite requestedQuantities_lookup. unfold ids, asked.
    rewrite <- linesOf_nonempty.
    destruct (linesOf k (CreateOrderRequest.Items req)) eqn:E.
    - split; [discriminate | intros [H _]; congruence].
    - split; [intros H; inversion H; split; [discriminate | reflexivity]|].
      intros [_ ->]. reflexivity. }
  split.
  - intros Huser (k0 & Hk0 & Hnone0).
    destruct (Hcommon Huser) as (entries & Hentries & Hdb & _ & Heq).
    assert (Hmiss : loaded !! k0 = None).
    { destruct (loaded !! k0) as [p|] eqn:E; [|reflexivity].
      destruct (loadedProducts_sound env req (db w) k0 p E) as [Hin Hid].
      exfalso. exact (Hnone0 p Hin Hid). }
    destruct (orderAppService.checkStock loaded entries) as [e|] eqn:Hcheck.
    + exists e. split; [exact Heq|]. split; [exact Hdb|].
      destruct (checkStock_Some _ _ _ Hcheck) as (k & q & Hin & Hcase).
      apply Hentries in Hin. destruct Hin as [Hk ->].
      destruct Hcase as [[Hnone ->]|(p & Hp & Hlt & ->)].
      * split; [left; exists k; auto|]. intros _. reflexivity.
      * split; [right; exists k, p; auto|]. intros Hnoshort.
        specialize (Hnoshort k p Hk Hp). lia.
    + exfalso. rewrite checkStock_None in Hcheck.
      destruct (Hcheck k0 (asked k0)) as (p & Hp & _);
        [apply Hentries; auto | congruence].
  - intros Huser Hexist Hlen e.
    destruct (Hcommon Huser) as (entries & Hentries & Hdb & Hrel' & Heq).
    rewrite Heq.
    assert (Hall : forall k, k ∈ ids -> is_Some (loaded !! k)).
    { intros k Hk. apply loadedProducts_complete; auto. }
    destruct (orderAppService.checkStock loaded entries) as [e0|] eqn:Hcheck.
    + simpl. intros H. inversion H; subst.
      destruct (checkStock_Some _ _ _ Hcheck) as (k & q & Hin & Hcase).
      apply Hentries in Hin. destruct Hin as [Hk ->].
      destruct Hcase as [[Hnone _]|(p & _ & _ & ->)].
      * destruct (Hall k Hk) as [p Hp]. congruence.
      * split; discriminate.
    + apply afterCheck_no_not_found; [exact Hrel'|].
      intros k p Hp. rewrite Hdb.
      destruct (loadedProducts_sound env req (db w) k p Hp) as [Hin Hid].
      exists p. split; [exact Hin | reflexivity].
Qed.

Lemma CreateOrder_not_found_witness :
  (exists e,
     orderAppService.CreateOrder (refEnv (fun l => l)) missingAndShort
       (freshWorld lowDB)
     = (Err e, afterReads (refEnv (fun l => l)) missingAndShort
                 (freshWorld lowDB))
     /\ db (afterReads (refEnv (fun l => l)) missingAndShort
              (freshWorld lowDB)) = lowDB)
  /\ (forall e,
        fst (orderAppService.CreateOrder (refEnv (fun l => l)) fourOfTen
               (freshWorld sampleDB)) = Err e ->
        kind e <> ErrUserNotFound /\ kind e <> ErrProductNotFound).
Proof.
  assert (Hrange : RangeOk (refEnv (fun l => l))) by (intros n l; reflexivity).
  assert (Hrel : forall d, Reliable (freshWorld d)) by (intros d; constructor).
  assert (Hu : forall d r, usersFresh (refEnv (fun l => l)) r (freshWorld d)).
  { intros d r it H. cbn [userCache freshWorld] in H.
    rewrite lookup_empty in H. discriminate. }
  assert (Hp : forall d r, productsFresh (refEnv (fun l => l)) r (freshWorld d)).
  { intros d r it H. cbn [productCache freshWorld] in H.
    rewrite lookup_empty in H. discriminate. }
  split.
  - pose proof (CreateOrder_not_found (refEnv (fun l => l)) missingAndShort
                  (freshWorld lowDB) eq_refl Hrange (Hrel _) (Hu _ _) (Hp _ _))
      as H.
    cbv zeta in H. destruct H as (_ & Hb & _).
    destruct Hb as (e & He & Hdb & _).
    + exists (sampleUser 7). split; [apply list_elem_of_here | reflexivity].
    + exists 1%N. split; [apply list_elem_of_here|].
      intros p Hin. apply list_elem_of_singleton in Hin. subst p. discriminate.
    + exists e. split; assumption.
  - pose proof (CreateOrder_not_found (refEnv (fun l => l)) fourOfTen
                  (freshWorld sampleDB) eq_refl Hrange (Hrel _) (Hu _ _)
                  (Hp _ _)) as H.
    cbv zeta in H. destruct H as (_ & _ & Hc). apply Hc.
    + exists (sampleUser 7). split; [apply list_elem_of_here | reflexivity].
    + intros k Hk. apply list_elem_of_singleton in Hk. subst k.
      exists (sampleProduct 2 10). split; [apply list_elem_of_here | reflexivity].
    + vm_compute. lia.
Defined.

(* ================================================================== *)
(** * Reading and updating an order on a reliable store *)

Section ReliableOrders.

Variable env : Env.

Implicit Types (w : World).

Lemma orderMatches_byId id o :
  SQL.orderMatches (GetOrdersRequest.Validate (orderStorage.byId id)) o = true
  <-> Order.Id o = id.
Proof.
  unfold SQL.orderMatches. simpl. rewrite !andb_true_r.
  apply inIfAny_singleton.
Qed.

Lemma selectOrders_byId_elem id d o :
  o ∈ SQL.selectOrders (GetOrdersRequest.Validate (orderStorage.byId id)) d ->
  o ∈ orders d /\ Order.Id o = id.
Proof.
  unfold SQL.selectOrders. intros H. apply page_subseteq in H.
  rewrite merge_sort_Permutation in H.
  apply list_elem_of_filter in H. destruct H as [Hm Hin].
  split; [exact Hin | apply orderMatches_byId, Is_true_eq_true; exact Hm].
Qed.

Lemma selectOrders_byId_found id d :
  (exists o, o ∈ orders d /\ Order.Id o = id) ->
  SQL.selectOrders (GetOrdersRequest.Validate (orderStorage.byId id)) d <> [].
Proof.
  intros (o & Hin & Hid). unfold SQL.selectOrders.
  change (GetOrdersRequest.Limit _) with 1.
  change (GetOrdersRequest.Offset _) with 0.
  apply page_first. intros Hnil.
  assert (Ho : o ∈ merge_sort (byCreatedDescId Order.CreatedAt Order.Id)
                 (filter (fun o => SQL.orderMatches
                            (GetOrdersRequest.Validate (orderStorage.byId id))
                            o) (orders d))).
  { rewrite merge_sort_Permutation. apply list_elem_of_filter.
    split; [|exact Hin]. apply Is_true_eq_left, orderMatches_byId. exact Hid. }
  rewrite Hnil in Ho. apply not_elem_of_nil in Ho. exact Ho.
Qed.

(** The first order of the store's answer to a lookup by id is a row with
    that id, with its items attached. *)
Lemma ordersAnswer_byId_head id d order rest :
  ordersAnswer (GetOrdersRequest.Validate (orderStorage.byId id)) d
  = order :: rest ->
  exists row, row ∈ orders d /\ Order.Id row = id
              /\ Order.Id order = id /\ Order.Status order = Order.Status row.
Proof.
  unfold ordersAnswer.
  destruct (SQL.selectOrders _ d) as [|row rows] eqn:E; [discriminate|].
  assert (Hrow : row ∈ SQL.selectOrders
                   (GetOrdersRequest.Validate (orderStorage.byId id)) d)
    by (rewrite E; apply list_elem_of_here).
  apply selectOrders_byId_elem in Hrow. destruct Hrow as [Hin Hid].
  unfold orderStorage.assignItems. simpl. intros H. inversion H; subst.
  exists row. repeat split; assumption.
Qed.

Lemma ordersAnswer_byId_found id d :
  (exists o, o ∈ orders d /\ Order.Id o = id) ->
  ordersAnswer (GetOrdersRequest.Validate (orderStorage.byId id)) d <> [].
Proof.
  intros H. apply selectOrders_byId_found in H. unfold ordersAnswer.
  destruct (SQL.selectOrders _ d) as [|row rows]; [congruence|].
  unfold orderStorage.assignItems. simpl. discriminate.
Qed.

Lemma updateOrder_rows now req d o :
  o ∈ orders (SQL.updateOrder now req d) ->
  Order.Id o = UpdateOrderRequest.Id req ->
  Order.Status o = UpdateOrderRequest.Status req.
Proof.
  unfold SQL.updateOrder. simpl. intros Hin Hid.
  apply (list_elem_of_fmap_1 _) in Hin. destruct Hin as (o0 & -> & _).
  destruct (N.eqb_spec (Order.Id o0) (UpdateOrderRequest.Id req)) as [E|NE];
    [reflexivity | contradiction].
Qed.

Lemma updateOrder_has_row now req d :
  (exists o, o ∈ orders d /\ Order.Id o = UpdateOrderRequest.Id req) ->
  exists o, o ∈ orders (SQL.updateOrder now req d)
            /\ Order.Id o = UpdateOrderRequest.Id req.
Proof.
  intros (o & Hin & Hid). unfold SQL.updateOrder. simpl.
  exists (Order.withStatus (UpdateOrderRequest.Status req) now o).
  split; [|exact Hid].
  apply (list_elem_of_fmap_2'
           (fun o => if (Order.Id o =? UpdateOrderRequest.Id req)%N
                     then Order.withStatus (UpdateOrderRequest.Status req) now o
                     else o) _ o); [exact Hin|].
  rewrite <- Hid, N.eqb_refl. reflexivity.
Qed.

Lemma rowsAffected_pos req d :
  (exists o, o ∈ orders d /\ Order.Id o = UpdateOrderRequest.Id req) ->
  Nat.eqb (SQL.rowsAffected req d) 0 = false.
Proof.
  intros (o & Hin & Hid). unfold SQL.rowsAffected.
  apply Nat.eqb_neq. intros Hlen. apply length_zero_iff_nil in Hlen.
  assert (Ho : o ∈ filter (fun o => N.eqb (Order.Id o)
                                          (UpdateOrderRequest.Id req))
                          (orders d)).
  { apply list_elem_of_filter. split; [|exact Hin].
    apply Is_true_eq_left, N.eqb_eq. exact Hid. }
  rewrite Hlen in Ho. apply not_elem_of_nil in Ho. exact Ho.
Qed.

Lemma Orders_on_empty req w :
  Reliable w -> orderCache w = ∅ ->
  orderStorage.Orders env req w
  = (Ok (ordersAnswer (GetOrdersRequest.Validate req) (db w)),
     snd (orderStorage.Orders env req w))
  /\ Reliable (snd (orderStorage.Orders env req w)).
Proof.
  intros Hrel Hc. apply Orders_reliable; [exact Hrel|].
  intros it H. rewrite Hc, lookup_empty in H. discriminate.
Qed.

Lemma UpdateOrder_reliable req w :
  Reliable w ->
  UpdateOrderRequest.Validate req = None ->
  (exists o, o ∈ orders (db w) /\ Order.Id o = UpdateOrderRequest.Id req) ->
  let w' := snd (orderStorage.UpdateOrder env req w) in
  (exists o, orderStorage.UpdateOrder env req w = (Ok o, w')
             /\ Order.Id o = UpdateOrderRequest.Id req
             /\ Order.Status o = UpdateOrderRequest.Status req)
  /\ db w' = SQL.updateOrder (Now (rt w)) req (db w).
Proof.
  intros Hrel Hvalid Hrow.
  unfold orderStorage.UpdateOrder, bind, modify, getWorld, throw, ret,
    roundTripM, ttlcache.DeleteAll. simpl. rewrite Hvalid.
  set (w0 := withOrderCache ∅ w).
  assert (Hrel0 : Reliable w0) by exact Hrel.
  pose proof (roundTrip_db w0) as Hd1.
  pose proof (roundTrip_caches w0) as (_ & _ & Ho1).
  destruct (roundTrip_reliable w0 Hrel0) as [Hok1 Hrel1].
  destruct (roundTrip w0) as [b w1]; simpl in *. subst b.
  rewrite Hd1. rewrite (rowsAffected_pos req (db w) Hrow).
  set (w2 := withDb (SQL.updateOrder (Now (rt w)) req (db w)) w1).
  assert (Hrel2 : Reliable w2) by exact Hrel1.
  assert (Hc2 : orderCache w2 = ∅) by exact Ho1.
  destruct (Orders_on_empty
              (orderStorage.byId (UpdateOrderRequest.Id req)) w2 Hrel2 Hc2)
    as (HO & _).
  destruct (Orders_frame env
              (orderStorage.byId (UpdateOrderRequest.Id req)) w2)
    as (Hd3 & _).
  pose proof (ordersAnswer_byId_found (UpdateOrderRequest.Id req) (db w2)
                (updateOrder_has_row (Now (rt w)) req (db w) Hrow)) as Hne.
  rewrite HO.
  destruct (ordersAnswer _ (db w2)) as [|o os] eqn:Eans; [congruence|].
  simpl. split; [|exact Hd3].
  destruct (ordersAnswer_byId_head _ _ _ _ Eans)
    as (row & Hin & Hid & Hoid & Hstatus).
  exists o. split; [reflexivity|]. split; [exact Hoid|].
  rewrite Hstatus. apply (updateOrder_rows (Now (rt w)) req (db w));
    assumption.
Qed.

End ReliableOrders.

(* ================================================================== *)
(** * The restore loop *)

Section RestoreLoop.

Variable env : Env.

Implicit Types (w : World).

Lemma NoDup_Id_inj (l : list Product.t) p1 p2 :
  NoDup (map Product.Id l) -> p1 ∈ l -> p2 ∈ l ->
  Product.Id p1 = Product.Id p2 -> p1 = p2.
Proof.
  induction l as [|x l IH]; simpl; intros Hnd H1 H2 Hid.
  - apply not_elem_of_nil in H1. contradiction.
  - apply NoDup_cons in Hnd. destruct Hnd as [Hx Hnd].
    apply elem_of_cons in H1. apply elem_of_cons in H2.
    destruct H1 as [->|H1], H2 as [->|H2].
    + reflexivity.
    + exfalso. apply Hx. rewrite Hid.
      apply (list_elem_of_fmap_2 Product.Id). exact H2.
    + exfalso. apply Hx. rewrite <- Hid.
      apply (list_elem_of_fmap_2 Product.Id). exact H1.
    + apply IH; assumption.
Qed.

(** Other keys of the product cache are not written by a read. *)
Lemma Products_cache_other req w k it :
  k <> GetProductsRequest.CacheKey env (GetProductsRequest.Validate req) ->
  productCache (snd (productStorage.Products env req w)) !! k = Some it ->
  productCache w !! k = Some it.
Proof.
  intros Hk. unfold productStorage.Products. simpl.
  assert (Hfilter : forall it,
            ttlcache.DeleteExpired (Now (rt w)) (productCache w) !! k = Some it ->
            productCache w !! k = Some it).
  { intros it0 H. unfold ttlcache.DeleteExpired in H.
    apply map_lookup_filter_Some in H. apply H. }
  unfold ttlcache.Get.
  destruct (ttlcache.DeleteExpired (Now (rt w)) (productCache w)
            !! GetProductsRequest.CacheKey env (GetProductsRequest.Validate req))
    as [hit|] eqn:E.
  - destruct (ttlcache.isExpired (Now (rt w)) hit); simpl.
    + match goal with |- context [roundTrip ?x] =>
        pose proof (roundTrip_caches x) as (_ & Hp & _);
        destruct (roundTrip x) as [[|] w'] end; simpl in *.
      * rewrite Hp. apply Hfilter.
      * unfold ttlcache.Set_. rewrite lookup_insert_ne by congruence.
        rewrite Hp. apply Hfilter.
    + rewrite lookup_insert_ne by congruence. apply Hfilter.
  - match goal with |- context [roundTrip ?x] =>
      pose proof (roundTrip_caches x) as (_ & Hp & _);
      destruct (roundTrip x) as [[|] w'] end; simpl in *.
    + rewrite Hp. apply Hfilter.
    + unfold ttlcache.Set_. rewrite lookup_insert_ne by congruence.
      rewrite Hp. apply Hfilter.
Qed.

Lemma productsFresh_after_read k k' w :
  productKey env k' <> productKey env k ->
  productsFresh env (productStorage.byId k') w ->
  productsFresh env (productStorage.byId k')
    (snd (productStorage.Products env (productStorage.byId k) w)).
Proof.
  intros Hkeys Hfresh it H.
  destruct (Products_frame env (productStorage.byId k) w) as (Hdb & _).
  rewrite Hdb. apply Hfresh.
  apply (Products_cache_other (productStorage.byId k)); assumption.
Qed.

Lemma quantityUpdate_valid id q :
  id <> Nil -> 0 <= q ->
  UpdateProductRequest.Validate env
    {| UpdateProductRequest.Id := id;
       UpdateProductRequest.Description := None;
       UpdateProductRequest.Tags := [];
       UpdateProductRequest.Quantity := Some q |} = None.
Proof.
  intros Hid Hq. unfold UpdateProductRequest.Validate. simpl.
  destruct (N.eqb_spec id Nil); [contradiction|].
  destruct (Z.ltb_spec q 0); [lia | reflexivity].
Qed.

Lemma amountOf_cons k q entries id :
  amountOf ((k, q) :: entries) id
  = (if decide (k = id) then q else 0) + amountOf entries id.
Proof.
  unfold amountOf. rewrite filter_cons. simpl.
  destruct (decide (k = id)); reflexivity.
Qed.

Lemma amountOf_absent entries id :
  id ∉ map fst entries -> amountOf entries id = 0.
Proof.
  induction entries as [|[k q] rest IH]; intros Hnot; [reflexivity|].
  rewrite amountOf_cons. simpl in Hnot. apply not_elem_of_cons in Hnot.
  destruct Hnot as [Hne Hnot].
  destruct (decide (k = id)); [congruence|]. rewrite IH by exact Hnot. lia.
Qed.

(** One quantity update, row by row. *)
Lemma updateProduct_quantity_rows now id q d p0 :
  NoDup (map Product.Id (products d)) ->
  p0 ∈ products d -> Product.Id p0 = id ->
  Forall2 (restoredBy (fun k => if decide (id = k) then q else 0))
    (products d)
    (products (SQL.updateProduct env now
                 {| UpdateProductRequest.Id := id;
                    UpdateProductRequest.Description := None;
                    UpdateProductRequest.Tags := [];
                    UpdateProductRequest.Quantity :=
                      Some (Product.Quantity p0 + q) |} d)).
Proof.
  intros Hnd Hin0 Hid0. unfold SQL.updateProduct. simpl.
  apply Forall2_fmap_r. apply Forall_Forall2_diag.
  apply Forall_forall. intros p Hin. simpl.
  destruct (N.eqb_spec (Product.Id p) id) as [E|NE].
  - assert (p = p0)
      by (apply (NoDup_Id_inj (products d)); try assumption; congruence).
    subst p0. unfold restoredBy, SQL.setProduct. simpl.
    destruct (decide (id = Product.Id p)); [|congruence].
    repeat split; reflexivity.
  - unfold restoredBy. destruct (decide (id = Product.Id p)); [congruence|].
    repeat split; try reflexivity. lia.
Qed.

Lemma updateProduct_frame now req d :
  users (SQL.updateProduct env now req d) = users d
  /\ orders (SQL.updateProduct env now req d) = orders d
  /\ order_items (SQL.updateProduct env now req d) = order_items d.
Proof. repeat split; reflexivity. Qed.

Lemma updateProduct_other_rows now req d p :
  p ∈ products (SQL.updateProduct env now req d) ->
  Product.Id p <> UpdateProductRequest.Id req ->
  p ∈ products d.
Proof.
  unfold SQL.updateProduct. simpl. intros Hin Hne.
  apply (list_elem_of_fmap_1 _) in Hin. destruct Hin as (p0 & -> & Hin0).
  destruct (N.eqb_spec (Product.Id p0) (UpdateProductRequest.Id req))
    as [E|NE]; [|exact Hin0].
  exfalso. apply Hne. exact E.
Qed.

Lemma Forall2_diag_elem {A : Type} (l : list A) :
  Forall2 (fun a b => b = a /\ a ∈ l) l l.
Proof.
  apply Forall_Forall2_diag, Forall_forall. intros a Ha. split; auto.
Qed.

Lemma restoredBy_compose k q rest p p1 p' :
  restoredBy (fun id => if decide (k = id) then q else 0) p p1 ->
  restoredBy (amountOf rest) p1 p' ->
  restoredBy (amountOf ((k, q) :: rest)) p p'.
Proof.
  intros (A1 & A2 & A3 & A4 & A5) (B1 & B2 & B3 & B4 & B5).
  unfold restoredBy. rewrite amountOf_cons.
  repeat split; try congruence. rewrite B5, A5, A1. lia.
Qed.

Lemma restoreAll_spec entries : forall w,
  Reliable w ->
  NoDup (map fst entries) ->
  NoDup (map Product.Id (products (db w))) ->
  (forall k q, (k, q) ∈ entries ->
     k <> Nil
     /\ productsFresh env (productStorage.byId k) w
     /\ forall p, p ∈ products (db w) -> Product.Id p = k ->
          0 < q /\ 0 <= Product.Quantity p
          /\ Product.Quantity p + q <= MaxInt) ->
  (forall k q k' q', (k, q) ∈ entries -> (k', q') ∈ entries ->
     productKey env k = productKey env k' -> k = k') ->
  exists w',
    orderAppService.restoreAll env entries w = (Ok tt, w')
    /\ Reliable w'
    /\ Forall2 (restoredBy (amountOf entries))
         (products (db w)) (products (db w'))
    /\ users (db w') = users (db w)
    /\ orders (db w') = orders (db w)
    /\ order_items (db w') = order_items (db w).
Proof.
  induction entries as [|[k q] rest IH]; intros w Hrel Hnd Huniq Hent Hkeys.
  { exists w. split; [reflexivity|]. split; [exact Hrel|].
    split; [|auto]. apply Forall_Forall2_diag, Forall_forall.
    intros p _. unfold restoredBy, amountOf. simpl.
    repeat split; try reflexivity. lia. }
  simpl in Hnd. apply NoDup_cons in Hnd. destruct Hnd as [Hk_rest Hnd].
  destruct (Hent k q (list_elem_of_here _ _)) as (Hk_nil & Hfresh & Hbounds).
  destruct (Products_reliable env (productStorage.byId k) w Hrel Hfresh)
    as [HP Hrel1].
  destruct (Products_frame env (productStorage.byId k) w)
    as (Hdb1 & _ & _ & _).
  set (w1 := snd (productStorage.Products env (productStorage.byId k) w)) in *.
  assert (Hne_keys : forall k' q', (k', q') ∈ rest ->
            k' <> k /\ productKey env k' <> productKey env k).
  { intros k' q' Hin'.
    assert (Hne : k' <> k).
    { intros ->. apply Hk_rest.
      apply (list_elem_of_fmap_2 fst) in Hin'. exact Hin'. }
    split; [exact Hne|]. intros Heq. apply Hne.
    apply (Hkeys k' q' k q); [apply list_elem_of_further; exact Hin'
                             | apply list_elem_of_here | exact Heq]. }
  assert (Hkeys_rest : forall k1 q1 k2 q2, (k1, q1) ∈ rest -> (k2, q2) ∈ rest ->
            productKey env k1 = productKey env k2 -> k1 = k2).
  { intros k1 q1 k2 q2 H1 H2. apply (Hkeys k1 q1 k2 q2);
      apply list_elem_of_further; assumption. }
  simpl. rewrite (bind_ok _ _ _ _ _ HP).
  destruct (SQL.selectProducts env
              (GetProductsRequest.Validate (productStorage.byId k)) (db w))
    as [|p ps] eqn:Esel.
  - (* the product is gone: skipped *)
    destruct (IH w1) as (w' & Hrun & Hrel' & Hrows & Hu & Ho & Hi);
      [exact Hrel1 | exact Hnd | rewrite Hdb1; exact Huniq | | exact Hkeys_rest |].
    { intros k' q' Hin'.
      destruct (Hent k' q' (list_elem_of_further _ _ _ Hin'))
        as (Hnil' & Hfresh' & Hb').
      destruct (Hne_keys k' q' Hin') as [_ Hkey'].
      split; [exact Hnil'|]. split.
      * apply productsFresh_after_read; assumption.
      * rewrite Hdb1. exact Hb'. }
    exists w'. split; [exact Hrun|]. split; [exact Hrel'|].
    rewrite Hdb1 in Hrows, Hu, Ho, Hi. split; [|auto].
    refine (Forall2_trans _ _ _ _ _ _ _
              (Forall2_diag_elem (products (db w))) Hrows).
    intros x y z [-> Hx] Hyz.
    apply (restoredBy_compose k q rest x x z); [|exact Hyz].
    unfold restoredBy. destruct (decide (k = Product.Id x)) as [E|NE];
      [|repeat split; try reflexivity; lia].
    exfalso.
    assert (Hfound : SQL.selectProducts env
              (GetProductsRequest.Validate (productStorage.byId k)) (db w)
              <> []).
    { apply (selectProducts_byId_found env). exists x. split; [exact Hx | congruence]. }
    congruence.
  - (* the product is there: restored and persisted *)
    assert (Hp : p ∈ products (db w) /\ Product.Id p = k).
    { apply (selectProducts_byId_elem env). rewrite Esel. apply list_elem_of_here. }
    destruct Hp as [Hin Hid].
    destruct (Hbounds p Hin Hid) as (Hq & Hq0 & Hmax).
    unfold bind at 1. unfold getWorld at 1.
    rewrite (RestoreQuantity_ok (Now (rt w1)) q p Hq).
    unfold int_add.
    rewrite wrap_id by (unfold is_int, MinInt, MaxInt in *; lia).
    cbn [Product.Id Product.Quantity].
    set (ureq := {| UpdateProductRequest.Id := Product.Id p;
                    UpdateProductRequest.Description := None;
                    UpdateProductRequest.Tags := [];
                    UpdateProductRequest.Quantity :=
                      Some (Product.Quantity p + q) |}).
    assert (Hvalid : UpdateProductRequest.Validate env ureq = None).
    { apply quantityUpdate_valid; [congruence | lia]. }
    assert (Hrow : exists p0, p0 ∈ products (db w1)
                     /\ Product.Id p0 = UpdateProductRequest.Id ureq).
    { exists p. rewrite Hdb1. split; [exact Hin | reflexivity]. }
    destruct (UpdateProduct_reliable env ureq w1 Hrel1 Hvalid Hrow)
      as ((pr & HU) & Hrel2 & Hdb2 & _ & _ & _ & Hcache).
    set (w2 := snd (productStorage.UpdateProduct env ureq w1)) in *.
    rewrite (bind_ok _ _ _ _ _ HU).
    destruct (IH w2) as (w' & Hrun & Hrel' & Hrows & Hu & Ho & Hi);
      [exact Hrel2 | exact Hnd | | | exact Hkeys_rest |].
    { rewrite Hdb2, updateProduct_ids, Hdb1. exact Huniq. }
    { intros k' q' Hin'.
      destruct (Hent k' q' (list_elem_of_further _ _ _ Hin'))
        as (Hnil' & _ & Hb').
      destruct (Hne_keys k' q' Hin') as [Hne' Hkey'].
      split; [exact Hnil'|]. split.
      * intros it H. rewrite Hcache in H; [discriminate|].
        simpl. rewrite Hid. exact Hkey'.
      * intros p2 Hin2 Hid2. apply Hb'; [|exact Hid2].
        rewrite Hdb2 in Hin2. apply updateProduct_other_rows in Hin2.
        -- rewrite Hdb1 in Hin2. exact Hin2.
        -- simpl. congruence. }
    exists w'. split; [exact Hrun|]. split; [exact Hrel'|].
    rewrite Hdb2 in Hrows, Hu, Ho, Hi. simpl in Hu, Ho, Hi.
    rewrite Hdb1 in Hrows, Hu, Ho, Hi. split; [|auto].
    refine (Forall2_trans _ _ _ _ _ _ (restoredBy_compose k q rest) _ Hrows).
    rewrite <- Hid. apply updateProduct_quantity_rows;
      [exact Huniq | exact Hin | reflexivity].
Qed.

End RestoreLoop.

(* ================================================================== *)
(** * The orchestrator: cancelling an order *)

Section CancelOrder.

Variable env : Env.

Implicit Types (w : World).

Lemma rangeMap_spec (m : gmap UUID Z) w :
  RangeOk env ->
  let entries := mapRange env (seed (rt w)) (map_to_list m) in
  rangeMap env m w
  = (Ok entries,
     withRt {| clock := clock (rt w); seed := S (seed (rt w)) |} w)
  /\ (forall k q, (k, q) ∈ entries <-> m !! k = Some q)
  /\ NoDup (map fst entries).
Proof.
  intros Hrange entries. split; [reflexivity|]. split.
  - intros k q. unfold entries.
    rewrite (Hrange (seed (rt w)) (map_to_list m)).
    apply elem_of_map_to_list.
  - unfold entries.
    assert (Hperm : map fst (mapRange env (seed (rt w)) (map_to_list m))
                    ≡ₚ map fst (map_to_list m)).
    { apply (fmap_Permutation fst). apply Hrange. }
    rewrite Hperm. apply (NoDup_fst_map_to_list m).
Qed.

Lemma itemsOf_nonempty items k :
  itemsOf k items <> [] <->
  exists item, item ∈ items /\ OrderItem.ProductId item = k.
Proof.
  unfold itemsOf. induction items as [|item rest IH]; simpl.
  - split; [congruence|]. intros (item & Hin & _).
    apply not_elem_of_nil in Hin. contradiction.
  - rewrite filter_cons.
    destruct (decide (OrderItem.ProductId item = k)) as [E|NE].
    + split; [|discriminate]. intros _. exists item.
      split; [apply list_elem_of_here | exact E].
    + rewrite IH. split.
      * intros (it & Hin & Hid). exists it.
        split; [apply list_elem_of_further; exact Hin | exact Hid].
      * intros (it & Hin & Hid). apply elem_of_cons in Hin.
        destruct Hin as [->|Hin]; [contradiction|]. exists it. auto.
Qed.

Lemma itemsOf_positive items k q :
  (forall item, item ∈ items -> 0 < OrderItem.Quantity item) ->
  q ∈ itemsOf k items -> 0 < q.
Proof.
  intros Hpos Hq. unfold itemsOf in Hq.
  apply (list_elem_of_fmap_1 _) in Hq. destruct Hq as (item & -> & Hin).
  apply list_elem_of_filter in Hin. apply Hpos, Hin.
Qed.

Lemma sumZ_positive (qs : list Z) :
  qs <> [] -> (forall q, q ∈ qs -> 0 < q) -> 0 < sumZ qs.
Proof.
  induction qs as [|q qs IH]; intros Hne Hpos; [congruence|].
  unfold sumZ in *. simpl.
  pose proof (Hpos q (list_elem_of_here _ _)) as Hq.
  destruct qs as [|q' qs']; [simpl; lia|].
  assert (0 < fold_right Z.add 0 (q' :: qs')).
  { apply IH; [discriminate|]. intros x Hx. apply Hpos.
    apply list_elem_of_further. exact Hx. }
  lia.
Qed.

Lemma amountOf_unique entries k q :
  NoDup (map fst entries) -> (k, q) ∈ entries -> amountOf entries k = q.
Proof.
  induction entries as [|[k0 q0] rest IH]; intros Hnd Hin.
  - apply not_elem_of_nil in Hin. contradiction.
  - simpl in Hnd. apply NoDup_cons in Hnd. destruct Hnd as [Hk0 Hnd].
    rewrite amountOf_cons. apply elem_of_cons in Hin.
    destruct Hin as [Heq|Hin].
    + inversion Heq; subst. destruct (decide (k0 = k0)); [|congruence].
      rewrite amountOf_absent by exact Hk0. lia.
    + destruct (decide (k0 = k)) as [->|NE].
      * exfalso. apply Hk0. apply (list_elem_of_fmap_2 fst) in Hin. exact Hin.
      * rewrite (IH Hnd Hin). lia.
Qed.

Lemma cancelled_is_valid id :
  id <> Nil ->
  UpdateOrderRequest.Validate
    {| UpdateOrderRequest.Id := id;
       UpdateOrderRequest.Status := OrderStatusCancelled |} = None.
Proof.
  intros Hid. unfold UpdateOrderRequest.Validate. simpl.
  destruct (N.eqb_spec id Nil); [contradiction | reflexivity].
Qed.

Lemma CancelOrder_refused orderId w order rest :
  Reliable w ->
  ordersFresh env (orderStorage.byId orderId) w ->
  ordersAnswer (GetOrdersRequest.Validate (orderStorage.byId orderId)) (db w)
  = order :: rest ->
  Order.CanBeCancelled order = false ->
  orderAppService.CancelOrder env orderId w
  = (Err (Errorf ErrOrderValidation
            "%w: order in status %s cannot be cancelled"
            [ArgStr (Order.Status order)]),
     snd (orderStorage.Orders env (orderStorage.byId orderId) w))
  /\ db (snd (orderStorage.Orders env (orderStorage.byId orderId) w)) = db w.
Proof.
  intros Hrel Hfresh Hans Hcan.
  destruct (Orders_reliable env (orderStorage.byId orderId) w Hrel Hfresh)
    as [HO _].
  destruct (Orders_frame env (orderStorage.byId orderId) w) as (Hdb & _).
  split; [|exact Hdb].
  unfold orderAppService.CancelOrder. rewrite (bind_ok _ _ _ _ _ HO).
  rewrite Hans, Hcan. reflexivity.
Qed.

Lemma CancelOrder_done orderId w order rest :
  RangeOk env -> Reliable w ->
  ordersFresh env (orderStorage.byId orderId) w ->
  ordersAnswer (GetOrdersRequest.Validate (orderStorage.byId orderId)) (db w)
  = order :: rest ->
  Order.CanBeCancelled order = true ->
  CancelReady env w order ->
  exists o' w' now,
    orderAppService.CancelOrder env orderId w = (Ok o', w')
    /\ Order.Id o' = orderId
    /\ Order.Status o' = OrderStatusCancelled
    /\ Forall2 (restoredBy (fun k => sumZ (itemsOf k (Order.Items order))))
         (products (db w)) (products (db w'))
    /\ orders (db w')
       = orders (SQL.updateOrder now
                   {| UpdateOrderRequest.Id := orderId;
                      UpdateOrderRequest.Status := OrderStatusCancelled |}
                   (db w))
    /\ users (db w') = users (db w)
    /\ order_items (db w') = order_items (db w).
Proof.
  intros Hrange Hrel Hfresh Hans Hcan
         [Hoid Huniq Hitems Hstock Hpfresh Hpkeys].
  destruct (Orders_reliable env (orderStorage.byId orderId) w Hrel Hfresh)
    as [HO Hrel1].
  destruct (Orders_frame env (orderStorage.byId orderId) w)
    as (Hdb1 & _ & Hpc1 & _).
  set (w1 := snd (orderStorage.Orders env (orderStorage.byId orderId) w)) in *.
  destruct (ordersAnswer_byId_head orderId (db w) order rest Hans)
    as (row & Hrow & Hrowid & Horderid & _).
  set (items := Order.Items order) in *.
  destruct (rangeMap_spec (orderAppService.productQuantityToRestore items)
              w1 Hrange) as (HR & Hentries & Hnd).
  set (entries := mapRange env (seed (rt w1))
                    (map_to_list
                       (orderAppService.productQuantityToRestore items))) in *.
  set (w2 := withRt {| clock := clock (rt w1); seed := S (seed (rt w1)) |} w1)
    in *.
  assert (Hentry : forall k q, (k, q) ∈ entries ->
            (exists item, item ∈ items /\ OrderItem.ProductId item = k)
            /\ q = wrap (sumZ (itemsOf k items))).
  { intros k q Hin. apply Hentries in Hin.
    rewrite productQuantityToRestore_lookup in Hin.
    destruct (itemsOf k items) as [|q0 qs] eqn:E; [discriminate|].
    inversion Hin; subst. split; [|reflexivity].
    apply itemsOf_nonempty. rewrite E. discriminate. }
  assert (Hsum : forall p item, p ∈ products (db w) -> item ∈ items ->
            OrderItem.ProductId item = Product.Id p ->
            0 < sumZ (itemsOf (Product.Id p) items)
            /\ wrap (sumZ (itemsOf (Product.Id p) items))
               = sumZ (itemsOf (Product.Id p) items)).
  { intros p item Hp Hitem Hid.
    destruct (Hstock p item Hp Hitem Hid) as [H0 Hmax].
    assert (Hpos : 0 < sumZ (itemsOf (Product.Id p) items)).
    { apply sumZ_positive.
      - apply itemsOf_nonempty. exists item. auto.
      - intros q Hq. apply (itemsOf_positive items (Product.Id p)); [|exact Hq].
        intros it Hit. apply Hitems. exact Hit. }
    split; [exact Hpos|].
    apply wrap_id. unfold is_int, MinInt, MaxInt in *. lia. }
  destruct (restoreAll_spec env entries w2) as
    (w3 & Hrun & Hrel3 & Hrows & Hu3 & Ho3 & Hi3).
  { exact Hrel1. }
  { exact Hnd. }
  { unfold w2. simpl. rewrite Hdb1. exact Huniq. }
  { intros k q Hin. destruct (Hentry k q Hin) as ((item & Hitem & Hid) & Hq).
    split; [rewrite <- Hid; apply Hitems; exact Hitem|]. split.
    - apply (productsFresh_frame env _ w w2); [exact Hdb1 | exact Hpc1|].
      rewrite <- Hid. apply Hpfresh. exact Hitem.
    - intros p Hp Hpid. unfold w2 in Hp. simpl in Hp. rewrite Hdb1 in Hp.
      assert (Hid' : OrderItem.ProductId item = Product.Id p) by congruence.
      destruct (Hsum p item Hp Hitem Hid') as [Hpos Hwrap].
      destruct (Hstock p item Hp Hitem Hid') as [H0 Hmax].
      rewrite Hpid in Hpos, Hwrap, Hmax. rewrite Hq, Hwrap.
      repeat split; assumption. }
  { intros k q k' q' Hin Hin' Hkey.
    destruct (Hentry k q Hin) as ((a & Ha & Hida) & _).
    destruct (Hentry k' q' Hin') as ((b & Hb & Hidb) & _).
    rewrite <- Hida, <- Hidb. apply Hpkeys; [exact Ha | exact Hb|].
    rewrite Hida, Hidb. exact Hkey. }
  unfold w2 in Hrows, Hu3, Ho3, Hi3. simpl in Hrows, Hu3, Ho3, Hi3.
  rewrite Hdb1 in Hrows, Hu3, Ho3, Hi3.
  set (ureq := {| UpdateOrderRequest.Id := Order.Id order;
                  UpdateOrderRequest.Status := OrderStatusCancelled |}).
  assert (Hrow3 : exists o, o ∈ orders (db w3)
                    /\ Order.Id o = UpdateOrderRequest.Id ureq).
  { exists row. rewrite Ho3. split; [exact Hrow | simpl; congruence]. }
  destruct (UpdateOrder_reliable env ureq w3 Hrel3
              (cancelled_is_valid (Order.Id order) Hoid) Hrow3)
    as ((o' & HU & Hoid' & Hstatus') & Hdb4).
  exists o', (snd (orderStorage.UpdateOrder env ureq w3)), (Now (rt w3)).
  split.
  { unfold orderAppService.CancelOrder. rewrite (bind_ok _ _ _ _ _ HO).
    rewrite Hans, Hcan. cbn [negb]. fold items.
    rewrite (bind_ok _ _ _ _ _ HR). fold entries w2.
    rewrite (bind_ok _ _ _ _ _ Hrun).
    unfold bind at 1. unfold getWorld at 1.
    rewrite (proj1 (Cancel_spec (Now (rt w3)) order) Hcan).
    exact HU. }
  split; [simpl in Hoid'; congruence|]. split; [exact Hstatus'|].
  rewrite Hdb4. simpl. rewrite Hu3, Ho3, Hi3, Horderid.
  split; [|auto].
  refine (Forall2_trans _ _ _ _ _ _ _
            (Forall2_diag_elem (products (db w))) Hrows).
  intros x y z [-> Hx] (A1 & A2 & A3 & A4 & A5).
  unfold restoredBy. repeat split; try assumption. rewrite A5. f_equal.
  destruct (itemsOf (Product.Id x) items) as [|q0 qs] eqn:E.
  - apply amountOf_absent. intros Hin.
    apply (list_elem_of_fmap_1 fst) in Hin.
    destruct Hin as ([k q] & Hk & Hin). simpl in Hk. subst k.
    apply Hentries in Hin. rewrite productQuantityToRestore_lookup in Hin.
    rewrite E in Hin. discriminate.
  - assert (Hne : itemsOf (Product.Id x) items <> [])
      by (rewrite E; discriminate).
    apply itemsOf_nonempty in Hne. destruct Hne as (item & Hitem & Hid).
    destruct (Hsum x item Hx Hitem Hid) as [_ Hwrap].
    rewrite <- E, <- Hwrap. apply amountOf_unique; [exact Hnd|].
    apply Hentries. rewrite productQuantityToRestore_lookup, E. reflexivity.
Qed.

End CancelOrder.

(** C2 (amended): on a reliable store whose order cache agrees with it, for
    every order the store returns for the id, and provided (as [CancelReady]
    says, with the sanity of the data and of the product cache) that giving
    the order's quantities back keeps every product's quantity within
    [int]: [CancelOrder] succeeds when the order's status is pending or
    confirmed, and fails otherwise.  In the first case every product row has
    got back the sum of the quantities of the order's items that name it,
    products of the order without a row are passed over, the update of each
    row is in the data, the order's row is cancelled, nothing else changed,
    and the order returned is cancelled.  In the second case (completed,
    cancelled, or any other status) it fails with [OrderValidation] naming
    the status, and the data, product quantities included, is what it
    was. *)
Theorem CancelOrder_restores_or_refuses
    (env : Env) (orderId : UUID) (w : World)
    (order : Order.t) (rest : list Order.t) :
  RangeOk env -> Reliable w ->
  ordersFresh env (orderStorage.byId orderId) w ->
  ordersAnswer (GetOrdersRequest.Validate (orderStorage.byId orderId)) (db w)
  = order :: rest ->
  (Order.Status order = OrderStatusPending
   \/ Order.Status order = OrderStatusConfirmed ->
   CancelReady env w order ->
   exists o' w' now,
     orderAppService.CancelOrder env orderId w = (Ok o', w')
     /\ Order.Id o' = orderId
     /\ Order.Status o' = OrderStatusCancelled
     /\ Forall2 (restoredBy (fun k => sumZ (itemsOf k (Order.Items order))))
          (products (db w)) (products (db w'))
     /\ orders (db w')
        = orders (SQL.updateOrder now
                    {| UpdateOrderRequest.Id := orderId;
                       UpdateOrderRequest.Status := OrderStatusCancelled |}
                    (db w))
     /\ users (db w') = users (db w)
     /\ order_items (db w') = order_items (db w))
  /\ (Order.Status order <> OrderStatusPending ->
      Order.Status order <> OrderStatusConfirmed ->
      orderAppService.CancelOrder env orderId w
      = (Err (Errorf ErrOrderValidation
                "%w: order in status %s cannot be cancelled"
                [ArgStr (Order.Status order)]),
         snd (orderStorage.Orders env (orderStorage.byId orderId) w))
      /\ db (snd (orderStorage.Orders env (orderStorage.byId orderId) w))
         = db w).
Proof.
  intros Hrange Hrel Hfresh Hans. split.
  - intros Hstatus Hready.
    apply (CancelOrder_done env orderId w order rest); try assumption.
    apply CanBeCancelled_spec. exact Hstatus.
  - intros Hp Hc.
    apply (CancelOrder_refused env orderId w order rest); try assumption.
    destruct (Order.CanBeCancelled order) eqn:E; [|reflexivity].
    apply CanBeCancelled_spec in E. destruct E; contradiction.
Qed.

Lemma CancelOrder_restores_or_refuses_witness :
  (exists o' w',
     orderAppService.CancelOrder (refEnv (fun l => l)) 1002 placedWorld
     = (Ok o', w')
     /\ Order.Status o' = "cancelled"
     /\ Forall2 (restoredBy (fun k => sumZ (itemsOf k (Order.Items placedOrder))))
          (products (db placedWorld)) (products (db w')))
  /\ fst (orderAppService.CancelOrder (refEnv (fun l => l)) 5
            (freshWorld doneDB))
     = Err (Errorf ErrOrderValidation
              "%w: order in status %s cannot be cancelled"
              [ArgStr "completed"]).
Proof.
  assert (Hrange : RangeOk (refEnv (fun l => l))) by (intros n l; reflexivity).
  split.
  - destruct (CancelOrder_restores_or_refuses (refEnv (fun l => l)) 1002
                placedWorld placedOrder [] Hrange) as [Hdone _].
    + constructor.
    + intros it H. vm_compute in H. discriminate.
    + vm_compute. reflexivity.
    + destruct Hdone as (o' & w' & now & Hrun & _ & Hstatus & Hrows & _).
      * left. reflexivity.
      * assert (Hproducts : products (db placedWorld)
                  = [{| Product.Id := 2; Product.Description := "widget";
                        Product.Tags := []; Product.Quantity := 6;
                        Product.CreatedAt := 1; Product.UpdatedAt := 1 |}])
          by (vm_compute; reflexivity).
        constructor.
        -- discriminate.
        -- rewrite Hproducts. apply NoDup_singleton.
        -- intros item Hitem. apply list_elem_of_singleton in Hitem.
           subst item. simpl. split; [discriminate | lia].
        -- intros p item Hp Hitem Hid. rewrite Hproducts in Hp.
           apply list_elem_of_singleton in Hp. subst p.
           vm_compute. split; congruence.
        -- intros item Hitem. apply list_elem_of_singleton in Hitem.
           subst item. intros it H. vm_compute in H. inversion H; subst.
           vm_compute. reflexivity.
        -- intros a b Ha Hb _. apply list_elem_of_singleton in Ha, Hb.
           congruence.
      * exists o', w'. split; [exact Hrun|]. split; assumption.
  - destruct (CancelOrder_restores_or_refuses (refEnv (fun l => l)) 5
                (freshWorld doneDB)
                (Order.withItems [sampleItem 6 5 2 4]
                   (sampleOrder 5 7 "completed")) [] Hrange)
      as [_ Hrefused].
    + constructor.
    + intros it H. cbn [orderCache freshWorld] in H.
      rewrite lookup_empty in H. discriminate.
    + vm_compute. reflexivity.
    + destruct Hrefused as [Hrun _]; [discriminate | discriminate|].
      rewrite Hrun. reflexivity.
Defined.

(** C2, as the specification states it, fails: giving back a quantity is a
    wrapping [int] addition; when it takes the stock past the largest [int]
    the product update is refused as negative, and the cancellation of a
    pending order fails, with the order still pending. *)
Lemma CancelOrder_pending_fails_on_overflow :
  ordersAnswer (GetOrdersRequest.Validate (orderStorage.byId 5)) fullDB
  = [Order.withItems [sampleItem 6 5 2 1] (sampleOrder 5 7 "pending")]
  /\ fst (orderAppService.CancelOrder (refEnv (fun l => l)) 5
            (freshWorld fullDB))
     = Err (Errorf ErrProductValidation "%w: quantity cannot be negative" [])
  /\ db (snd (orderAppService.CancelOrder (refEnv (fun l => l)) 5
                (freshWorld fullDB)))
     = fullDB.
Proof. vm_compute. repeat split; reflexivity. Qed.

(** The specification's end-to-end scenario: ten in stock, four ordered
    (six left), the order cancelled: ten again, and the order cancelled. *)
Lemma order_then_cancel_scenario :
  map Product.Quantity (products (db placedWorld)) = [6]
  /\ (let '(r, w) := orderAppService.CancelOrder (refEnv (fun l => l)) 1002
                       placedWorld in
      (match r with
       | Ok o => Order.Status o
       | Err _ => ""
       end,
       map Product.Quantity (products (db w)),
       match fst (orderAppService.CancelOrder (refEnv (fun l => l)) 1002 w)
       with
       | Ok _ => None
       | Err e => Some (kind e)
       end))
     = ("cancelled", [10], Some ErrOrderValidation).
Proof. vm_compute. split; reflexivity. Qed.

(* ================================================================== *)
(** * List requests: limits and offsets *)

Section Clamps.

Lemma clampLimit_bounds (limit : Z) : 1 <= clampLimit limit <= 100.
Proof.
  unfold clampLimit. destruct (Z.leb_spec limit 0).
  - simpl. lia.
  - destruct (Z.ltb_spec 100 limit); lia.
Qed.

Lemma clampLimit_fixed (limit : Z) :
  1 <= limit <= 100 -> clampLimit limit = limit.
Proof.
  intros H. unfold clampLimit. destruct (Z.leb_spec limit 0); [lia|].
  destruct (Z.ltb_spec 100 limit); [lia | reflexivity].
Qed.

Lemma clampOffset_bounds (offset : Z) : 0 <= clampOffset offset.
Proof. unfold clampOffset. destruct (Z.ltb_spec offset 0); lia. Qed.

Lemma clampOffset_fixed (offset : Z) :
  0 <= offset -> clampOffset offset = offset.
Proof.
  intros H. unfold clampOffset. destruct (Z.ltb_spec offset 0);
    [lia | reflexivity].
Qed.

Lemma clampLimit_idem (limit : Z) :
  clampLimit (clampLimit limit) = clampLimit limit.
Proof. apply clampLimit_fixed, clampLimit_bounds. Qed.

Lemma clampOffset_idem (offset : Z) :
  clampOffset (clampOffset offset) = clampOffset offset.
Proof. apply clampOffset_fixed, clampOffset_bounds. Qed.

End Clamps.

(** X1: [Validate] of the three list requests (users, products, orders)
    brings the limit into 1..100 (10 when none or a negative one is given,
    100 when more is asked) and the offset to 0 or more, keeps the filters,
    changes nothing in a request already within these bounds, and doing it
    twice is doing it once. *)
Theorem list_requests_normalized
    (u : GetUsersRequest.t) (p : GetProductsRequest.t)
    (o : GetOrdersRequest.t) :
  (1 <= GetUsersRequest.Limit (GetUsersRequest.Validate u) <= 100
   /\ 0 <= GetUsersRequest.Offset (GetUsersRequest.Validate u)
   /\ (GetUsersRequest.Limit u <= 0 ->
       GetUsersRequest.Limit (GetUsersRequest.Validate u) = 10)
   /\ (100 < GetUsersRequest.Limit u ->
       GetUsersRequest.Limit (GetUsersRequest.Validate u) = 100)
   /\ GetUsersRequest.Ids (GetUsersRequest.Validate u) = GetUsersRequest.Ids u
   /\ (1 <= GetUsersRequest.Limit u <= 100 -> 0 <= GetUsersRequest.Offset u ->
       GetUsersRequest.Validate u = u)
   /\ GetUsersRequest.Validate (GetUsersRequest.Validate u)
      = GetUsersRequest.Validate u)
  /\ (1 <= GetProductsRequest.Limit (GetProductsRequest.Validate p) <= 100
      /\ 0 <= GetProductsRequest.Offset (GetProductsRequest.Validate p)
      /\ (GetProductsRequest.Limit p <= 0 ->
          GetProductsRequest.Limit (GetProductsRequest.Validate p) = 10)
      /\ (100 < GetProductsRequest.Limit p ->
          GetProductsRequest.Limit (GetProductsRequest.Validate p) = 100)
      /\ GetProductsRequest.Ids (GetProductsRequest.Validate p)
         = GetProductsRequest.Ids p
      /\ GetProductsRequest.Tags (GetProductsRequest.Validate p)
         = GetProductsRequest.Tags p
      /\ GetProductsRequest.Available (GetProductsRequest.Validate p)
         = GetProductsRequest.Available p
      /\ (1 <= GetProductsRequest.Limit p <= 100 ->
          0 <= GetProductsRequest.Offset p ->
          GetProductsRequest.Validate p = p)
      /\ GetProductsRequest.Validate (GetProductsRequest.Validate p)
         = GetProductsRequest.Validate p)
  /\ (1 <= GetOrdersRequest.Limit (GetOrdersRequest.Validate o) <= 100
      /\ 0 <= GetOrdersRequest.Offset (GetOrdersRequest.Validate o)
      /\ (GetOrdersRequest.Limit o <= 0 ->
          GetOrdersRequest.Limit (GetOrdersRequest.Validate o) = 10)
      /\ (100 < GetOrdersRequest.Limit o ->
          GetOrdersRequest.Limit (GetOrdersRequest.Validate o) = 100)
      /\ GetOrdersRequest.Ids (GetOrdersRequest.Validate o)
         = GetOrdersRequest.Ids o
      /\ GetOrdersRequest.UserIds (GetOrdersRequest.Validate o)
         = GetOrdersRequest.UserIds o
      /\ GetOrdersRequest.Statuses (GetOrdersRequest.Validate o)
         = GetOrdersRequest.Statuses o
      /\ (1 <= GetOrdersRequest.Limit o <= 100 ->
          0 <= GetOrdersRequest.Offset o ->
          GetOrdersRequest.Validate o = o)
      /\ GetOrdersRequest.Validate (GetOrdersRequest.Validate o)
         = GetOrdersRequest.Validate o).
Proof.
  assert (Hlow : forall l, l <= 0 -> clampLimit l = 10).
  { intros l H. unfold clampLimit. destruct (Z.leb_spec l 0); [|lia].
    reflexivity. }
  assert (Hhigh : forall l, 100 < l -> clampLimit l = 100).
  { intros l H. unfold clampLimit. destruct (Z.leb_spec l 0); [lia|].
    destruct (Z.ltb_spec 100 l); [reflexivity | lia]. }
  split; [|split].
  - destruct u as [ids limit offset].
    unfold GetUsersRequest.Validate; simpl.
    split; [apply clampLimit_bounds|]. split; [apply clampOffset_bounds|].
    split; [apply Hlow|]. split; [apply Hhigh|]. split; [reflexivity|].
    split.
    + intros Hl Ho. rewrite clampLimit_fixed, clampOffset_fixed by assumption.
      reflexivity.
    + rewrite clampLimit_idem, clampOffset_idem. reflexivity.
  - destruct p as [ids tags available limit offset].
    unfold GetProductsRequest.Validate; simpl.
    split; [apply clampLimit_bounds|]. split; [apply clampOffset_bounds|].
    split; [apply Hlow|]. split; [apply Hhigh|]. split; [reflexivity|].
    split; [reflexivity|]. split; [reflexivity|].
    split.
    + intros Hl Ho. rewrite clampLimit_fixed, clampOffset_fixed by assumption.
      reflexivity.
    + rewrite clampLimit_idem, clampOffset_idem. reflexivity.
  - destruct o as [ids userIds statuses limit offset].
    unfold GetOrdersRequest.Validate; simpl.
    split; [apply clampLimit_bounds|]. split; [apply clampOffset_bounds|].
    split; [apply Hlow|]. split; [apply Hhigh|]. split; [reflexivity|].
    split; [reflexivity|]. split; [reflexivity|].
    split.
    + intros Hl Ho. rewrite clampLimit_fixed, clampOffset_fixed by assumption.
      reflexivity.
    + rewrite clampLimit_idem, clampOffset_idem. reflexivity.
Qed.

Lemma list_requests_normalized_witness :
  GetUsersRequest.Limit
    (GetUsersRequest.Validate
       {| GetUsersRequest.Ids := [7%N]; GetUsersRequest.Limit := 0;
          GetUsersRequest.Offset := -3 |}) = 10
  /\ GetProductsRequest.Limit
       (GetProductsRequest.Validate
          {| GetProductsRequest.Ids := []; GetProductsRequest.Tags := [];
             GetProductsRequest.Available := None;
             GetProductsRequest.Limit := 250;
             GetProductsRequest.Offset := 20 |}) = 100
  /\ GetOrdersRequest.Validate (orderStorage.byId 5) = orderStorage.byId 5.
Proof.
  destruct (list_requests_normalized
              {| GetUsersRequest.Ids := [7%N]; GetUsersRequest.Limit := 0;
                 GetUsersRequest.Offset := -3 |}
              {| GetProductsRequest.Ids := []; GetProductsRequest.Tags := [];
                 GetProductsRequest.Available := None;
                 GetProductsRequest.Limit := 250;
                 GetProductsRequest.Offset := 20 |}
              (orderStorage.byId 5)) as (Hu & Hp & Ho).
  destruct Hu as (_ & _ & Hlow & _).
  destruct Hp as (_ & _ & _ & Hhigh & _).
  destruct Ho as (_ & _ & _ & _ & _ & _ & _ & Hfix & _).
  split; [apply Hlow; simpl; lia|].
  split; [apply Hhigh; simpl; lia|].
  apply Hfix; simpl; lia.
Defined.

(* ================================================================== *)
(** * Pagination *)

Section PaginationFacts.

Implicit Types (p : Pagination.t).

Lemma Pagination_Limit_clamp p :
  Pagination.Limit p = clampLimit (Pagination.Size p).
Proof.
  unfold Pagination.Limit, clampLimit.
  destruct (Pagination.Size p <=? 0); reflexivity.
Qed.

Lemma Pagination_Limit_size p :
  1 <= Pagination.Size p <= 100 -> Pagination.Limit p = Pagination.Size p.
Proof.
  intros H. rewrite Pagination_Limit_clamp. apply clampLimit_fixed. exact H.
Qed.

Lemma Pagination_Offset_exact p :
  1 <= Pagination.Page p ->
  (Pagination.Page p - 1) * Pagination.Limit p <= MaxInt ->
  Pagination.Page p <= MaxInt ->
  Pagination.Offset p = (Pagination.Page p - 1) * Pagination.Limit p.
Proof.
  intros Hp Hmax Hpage. unfold Pagination.Offset.
  destruct (Z.leb_spec (Pagination.Page p) 0); [lia|].
  pose proof (clampLimit_bounds (Pagination.Size p)) as Hl.
  rewrite <- Pagination_Limit_clamp in Hl.
  unfold int_mul, int_sub.
  rewrite (wrap_id (Pagination.Page p - 1))
    by (unfold is_int, MinInt, MaxInt in *; lia).
  apply wrap_id. unfold is_int, MinInt, MaxInt in *. nia.
Qed.

End PaginationFacts.

(** X2: whatever the query string holds, the pagination a handler reads
    from it has a page number of at least 1 and a size within 1..100 (1 and
    10 standing in for what is absent, unreadable or out of range); its
    limit is that size, and, as long as the product does not leave [int],
    its offset is (page - 1) * size; limit and offset then pass the domain
    requests' [Validate] unchanged. *)
Theorem NewPaginationFromRequest_in_bounds (http : Http) (c : Ctx) :
  let p := Pagination.NewPaginationFromRequest http c in
  1 <= Pagination.Page p
  /\ 1 <= Pagination.Size p <= 100
  /\ Pagination.Limit p = Pagination.Size p
  /\ clampLimit (Pagination.Limit p) = Pagination.Limit p
  /\ (Pagination.Page p <= MaxInt ->
      (Pagination.Page p - 1) * Pagination.Size p <= MaxInt ->
      Pagination.Offset p = (Pagination.Page p - 1) * Pagination.Size p
      /\ clampOffset (Pagination.Offset p) = Pagination.Offset p).
Proof.
  intros p.
  assert (Hpage : 1 <= Pagination.Page p).
  { unfold p, Pagination.NewPaginationFromRequest. simpl.
    destruct (String.eqb (Query c "page") ""); [lia|].
    destruct (Atoi http (Query c "page")) as [n|]; [|lia].
    destruct (Z.ltb_spec 0 n); lia. }
  assert (Hsize : 1 <= Pagination.Size p <= 100).
  { unfold p, Pagination.NewPaginationFromRequest. simpl.
    destruct (String.eqb (Query c "size") ""); [lia|].
    destruct (Atoi http (Query c "size")) as [n|]; [|lia].
    destruct (Z.ltb_spec 0 n); destruct (Z.leb_spec n 100); simpl; lia. }
  pose proof (Pagination_Limit_size p Hsize) as Hlimit.
  split; [exact Hpage|]. split; [exact Hsize|]. split; [exact Hlimit|].
  split; [rewrite Hlimit; apply clampLimit_fixed; exact Hsize|].
  intros Hint Hmax.
  assert (Hoff : Pagination.Offset p
                 = (Pagination.Page p - 1) * Pagination.Size p).
  { rewrite <- Hlimit. apply Pagination_Offset_exact; [exact Hpage| |exact Hint].
    rewrite Hlimit. exact Hmax. }
  split; [exact Hoff|]. apply clampOffset_fixed. rewrite Hoff. nia.
Qed.

Lemma NewPaginationFromRequest_in_bounds_witness :
  let p := Pagination.NewPaginationFromRequest refHttp
             (ctxOf [("page", "3"); ("size", "500")] []) in
  Pagination.Page p = 3 /\ Pagination.Size p = 10
  /\ Pagination.Limit p = 10 /\ Pagination.Offset p = 20
  /\ clampOffset (Pagination.Offset p) = Pagination.Offset p.
Proof.
  intros p.
  destruct (NewPaginationFromRequest_in_bounds refHttp
              (ctxOf [("page", "3"); ("size", "500")] []))
    as (_ & _ & Hl & _ & Hoff).
  fold p in Hl, Hoff.
  destruct Hoff as [Ho Hc]; [vm_compute; discriminate
                            | vm_compute; discriminate |].
  split; [reflexivity|]. split; [reflexivity|].
  split; [rewrite Hl; reflexivity|].
  split; [rewrite Ho; reflexivity | exact Hc].
Defined.

(** X3: [CalculateTotalPages] sets the number of pages to the total divided
    by the size, rounded up: with a positive size and a total that is not
    negative (their sum within [int]), the pages hold the total and the
    last of them is not empty; with a size of 0 or less the number of pages
    is 0.  Page, size and total stay as they are. *)
Theorem CalculateTotalPages_rounds_up (p : Pagination.t) :
  let p' := Pagination.CalculateTotalPages p in
  Pagination.Page p' = Pagination.Page p
  /\ Pagination.Size p' = Pagination.Size p
  /\ Pagination.Total p' = Pagination.Total p
  /\ (Pagination.Size p <= 0 -> Pagination.TotalPages p' = 0)
  /\ (0 < Pagination.Size p -> 0 <= Pagination.Total p ->
      Pagination.Total p + Pagination.Size p - 1 <= MaxInt ->
      0 <= Pagination.TotalPages p'
      /\ (Pagination.TotalPages p' - 1) * Pagination.Size p
         < Pagination.Total p
      /\ Pagination.Total p
         <= Pagination.TotalPages p' * Pagination.Size p).
Proof.
  intros p'. unfold p', Pagination.CalculateTotalPages.
  destruct (Z.leb_spec (Pagination.Size p) 0) as [Hs|Hs]; simpl.
  - split; [reflexivity|]. split; [reflexivity|]. split; [reflexivity|].
    split; [reflexivity|]. intros; lia.
  - split; [reflexivity|]. split; [reflexivity|]. split; [reflexivity|].
    split; [lia|]. intros _ Ht Hmax.
    set (s := Pagination.Size p) in *. set (t := Pagination.Total p) in *.
    unfold int_div, int_sub, int_add.
    replace (wrap (t + s) - 1) with (wrap (t + s) + -1) by lia.
    rewrite wrap_add_l.
    rewrite (wrap_id (t + s + -1))
      by (unfold is_int, MinInt, MaxInt in *; lia).
    replace (t + s + -1) with (t + s - 1) by lia.
    rewrite Z.quot_div_nonneg by lia.
    assert (Hq : 0 <= (t + s - 1) / s <= t + s - 1).
    { split; [apply Z.div_pos; lia|].
      apply Z.div_le_upper_bound; [lia|]. nia. }
    rewrite wrap_id by (unfold is_int, MinInt, MaxInt in *; lia).
    pose proof (Z.div_mod (t + s - 1) s ltac:(lia)) as Hdm.
    pose proof (Z.mod_pos_bound (t + s - 1) s ltac:(lia)) as Hm.
    split; [lia|]. split; nia.
Qed.

Lemma CalculateTotalPages_rounds_up_witness :
  let n := Pagination.TotalPages
             (Pagination.CalculateTotalPages
                (Pagination.withTotal 21 (pageNo 10 1))) in
  0 <= n /\ (n - 1) * 10 < 21 /\ 21 <= n * 10.
Proof.
  apply (CalculateTotalPages_rounds_up
           (Pagination.withTotal 21 (pageNo 10 1))).
  - simpl. lia.
  - simpl. lia.
  - vm_compute. discriminate.
Defined.

Section Paging.

Context {A : Type}.

Implicit Types (rows : list A).

Lemma page_take_drop (limit offset : Z) rows :
  page limit offset rows
  = take (Z.to_nat limit) (drop (Z.to_nat offset) rows).
Proof. reflexivity. Qed.

(** The first [m] chunks of [s] rows are the first [m * s] rows. *)
Lemma chunks_take (s : nat) rows : forall m : nat,
  flat_map (fun k : nat => take s (drop ((k - 1) * s) rows)) (seq 1 m)
  = take (m * s) rows.
Proof.
  induction m as [|m IH]; [reflexivity|].
  rewrite seq_S, flat_map_app, IH. simpl.
  rewrite app_nil_r.
  replace (m - 0)%nat with m by lia.
  rewrite take_take_drop. f_equal. lia.
Qed.

End Paging.

(** X4: paging through a list of rows with the limit and offset the
    pagination gives for the pages 1 to [TotalPages] (size within 1..100,
    the total being the number of rows) meets every row exactly once and in
    order: the pages, one after the other, are the rows, and none of those
    pages is empty. *)
Theorem pages_cover_rows {A : Type} (rows : list A) (size : Z) :
  1 <= size <= 100 ->
  Z.of_nat (length rows) + size - 1 <= MaxInt ->
  let n := Pagination.TotalPages
             (Pagination.CalculateTotalPages
                (Pagination.withTotal (Z.of_nat (length rows))
                                      (pageNo size 1))) in
  flat_map (fun k : nat =>
              page (Pagination.Limit (pageNo size (Z.of_nat k)))
                   (Pagination.Offset (pageNo size (Z.of_nat k))) rows)
           (seq 1 (Z.to_nat n))
  = rows
  /\ forall k : nat,
       (1 <= k <= Z.to_nat n)%nat ->
       page (Pagination.Limit (pageNo size (Z.of_nat k)))
            (Pagination.Offset (pageNo size (Z.of_nat k))) rows <> [].
Proof.
  intros Hsize Hmax n.
  destruct (CalculateTotalPages_rounds_up
              (Pagination.withTotal (Z.of_nat (length rows)) (pageNo size 1)))
    as (_ & _ & _ & _ & Hceil).
  simpl in Hceil. fold n in Hceil.
  destruct Hceil as (Hn0 & Hlow & Hup); [lia | lia | lia |].
  assert (Hpage : forall k : nat,
            (1 <= k <= Z.to_nat n)%nat ->
            page (Pagination.Limit (pageNo size (Z.of_nat k)))
                 (Pagination.Offset (pageNo size (Z.of_nat k))) rows
            = take (Z.to_nat size)
                   (drop ((k - 1) * Z.to_nat size) rows)).
  { intros k Hk. rewrite page_take_drop.
    rewrite Pagination_Limit_size by (simpl; lia). simpl.
    rewrite Pagination_Offset_exact;
      [| simpl; lia
       | rewrite Pagination_Limit_size by (simpl; lia); simpl; nia
       | simpl; nia].
    rewrite Pagination_Limit_size by (simpl; lia). simpl.
    f_equal. f_equal. nia. }
  split.
  - transitivity
      (flat_map (fun k : nat =>
                   take (Z.to_nat size) (drop ((k - 1) * Z.to_nat size) rows))
                (seq 1 (Z.to_nat n))).
    + rewrite !flat_map_concat_map. f_equal. apply map_ext_in.
      intros k Hk. apply in_seq in Hk. apply Hpage. lia.
    + rewrite chunks_take. apply take_ge. nia.
  - intros k Hk. rewrite (Hpage k Hk). intros Hnil.
    apply (f_equal length) in Hnil.
    rewrite length_take, length_drop in Hnil. simpl in Hnil. nia.
Qed.

Lemma pages_cover_rows_witness :
  flat_map (fun k : nat =>
              page (Pagination.Limit (pageNo 2 (Z.of_nat k)))
                   (Pagination.Offset (pageNo 2 (Z.of_nat k)))
                   [1; 2; 3; 4; 5])
           (seq 1 3)
  = [1; 2; 3; 4; 5].
Proof.
  apply (pages_cover_rows [1; 2; 3; 4; 5] 2).
  - lia.
  - vm_compute. discriminate.
Defined.

(* ================================================================== *)
(** * Sequences of order transitions *)

Section OrderRuns.

Implicit Types (o : Order.t) (call : Time * OrderOp).

Lemma orderStep_frame o call :
  Order.Id (orderStep o call) = Order.Id o
  /\ Order.UserId (orderStep o call) = Order.UserId o
  /\ Order.Items (orderStep o call) = Order.Items o
  /\ Order.CreatedAt (orderStep o call) = Order.CreatedAt o.
Proof.
  destruct call as [now [| |]]; unfold orderStep; simpl.
  - unfold Order.Confirm. destruct (negb _); repeat split; reflexivity.
  - unfold Order.Complete. destruct (negb _); repeat split; reflexivity.
  - unfold Order.Cancel. destruct (negb _); repeat split; reflexivity.
Qed.

Lemma orderStep_terminal o call :
  Order.Status o = OrderStatusCancelled
  \/ Order.Status o = OrderStatusCompleted ->
  orderStep o call = o.
Proof.
  intros Hterm.
  assert (Hp : Order.Status o <> OrderStatusPending)
    by (destruct Hterm as [E|E]; rewrite E; discriminate).
  assert (Hc : Order.Status o <> OrderStatusConfirmed)
    by (destruct Hterm as [E|E]; rewrite E; discriminate).
  destruct call as [now [| |]]; unfold orderStep; simpl.
  - rewrite (proj2 (Confirm_spec now o) Hp). reflexivity.
  - rewrite (proj2 (Complete_spec now o) Hc). reflexivity.
  - rewrite (proj2 (Cancel_spec now o)); [reflexivity|].
    destruct (Order.CanBeCancelled o) eqn:E; [|reflexivity].
    apply CanBeCancelled_spec in E. destruct E; contradiction.
Qed.

(** A step keeps the status or moves it to one of the three statuses that
    are not pending. *)
Lemma orderStep_status o call :
  Order.Status (orderStep o call) = Order.Status o
  \/ Order.Status (orderStep o call) = OrderStatusConfirmed
  \/ Order.Status (orderStep o call) = OrderStatusCompleted
  \/ Order.Status (orderStep o call) = OrderStatusCancelled.
Proof.
  destruct call as [now [| |]]; unfold orderStep; simpl.
  - unfold Order.Confirm. destruct (negb _); simpl; auto.
  - unfold Order.Complete. destruct (negb _); simpl; auto.
  - unfold Order.Cancel. destruct (negb _); simpl; auto.
Qed.

End OrderRuns.

(** X5: over any sequence of [Confirm], [Complete] and [Cancel] calls on an
    order (failing calls leaving it as it is): an order that is cancelled or
    completed comes out exactly as it went in; no call brings an order back
    to pending; the status at the end is the one at the start or one of
    confirmed, completed, cancelled; and the identifier, the user, the
    items and the creation time are never touched. *)
Theorem order_runs_keep_terminal_statuses
    (calls : list (Time * OrderOp)) (o : Order.t) :
  (Order.Status o = OrderStatusCancelled
   \/ Order.Status o = OrderStatusCompleted ->
   orderRun calls o = o)
  /\ (Order.Status o <> OrderStatusPending ->
      Order.Status (orderRun calls o) <> OrderStatusPending)
  /\ (Order.Status (orderRun calls o) = Order.Status o
      \/ Order.Status (orderRun calls o) = OrderStatusConfirmed
      \/ Order.Status (orderRun calls o) = OrderStatusCompleted
      \/ Order.Status (orderRun calls o) = OrderStatusCancelled)
  /\ Order.Id (orderRun calls o) = Order.Id o
  /\ Order.UserId (orderRun calls o) = Order.UserId o
  /\ Order.Items (orderRun calls o) = Order.Items o
  /\ Order.CreatedAt (orderRun calls o) = Order.CreatedAt o.
Proof.
  revert o. induction calls as [|call rest IH]; intros o.
  - simpl. repeat split; auto.
  - unfold orderRun in *. simpl.
    destruct (IH (orderStep o call)) as (Hterm & Hpend & Hstat & Hid & Hu & Hi & Hc).
    destruct (orderStep_frame o call) as (Hid1 & Hu1 & Hi1 & Hc1).
    pose proof (orderStep_status o call) as Hs1.
    split; [|split; [|split]].
    + intros H. rewrite (orderStep_terminal o call H) in *.
      apply Hterm. exact H.
    + intros H. apply Hpend.
      destruct Hs1 as [E|[E|[E|E]]]; rewrite E; try discriminate. exact H.
    + destruct Hstat as [E|[E|[E|E]]]; rewrite E; auto.
    + repeat split; congruence.
Qed.

Lemma order_runs_keep_terminal_statuses_witness :
  orderRun [(2, OpConfirm); (3, OpCancel); (4, OpComplete)]
           (sampleOrder 1 2 "completed")
  = sampleOrder 1 2 "completed"
  /\ Order.Status (orderRun [(2, OpConfirm); (3, OpCancel); (4, OpComplete)]
                            (sampleOrder 1 2 "confirmed"))
     <> OrderStatusPending.
Proof.
  split.
  - apply (order_runs_keep_terminal_statuses
             [(2, OpConfirm); (3, OpCancel); (4, OpComplete)]
             (sampleOrder 1 2 "completed")).
    right. reflexivity.
  - apply (order_runs_keep_terminal_statuses
             [(2, OpConfirm); (3, OpCancel); (4, OpComplete)]
             (sampleOrder 1 2 "confirmed")).
    discriminate.
Defined.

(* ================================================================== *)
(** * Updating an order's status *)

Section StatusUpdates.

Variable env : Env.

Implicit Types (w : World) (d : DB).

Lemma updateOrder_frame now req d :
  users (SQL.updateOrder now req d) = users d
  /\ products (SQL.updateOrder now req d) = products d
  /\ order_items (SQL.updateOrder now req d) = order_items d.
Proof. repeat split; reflexivity. Qed.

(** Rows with another id are left alone by the update. *)
Lemma updateOrder_other_rows now req d o :
  o ∈ orders d -> Order.Id o <> UpdateOrderRequest.Id req ->
  o ∈ orders (SQL.updateOrder now req d).
Proof.
  intros Hin Hid. unfold SQL.updateOrder. simpl.
  apply (list_elem_of_fmap_2'
           (fun o => if (Order.Id o =? UpdateOrderRequest.Id req)%N
                     then Order.withStatus (UpdateOrderRequest.Status req) now o
                     else o) _ o); [exact Hin|].
  destruct (N.eqb_spec (Order.Id o) (UpdateOrderRequest.Id req));
    [contradiction | reflexivity].
Qed.

Lemma updateOrder_no_row now req d :
  (forall o, o ∈ orders d -> Order.Id o <> UpdateOrderRequest.Id req) ->
  SQL.updateOrder now req d = d /\ SQL.rowsAffected req d = 0%nat.
Proof.
  intros Hnone. unfold SQL.updateOrder, SQL.rowsAffected.
  destruct d as [us ps os its]. simpl in *. split.
  - f_equal. induction os as [|o os IH]; [reflexivity|]. simpl.
    rewrite IH by (intros o' Ho'; apply Hnone, list_elem_of_further; exact Ho').
    destruct (N.eqb_spec (Order.Id o) (UpdateOrderRequest.Id req)) as [E|NE];
      [|reflexivity].
    exfalso. apply (Hnone o); [apply list_elem_of_here | exact E].
  - induction os as [|o os IH]; [reflexivity|].
    rewrite filter_cons.
    destruct (N.eqb_spec (Order.Id o) (UpdateOrderRequest.Id req)) as [E|NE].
    + exfalso. apply (Hnone o); [apply list_elem_of_here | exact E].
    + rewrite decide_False by (simpl; tauto).
      apply IH. intros o' Ho'. apply Hnone, list_elem_of_further. exact Ho'.
Qed.

Lemma ordersAnswer_byId_none id d :
  (forall o, o ∈ orders d -> Order.Id o <> id) ->
  ordersAnswer (GetOrdersRequest.Validate (orderStorage.byId id)) d = [].
Proof.
  intros Hnone. unfold ordersAnswer.
  destruct (SQL.selectOrders _ d) as [|row rows] eqn:E; [reflexivity|].
  assert (Hrow : row ∈ SQL.selectOrders
                   (GetOrdersRequest.Validate (orderStorage.byId id)) d)
    by (rewrite E; apply list_elem_of_here).
  apply selectOrders_byId_elem in Hrow. destruct Hrow as [Hin Hid].
  exfalso. apply (Hnone row Hin Hid).
Qed.

Lemma UpdateOrder_unknown req w :
  Reliable w ->
  UpdateOrderRequest.Validate req = None ->
  (forall o, o ∈ orders (db w) -> Order.Id o <> UpdateOrderRequest.Id req) ->
  fst (orderStorage.UpdateOrder env req w) = Err (Sentinel ErrOrderNotFound)
  /\ db (snd (orderStorage.UpdateOrder env req w)) = db w
  /\ orderCache (snd (orderStorage.UpdateOrder env req w)) = ∅.
Proof.
  intros Hrel Hvalid Hnone.
  unfold orderStorage.UpdateOrder, bind, modify, getWorld, throw, ret,
    roundTripM, ttlcache.DeleteAll. simpl. rewrite Hvalid.
  set (w0 := withOrderCache ∅ w).
  assert (Hrel0 : Reliable w0) by exact Hrel.
  pose proof (roundTrip_db w0) as Hd1.
  pose proof (roundTrip_caches w0) as (_ & _ & Ho1).
  destruct (roundTrip_reliable w0 Hrel0) as [Hok1 Hrel1].
  destruct (roundTrip w0) as [b w1]; simpl in *. subst b.
  rewrite Hd1.
  destruct (updateOrder_no_row (Now (rt w)) req (db w) Hnone) as [Hsame Hrows].
  rewrite Hrows. simpl. rewrite Hsame.
  split; [reflexivity|]. split; [reflexivity | exact Ho1].
Qed.

End StatusUpdates.

(** X6: the order storage's [UpdateOrder] checks the request, not the
    transition.  On a store that answers, for every order row and every one
    of the four statuses, whatever status the row has, the call succeeds,
    the row's status is the requested one (a completed order can be made
    pending again), the order returned carries it, every other order row is
    in the table as it was, and users, products and order items are
    untouched. *)
Theorem UpdateOrder_sets_any_status
    (env : Env) (req : UpdateOrderRequest.t) (w : World) :
  Reliable w ->
  UpdateOrderRequest.Id req <> Nil ->
  UpdateOrderRequest.Status req ∈ UpdateOrderRequest.validStatuses ->
  (exists row, row ∈ orders (db w)
               /\ Order.Id row = UpdateOrderRequest.Id req) ->
  exists o w',
    orderStorage.UpdateOrder env req w = (Ok o, w')
    /\ Order.Id o = UpdateOrderRequest.Id req
    /\ Order.Status o = UpdateOrderRequest.Status req
    /\ (forall row, row ∈ orders (db w') ->
          Order.Id row = UpdateOrderRequest.Id req ->
          Order.Status row = UpdateOrderRequest.Status req)
    /\ (forall row, row ∈ orders (db w) ->
          Order.Id row <> UpdateOrderRequest.Id req ->
          row ∈ orders (db w'))
    /\ length (orders (db w')) = length (orders (db w))
    /\ users (db w') = users (db w)
    /\ products (db w') = products (db w)
    /\ order_items (db w') = order_items (db w).
Proof.
  intros Hrel Hid Hstatus Hrow.
  assert (Hvalid : UpdateOrderRequest.Validate req = None).
  { unfold UpdateOrderRequest.Validate.
    destruct (N.eqb_spec (UpdateOrderRequest.Id req) Nil); [contradiction|].
    assert (Hex : existsb (String.eqb (UpdateOrderRequest.Status req))
                          UpdateOrderRequest.validStatuses = true).
    { apply existsb_exists. exists (UpdateOrderRequest.Status req).
      split; [apply list_elem_of_In; exact Hstatus | apply String.eqb_refl]. }
    rewrite Hex. reflexivity. }
  destruct (UpdateOrder_reliable env req w Hrel Hvalid Hrow)
    as ((o & Hrun & Hoid & Hos) & Hdb).
  exists o, (snd (orderStorage.UpdateOrder env req w)).
  split; [exact Hrun|]. split; [exact Hoid|]. split; [exact Hos|].
  rewrite Hdb.
  split; [intros row Hin Hrid;
          apply (updateOrder_rows (Now (rt w)) req (db w)); assumption|].
  split; [intros row Hin Hrid; apply updateOrder_other_rows; assumption|].
  split; [unfold SQL.updateOrder; simpl; apply length_map|].
  repeat split; reflexivity.
Qed.

Lemma UpdateOrder_sets_any_status_witness :
  exists o w',
    orderStorage.UpdateOrder (refEnv (fun l => l))
      {| UpdateOrderRequest.Id := 5;
         UpdateOrderRequest.Status := OrderStatusPending |}
      (freshWorld doneDB)
    = (Ok o, w')
    /\ Order.Status o = OrderStatusPending
    /\ products (db w') = products doneDB.
Proof.
  destruct (UpdateOrder_sets_any_status (refEnv (fun l => l))
              {| UpdateOrderRequest.Id := 5;
                 UpdateOrderRequest.Status := OrderStatusPending |}
              (freshWorld doneDB))
    as (o & w' & Hrun & _ & Hstatus & _ & _ & _ & _ & Hproducts & _).
  - constructor.
  - discriminate.
  - apply list_elem_of_here.
  - exists (sampleOrder 5 7 "completed").
    split; [apply list_elem_of_here | reflexivity].
  - exists o, w'. split; [exact Hrun|]. split; [exact Hstatus|].
    exact Hproducts.
Defined.

(** X7: an identifier no order row carries.  On a store that answers, the
    order storage's [UpdateOrder] (request valid) and the orchestrator's
    [CancelOrder] (order cache agreeing with the store) both end with the
    [OrderNotFound] sentinel, and the data is what it was. *)
Theorem unknown_order_is_not_found (env : Env) (id : UUID) (w : World) :
  Reliable w ->
  (forall o, o ∈ orders (db w) -> Order.Id o <> id) ->
  (forall status,
     id <> Nil -> status ∈ UpdateOrderRequest.validStatuses ->
     fst (orderStorage.UpdateOrder env
            {| UpdateOrderRequest.Id := id;
               UpdateOrderRequest.Status := status |} w)
     = Err (Sentinel ErrOrderNotFound)
     /\ db (snd (orderStorage.UpdateOrder env
                   {| UpdateOrderRequest.Id := id;
                      UpdateOrderRequest.Status := status |} w))
        = db w)
  /\ (ordersFresh env (orderStorage.byId id) w ->
      fst (orderAppService.CancelOrder env id w)
      = Err (Sentinel ErrOrderNotFound)
      /\ db (snd (orderAppService.CancelOrder env id w)) = db w).
Proof.
  intros Hrel Hnone. split.
  - intros status Hid Hstatus.
    assert (Hvalid : UpdateOrderRequest.Validate
                       {| UpdateOrderRequest.Id := id;
                          UpdateOrderRequest.Status := status |} = None).
    { unfold UpdateOrderRequest.Validate.
      cbn [UpdateOrderRequest.Id UpdateOrderRequest.Status].
      destruct (N.eqb_spec id Nil); [contradiction|].
      assert (Hex : existsb (String.eqb status)
                            UpdateOrderRequest.validStatuses = true).
      { apply existsb_exists. exists status.
        split; [apply list_elem_of_In; exact Hstatus | apply String.eqb_refl]. }
      rewrite Hex. reflexivity. }
    destruct (UpdateOrder_unknown env _ w Hrel Hvalid Hnone) as (H1 & H2 & _).
    split; assumption.
  - intros Hfresh.
    destruct (Orders_reliable env (orderStorage.byId id) w Hrel Hfresh)
      as [HO _].
    destruct (Orders_frame env (orderStorage.byId id) w) as (Hdb & _).
    unfold orderAppService.CancelOrder.
    rewrite (bind_ok _ _ _ _ _ HO).
    rewrite (ordersAnswer_byId_none id (db w) Hnone).
    unfold throw. simpl. split; [reflexivity | exact Hdb].
Qed.

Lemma unknown_order_is_not_found_witness :
  fst (orderStorage.UpdateOrder (refEnv (fun l => l))
         {| UpdateOrderRequest.Id := 9;
            UpdateOrderRequest.Status := OrderStatusConfirmed |}
         (freshWorld doneDB))
  = Err (Sentinel ErrOrderNotFound)
  /\ fst (orderAppService.CancelOrder (refEnv (fun l => l)) 9
            (freshWorld doneDB))
     = Err (Sentinel ErrOrderNotFound).
Proof.
  destruct (unknown_order_is_not_found (refEnv (fun l => l)) 9
              (freshWorld doneDB)) as [Hupdate Hcancel].
  - constructor.
  - intros o Ho. apply list_elem_of_singleton in Ho. subst o. discriminate.
  - split.
    + apply (Hupdate OrderStatusConfirmed); [discriminate|].
      apply list_elem_of_further, list_elem_of_here.
    + apply Hcancel. intros it H. cbn [orderCache freshWorld] in H.
      rewrite lookup_empty in H. discriminate.
Defined.

(* ================================================================== *)
(** * The cancel handler *)

(** X8: the REST handler [cancelOrder] does not call the orchestrator's
    [CancelOrder]: it asks [UpdateOrder] for the status cancelled.  So, on a
    store that answers, for every route parameter that parses to the
    identifier of an order row, whatever the status of that order
    (completed and cancelled included), the answer is 200 with the order
    cancelled, and no product row has changed: nothing is given back to the
    stock. *)
Theorem cancelOrder_handler_restores_nothing
    (http : Http) (env : Env) (c : Ctx) (w : World) (id : UUID) :
  Reliable w ->
  uuidParse http (Params c "order_id") = Some id ->
  id <> Nil ->
  (exists row, row ∈ orders (db w) /\ Order.Id row = id) ->
  exists body w',
    rest.cancelOrder http env c w = (Json StatusOK body, w')
    /\ restModel.Order.Id body = id
    /\ restModel.Order.Status body = OrderStatusCancelled
    /\ products (db w') = products (db w)
    /\ order_items (db w') = order_items (db w)
    /\ (forall row, row ∈ orders (db w') -> Order.Id row = id ->
          Order.Status row = OrderStatusCancelled).
Proof.
  intros Hrel Hparse Hid Hrow.
  set (req := {| UpdateOrderRequest.Id := id;
                 UpdateOrderRequest.Status := OrderStatusCancelled |}).
  assert (Hvalid : UpdateOrderRequest.Validate req = None).
  { unfold UpdateOrderRequest.Validate, req. simpl.
    destruct (N.eqb_spec id Nil); [contradiction | reflexivity]. }
  destruct (UpdateOrder_reliable env req w Hrel Hvalid Hrow)
    as ((o & Hrun & Hoid & Hos) & Hdb).
  unfold rest.cancelOrder, orderAppService.UpdateOrder.
  rewrite Hparse. fold req. rewrite Hrun.
  eexists. eexists. split; [reflexivity|].
  split; [exact Hoid|]. split; [exact Hos|]. rewrite Hdb.
  split; [reflexivity|]. split; [reflexivity|].
  intros row Hin Hrid.
  apply (updateOrder_rows (Now (rt w)) req (db w)); assumption.
Qed.

Lemma cancelOrder_handler_restores_nothing_witness :
  exists body w',
    rest.cancelOrder refHttp (refEnv (fun l => l))
      (ctxOf [] [("order_id", "5")]) (freshWorld doneDB)
    = (Json StatusOK body, w')
    /\ restModel.Order.Status body = OrderStatusCancelled
    /\ products (db w') = [sampleProduct 2 10].
Proof.
  destruct (cancelOrder_handler_restores_nothing refHttp
              (refEnv (fun l => l)) (ctxOf [] [("order_id", "5")])
              (freshWorld doneDB) 5)
    as (body & w' & Hrun & _ & Hstatus & Hproducts & _).
  - constructor.
  - reflexivity.
  - discriminate.
  - exists (sampleOrder 5 7 "completed").
    split; [apply list_elem_of_here | reflexivity].
  - exists body, w'. split; [exact Hrun|]. split; [exact Hstatus|].
    exact Hproducts.
Defined.

(* ================================================================== *)
(** * An order that goes through *)

Section OrderGoesThrough.

Variable env : Env.

Implicit Types (w : World) (d : DB).

Lemma CreateOrderRequest_Validate_None req :
  CreateOrderRequest.Validate req = None ->
  CreateOrderRequest.UserId req <> Nil
  /\ CreateOrderRequest.Items req <> []
  /\ forall line, line ∈ CreateOrderRequest.Items req ->
       CreateOrderItemRequest.ProductId line <> Nil
       /\ 0 < CreateOrderItemRequest.Quantity line.
Proof.
  unfold CreateOrderRequest.Validate.
  destruct (N.eqb_spec (CreateOrderRequest.UserId req) Nil); [discriminate|].
  destruct (CreateOrderRequest.Items req) as [|l0 ls] eqn:E; [discriminate|].
  simpl (Nat.eqb _ _). cbv iota. intros Hitems.
  split; [assumption|]. split; [discriminate|].
  revert Hitems. generalize (l0 :: ls). clear.
  intros items. induction items as [|line rest IH]; simpl; intros H l Hl.
  - apply not_elem_of_nil in Hl. contradiction.
  - unfold CreateOrderItemRequest.Validate in H.
    destruct (N.eqb_spec (CreateOrderItemRequest.ProductId line) Nil);
      [discriminate|].
    destruct (Z.leb_spec (CreateOrderItemRequest.Quantity line) 0);
      [discriminate|].
    apply elem_of_cons in Hl. destruct Hl as [->|Hl]; [split; assumption|].
    apply IH; assumption.
Qed.

Lemma linesOf_positive items k q :
  (forall line, line ∈ items -> 0 < CreateOrderItemRequest.Quantity line) ->
  q ∈ linesOf k items -> 0 < q.
Proof.
  intros Hpos Hq. unfold linesOf in Hq.
  apply (list_elem_of_fmap_1 _) in Hq. destruct Hq as (line & -> & Hin).
  apply list_elem_of_filter in Hin. apply Hpos, Hin.
Qed.

Lemma updateProduct_keeps_other_rows now req d p :
  p ∈ products d -> Product.Id p <> UpdateProductRequest.Id req ->
  p ∈ products (SQL.updateProduct env now req d).
Proof.
  intros Hin Hid. unfold SQL.updateProduct. simpl.
  apply (list_elem_of_fmap_2'
           (fun p => if (Product.Id p =? UpdateProductRequest.Id req)%N
                     then SQL.setProduct env now req p else p) _ p);
    [exact Hin|].
  destruct (N.eqb_spec (Product.Id p) (UpdateProductRequest.Id req));
    [contradiction | reflexivity].
Qed.

Lemma takenBy_compose k q rest p p1 p' :
  restoredBy (fun id => if decide (k = id) then - q else 0) p p1 ->
  restoredBy (fun id => - amountOf rest id) p1 p' ->
  restoredBy (fun id => - amountOf ((k, q) :: rest) id) p p'.
Proof.
  intros (A1 & A2 & A3 & A4 & A5) (B1 & B2 & B3 & B4 & B5).
  unfold restoredBy. rewrite amountOf_cons.
  repeat split; try congruence. rewrite B5, A5, A1.
  destruct (decide (k = Product.Id p)); lia.
Qed.

(** A read on an empty cache leaves the store's answer under its key. *)
Lemma Products_on_empty_fresh req w :
  Reliable w -> productCache w = ∅ ->
  productsFresh env req (snd (productStorage.Products env req w)).
Proof.
  intros Hrel Hc it. unfold productStorage.Products. simpl. rewrite Hc.
  rewrite DeleteExpired_empty, Get_miss_on_empty.
  match goal with |- context [roundTrip ?x] =>
    pose proof (roundTrip_caches x) as (_ & Hp & _);
    destruct (roundTrip_reliable x Hrel) as [Hok _];
    destruct (roundTrip x) as [b w'] end; simpl in *. subst b. simpl.
  unfold ttlcache.Set_. rewrite lookup_insert_eq.
  intros H. inversion H. reflexivity.
Qed.

(** After an update that went through, the product cache holds nothing but
    the lookup of the updated row, as the table now has it. *)
Lemma UpdateProduct_leaves_fresh req w :
  Reliable w ->
  UpdateProductRequest.Validate env req = None ->
  (exists p, p ∈ products (db w)
             /\ Product.Id p = UpdateProductRequest.Id req) ->
  forall key it,
    productCache (snd (productStorage.UpdateProduct env req w)) !! key
    = Some it ->
    key = productKey env (UpdateProductRequest.Id req)
    /\ ttlcache.value it
       = SQL.selectProducts env
           (GetProductsRequest.Validate
              (productStorage.byId (UpdateProductRequest.Id req)))
           (db (snd (productStorage.UpdateProduct env req w))).
Proof.
  intros Hrel Hvalid Hrow key it Hit.
  destruct (UpdateProduct_reliable env req w Hrel Hvalid Hrow)
    as (_ & _ & _ & _ & _ & _ & Hother).
  destruct (decide (key = productKey env (UpdateProductRequest.Id req)))
    as [->|Hne]; [|rewrite (Hother key Hne) in Hit; discriminate].
  split; [reflexivity|]. revert Hit.
  unfold productStorage.UpdateProduct, bind, modify, getWorld, throw, ret,
    roundTripM, ttlcache.DeleteAll. simpl. rewrite Hvalid.
  set (w0 := withProductCache ∅ w).
  assert (Hrel0 : Reliable w0) by exact Hrel.
  pose proof (roundTrip_caches w0) as (_ & Hp1 & _).
  destruct (roundTrip_reliable w0 Hrel0) as [Hok1 Hrel1].
  destruct (roundTrip w0) as [b w1]; simpl in *. subst b.
  set (w2 := withDb (SQL.updateProduct env (Now (rt w)) req (db w1)) w1).
  assert (Hrel2 : Reliable w2) by exact Hrel1.
  assert (Hc2 : productCache w2 = ∅) by exact Hp1.
  pose proof (Products_on_empty_fresh
                (productStorage.byId (UpdateProductRequest.Id req)) w2
                Hrel2 Hc2) as Hfresh.
  destruct (productStorage.Products env
              (productStorage.byId (UpdateProductRequest.Id req)) w2)
    as [[[|p ps]|e] w3]; simpl in *; intros Hit; apply Hfresh; exact Hit.
Qed.

(** The reserve loop on a store that answers: every entry's product is
    taken from, in memory and in the table. *)
Lemma reserveAll_spec entries : forall pm w,
  Reliable w ->
  NoDup (map fst entries) ->
  NoDup (map Product.Id (products (db w))) ->
  (forall k q, (k, q) ∈ entries ->
     k <> Nil
     /\ exists p, pm !! k = Some p /\ p ∈ products (db w) /\ Product.Id p = k
                  /\ 0 < q <= Product.Quantity p
                  /\ Product.Quantity p <= MaxInt) ->
  exists pm' w',
    orderAppService.reserveAll env pm entries w = (Ok pm', w')
    /\ Reliable w'
    /\ Forall2 (restoredBy (fun k => - amountOf entries k))
         (products (db w)) (products (db w'))
    /\ users (db w') = users (db w)
    /\ orders (db w') = orders (db w)
    /\ order_items (db w') = order_items (db w)
    /\ (forall k p, pm !! k = Some p ->
          exists p', pm' !! k = Some p'
                     /\ Product.Description p' = Product.Description p
                     /\ Product.Tags p' = Product.Tags p)
    /\ (entries <> [] ->
        forall key it, productCache w' !! key = Some it ->
          exists id, id ∈ map fst entries
                     /\ key = productKey env id
                     /\ ttlcache.value it
                        = SQL.selectProducts env
                            (GetProductsRequest.Validate
                               (productStorage.byId id)) (db w')).
Proof.
  induction entries as [|[k q] rest IH]; intros pm w Hrel Hnd Huniq Hent.
  { exists pm, w. split; [reflexivity|]. split; [exact Hrel|].
    split; [|repeat split; eauto; congruence].
    apply Forall_Forall2_diag, Forall_forall.
    intros p _. unfold restoredBy, amountOf. simpl.
    repeat split; try reflexivity. lia. }
  simpl in Hnd. apply NoDup_cons in Hnd. destruct Hnd as [Hk_rest Hnd].
  destruct (Hent k q (list_elem_of_here _ _))
    as (Hk_nil & p & Hpm & Hin & Hid & [Hq Hle] & Hmax).
  simpl. rewrite Hpm.
  unfold bind at 1. unfold getWorld at 1.
  rewrite (ReserveQuantity_ok (Now (rt w)) q p Hq Hle).
  unfold int_sub.
  rewrite wrap_id by (unfold is_int, MinInt, MaxInt in *; lia).
  cbn [Product.Id Product.Quantity].
  replace (Product.Quantity p - q) with (Product.Quantity p + - q) by lia.
  set (p1 := {| Product.Id := Product.Id p;
                Product.Description := Product.Description p;
                Product.Tags := Product.Tags p;
                Product.Quantity := Product.Quantity p + - q;
                Product.CreatedAt := Product.CreatedAt p;
                Product.UpdatedAt := Now (rt w) |}).
  set (ureq := {| UpdateProductRequest.Id := Product.Id p;
                  UpdateProductRequest.Description := None;
                  UpdateProductRequest.Tags := [];
                  UpdateProductRequest.Quantity :=
                    Some (Product.Quantity p + - q) |}).
  assert (Hvalid : UpdateProductRequest.Validate env ureq = None).
  { apply quantityUpdate_valid; [congruence | lia]. }
  assert (Hrow : exists p0, p0 ∈ products (db w)
                   /\ Product.Id p0 = UpdateProductRequest.Id ureq).
  { exists p. split; [exact Hin | reflexivity]. }
  destruct (UpdateProduct_reliable env ureq w Hrel Hvalid Hrow)
    as ((pr & HU) & Hrel2 & Hdb2 & _).
  set (w2 := snd (productStorage.UpdateProduct env ureq w)) in *.
  rewrite (bind_ok _ _ _ _ _ HU).
  pose proof (UpdateProduct_leaves_fresh ureq w Hrel Hvalid Hrow) as Hcache.
  fold w2 in Hcache.
  destruct (IH (<[k := p1]> pm) w2)
    as (pm' & w' & Hrun & Hrel' & Hrows & Hu & Ho & Hi & Hsnap & Hinv);
    [exact Hrel2 | exact Hnd | | |].
  { rewrite Hdb2, updateProduct_ids. exact Huniq. }
  { intros k' q' Hin'.
    assert (Hne : k' <> k).
    { intros ->. apply Hk_rest.
      apply (list_elem_of_fmap_2 fst) in Hin'. exact Hin'. }
    destruct (Hent k' q' (list_elem_of_further _ _ _ Hin'))
      as (Hnil' & p' & Hpm' & Hin2 & Hid' & Hb' & Hmax').
    split; [exact Hnil'|]. exists p'.
    split; [rewrite lookup_insert_ne by congruence; exact Hpm'|].
    split; [|auto].
    rewrite Hdb2. apply updateProduct_keeps_other_rows; [exact Hin2|].
    simpl. congruence. }
  exists pm', w'. split; [exact Hrun|]. split; [exact Hrel'|].
  rewrite Hdb2 in Hrows, Hu, Ho, Hi. simpl in Hu, Ho, Hi.
  split; [|split; [exact Hu | split; [exact Ho | split; [exact Hi|split]]]].
  - refine (Forall2_trans _ _ _ _ _ _ (takenBy_compose k q rest) _ Hrows).
    rewrite <- Hid. apply updateProduct_quantity_rows;
      [exact Huniq | exact Hin | reflexivity].
  - intros k0 p0 Hp0. destruct (decide (k0 = k)) as [->|Hne].
    + rewrite Hpm in Hp0. inversion Hp0; subst p0.
      destruct (Hsnap k p1) as (p' & Hp' & Hd & Ht);
        [apply lookup_insert_eq|].
      exists p'. split; [exact Hp'|]. split; [exact Hd | exact Ht].
    + apply Hsnap. rewrite lookup_insert_ne by congruence. exact Hp0.
  - intros _ key it Hit. destruct rest as [|entry rest'].
    + simpl in Hrun. unfold ret in Hrun. inversion Hrun; subst w'.
      destruct (Hcache key it Hit) as [Hkey Hval].
      exists k. split; [apply list_elem_of_here|].
      simpl in Hkey, Hval. rewrite <- Hid. split; assumption.
    + destruct (Hinv ltac:(discriminate) key it Hit)
        as (id & Hin_id & Hkey & Hval).
      exists id. split; [apply list_elem_of_further; exact Hin_id|].
      split; assumption.
Qed.

(** The order items built from the product map. *)
Lemma buildItems_spec pm items :
  (forall line, line ∈ items ->
     is_Some (pm !! CreateOrderItemRequest.ProductId line)) ->
  exists built,
    orderAppService.buildItems pm items = Some built
    /\ Forall2 (fun line item =>
                  OrderItem.ProductId item
                  = CreateOrderItemRequest.ProductId line
                  /\ OrderItem.Quantity item
                     = CreateOrderItemRequest.Quantity line
                  /\ exists p,
                       pm !! CreateOrderItemRequest.ProductId line = Some p
                       /\ OrderItem.Snapshot item
                          = {| ProductSnapshot.Description :=
                                 Product.Description p;
                               ProductSnapshot.Tags := Product.Tags p |})
               items built.
Proof.
  induction items as [|line rest IH]; intros Hall; simpl.
  - exists []. split; [reflexivity | constructor].
  - destruct (Hall line (list_elem_of_here _ _)) as [p Hp]. rewrite Hp.
    destruct IH as (built & Hb & Hf).
    { intros l Hl. apply Hall, list_elem_of_further. exact Hl. }
    rewrite Hb. eexists. split; [reflexivity|].
    constructor; [|exact Hf]. simpl.
    split; [reflexivity|]. split; [reflexivity|]. exists p. auto.
Qed.

Lemma Order_validateItems_ok orderId items : forall r,
  (forall n, uuidNew env n <> Nil) ->
  orderId <> Nil ->
  (forall item, item ∈ items ->
     OrderItem.ProductId item <> Nil /\ 0 < OrderItem.Quantity item
     /\ ProductSnapshot.Description (OrderItem.Snapshot item) <> "") ->
  snd (fst (Order.validateItems env orderId items r)) = None.
Proof.
  induction items as [|item rest IH]; intros r Hnew Hid Hall; [reflexivity|].
  simpl. destruct (Hall item (list_elem_of_here _ _)) as (Hp & Hq & Hd).
  unfold OrderItem.Validate. cbn [OrderItem.withOrderId OrderItem.Id
    OrderItem.OrderId OrderItem.ProductId OrderItem.Quantity
    OrderItem.Snapshot OrderItem.CreatedAt].
  destruct (if (OrderItem.Id item =? Nil)%N then uuid_New env r
            else (OrderItem.Id item, r)) as [id r1].
  destruct (N.eqb_spec orderId Nil); [contradiction|].
  destruct (N.eqb_spec (OrderItem.ProductId item) Nil); [contradiction|].
  destruct (Z.leb_spec (OrderItem.Quantity item) 0); [lia|].
  destruct (String.eqb_spec
              (ProductSnapshot.Description (OrderItem.Snapshot item)) "");
    [contradiction|].
  specialize (IH r1 Hnew Hid).
  destruct (Order.validateItems env orderId rest r1) as [[rest' err'] r2].
  simpl in *. apply IH. intros it Hit. apply Hall, list_elem_of_further.
  exact Hit.
Qed.

Lemma Order_Validate_ok o r :
  (forall n, uuidNew env n <> Nil) ->
  Order.UserId o <> Nil ->
  Order.Status o <> "" ->
  Order.Items o <> [] ->
  (forall item, item ∈ Order.Items o ->
     OrderItem.ProductId item <> Nil /\ 0 < OrderItem.Quantity item
     /\ ProductSnapshot.Description (OrderItem.Snapshot item) <> "") ->
  snd (fst (Order.Validate env o r)) = None
  /\ Order.Id (fst (fst (Order.Validate env o r))) <> Nil
  /\ Order.Status (fst (fst (Order.Validate env o r))) = Order.Status o.
Proof.
  intros Hnew Hu Hs Hne Hall. unfold Order.Validate.
  assert (Hid : fst (if (Order.Id o =? Nil)%N then uuid_New env r
                     else (Order.Id o, r)) <> Nil).
  { destruct (N.eqb_spec (Order.Id o) Nil); simpl; [apply Hnew | assumption]. }
  destruct (if (Order.Id o =? Nil)%N then uuid_New env r
            else (Order.Id o, r)) as [id r1]. simpl in Hid.
  destruct (N.eqb_spec (Order.UserId o) Nil); [contradiction|].
  destruct (String.eqb_spec (Order.Status o) ""); [contradiction|].
  destruct (Order.Items o) as [|i0 is0] eqn:E; [contradiction|].
  simpl (Nat.eqb _ _). cbv iota.
  pose proof (Order_validateItems_ok id (i0 :: is0) r1 Hnew Hid Hall) as Hok.
  destruct (Order.validateItems env id (i0 :: is0) r1) as [[items' err] r2].
  simpl in *. repeat split; assumption.
Qed.

Lemma insertItems_reliable items : forall tx w,
  Reliable w ->
  exists w',
    orderStorage.insertItems items tx w
    = (Ok {| users := users tx; products := products tx;
             orders := orders tx;
             order_items := order_items tx ++ items |}, w')
    /\ Reliable w' /\ db w' = db w.
Proof.
  induction items as [|item rest IH]; intros tx w Hrel; simpl.
  - exists w. rewrite app_nil_r. destruct tx; simpl. auto.
  - unfold orderStorage.txExec.
    pose proof (roundTrip_db w) as Hd.
    destruct (roundTrip_reliable w Hrel) as [Hok Hrel1].
    destruct (roundTrip w) as [b w1]; simpl in *. subst b.
    destruct (IH (SQL.insertOrderItem item tx) w1 Hrel1)
      as (w' & Hrun & Hrel' & Hdb').
    exists w'. rewrite Hrun. simpl. rewrite <- app_assoc. simpl.
    split; [reflexivity|]. split; [exact Hrel'|]. congruence.
Qed.

(** The order storage's [CreateOrder] on a store that answers, for an order
    that passes validation: the order and its items are written. *)
Lemma storage_CreateOrder_reliable order w :
  Reliable w ->
  snd (fst (Order.Validate env order (rt w))) = None ->
  let order' := fst (fst (Order.Validate env order (rt w))) in
  exists w',
    orderStorage.CreateOrder env order w = (order', None, w')
    /\ Reliable w'
    /\ db w' = {| users := users (db w); products := products (db w);
                  orders := orders (db w) ++ [Order.withItems [] order'];
                  order_items := order_items (db w) ++ Order.Items order' |}.
Proof.
  intros Hrel Hvalid order'. unfold orderStorage.CreateOrder.
  change (rt (withOrderCache (ttlcache.DeleteAll (orderCache w)) w))
    with (rt w).
  unfold order' in *. clear order'.
  destruct (Order.Validate env order (rt w)) as [[o' err] r']; simpl in *.
  subst err.
  set (w0 := withRt r' (withOrderCache (ttlcache.DeleteAll (orderCache w)) w)).
  assert (Hrel0 : Reliable w0) by exact Hrel.
  assert (Hdb0 : db w0 = db w) by reflexivity.
  pose proof (roundTrip_db w0) as Hdb1.
  destruct (roundTrip_reliable w0 Hrel0) as [Hok1 Hrel1].
  destruct (roundTrip w0) as [b w1]; simpl in *. subst b.
  unfold orderStorage.txExec.
  pose proof (roundTrip_db w1) as Hdb2.
  destruct (roundTrip_reliable w1 Hrel1) as [Hok2 Hrel2].
  destruct (roundTrip w1) as [b w2]; simpl in *. subst b.
  destruct (insertItems_reliable (Order.Items o')
              (SQL.insertOrder o' (db w1)) w2 Hrel2)
    as (w3 & Hrun & Hrel3 & Hdb3).
  rewrite Hrun. unfold orderStorage.txCommit.
  destruct (roundTrip_reliable w3 Hrel3) as [Hok4 Hrel4].
  destruct (roundTrip w3) as [b w4]; simpl in *. subst b.
  eexists. split; [reflexivity|]. split; [exact Hrel4|].
  simpl. rewrite Hdb1. reflexivity.
Qed.

End OrderGoesThrough.

Lemma Forall2_elem_of_r {A B : Type} (P : A -> B -> Prop) l k y :
  Forall2 P l k -> y ∈ k -> exists x, x ∈ l /\ P x y.
Proof.
  induction 1 as [|x y0 l k Hxy _ IH]; intros Hy.
  - apply not_elem_of_nil in Hy. contradiction.
  - apply elem_of_cons in Hy. destruct Hy as [->|Hy].
    + exists x. split; [apply list_elem_of_here | exact Hxy].
    + destruct (IH Hy) as (x' & Hx' & HP). exists x'.
      split; [apply list_elem_of_further; exact Hx' | exact HP].
Qed.

(** An order without an identifier gets the one drawn next. *)
Lemma Order_Validate_new_id env o r :
  Order.Id o = Nil ->
  Order.Id (fst (fst (Order.Validate env o r))) = uuidNew env (seed r).
Proof.
  intros Hid. unfold Order.Validate. rewrite Hid. simpl.
  destruct (Order.UserId o =? Nil)%N; [reflexivity|].
  destruct (length (Order.Items o) =? 0)%nat; [reflexivity|].
  destruct (Order.validateItems env _ (Order.Items o) _) as [[items' err] r2].
  reflexivity.
Qed.

(** What [CreateOrder] does when everything is in place, with what it
    leaves in the caches. *)
Lemma CreateOrder_done
    (env : Env) (req : CreateOrderRequest.t) (w : World) :
  CreateOrderRequest.Validate req = None ->
  RangeOk env ->
  (forall n, uuidNew env n <> Nil) ->
  Reliable w ->
  usersFresh env (orderAppService.userById (CreateOrderRequest.UserId req)) w ->
  productsFresh env
    (orderAppService.batch
       (orderAppService.productIds (CreateOrderRequest.Items req))) w ->
  (exists u, u ∈ users (db w) /\ User.Id u = CreateOrderRequest.UserId req) ->
  NoDup (map Product.Id (products (db w))) ->
  (length (filter (fun p => Product.Id p
                            ∈ orderAppService.productIds
                                (CreateOrderRequest.Items req))
                  (products (db w))) <= 10)%nat ->
  (forall k, k ∈ orderAppService.productIds (CreateOrderRequest.Items req) ->
     exists p, p ∈ products (db w) /\ Product.Id p = k
               /\ sumZ (linesOf k (CreateOrderRequest.Items req))
                  <= Product.Quantity p <= MaxInt
               /\ Product.Description p <> "") ->
  exists order w',
    orderAppService.CreateOrder env req w = (Ok order, w')
    /\ Order.Id order <> Nil
    /\ Order.UserId order = CreateOrderRequest.UserId req
    /\ Order.Status order = OrderStatusPending
    /\ Forall2 (fun line item =>
                  OrderItem.OrderId item = Order.Id order
                  /\ OrderItem.ProductId item
                     = CreateOrderItemRequest.ProductId line
                  /\ OrderItem.Quantity item
                     = CreateOrderItemRequest.Quantity line
                  /\ exists p,
                       p ∈ products (db w)
                       /\ Product.Id p = CreateOrderItemRequest.ProductId line
                       /\ OrderItem.Snapshot item
                          = {| ProductSnapshot.Description :=
                                 Product.Description p;
                               ProductSnapshot.Tags := Product.Tags p |})
               (CreateOrderRequest.Items req) (Order.Items order)
    /\ Forall2 (restoredBy
                  (fun k => - sumZ (linesOf k (CreateOrderRequest.Items req))))
         (products (db w)) (products (db w'))
    /\ orders (db w') = orders (db w) ++ [Order.withItems [] order]
    /\ order_items (db w') = order_items (db w) ++ Order.Items order
    /\ users (db w') = users (db w)
    /\ Reliable w'
    /\ orderCache w' = ∅
    /\ (forall key it, productCache w' !! key = Some it ->
          exists id, id ∈ orderAppService.productIds
                            (CreateOrderRequest.Items req)
                     /\ key = productKey env id
                     /\ ttlcache.value it
                        = SQL.selectProducts env
                            (GetProductsRequest.Validate
                               (productStorage.byId id)) (db w'))
    /\ exists n, Order.Id order = uuidNew env n.
Proof.
  intros Hvalid Hrange Hnew Hrel Hufresh Hpfresh Huser Huniq Hten Hstock.
  set (items := CreateOrderRequest.Items req) in *.
  destruct (CreateOrderRequest_Validate_None req Hvalid)
    as (Huid & Hne_items & Hlines). fold items in Hne_items, Hlines.
  set (pm := loadedProducts env req (db w)).
  (* what is known of every product named by the request *)
  assert (Hkey : forall k, k ∈ orderAppService.productIds items ->
            k <> Nil
            /\ exists p, pm !! k = Some p /\ p ∈ products (db w)
                 /\ Product.Id p = k
                 /\ 0 < sumZ (linesOf k items) <= Product.Quantity p
                 /\ Product.Quantity p <= MaxInt
                 /\ wrap (sumZ (linesOf k items)) = sumZ (linesOf k items)
                 /\ Product.Description p <> "").
  { intros k Hk.
    destruct (Hstock k Hk) as (p & Hin & Hid & [Hsum Hmax] & Hdesc).
    assert (Hnil : k <> Nil).
    { unfold orderAppService.productIds in Hk.
      apply (list_elem_of_fmap_1 _) in Hk. destruct Hk as (line & -> & Hl).
      apply Hlines. exact Hl. }
    split; [exact Hnil|].
    destruct (loadedProducts_complete env req (db w) k Hvalid Hten Hk)
      as [p' Hp']; [exists p; auto|].
    destruct (loadedProducts_sound env req (db w) k p' Hp') as [Hin' Hid'].
    assert (p' = p)
      by (apply (NoDup_Id_inj (products (db w))); try assumption; congruence).
    subst p'. exists p.
    assert (Hpos : 0 < sumZ (linesOf k items)).
    { apply sumZ_positive.
      - apply linesOf_nonempty. exact Hk.
      - intros q Hq. apply (linesOf_positive items k); [|exact Hq].
        intros line Hl. apply Hlines. exact Hl. }
    split; [exact Hp'|]. split; [exact Hin|]. split; [exact Hid|].
    split; [lia|]. split; [exact Hmax|]. split; [|exact Hdesc].
    apply wrap_id. unfold is_int, MinInt, MaxInt in *. lia. }
  assert (Hentry : forall k q,
            orderAppService.requestedQuantities items !! k = Some q ->
            k ∈ orderAppService.productIds items
            /\ q = wrap (sumZ (linesOf k items))).
  { intros k q Hq. split; [apply requestedQuantities_is_Some; eauto|].
    rewrite requestedQuantities_lookup in Hq.
    destruct (linesOf k items); congruence. }
  (* up to the stock check, which passes *)
  destruct (CreateOrder_until_check env req w Hvalid Hrange Hrel Hufresh
              Hpfresh Huser) as (entries1 & Hentries1 & Hdb1 & Hrel1 & Hrun1).
  fold items pm in Hentries1, Hrun1.
  assert (Hcheck : orderAppService.checkStock pm entries1 = None).
  { apply checkStock_None. intros k q Hin. apply Hentries1 in Hin.
    destruct (Hentry k q Hin) as [Hk ->].
    destruct (Hkey k Hk) as (_ & p & Hp & _ & _ & Hsum & _ & Hwrap & _).
    exists p. split; [exact Hp|]. rewrite Hwrap. lia. }
  rewrite Hcheck in Hrun1.
  set (wa := afterReads env req w) in *.
  (* the reserve loop *)
  destruct (rangeMap_spec env (orderAppService.requestedQuantities items)
              wa Hrange) as (HR & Hentries2 & Hnd2).
  set (entries := mapRange env (seed (rt wa))
                    (map_to_list (orderAppService.requestedQuantities items)))
    in *.
  set (wb := withRt {| clock := clock (rt wa); seed := S (seed (rt wa)) |} wa)
    in *.
  assert (Hdbb : db wb = db w) by exact Hdb1.
  destruct (reserveAll_spec env entries pm wb)
    as (pm' & w3 & Hres & Hrel3 & Hrows & Hu3 & Ho3 & Hi3 & Hsnap & Hinv).
  { exact Hrel1. }
  { exact Hnd2. }
  { rewrite Hdbb. exact Huniq. }
  { intros k q Hin. apply Hentries2 in Hin.
    destruct (Hentry k q Hin) as [Hk ->].
    destruct (Hkey k Hk)
      as (Hnil & p & Hp & Hin' & Hid & Hsum & Hmax & Hwrap & _).
    split; [exact Hnil|]. exists p. rewrite Hdbb, Hwrap. auto. }
  rewrite Hdbb in Hrows, Hu3, Ho3, Hi3.
  (* the items *)
  destruct (buildItems_spec pm' items) as (built & Hbuilt & Hlines2).
  { intros line Hl.
    assert (Hk : CreateOrderItemRequest.ProductId line
                 ∈ orderAppService.productIds items)
      by (apply (list_elem_of_fmap_2 CreateOrderItemRequest.ProductId);
          exact Hl).
    destruct (Hkey _ Hk) as (_ & p & Hp & _).
    destruct (Hsnap _ p Hp) as (p' & Hp' & _). eauto. }
  assert (Hbuilt_rows :
            Forall2 (fun line item =>
                       OrderItem.ProductId item
                       = CreateOrderItemRequest.ProductId line
                       /\ OrderItem.Quantity item
                          = CreateOrderItemRequest.Quantity line
                       /\ line ∈ items
                       /\ exists p,
                            p ∈ products (db w)
                            /\ Product.Id p
                               = CreateOrderItemRequest.ProductId line
                            /\ Product.Description p <> ""
                            /\ OrderItem.Snapshot item
                               = {| ProductSnapshot.Description :=
                                      Product.Description p;
                                    ProductSnapshot.Tags :=
                                      Product.Tags p |})
                    items built).
  { refine (Forall2_trans _ _ _ _ _ _ _ (Forall2_diag_elem items) Hlines2).
    intros x y z [-> Hx] (Hpid & Hqty & p' & Hp' & Hs).
    assert (Hk : CreateOrderItemRequest.ProductId x
                 ∈ orderAppService.productIds items)
      by (apply (list_elem_of_fmap_2 CreateOrderItemRequest.ProductId);
          exact Hx).
    destruct (Hkey _ Hk) as (_ & p & Hp & Hin & Hid & _ & _ & _ & Hdesc).
    destruct (Hsnap _ p Hp) as (p'' & Hp'' & Hd & Ht).
    assert (p'' = p') by congruence. subst p''.
    split; [exact Hpid|]. split; [exact Hqty|]. split; [exact Hx|].
    exists p. split; [exact Hin|]. split; [exact Hid|].
    split; [exact Hdesc|]. rewrite Hs, Hd, Ht. reflexivity. }
  (* the order *)
  set (order0 := {| Order.Id := Nil;
                    Order.UserId := CreateOrderRequest.UserId req;
                    Order.Status := OrderStatusPending;
                    Order.Items := built;
                    Order.CreatedAt := 0;
                    Order.UpdatedAt := 0 |}).
  assert (Hgood : forall item, item ∈ built ->
            OrderItem.ProductId item <> Nil /\ 0 < OrderItem.Quantity item
            /\ ProductSnapshot.Description (OrderItem.Snapshot item) <> "").
  { intros item Hitem.
    destruct (Forall2_elem_of_r _ _ _ _ Hbuilt_rows Hitem)
      as (line & Hl & Hpid & Hqty & _ & p & _ & _ & Hdesc & Hs).
    destruct (Hlines line Hl) as [Hnil Hq].
    rewrite Hpid, Hqty, Hs. simpl. auto. }
  assert (Hne_built : built <> []).
  { intros ->. inversion Hbuilt_rows as [E|]. congruence. }
  destruct (Order_Validate_ok env order0 (rt w3) Hnew Huid
              ltac:(discriminate) Hne_built Hgood) as (Hvok & Hoid & Hstatus).
  pose proof (Order_Validate_keeps env order0 (rt w3) Hvok) as [Huser' Hkeep].
  destruct (storage_CreateOrder_reliable env order0 w3 Hrel3 Hvok)
    as (w4 & Hstore & Hrel4 & Hdb4).
  pose proof (CreateOrder_cache env order0 w3) as (_ & Hoc4 & _ & Hpc4).
  rewrite Hstore in Hoc4, Hpc4. simpl in Hoc4, Hpc4.
  set (order := fst (fst (Order.Validate env order0 (rt w3)))) in *.
  exists order, w4. split.
  { rewrite Hrun1. unfold orderAppService.afterCheck. fold items.
    rewrite (bind_ok _ _ _ _ _ HR). fold entries wb.
    rewrite (bind_ok _ _ _ _ _ Hres). rewrite Hbuilt.
    fold order0. rewrite Hstore. reflexivity. }
  split; [exact Hoid|]. split; [exact Huser'|]. split; [exact Hstatus|].
  assert (Hcache : forall key it, productCache w4 !! key = Some it ->
            exists id, id ∈ orderAppService.productIds items
                       /\ key = productKey env id
                       /\ ttlcache.value it
                          = SQL.selectProducts env
                              (GetProductsRequest.Validate
                                 (productStorage.byId id)) (db w4)).
  { intros key it Hit. rewrite Hpc4 in Hit.
    assert (Hne_entries : entries <> []).
    { destruct items as [|line items'] eqn:Eitems; [congruence|].
      assert (Hk : CreateOrderItemRequest.ProductId line
                   ∈ orderAppService.productIds (line :: items'))
        by apply list_elem_of_here.
      apply requestedQuantities_is_Some in Hk. destruct Hk as [q Hq].
      apply Hentries2 in Hq. intros Hnil. rewrite Hnil in Hq.
      apply not_elem_of_nil in Hq. exact Hq. }
    destruct (Hinv Hne_entries key it Hit) as (id & Hid_in & Hkey_eq & Hval).
    exists id. split.
    - apply (list_elem_of_fmap_1 fst) in Hid_in.
      destruct Hid_in as ([k q] & -> & Hin). apply Hentries2 in Hin.
      apply (Hentry k q Hin).
    - split; [exact Hkey_eq|]. rewrite Hval, Hdb4. reflexivity. }
  rewrite Hdb4. cbn [users products orders order_items].
  rewrite Hu3, Ho3, Hi3. rewrite Hdb4 in Hcache.
  split; [|split; [|split; [auto|split; [auto|split; [auto|
    split; [exact Hrel4|split; [exact Hoc4|split; [exact Hcache|]]]]]]]].
  3: { exists (seed (rt w3)). apply Order_Validate_new_id. reflexivity. }
  - refine (Forall2_trans _ _ _ _ _ _ _ Hbuilt_rows Hkeep).
    intros line item item' (Hpid & Hqty & _ & p & Hin & Hid & _ & Hs)
           (K1 & K2 & K3 & K4).
    split; [exact K1|]. split; [congruence|]. split; [congruence|].
    exists p. split; [exact Hin|]. split; [exact Hid|]. congruence.
  - refine (Forall2_trans _ _ _ _ _ _ _
              (Forall2_diag_elem (products (db w))) Hrows).
    intros x y z [-> Hx] (A1 & A2 & A3 & A4 & A5).
    unfold restoredBy. repeat split; try assumption. rewrite A5. f_equal.
    f_equal.
    destruct (linesOf (Product.Id x) items) as [|q0 qs] eqn:E.
    + apply amountOf_absent. intros Hin.
      apply (list_elem_of_fmap_1 fst) in Hin.
      destruct Hin as ([k q] & Hk & Hin). simpl in Hk. subst k.
      apply Hentries2 in Hin. rewrite requestedQuantities_lookup in Hin.
      rewrite E in Hin. discriminate.
    + assert (Hk : Product.Id x ∈ orderAppService.productIds items)
        by (apply linesOf_nonempty; rewrite E; discriminate).
      destruct (Hkey _ Hk) as (_ & p & _ & _ & _ & _ & _ & Hwrap & _).
      rewrite <- E, <- Hwrap. apply amountOf_unique; [exact Hnd2|].
      apply Hentries2. rewrite requestedQuantities_lookup, E. reflexivity.
Qed.


(** X9: an order that goes through.  On a store that answers, with caches
    that agree with it, identifiers drawn that are never nil, product ids
    unique, for a request that passes validation, whose user exists and
    whose products all exist (not more than ten rows in all), each with a
    description and with at least the summed quantity of its lines in
    stock: [CreateOrder] succeeds.  The order returned is pending, under a
    new identifier, for the requesting user, with one item per request line
    in the order of the request, each for the line's product and quantity
    and carrying the description and tags of the product's row; every
    product row has its quantity lowered by exactly the sum of the
    quantities of the lines naming it (rows not named stay), the order row
    and its items are appended to their tables, and the users are
    untouched. *)
Theorem CreateOrder_reserves_and_records
    (env : Env) (req : CreateOrderRequest.t) (w : World) :
  CreateOrderRequest.Validate req = None ->
  RangeOk env ->
  (forall n, uuidNew env n <> Nil) ->
  Reliable w ->
  usersFresh env (orderAppService.userById (CreateOrderRequest.UserId req)) w ->
  productsFresh env
    (orderAppService.batch
       (orderAppService.productIds (CreateOrderRequest.Items req))) w ->
  (exists u, u ∈ users (db w) /\ User.Id u = CreateOrderRequest.UserId req) ->
  NoDup (map Product.Id (products (db w))) ->
  (length (filter (fun p => Product.Id p
                            ∈ orderAppService.productIds
                                (CreateOrderRequest.Items req))
                  (products (db w))) <= 10)%nat ->
  (forall k, k ∈ orderAppService.productIds (CreateOrderRequest.Items req) ->
     exists p, p ∈ products (db w) /\ Product.Id p = k
               /\ sumZ (linesOf k (CreateOrderRequest.Items req))
                  <= Product.Quantity p <= MaxInt
               /\ Product.Description p <> "") ->
  exists order w',
    orderAppService.CreateOrder env req w = (Ok order, w')
    /\ Order.Id order <> Nil
    /\ Order.UserId order = CreateOrderRequest.UserId req
    /\ Order.Status order = OrderStatusPending
    /\ Forall2 (fun line item =>
                  OrderItem.OrderId item = Order.Id order
                  /\ OrderItem.ProductId item
                     = CreateOrderItemRequest.ProductId line
                  /\ OrderItem.Quantity item
                     = CreateOrderItemRequest.Quantity line
                  /\ exists p,
                       p ∈ products (db w)
                       /\ Product.Id p = CreateOrderItemRequest.ProductId line
                       /\ OrderItem.Snapshot item
                          = {| ProductSnapshot.Description :=
                                 Product.Description p;
                               ProductSnapshot.Tags := Product.Tags p |})
               (CreateOrderRequest.Items req) (Order.Items order)
    /\ Forall2 (restoredBy
                  (fun k => - sumZ (linesOf k (CreateOrderRequest.Items req))))
         (products (db w)) (products (db w'))
    /\ orders (db w') = orders (db w) ++ [Order.withItems [] order]
    /\ order_items (db w') = order_items (db w) ++ Order.Items order
    /\ users (db w') = users (db w).
Proof.
  intros Hvalid Hrange Hnew Hrel Hufresh Hpfresh Huser Huniq Hten Hstock.
  destruct (CreateOrder_done env req w Hvalid Hrange Hnew Hrel Hufresh
              Hpfresh Huser Huniq Hten Hstock)
    as (order & w' & Hrun & Hid & Huid & Hst & Hitems & Hrows & Ho & Hi
        & Hu & _).
  exists order, w'. repeat split; assumption.
Qed.

Lemma CreateOrder_reserves_and_records_witness :
  exists order w',
    orderAppService.CreateOrder (refEnv (fun l => l)) splitLines
      (freshWorld pairDB) = (Ok order, w')
    /\ Order.Status order = OrderStatusPending
    /\ Forall2 (restoredBy
                  (fun k => - sumZ (linesOf k
                                      (CreateOrderRequest.Items splitLines))))
         (products pairDB) (products (db w'))
    /\ order_items (db w') = Order.Items order.
Proof.
  destruct (CreateOrder_reserves_and_records (refEnv (fun l => l)) splitLines
              (freshWorld pairDB))
    as (order & w' & Hrun & _ & _ & Hstatus & _ & Hrows & _ & Hitems & _).
  - reflexivity.
  - intros n l. reflexivity.
  - intros n. unfold Nil. simpl. lia.
  - constructor.
  - intros it H. cbn [userCache freshWorld] in H.
    rewrite lookup_empty in H. discriminate.
  - intros it H. cbn [productCache freshWorld] in H.
    rewrite lookup_empty in H. discriminate.
  - exists (sampleUser 7). split; [apply list_elem_of_here | reflexivity].
  - simpl. apply NoDup_cons. split.
    + intros H. apply list_elem_of_singleton in H. discriminate.
    + apply NoDup_singleton.
  - vm_compute. lia.
  - intros k Hk. simpl in Hk.
    assert (Hcases : k = 2%N \/ k = 3%N).
    { apply elem_of_cons in Hk. destruct Hk as [->|Hk]; [auto|].
      apply elem_of_cons in Hk. destruct Hk as [->|Hk]; [auto|].
      apply list_elem_of_singleton in Hk. auto. }
    destruct Hcases as [->| ->].
    + exists (sampleProduct 2 4). split; [apply list_elem_of_here|].
      split; [reflexivity|]. split; [|discriminate].
      vm_compute. split; discriminate.
    + exists (sampleProduct 3 10).
      split; [apply list_elem_of_further, list_elem_of_here|].
      split; [reflexivity|]. split; [|discriminate].
      vm_compute. split; discriminate.
  - exists order, w'. split; [exact Hrun|]. split; [exact Hstatus|].
    split; [exact Hrows | exact Hitems].
Defined.

(* ================================================================== *)
(** * The batch load and its page of ten *)

Section BatchOfTen.

Variable env : Env.

Lemma selectProducts_batch_length ids d :
  (length (SQL.selectProducts env
             (GetProductsRequest.Validate (orderAppService.batch ids)) d)
   <= 10)%nat.
Proof.
  unfold SQL.selectProducts, page.
  rewrite length_take. apply (Nat.le_min_l 10).
Qed.

End BatchOfTen.

(** X10: the batch load of [CreateOrder] names no limit, so it gets the
    default page of ten rows.  On a store that answers, with caches that
    agree with it, a request that passes validation, from an existing user,
    and that names more than ten distinct products is never carried out,
    whatever the stock: the call ends in the check loop with
    [ProductNotFound] or [InsufficientStock], and the data is what it
    was. *)
Theorem CreateOrder_refuses_more_than_ten_products
    (env : Env) (req : CreateOrderRequest.t) (w : World) :
  CreateOrderRequest.Validate req = None ->
  RangeOk env -> Reliable w ->
  usersFresh env (orderAppService.userById (CreateOrderRequest.UserId req)) w ->
  productsFresh env
    (orderAppService.batch
       (orderAppService.productIds (CreateOrderRequest.Items req))) w ->
  (exists u, u ∈ users (db w) /\ User.Id u = CreateOrderRequest.UserId req) ->
  (10 < length (remove_dups
                  (orderAppService.productIds
                     (CreateOrderRequest.Items req))))%nat ->
  exists e,
    orderAppService.CreateOrder env req w = (Err e, afterReads env req w)
    /\ (kind e = ErrProductNotFound \/ kind e = ErrInsufficientStock)
    /\ db (afterReads env req w) = db w.
Proof.
  intros Hvalid Hrange Hrel Hufresh Hpfresh Huser Hmany.
  destruct (CreateOrder_until_check env req w Hvalid Hrange Hrel Hufresh
              Hpfresh Huser) as (entries & Hentries & Hdb & _ & Hrun).
  set (ids := orderAppService.productIds (CreateOrderRequest.Items req)) in *.
  destruct (orderAppService.checkStock (loadedProducts env req (db w)) entries)
    as [e|] eqn:Hcheck.
  - exists e. split; [exact Hrun|]. split; [|exact Hdb].
    destruct (checkStock_Some _ _ _ Hcheck) as (k & q & _ & Hcase).
    destruct Hcase as [[_ ->]|(p & _ & _ & ->)]; [left | right]; reflexivity.
  - exfalso. rewrite checkStock_None in Hcheck.
    set (loaded := SQL.selectProducts env
                     (GetProductsRequest.Validate (orderAppService.batch ids))
                     (db w)).
    assert (Hincl : incl (remove_dups ids) (map Product.Id loaded)).
    { intros k Hk. apply list_elem_of_In in Hk.
      apply (proj1 (elem_of_remove_dups _ _)) in Hk.
      apply (proj2 (requestedQuantities_is_Some _ _)) in Hk. destruct Hk as [q Hq].
      apply Hentries in Hq. destruct (Hcheck k q Hq) as (p & Hp & _).
      unfold loadedProducts in Hp. fold ids loaded in Hp.
      apply productMap_lookup in Hp. destruct Hp as [Hin Hid].
      apply list_elem_of_In. rewrite <- Hid.
      apply (list_elem_of_fmap_2 Product.Id). exact Hin. }
    apply NoDup_incl_length in Hincl;
      [|apply NoDup_ListNoDup, NoDup_remove_dups].
    rewrite length_map in Hincl.
    pose proof (selectProducts_batch_length env ids (db w)) as Hten.
    fold loaded in Hten. lia.
Qed.

Lemma CreateOrder_refuses_more_than_ten_products_witness :
  exists e,
    orderAppService.CreateOrder (refEnv (fun l => l)) elevenLines
      (freshWorld crowdedDB)
    = (Err e, afterReads (refEnv (fun l => l)) elevenLines
                (freshWorld crowdedDB))
    /\ (kind e = ErrProductNotFound \/ kind e = ErrInsufficientStock)
    /\ db (afterReads (refEnv (fun l => l)) elevenLines
             (freshWorld crowdedDB)) = crowdedDB.
Proof.
  apply (CreateOrder_refuses_more_than_ten_products (refEnv (fun l => l))
           elevenLines (freshWorld crowdedDB)).
  - reflexivity.
  - intros n l. reflexivity.
  - constructor.
  - intros it H. cbn [userCache freshWorld] in H.
    rewrite lookup_empty in H. discriminate.
  - intros it H. cbn [productCache freshWorld] in H.
    rewrite lookup_empty in H. discriminate.
  - exists (sampleUser 7). split; [apply list_elem_of_here | reflexivity].
  - vm_compute. lia.
Defined.

(* ================================================================== *)
(** * Updating a product *)

Section ProductUpdates.

Variable env : Env.

Implicit Types (w : World) (d : DB).

(** On a store that answers, a valid update is the [UPDATE] statement and
    then the first row of the lookup by id. *)
Lemma UpdateProduct_on_reliable req w :
  Reliable w ->
  UpdateProductRequest.Validate env req = None ->
  let d' := SQL.updateProduct env (Now (rt w)) req (db w) in
  let w' := snd (productStorage.UpdateProduct env req w) in
  db w' = d'
  /\ Reliable w'
  /\ fst (productStorage.UpdateProduct env req w)
     = match SQL.selectProducts env
               (GetProductsRequest.Validate
                  (productStorage.byId (UpdateProductRequest.Id req))) d' with
       | [] => Err (Sentinel ErrProductNotFound)
       | p :: _ => Ok p
       end.
Proof.
  intros Hrel Hvalid.
  unfold productStorage.UpdateProduct, bind, modify, getWorld, throw, ret,
    roundTripM, ttlcache.DeleteAll. simpl. rewrite Hvalid.
  set (w0 := withProductCache ∅ w).
  assert (Hrel0 : Reliable w0) by exact Hrel.
  pose proof (roundTrip_db w0) as Hd1.
  pose proof (roundTrip_caches w0) as (_ & Hp1 & _).
  destruct (roundTrip_reliable w0 Hrel0) as [Hok1 Hrel1].
  destruct (roundTrip w0) as [b w1]; simpl in *. subst b.
  set (w2 := withDb (SQL.updateProduct env (Now (rt w)) req (db w1)) w1).
  assert (Hrel2 : Reliable w2) by exact Hrel1.
  assert (Hc2 : productCache w2 = ∅) by exact Hp1.
  destruct (Products_on_empty env
              (productStorage.byId (UpdateProductRequest.Id req)) w2
              Hrel2 Hc2) as (HP & Hrel3 & _).
  destruct (Products_frame env
              (productStorage.byId (UpdateProductRequest.Id req)) w2)
    as (Hd3 & _).
  assert (Hdb2 : db w2 = SQL.updateProduct env (Now (rt w)) req (db w))
    by (unfold w2; simpl; rewrite Hd1; reflexivity).
  rewrite HP, Hdb2.
  destruct (SQL.selectProducts env _
              (SQL.updateProduct env (Now (rt w)) req (db w))) as [|p ps];
    simpl; (split; [congruence|]); (split; [exact Hrel3 | reflexivity]).
Qed.

Lemma updateProduct_no_row now req d :
  (forall p, p ∈ products d -> Product.Id p <> UpdateProductRequest.Id req) ->
  SQL.updateProduct env now req d = d.
Proof.
  intros Hnone. unfold SQL.updateProduct.
  destruct d as [us ps os its]. simpl in *. f_equal.
  induction ps as [|p ps IH]; [reflexivity|]. simpl.
  rewrite IH by (intros p' Hp'; apply Hnone, list_elem_of_further; exact Hp').
  destruct (N.eqb_spec (Product.Id p) (UpdateProductRequest.Id req)) as [E|NE];
    [|reflexivity].
  exfalso. apply (Hnone p); [apply list_elem_of_here | exact E].
Qed.

(** With unique ids, the row an update leaves under the id is the old row
    with the [SET] clauses applied. *)
Lemma updateProduct_row now req d p0 p :
  NoDup (map Product.Id (products d)) ->
  p0 ∈ products d -> Product.Id p0 = UpdateProductRequest.Id req ->
  p ∈ products (SQL.updateProduct env now req d) ->
  Product.Id p = UpdateProductRequest.Id req ->
  p = SQL.setProduct env now req p0.
Proof.
  intros Hnd Hin0 Hid0 Hin Hid. unfold SQL.updateProduct in Hin. simpl in Hin.
  apply (list_elem_of_fmap_1 _) in Hin. destruct Hin as (x & -> & Hx).
  destruct (N.eqb_spec (Product.Id x) (UpdateProductRequest.Id req))
    as [E|NE].
  - assert (x = p0)
      by (apply (NoDup_Id_inj (products d)); try assumption; congruence).
    subst x. reflexivity.
  - contradiction.
Qed.

End ProductUpdates.

(** X11: the product storage's [UpdateProduct] changes the fields the
    request gives and no others.  On a store that answers, with unique
    product ids, for a valid request: when a row carries the id, the call
    succeeds and returns that row as it now is in the table: the same id
    and creation time, the update time at the instant of the call, the
    description trimmed if one was given and the old one otherwise, the tags
    of the request exactly as given if it has any and the old tags
    otherwise (so an update cannot remove the last tag), the quantity if one
    was given and the old one otherwise; the other product rows, and users,
    orders and order items, stay.  When no row carries the id, the call
    ends with the [ProductNotFound] sentinel and the data is what it
    was. *)
Theorem UpdateProduct_sets_given_fields
    (env : Env) (req : UpdateProductRequest.t) (w : World) :
  Reliable w ->
  UpdateProductRequest.Validate env req = None ->
  NoDup (map Product.Id (products (db w))) ->
  (forall p0, p0 ∈ products (db w) ->
     Product.Id p0 = UpdateProductRequest.Id req ->
     exists p w',
       productStorage.UpdateProduct env req w = (Ok p, w')
       /\ p ∈ products (db w')
       /\ Product.Id p = Product.Id p0
       /\ Product.CreatedAt p = Product.CreatedAt p0
       /\ Product.UpdatedAt p = Now (rt w)
       /\ Product.Description p
          = match UpdateProductRequest.Description req with
            | Some d => TrimSpace env d
            | None => Product.Description p0
            end
       /\ (UpdateProductRequest.Tags req = [] ->
           Product.Tags p = Product.Tags p0)
       /\ (UpdateProductRequest.Tags req <> [] ->
           Product.Tags p = UpdateProductRequest.Tags req)
       /\ Product.Quantity p
          = match UpdateProductRequest.Quantity req with
            | Some q => q
            | None => Product.Quantity p0
            end
       /\ (forall x, x ∈ products (db w) ->
             Product.Id x <> UpdateProductRequest.Id req ->
             x ∈ products (db w'))
       /\ length (products (db w')) = length (products (db w))
       /\ users (db w') = users (db w)
       /\ orders (db w') = orders (db w)
       /\ order_items (db w') = order_items (db w))
  /\ ((forall p0, p0 ∈ products (db w) ->
         Product.Id p0 <> UpdateProductRequest.Id req) ->
      fst (productStorage.UpdateProduct env req w)
      = Err (Sentinel ErrProductNotFound)
      /\ db (snd (productStorage.UpdateProduct env req w)) = db w).
Proof.
  intros Hrel Hvalid Huniq.
  destruct (UpdateProduct_on_reliable env req w Hrel Hvalid)
    as (Hdb & _ & Hfst).
  set (d' := SQL.updateProduct env (Now (rt w)) req (db w)) in *.
  set (w' := snd (productStorage.UpdateProduct env req w)) in *.
  split.
  - intros p0 Hin0 Hid0.
    assert (Hfound : SQL.selectProducts env
                       (GetProductsRequest.Validate
                          (productStorage.byId (UpdateProductRequest.Id req)))
                       d' <> []).
    { apply selectProducts_byId_found.
      apply (has_row_map_Id (db w) d'); [apply updateProduct_ids|].
      exists p0. auto. }
    destruct (SQL.selectProducts env _ d') as [|p ps] eqn:Esel; [congruence|].
    assert (Hp : p ∈ products d' /\ Product.Id p = UpdateProductRequest.Id req).
    { apply (selectProducts_byId_elem env). rewrite Esel.
      apply list_elem_of_here. }
    destruct Hp as [Hin Hid].
    pose proof (updateProduct_row env (Now (rt w)) req (db w) p0 p
                  Huniq Hin0 Hid0 Hin Hid) as Hset.
    exists p, w'. split.
    { rewrite (surjective_pairing (productStorage.UpdateProduct env req w)).
      fold w'. rewrite Hfst. reflexivity. }
    rewrite Hdb. split; [exact Hin|]. rewrite Hset. simpl.
    split; [reflexivity|]. split; [reflexivity|]. split; [reflexivity|].
    split; [reflexivity|].
    split; [intros ->; reflexivity|].
    split; [intros Hne; destruct (UpdateProductRequest.Tags req);
            [congruence | reflexivity]|].
    split; [reflexivity|].
    split; [intros x Hx Hxid; apply updateProduct_keeps_other_rows;
            assumption|].
    split; [unfold d', SQL.updateProduct; simpl; apply length_map|].
    repeat split; reflexivity.
  - intros Hnone.
    pose proof (updateProduct_no_row env (Now (rt w)) req (db w) Hnone)
      as Hsame.
    fold d' in Hsame. split; [|rewrite Hdb; exact Hsame].
    rewrite Hfst, Hsame.
    destruct (SQL.selectProducts env _ (db w)) as [|p ps] eqn:Esel;
      [reflexivity|].
    exfalso.
    assert (Hp : p ∈ products (db w)
                 /\ Product.Id p = UpdateProductRequest.Id req).
    { apply (selectProducts_byId_elem env). rewrite Esel.
      apply list_elem_of_here. }
    destruct Hp as [Hin Hid]. apply (Hnone p Hin Hid).
Qed.

Lemma UpdateProduct_sets_given_fields_witness :
  (exists p w',
     productStorage.UpdateProduct (refEnv (fun l => l))
       {| UpdateProductRequest.Id := 2;
          UpdateProductRequest.Description := Some "  gadget ";
          UpdateProductRequest.Tags := [];
          UpdateProductRequest.Quantity := None |}
       (freshWorld sampleDB) = (Ok p, w')
     /\ Product.Description p = "gadget"
     /\ Product.Tags p = []
     /\ Product.Quantity p = 10)
  /\ fst (productStorage.UpdateProduct (refEnv (fun l => l))
            {| UpdateProductRequest.Id := 9;
               UpdateProductRequest.Description := None;
               UpdateProductRequest.Tags := [];
               UpdateProductRequest.Quantity := Some 1 |}
            (freshWorld sampleDB))
     = Err (Sentinel ErrProductNotFound).
Proof.
  assert (Hnd : NoDup (map Product.Id (products (db (freshWorld sampleDB)))))
    by (simpl; apply NoDup_singleton).
  split.
  - destruct (UpdateProduct_sets_given_fields (refEnv (fun l => l))
                {| UpdateProductRequest.Id := 2;
                   UpdateProductRequest.Description := Some "  gadget ";
                   UpdateProductRequest.Tags := [];
                   UpdateProductRequest.Quantity := None |}
                (freshWorld sampleDB)) as [Hset _];
      [constructor | reflexivity | exact Hnd |].
    destruct (Hset (sampleProduct 2 10))
      as (p & w' & Hrun & _ & _ & _ & _ & Hdesc & Htags & _ & Hqty & _);
      [apply list_elem_of_here | reflexivity |].
    exists p, w'. split; [exact Hrun|]. split; [exact Hdesc|].
    split; [apply Htags; reflexivity | exact Hqty].
  - destruct (UpdateProduct_sets_given_fields (refEnv (fun l => l))
                {| UpdateProductRequest.Id := 9;
                   UpdateProductRequest.Description := None;
                   UpdateProductRequest.Tags := [];
                   UpdateProductRequest.Quantity := Some 1 |}
                (freshWorld sampleDB)) as [_ Hmiss];
      [constructor | reflexivity | exact Hnd |].
    apply Hmiss. intros p0 Hin.
    apply list_elem_of_singleton in Hin. subst p0. discriminate.
Defined.

(* ================================================================== *)
(** * Creating a product *)

Section ProductCreation.

Variable env : Env.

Implicit Types (w : World) (d : DB).

Lemma merge_sort_singleton {A : Type} (R : relation A)
    `{!RelDecision R} (x : A) :
  merge_sort R [x] = [x].
Proof.
  apply Permutation_singleton_r. apply merge_sort_Permutation.
Qed.

(** The lookup by id of a row appended under an id no other row has. *)
Lemma selectProducts_byId_appended id d rows p :
  products d = rows ++ [p] -> Product.Id p = id ->
  (forall x, x ∈ rows -> Product.Id x <> id) ->
  SQL.selectProducts env
    (GetProductsRequest.Validate (productStorage.byId id)) d = [p].
Proof.
  intros Hrows Hid Hnone. unfold SQL.selectProducts. rewrite Hrows.
  rewrite filter_app.
  assert (Hold : filter (fun x => SQL.productMatches env
                            (GetProductsRequest.Validate
                               (productStorage.byId id)) x) rows = []).
  { clear Hrows. induction rows as [|x rows IH]; [reflexivity|].
    rewrite filter_cons.
    destruct (decide _) as [Hm|Hm].
    - exfalso. apply (Hnone x); [apply list_elem_of_here|].
      apply (productMatches_byId env), Is_true_eq_true. exact Hm.
    - apply IH. intros y Hy. apply Hnone, list_elem_of_further. exact Hy. }
  rewrite Hold. simpl. rewrite filter_cons.
  destruct (decide _) as [Hm|Hm].
  - rewrite filter_nil, merge_sort_singleton. reflexivity.
  - exfalso. apply Hm, Is_true_eq_left, (productMatches_byId env). exact Hid.
Qed.

(** The app service's [CreateProduct] on a store that answers. *)
Lemma CreateProduct_reliable req w :
  Reliable w ->
  CreateProductRequest.Validate env req = None ->
  TrimSpace env (TrimSpace env (CreateProductRequest.Description req))
  = TrimSpace env (CreateProductRequest.Description req) ->
  let p := {| Product.Id := uuidNew env (seed (rt w));
              Product.Description :=
                TrimSpace env (CreateProductRequest.Description req);
              Product.Tags :=
                Product.cleanTags env (CreateProductRequest.Tags req);
              Product.Quantity := CreateProductRequest.Quantity req;
              Product.CreatedAt := Now (rt w);
              Product.UpdatedAt := Now (rt w) |} in
  exists w',
    productAppService.CreateProduct env req w = (Ok p, w')
    /\ Reliable w'
    /\ db w' = SQL.insertProduct p (db w)
    /\ productCache w' = ∅.
Proof.
  intros Hrel Hvalid Hidem p.
  unfold productAppService.CreateProduct, CreateProductRequest.ToDomain.
  rewrite Hvalid.
  unfold CreateProductRequest.Validate in Hvalid.
  destruct (String.eqb_spec
              (TrimSpace env (CreateProductRequest.Description req)) "")
    as [|Hdesc]; [discriminate|].
  destruct (Z.ltb_spec (CreateProductRequest.Quantity req) 0) as [|Hqty];
    [discriminate|].
  unfold productStorage.CreateProduct, Product.Validate, uuid_New,
    ttlcache.DeleteAll.
  cbn [Product.Id Product.Description Product.Tags Product.Quantity
       Product.CreatedAt Product.UpdatedAt rt withProductCache withRt].
  change (Nil =? Nil)%N with true. change (IsZero 0) with true. cbv iota beta.
  rewrite Hidem.
  destruct (String.eqb_spec
              (TrimSpace env (CreateProductRequest.Description req)) "");
    [contradiction|].
  destruct (Z.ltb_spec (CreateProductRequest.Quantity req) 0); [lia|].
  match goal with |- context [roundTrip ?x] =>
    assert (Hrelx : Reliable x) by exact Hrel;
    pose proof (roundTrip_db x) as Hd;
    pose proof (roundTrip_caches x) as (_ & Hp & _);
    destruct (roundTrip_reliable x Hrelx) as [Hok Hrel'];
    destruct (roundTrip x) as [b w1] end; simpl in *. subst b.
  eexists. split; [reflexivity|]. split; [exact Hrel'|].
  split; [simpl; rewrite Hd; reflexivity | exact Hp].
Qed.

End ProductCreation.

(** X12: the product application service's [CreateProduct].  A request
    whose description is blank or whose quantity is negative is refused with
    [ProductValidation] before the storage is reached: the world, caches
    included, is what it was.  On a store that answers, a valid request (its
    trimmed description staying as it is when trimmed again) is stored as a
    new row at the end of the table: under a newly drawn identifier, with
    the description trimmed, the tags trimmed and the blank ones dropped,
    the quantity of the request, and both timestamps at the instant of the
    call; the other tables are untouched; and when no older row has the same
    identifier, a lookup by that identifier right afterwards returns exactly
    this product. *)
Theorem CreateProduct_stores_and_reads_back
    (env : Env) (req : CreateProductRequest.t) (w : World) :
  (forall e, CreateProductRequest.Validate env req = Some e ->
     productAppService.CreateProduct env req w = (Err e, w)
     /\ kind e = ErrProductValidation)
  /\ (Reliable w ->
      CreateProductRequest.Validate env req = None ->
      TrimSpace env (TrimSpace env (CreateProductRequest.Description req))
      = TrimSpace env (CreateProductRequest.Description req) ->
      exists p w',
        productAppService.CreateProduct env req w = (Ok p, w')
        /\ Product.Id p = uuidNew env (seed (rt w))
        /\ Product.Description p
           = TrimSpace env (CreateProductRequest.Description req)
        /\ Product.Tags p
           = filter (fun tag => tag <> "")
                    (map (TrimSpace env) (CreateProductRequest.Tags req))
        /\ Product.Quantity p = CreateProductRequest.Quantity req
        /\ 0 <= Product.Quantity p
        /\ Product.CreatedAt p = Now (rt w)
        /\ Product.UpdatedAt p = Now (rt w)
        /\ products (db w') = products (db w) ++ [p]
        /\ users (db w') = users (db w)
        /\ orders (db w') = orders (db w)
        /\ order_items (db w') = order_items (db w)
        /\ ((forall x, x ∈ products (db w) -> Product.Id x <> Product.Id p) ->
            fst (productAppService.Products env
                   (productStorage.byId (Product.Id p)) w') = Ok [p])).
Proof.
  split.
  - intros e Hinvalid.
    unfold productAppService.CreateProduct, CreateProductRequest.ToDomain.
    rewrite Hinvalid. split; [reflexivity|].
    unfold CreateProductRequest.Validate in Hinvalid.
    destruct (String.eqb _ ""); [inversion Hinvalid; reflexivity|].
    destruct (_ <? 0); [inversion Hinvalid; reflexivity | discriminate].
  - intros Hrel Hvalid Hidem.
    destruct (CreateProduct_reliable env req w Hrel Hvalid Hidem)
      as (w' & Hrun & Hrel' & Hdb & Hcache).
    eexists. exists w'. split; [exact Hrun|].
    cbn [Product.Id Product.Description Product.Tags Product.Quantity
         Product.CreatedAt Product.UpdatedAt].
    split; [reflexivity|]. split; [reflexivity|]. split; [reflexivity|].
    split; [reflexivity|].
    split.
    { unfold CreateProductRequest.Validate in Hvalid.
      destruct (String.eqb _ ""); [discriminate|].
      destruct (Z.ltb_spec (CreateProductRequest.Quantity req) 0);
        [discriminate | assumption]. }
    split; [reflexivity|]. split; [reflexivity|].
    rewrite Hdb. cbn [users products orders order_items SQL.insertProduct].
    split; [reflexivity|]. split; [reflexivity|]. split; [reflexivity|].
    split; [reflexivity|].
    intros Hfresh. unfold productAppService.Products.
    destruct (Products_on_empty env
                (productStorage.byId (uuidNew env (seed (rt w)))) w'
                Hrel' Hcache) as (HP & _).
    rewrite HP. simpl. f_equal.
    apply (selectProducts_byId_appended env _ (db w') (products (db w)));
      [rewrite Hdb; reflexivity | reflexivity | exact Hfresh].
Qed.

Lemma CreateProduct_stores_and_reads_back_witness :
  (exists e,
     productAppService.CreateProduct (refEnv (fun l => l)) blankProduct
       (freshWorld sampleDB) = (Err e, freshWorld sampleDB)
     /\ kind e = ErrProductValidation)
  /\ exists p w',
       productAppService.CreateProduct (refEnv (fun l => l)) newProduct
         (freshWorld sampleDB) = (Ok p, w')
       /\ Product.Description p = "gadget"
       /\ Product.Tags p = ["new"; "small"]
       /\ products (db w') = [sampleProduct 2 10; p]
       /\ fst (productAppService.Products (refEnv (fun l => l))
                 (productStorage.byId (Product.Id p)) w') = Ok [p].
Proof.
  split.
  - destruct (CreateProduct_stores_and_reads_back (refEnv (fun l => l))
                blankProduct (freshWorld sampleDB)) as [Hbad _].
    eexists. apply Hbad. reflexivity.
  - destruct (CreateProduct_stores_and_reads_back (refEnv (fun l => l))
                newProduct (freshWorld sampleDB)) as [_ Hgood].
    destruct Hgood
      as (p & w' & Hrun & Hid & Hdesc & Htags & _ & _ & _ & _ & Hrows & _
          & _ & _ & Hread);
      [constructor | reflexivity | reflexivity |].
    exists p, w'. split; [exact Hrun|]. split; [exact Hdesc|].
    split; [exact Htags|]. split; [exact Hrows|].
    apply Hread. intros x Hx. apply list_elem_of_singleton in Hx. subst x.
    rewrite Hid. discriminate.
Defined.

(* ================================================================== *)
(** * Registering a user *)

Section Registration.

Variable env : Env.
Variable crypto : Crypto.

Implicit Types (w : World) (u : User.t).

Lemma uuidBytes_length (id : UUID) : length (uuidBytes id) = 16%nat.
Proof. unfold uuidBytes. rewrite length_map, length_seq. reflexivity. Qed.

Lemma CreateUserRequest_Validate_kind req e :
  CreateUserRequest.Validate env req = Some e -> kind e = ErrUserValidation.
Proof.
  unfold CreateUserRequest.Validate.
  repeat match goal with
         | |- context [if ?c then _ else _] => destruct c
         end; intros H; inversion H; reflexivity.
Qed.

Lemma CreateUserRequest_Validate_None req :
  CreateUserRequest.Validate env req = None ->
  TrimSpace env (CreateUserRequest.FirstName req) <> ""
  /\ TrimSpace env (CreateUserRequest.LastName req) <> ""
  /\ 18 <= CreateUserRequest.Age req
  /\ (8 <= String.length (CreateUserRequest.Password req))%nat.
Proof.
  unfold CreateUserRequest.Validate.
  destruct (String.eqb_spec
              (TrimSpace env (CreateUserRequest.FirstName req)) "");
    [discriminate|].
  destruct (String.eqb_spec
              (TrimSpace env (CreateUserRequest.LastName req)) "");
    [discriminate|].
  destruct (Z.ltb_spec (CreateUserRequest.Age req) 18); [discriminate|].
  destruct (Nat.ltb_spec (String.length (CreateUserRequest.Password req)) 8);
    [discriminate|].
  intros _. repeat split; assumption.
Qed.

(** What a user that passed [Validate] looks like. *)
Lemma User_Validate_None u r :
  snd (fst (User.Validate env u r)) = None ->
  let u' := fst (fst (User.Validate env u r)) in
  User.FirstName u' = User.FirstName u
  /\ User.LastName u' = User.LastName u
  /\ User.Age u' = User.Age u
  /\ User.IsMarried u' = User.IsMarried u
  /\ User.PasswordHash u' = User.PasswordHash u
  /\ User.Salt u' = User.Salt u
  /\ TrimSpace env (User.FirstName u) <> ""
  /\ TrimSpace env (User.LastName u) <> ""
  /\ 18 <= User.Age u
  /\ User.PasswordHash u <> []
  /\ User.Salt u <> [].
Proof.
  unfold User.Validate.
  destruct (if (User.Id u =? Nil)%N then uuid_New env r else (User.Id u, r))
    as [id r1].
  destruct (String.eqb_spec (TrimSpace env (User.FirstName u)) "");
    [discriminate|].
  destruct (String.eqb_spec (TrimSpace env (User.LastName u)) "");
    [discriminate|].
  destruct (Z.ltb_spec (User.Age u) 18); [discriminate|].
  destruct (User.PasswordHash u) as [|h hs] eqn:Eh; [discriminate|].
  destruct (User.Salt u) as [|s ss] eqn:Es; [discriminate|].
  simpl. intros _.
  repeat split; try assumption; try reflexivity; discriminate.
Qed.

Lemma CreateUser_Ok user w u' w' :
  userStorage.CreateUser env user w = (u', None, w') ->
  u' = fst (fst (User.Validate env user (rt w)))
  /\ snd (fst (User.Validate env user (rt w))) = None
  /\ db w' = SQL.insertUser u' (db w)
  /\ userCache w' = ∅.
Proof.
  unfold userStorage.CreateUser, ttlcache.DeleteAll.
  change (rt (withUserCache ∅ w)) with (rt w).
  destruct (User.Validate env user (rt w)) as [[u1 [e|]] r1]; simpl;
    [discriminate|].
  match goal with |- context [roundTrip ?x] =>
    pose proof (roundTrip_db x) as Hd;
    pose proof (roundTrip_caches x) as (Hu & _);
    destruct (roundTrip x) as [[|] w1] end; simpl in *; [discriminate|].
  intros H. inversion H; subst. simpl.
  repeat split; [rewrite Hd; reflexivity | exact Hu].
Qed.

(** What [SetPassword] leaves when it succeeds. *)
Lemma SetPassword_Ok password u r u' r' :
  User.SetPassword env crypto password u r = (u', None, r') ->
  (8 <= String.length password)%nat
  /\ User.Salt u' = uuidBytes (uuidNew env (seed r))
  /\ GenerateFromPassword crypto (S (seed r))
       (stringBytes password ++ User.Salt u') = inl (User.PasswordHash u')
  /\ User.Id u' = User.Id u
  /\ User.FirstName u' = User.FirstName u
  /\ User.LastName u' = User.LastName u
  /\ User.Age u' = User.Age u
  /\ User.IsMarried u' = User.IsMarried u
  /\ User.CreatedAt u' = User.CreatedAt u
  /\ clock r' = clock r.
Proof.
  unfold User.SetPassword, uuid_New.
  destruct (Nat.ltb_spec (String.length password) 8) as [|Hlen];
    [discriminate|].
  cbn [seed clock User.Salt User.withSalt].
  destruct (GenerateFromPassword crypto (S (seed r))
              (stringBytes password ++ uuidBytes (uuidNew env (seed r))))
    as [hash|err] eqn:E; [|discriminate].
  intros Heq. inversion Heq; subst. simpl. rewrite E.
  repeat split; try reflexivity. exact Hlen.
Qed.

Lemma User_Validate_ok u r :
  TrimSpace env (User.FirstName u) <> "" ->
  TrimSpace env (User.LastName u) <> "" ->
  18 <= User.Age u ->
  User.PasswordHash u <> [] ->
  User.Salt u <> [] ->
  snd (fst (User.Validate env u r)) = None.
Proof.
  intros Hf Hl Ha Hh Hs. unfold User.Validate.
  destruct (if (User.Id u =? Nil)%N then uuid_New env r else (User.Id u, r))
    as [id r1].
  destruct (String.eqb_spec (TrimSpace env (User.FirstName u)) "");
    [contradiction|].
  destruct (String.eqb_spec (TrimSpace env (User.LastName u)) "");
    [contradiction|].
  destruct (Z.ltb_spec (User.Age u) 18); [lia|].
  destruct (User.PasswordHash u); [contradiction|].
  destruct (User.Salt u); [contradiction|]. reflexivity.
Qed.

Lemma CreateUser_reliable user w :
  Reliable w ->
  snd (fst (User.Validate env user (rt w))) = None ->
  exists w',
    userStorage.CreateUser env user w
    = (fst (fst (User.Validate env user (rt w))), None, w').
Proof.
  intros Hrel Hvalid. unfold userStorage.CreateUser, ttlcache.DeleteAll.
  change (rt (withUserCache ∅ w)) with (rt w).
  destruct (User.Validate env user (rt w)) as [[u1 err] r1]; simpl in *.
  subst err.
  match goal with |- context [roundTrip ?x] =>
    assert (Hrelx : Reliable x) by exact Hrel;
    destruct (roundTrip_reliable x Hrelx) as [Hok _];
    destruct (roundTrip x) as [b w1] end; simpl in *. subst b.
  eexists. reflexivity.
Qed.

End Registration.

(** X13: registering a user.  A request with a blank first or last name, an
    age under 18 or a password shorter than 8 bytes is refused with
    [UserValidation] before anything is drawn or stored: the world is what
    it was.  Whenever [RegisterUser] succeeds, the user returned is the new
    last row of the users table, with the names of the request trimmed and
    not blank, the age of the request (18 or more), a salt of 16 bytes, and
    as password hash, which is not empty, what bcrypt gave for the password
    followed by that salt, so that [VerifyPassword] with the password of the
    request accepts when bcrypt accepts its own hashes; the other tables are
    untouched and the user cache is empty.  And on a store that answers it
    does succeed, for a valid request (trimmed names staying as they are
    when trimmed again) for which bcrypt returns a hash that is not
    empty. *)
Theorem RegisterUser_validates_and_stores
    (env : Env) (crypto : Crypto) (req : CreateUserRequest.t) (w : World) :
  (forall e, CreateUserRequest.Validate env req = Some e ->
     userAppService.RegisterUser env crypto req w = (Err e, w)
     /\ kind e = ErrUserValidation)
  /\ (forall u w',
        userAppService.RegisterUser env crypto req w = (Ok u, w') ->
        User.FirstName u = TrimSpace env (CreateUserRequest.FirstName req)
        /\ User.FirstName u <> ""
        /\ User.LastName u = TrimSpace env (CreateUserRequest.LastName req)
        /\ User.LastName u <> ""
        /\ User.Age u = CreateUserRequest.Age req
        /\ 18 <= User.Age u
        /\ User.IsMarried u = CreateUserRequest.IsMarried req
        /\ (8 <= String.length (CreateUserRequest.Password req))%nat
        /\ length (User.Salt u) = 16%nat
        /\ User.PasswordHash u <> []
        /\ (exists n,
              GenerateFromPassword crypto n
                (stringBytes (CreateUserRequest.Password req) ++ User.Salt u)
              = inl (User.PasswordHash u))
        /\ ((forall n x h, GenerateFromPassword crypto n x = inl h ->
                           CompareHashAndPassword crypto h x = true) ->
            User.VerifyPassword crypto (CreateUserRequest.Password req) u
            = true)
        /\ users (db w') = users (db w) ++ [u]
        /\ products (db w') = products (db w)
        /\ orders (db w') = orders (db w)
        /\ order_items (db w') = order_items (db w)
        /\ userCache w' = ∅)
  /\ (Reliable w ->
      CreateUserRequest.Validate env req = None ->
      TrimSpace env (TrimSpace env (CreateUserRequest.FirstName req))
      = TrimSpace env (CreateUserRequest.FirstName req) ->
      TrimSpace env (TrimSpace env (CreateUserRequest.LastName req))
      = TrimSpace env (CreateUserRequest.LastName req) ->
      forall hash,
        GenerateFromPassword crypto (S (seed (rt w)))
          (stringBytes (CreateUserRequest.Password req)
           ++ uuidBytes (uuidNew env (seed (rt w)))) = inl hash ->
        hash <> [] ->
        exists u w',
          userAppService.RegisterUser env crypto req w = (Ok u, w')
          /\ User.PasswordHash u = hash).
Proof.
  split; [|split].
  - intros e Hinvalid.
    unfold userAppService.RegisterUser, CreateUserRequest.ToDomain.
    rewrite Hinvalid. split.
    + destruct w; reflexivity.
    + apply (CreateUserRequest_Validate_kind env req). exact Hinvalid.
  - intros u w' Hrun.
    unfold userAppService.RegisterUser, CreateUserRequest.ToDomain in Hrun.
    destruct (CreateUserRequest.Validate env req) as [e|] eqn:Hvalid;
      [discriminate|].
    destruct (CreateUserRequest_Validate_None env req Hvalid)
      as (Hfn & Hln & Hage & Hpw).
    destruct (User.SetPassword env crypto _ _ (rt w)) as [[u1 [e|]] r1] eqn:ESP;
      [discriminate|].
    destruct (SetPassword_Ok env crypto _ _ _ _ _ ESP)
      as (_ & Hsalt & Hgen & _ & Hf1 & Hl1 & Ha1 & Hm1 & _ & _).
    simpl in Hf1, Hl1, Ha1, Hm1.
    destruct (userStorage.CreateUser env u1 (withRt r1 w))
      as [[u2 [e|]] w2] eqn:EC; [discriminate|].
    inversion Hrun; subst u2 w2. clear Hrun.
    destruct (CreateUser_Ok env _ _ _ _ EC) as (Hu & Hok & Hdb & Hcache).
    destruct (User_Validate_None env u1 (rt (withRt r1 w)) Hok)
      as (V1 & V2 & V3 & V4 & V5 & V6 & _ & _ & _ & Vh & _).
    rewrite <- Hu in V1, V2, V3, V4, V5, V6.
    assert (Hgen' : GenerateFromPassword crypto (S (seed (rt w)))
                      (stringBytes (CreateUserRequest.Password req)
                       ++ User.Salt u) = inl (User.PasswordHash u))
      by (rewrite V5, V6; exact Hgen).
    split; [congruence|]. split; [congruence|]. split; [congruence|].
    split; [congruence|]. split; [congruence|]. split; [lia|].
    split; [congruence|]. split; [exact Hpw|].
    split; [rewrite V6, Hsalt; apply uuidBytes_length|].
    split; [congruence|]. split; [eauto|].
    split; [intros Hlaw; unfold User.VerifyPassword;
            apply (Hlaw _ _ _ Hgen')|].
    rewrite Hdb. simpl. repeat split; try reflexivity. exact Hcache.
  - intros Hrel Hvalid Hidf Hidl hash Hgen Hhash.
    destruct (CreateUserRequest_Validate_None env req Hvalid)
      as (Hfn & Hln & Hage & Hpw).
    unfold userAppService.RegisterUser, CreateUserRequest.ToDomain.
    rewrite Hvalid. unfold User.SetPassword, uuid_New.
    destruct (Nat.ltb_spec (String.length (CreateUserRequest.Password req)) 8);
      [lia|].
    cbn [seed clock User.Salt User.withSalt]. rewrite Hgen.
    match goal with |- context [userStorage.CreateUser env ?user ?x] =>
      destruct (CreateUser_reliable env user x) as (w' & HC);
        [exact Hrel | |]
    end.
    + apply User_Validate_ok; simpl.
      * rewrite Hidf. exact Hfn.
      * rewrite Hidl. exact Hln.
      * exact Hage.
      * exact Hhash.
      * intros Hnil. apply (f_equal length) in Hnil.
        rewrite uuidBytes_length in Hnil. discriminate.
    + rewrite HC. eexists. exists w'. split; [reflexivity|].
      match goal with |- User.PasswordHash (fst (fst (User.Validate env ?user ?r))) = _ =>
        assert (Hok : snd (fst (User.Validate env user r)) = None);
          [|destruct (User_Validate_None env user r Hok)
              as (_ & _ & _ & _ & V5 & _); exact V5]
      end.
      apply User_Validate_ok; simpl.
      * rewrite Hidf. exact Hfn.
      * rewrite Hidl. exact Hln.
      * exact Hage.
      * exact Hhash.
      * intros Hnil. apply (f_equal length) in Hnil.
        rewrite uuidBytes_length in Hnil. discriminate.
Qed.

Lemma RegisterUser_validates_and_stores_witness :
  (exists e,
     userAppService.RegisterUser (refEnv (fun l => l)) refCrypto minorRequest
       (freshWorld emptyDB) = (Err e, freshWorld emptyDB)
     /\ kind e = ErrUserValidation)
  /\ exists u w',
       userAppService.RegisterUser (refEnv (fun l => l)) refCrypto annRequest
         (freshWorld emptyDB) = (Ok u, w')
       /\ User.FirstName u = "Ann"
       /\ length (User.Salt u) = 16%nat
       /\ User.VerifyPassword refCrypto "12345678" u = true
       /\ users (db w') = [u].
Proof.
  split.
  - destruct (RegisterUser_validates_and_stores (refEnv (fun l => l))
                refCrypto minorRequest (freshWorld emptyDB)) as [Hbad _].
    eexists. apply Hbad. reflexivity.
  - destruct (RegisterUser_validates_and_stores (refEnv (fun l => l))
                refCrypto annRequest (freshWorld emptyDB))
      as (_ & Hprops & Hgood).
    destruct (Hgood ltac:(constructor) eq_refl eq_refl eq_refl _ eq_refl)
      as (u & w' & Hrun & _); [discriminate|].
    destruct (Hprops u w' Hrun)
      as (Hfn & _ & _ & _ & _ & _ & _ & _ & Hsalt & _ & _ & Hverify & Hrows
          & _).
    exists u, w'. split; [exact Hrun|]. split; [exact Hfn|].
    split; [exact Hsalt|]. split; [|exact Hrows].
    apply Hverify. intros n x h Hgen. inversion Hgen; subst.
    unfold refCrypto, CompareHashAndPassword.
    destruct (List.list_eq_dec Byte.byte_eq_dec (x24 :: x) (x24 :: x));
      [reflexivity|congruence].
Defined.
(* ================================================================== *)
(** * Reads answered by the cache *)

Section CachedReads.

Variable env : Env.

Implicit Types (w : World).

Lemma Get_live {V : Type} now k (c : gmap CacheKey (ttlcache.Item V)) it :
  c !! k = Some it -> ttlcache.isExpired now it = false ->
  fst (ttlcache.Get now k (ttlcache.DeleteExpired now c))
  = Some (ttlcache.value it).
Proof.
  intros Hk Hlive. unfold ttlcache.Get, ttlcache.DeleteExpired.
  assert (Hf : filter (fun kv : CacheKey * ttlcache.Item V =>
                         ttlcache.isExpired now (snd kv) = false) c !! k
               = Some it).
  { apply map_lookup_filter_Some. split; assumption. }
  rewrite Hf, Hlive. reflexivity.
Qed.

Lemma Get_expired {V : Type} now k (c : gmap CacheKey (ttlcache.Item V)) it :
  c !! k = Some it -> ttlcache.isExpired now it = true ->
  fst (ttlcache.Get now k (ttlcache.DeleteExpired now c)) = None.
Proof.
  intros Hk Hdead. unfold ttlcache.Get, ttlcache.DeleteExpired.
  destruct (filter _ c !! k) as [it'|] eqn:E; [|reflexivity].
  apply map_lookup_filter_Some in E. destruct E as [E Hlive].
  simpl in Hlive. congruence.
Qed.

Lemma Get_keeps {V : Type} now k (c : gmap CacheKey (ttlcache.Item V)) v c' :
  ttlcache.Get now k c = (Some v, c') ->
  c' !! k = Some {| ttlcache.value := v; ttlcache.expiresAt := now + Hour |}.
Proof.
  unfold ttlcache.Get. destruct (c !! k) as [it|]; [|discriminate].
  destruct (ttlcache.isExpired now it); [discriminate|].
  intros H. inversion H; subst. apply lookup_insert_eq.
Qed.

Lemma isExpired_later now d (v : Type) (x : list v) :
  ttlcache.isExpired (now + d)
    {| ttlcache.value := x; ttlcache.expiresAt := now + Hour |}
  = (Hour <? d).
Proof.
  unfold ttlcache.isExpired. simpl.
  destruct (Z.ltb_spec (now + Hour) (now + d)), (Z.ltb_spec Hour d);
    try reflexivity; lia.
Qed.

(** A read that succeeds leaves its answer in the cache, good for an hour
    from the instant it returns. *)
Lemma Users_caches req w us w1 :
  userStorage.Users env req w = (Ok us, w1) ->
  userCache w1 !! GetUsersRequest.CacheKey env (GetUsersRequest.Validate req)
  = Some {| ttlcache.value := us;
            ttlcache.expiresAt := Now (rt w1) + Hour |}.
Proof.
  unfold userStorage.Users. simpl.
  destruct (ttlcache.Get _ _ _) as [[cached|] c] eqn:Eget.
  - intros H. inversion H; subst. simpl.
    apply (Get_keeps _ _ _ _ _ Eget).
  - destruct (roundTrip _) as [[|] w']; [discriminate|].
    intros H. inversion H; subst. simpl. apply lookup_insert_eq.
Qed.

Lemma Products_caches req w ps w1 :
  productStorage.Products env req w = (Ok ps, w1) ->
  productCache w1
  !! GetProductsRequest.CacheKey env (GetProductsRequest.Validate req)
  = Some {| ttlcache.value := ps;
            ttlcache.expiresAt := Now (rt w1) + Hour |}.
Proof.
  unfold productStorage.Products. simpl.
  destruct (ttlcache.Get _ _ _) as [[cached|] c] eqn:Eget.
  - intros H. inversion H; subst. simpl.
    apply (Get_keeps _ _ _ _ _ Eget).
  - destruct (roundTrip _) as [[|] w']; [discriminate|].
    intros H. inversion H; subst. simpl. apply lookup_insert_eq.
Qed.

Lemma Orders_caches req w os w1 :
  orderStorage.Orders env req w = (Ok os, w1) ->
  orderCache w1
  !! GetOrdersRequest.CacheKey env (GetOrdersRequest.Validate req)
  = Some {| ttlcache.value := os;
            ttlcache.expiresAt := Now (rt w1) + Hour |}.
Proof.
  unfold orderStorage.Orders. simpl.
  destruct (ttlcache.Get _ _ _) as [[cached|] c] eqn:Eget.
  - intros H. inversion H; subst. simpl.
    apply (Get_keeps _ _ _ _ _ Eget).
  - destruct (roundTrip _) as [[|] w']; [discriminate|].
    match goal with |- context [?m w'] =>
      destruct (m w') as [[os'|e] w''] end; [|discriminate].
    intros H. inversion H; subst. simpl. apply lookup_insert_eq.
Qed.

(** A read that finds a live item makes no round trip. *)
Lemma Users_hit req w it :
  userCache w !! GetUsersRequest.CacheKey env (GetUsersRequest.Validate req)
  = Some it ->
  ttlcache.isExpired (Now (rt w)) it = false ->
  fst (userStorage.Users env req w) = Ok (ttlcache.value it)
  /\ io (snd (userStorage.Users env req w)) = io w
  /\ db (snd (userStorage.Users env req w)) = db w
  /\ rt (snd (userStorage.Users env req w)) = rt w.
Proof.
  intros Hk Hlive. unfold userStorage.Users. simpl.
  pose proof (Get_live _ _ _ _ Hk Hlive) as Hget.
  destruct (ttlcache.Get _ _ _) as [[cached|] c]; simpl in Hget;
    [|discriminate].
  inversion Hget; subst. simpl. repeat split; reflexivity.
Qed.

Lemma Products_hit req w it :
  productCache w
  !! GetProductsRequest.CacheKey env (GetProductsRequest.Validate req)
  = Some it ->
  ttlcache.isExpired (Now (rt w)) it = false ->
  fst (productStorage.Products env req w) = Ok (ttlcache.value it)
  /\ io (snd (productStorage.Products env req w)) = io w
  /\ db (snd (productStorage.Products env req w)) = db w
  /\ rt (snd (productStorage.Products env req w)) = rt w.
Proof.
  intros Hk Hlive. unfold productStorage.Products. simpl.
  pose proof (Get_live _ _ _ _ Hk Hlive) as Hget.
  destruct (ttlcache.Get _ _ _) as [[cached|] c]; simpl in Hget;
    [|discriminate].
  inversion Hget; subst. simpl. repeat split; reflexivity.
Qed.

Lemma Orders_hit req w it :
  orderCache w
  !! GetOrdersRequest.CacheKey env (GetOrdersRequest.Validate req)
  = Some it ->
  ttlcache.isExpired (Now (rt w)) it = false ->
  fst (orderStorage.Orders env req w) = Ok (ttlcache.value it)
  /\ io (snd (orderStorage.Orders env req w)) = io w
  /\ db (snd (orderStorage.Orders env req w)) = db w
  /\ rt (snd (orderStorage.Orders env req w)) = rt w.
Proof.
  intros Hk Hlive. unfold orderStorage.Orders. simpl.
  pose proof (Get_live _ _ _ _ Hk Hlive) as Hget.
  destruct (ttlcache.Get _ _ _) as [[cached|] c]; simpl in Hget;
    [|discriminate].
  inversion Hget; subst. simpl. repeat split; reflexivity.
Qed.

(** A read that finds its item expired goes to the store. *)
Lemma Users_expired req w it o rest :
  userCache w !! GetUsersRequest.CacheKey env (GetUsersRequest.Validate req)
  = Some it ->
  ttlcache.isExpired (Now (rt w)) it = true ->
  io w = o :: rest -> failed o = true ->
  fst (userStorage.Users env req w) = Err driverError.
Proof.
  intros Hk Hdead Hio Hfail. unfold userStorage.Users. simpl.
  pose proof (Get_expired _ _ _ _ Hk Hdead) as Hget.
  destruct (ttlcache.Get _ _ _) as [[cached|] c]; simpl in Hget;
    [discriminate|].
  unfold roundTrip. simpl. rewrite Hio, Hfail. reflexivity.
Qed.

Lemma Products_expired req w it o rest :
  productCache w
  !! GetProductsRequest.CacheKey env (GetProductsRequest.Validate req)
  = Some it ->
  ttlcache.isExpired (Now (rt w)) it = true ->
  io w = o :: rest -> failed o = true ->
  fst (productStorage.Products env req w) = Err driverError.
Proof.
  intros Hk Hdead Hio Hfail. unfold productStorage.Products. simpl.
  pose proof (Get_expired _ _ _ _ Hk Hdead) as Hget.
  destruct (ttlcache.Get _ _ _) as [[cached|] c]; simpl in Hget;
    [discriminate|].
  unfold roundTrip. simpl. rewrite Hio, Hfail. reflexivity.
Qed.

Lemma Orders_expired req w it o rest :
  orderCache w
  !! GetOrdersRequest.CacheKey env (GetOrdersRequest.Validate req)
  = Some it ->
  ttlcache.isExpired (Now (rt w)) it = true ->
  io w = o :: rest -> failed o = true ->
  fst (orderStorage.Orders env req w) = Err driverError.
Proof.
  intros Hk Hdead Hio Hfail. unfold orderStorage.Orders. simpl.
  pose proof (Get_expired _ _ _ _ Hk Hdead) as Hget.
  destruct (ttlcache.Get _ _ _) as [[cached|] c]; simpl in Hget;
    [discriminate|].
  unfold roundTrip. simpl. rewrite Hio, Hfail. reflexivity.
Qed.

End CachedReads.

(** X14: list reads are answered by the cache for one hour.  After a read
    of users, products or orders has succeeded, a read with a request that
    normalises to the same one, made up to an hour later with no write in
    between, returns the same list and makes no round trip to the database
    (the script of round trips, the tables and the clock are as they were,
    so it succeeds even where the database would fail); made more than an
    hour later, it goes to the database, and fails when that round trip
    fails. *)
Theorem repeated_reads_come_from_the_cache (env : Env) (w : World) (d : Z) :
  (forall req req' us w1,
     userStorage.Users env req w = (Ok us, w1) ->
     GetUsersRequest.Validate req' = GetUsersRequest.Validate req ->
     (d <= Hour ->
      fst (userStorage.Users env req' (elapse d w1)) = Ok us
      /\ io (snd (userStorage.Users env req' (elapse d w1))) = io w1
      /\ db (snd (userStorage.Users env req' (elapse d w1))) = db w1
      /\ rt (snd (userStorage.Users env req' (elapse d w1)))
         = rt (elapse d w1))
     /\ (Hour < d ->
         forall o rest, io w1 = o :: rest -> failed o = true ->
         fst (userStorage.Users env req' (elapse d w1)) = Err driverError))
  /\ (forall req req' ps w1,
        productStorage.Products env req w = (Ok ps, w1) ->
        GetProductsRequest.Validate req' = GetProductsRequest.Validate req ->
        (d <= Hour ->
         fst (productStorage.Products env req' (elapse d w1)) = Ok ps
         /\ io (snd (productStorage.Products env req' (elapse d w1))) = io w1
         /\ db (snd (productStorage.Products env req' (elapse d w1))) = db w1
         /\ rt (snd (productStorage.Products env req' (elapse d w1)))
            = rt (elapse d w1))
        /\ (Hour < d ->
            forall o rest, io w1 = o :: rest -> failed o = true ->
            fst (productStorage.Products env req' (elapse d w1))
            = Err driverError))
  /\ (forall req req' os w1,
        orderStorage.Orders env req w = (Ok os, w1) ->
        GetOrdersRequest.Validate req' = GetOrdersRequest.Validate req ->
        (d <= Hour ->
         fst (orderStorage.Orders env req' (elapse d w1)) = Ok os
         /\ io (snd (orderStorage.Orders env req' (elapse d w1))) = io w1
         /\ db (snd (orderStorage.Orders env req' (elapse d w1))) = db w1
         /\ rt (snd (orderStorage.Orders env req' (elapse d w1)))
            = rt (elapse d w1))
        /\ (Hour < d ->
            forall o rest, io w1 = o :: rest -> failed o = true ->
            fst (orderStorage.Orders env req' (elapse d w1))
            = Err driverError)).
Proof.
  split; [|split].
  - intros req req' us w1 Hrun Hreq.
    pose proof (Users_caches env _ _ _ _ Hrun) as Hk. rewrite <- Hreq in Hk.
    pose proof (isExpired_later (Now (rt w1)) d _ us) as Hexp.
    split.
    + intros Hd.
      destruct (Users_hit env req' (elapse d w1) _ Hk) as (H1 & H2 & H3 & H4).
      { simpl. unfold Now in *. simpl. rewrite Hexp.
        apply Z.ltb_ge. exact Hd. }
      repeat split; assumption.
    + intros Hd o rest Hio Hfail.
      apply (Users_expired env req' (elapse d w1) _ o rest Hk);
        [|exact Hio|exact Hfail].
      simpl. unfold Now in *. simpl. rewrite Hexp.
      apply Z.ltb_lt. exact Hd.
  - intros req req' ps w1 Hrun Hreq.
    pose proof (Products_caches env _ _ _ _ Hrun) as Hk.
    rewrite <- Hreq in Hk.
    pose proof (isExpired_later (Now (rt w1)) d _ ps) as Hexp.
    split.
    + intros Hd.
      destruct (Products_hit env req' (elapse d w1) _ Hk)
        as (H1 & H2 & H3 & H4).
      { simpl. unfold Now in *. simpl. rewrite Hexp.
        apply Z.ltb_ge. exact Hd. }
      repeat split; assumption.
    + intros Hd o rest Hio Hfail.
      apply (Products_expired env req' (elapse d w1) _ o rest Hk);
        [|exact Hio|exact Hfail].
      simpl. unfold Now in *. simpl. rewrite Hexp.
      apply Z.ltb_lt. exact Hd.
  - intros req req' os w1 Hrun Hreq.
    pose proof (Orders_caches env _ _ _ _ Hrun) as Hk. rewrite <- Hreq in Hk.
    pose proof (isExpired_later (Now (rt w1)) d _ os) as Hexp.
    split.
    + intros Hd.
      destruct (Orders_hit env req' (elapse d w1) _ Hk)
        as (H1 & H2 & H3 & H4).
      { simpl. unfold Now in *. simpl. rewrite Hexp.
        apply Z.ltb_ge. exact Hd. }
      repeat split; assumption.
    + intros Hd o rest Hio Hfail.
      apply (Orders_expired env req' (elapse d w1) _ o rest Hk);
        [|exact Hio|exact Hfail].
      simpl. unfold Now in *. simpl. rewrite Hexp.
      apply Z.ltb_lt. exact Hd.
Qed.

Lemma repeated_reads_come_from_the_cache_witness :
  exists w1,
    userStorage.Users (refEnv (fun l => l)) allUsers oneAnswerWorld
    = (Ok [sampleUser 7], w1)
    /\ fst (userStorage.Users (refEnv (fun l => l)) firstTenUsers
              (elapse Hour w1)) = Ok [sampleUser 7]
    /\ fst (userStorage.Users (refEnv (fun l => l)) firstTenUsers
              (elapse (Hour + 1) w1)) = Err driverError.
Proof.
  eexists. split; [vm_compute; reflexivity|].
  split.
  - destruct (repeated_reads_come_from_the_cache (refEnv (fun l => l))
                oneAnswerWorld Hour) as (Husers & _).
    refine (proj1 (proj1 (Husers allUsers firstTenUsers _ _ _ eq_refl) _)).
    + vm_compute. reflexivity.
    + lia.
  - destruct (repeated_reads_come_from_the_cache (refEnv (fun l => l))
                oneAnswerWorld (Hour + 1)) as (Husers & _).
    refine (proj2 (Husers allUsers firstTenUsers _ _ _ eq_refl) _
              breaks [] _ eq_refl).
    + vm_compute. reflexivity.
    + lia.
    + reflexivity.
Defined.
(* ================================================================== *)
(** * The list handlers *)

Section ListHandlers.

Variable http : Http.
Variable env : Env.

Implicit Types (w : World) (c : Ctx).

Lemma filter_all {A : Type} (P : A -> Prop) `{forall x, Decision (P x)}
    (l : list A) :
  (forall x, P x) -> filter P l = l.
Proof.
  intros HP. induction l as [|a l IH]; [reflexivity|].
  rewrite filter_cons_True by apply HP. f_equal. exact IH.
Qed.

Lemma selectProducts_noProductFilter d :
  SQL.selectProducts env (GetProductsRequest.Validate rest.noProductFilter) d
  = take 10 (merge_sort (byCreatedDescId Product.CreatedAt Product.Id)
                        (products d)).
Proof.
  unfold SQL.selectProducts, page. simpl.
  rewrite filter_all; [reflexivity|]. intros x. exact I.
Qed.

Lemma selectUsers_page limit offset d :
  1 <= limit <= 100 -> 0 <= offset ->
  SQL.selectUsers
    (GetUsersRequest.Validate
       {| GetUsersRequest.Ids := []; GetUsersRequest.Limit := limit;
          GetUsersRequest.Offset := offset |}) d
  = take (Z.to_nat limit)
      (drop (Z.to_nat offset)
         (merge_sort (byCreatedDescId User.CreatedAt User.Id) (users d))).
Proof.
  intros Hl Ho. unfold SQL.selectUsers, page, GetUsersRequest.Validate.
  simpl. rewrite (clampLimit_fixed limit Hl), (clampOffset_fixed offset Ho).
  rewrite filter_all; [reflexivity|]. intros x. exact I.
Qed.

Lemma CountProducts_reliable w :
  Reliable w ->
  productStorage.CountProducts env rest.noProductFilter w
  = (Ok (Z.of_nat (length (products (db w)))),
     snd (productStorage.CountProducts env rest.noProductFilter w))
  /\ db (snd (productStorage.CountProducts env rest.noProductFilter w))
     = db w.
Proof.
  intros Hrel.
  unfold productStorage.CountProducts, bind, roundTripM, getWorld, ret.
  pose proof (roundTrip_db w) as Hd.
  destruct (roundTrip_reliable w Hrel) as [Hok _].
  destruct (roundTrip w) as [b w']; simpl in *. subst b. simpl.
  rewrite Hd, filter_all; [split; reflexivity|]. intros x. exact I.
Qed.

Lemma CountUsers_reliable w :
  Reliable w ->
  userStorage.CountUsers env rest.noUserFilter w
  = (Ok (Z.of_nat (length (users (db w)))),
     snd (userStorage.CountUsers env rest.noUserFilter w))
  /\ db (snd (userStorage.CountUsers env rest.noUserFilter w)) = db w.
Proof.
  intros Hrel.
  unfold userStorage.CountUsers, bind, roundTripM, getWorld, ret.
  pose proof (roundTrip_db w) as Hd.
  destruct (roundTrip_reliable w Hrel) as [Hok _].
  destruct (roundTrip w) as [b w']; simpl in *. subst b. simpl.
  rewrite Hd, filter_all; [split; reflexivity|]. intros x. exact I.
Qed.

Lemma NewPaginationFromRequest_bounds c :
  1 <= Pagination.Page (Pagination.NewPaginationFromRequest http c)
  /\ 1 <= Pagination.Size (Pagination.NewPaginationFromRequest http c) <= 100.
Proof.
  unfold Pagination.NewPaginationFromRequest. simpl. split.
  - destruct (String.eqb _ _); [lia|].
    destruct (Atoi http _) as [p|]; [|lia].
    destruct (Z.ltb_spec 0 p); lia.
  - destruct (String.eqb (Query c "size") ""); [lia|].
    destruct (Atoi http (Query c "size")) as [s|]; [|lia].
    destruct (Z.ltb_spec 0 s), (Z.leb_spec s 100); simpl; lia.
Qed.

End ListHandlers.

(** X15: the product list handler does not page.  [getProducts] reads the
    page and size of the query string into the pagination of its answer, but
    asks the application for products with an empty request.  So on a store
    that answers, with a cache that agrees with it, whatever the query
    string holds, the handler answers 200 with the same list: the ten
    newest products (fewer if there are fewer), never any product after the
    tenth; the pagination of the answer carries the page and size asked for,
    the number of all product rows as total and the page count for it.  The
    tables are unchanged. *)
Theorem getProducts_ignores_the_page
    (http : Http) (env : Env) (c : Ctx) (w : World) :
  Reliable w ->
  productsFresh env rest.noProductFilter w ->
  exists w',
    rest.getProducts http env c w
    = (Json StatusOK
         {| restModel.ProductsResponse.Products :=
              map rest.NewProduct
                (take 10
                   (merge_sort
                      (byCreatedDescId Product.CreatedAt Product.Id)
                      (products (db w))));
            restModel.ProductsResponse.Pagination :=
              Pagination.CalculateTotalPages
                (Pagination.withTotal
                   (Z.of_nat (length (products (db w))))
                   (Pagination.NewPaginationFromRequest http c)) |},
       w')
    /\ db w' = db w.
Proof.
  intros Hrel Hfresh.
  destruct (Products_reliable env rest.noProductFilter w Hrel Hfresh)
    as [Hrun Hrel1].
  pose proof (Products_frame env rest.noProductFilter w) as (Hdb1 & _).
  set (w1 := snd (productStorage.Products env rest.noProductFilter w)) in *.
  destruct (CountProducts_reliable env w1 Hrel1) as [Hcount Hdb2].
  set (w2 := snd (productStorage.CountProducts env rest.noProductFilter w1))
    in *.
  exists w2. split; [|congruence].
  unfold rest.getProducts, productAppService.Products,
    productAppService.CountProducts.
  rewrite Hrun, Hcount, selectProducts_noProductFilter, Hdb1. reflexivity.
Qed.

Lemma getProducts_ignores_the_page_witness :
  exists w',
    rest.getProducts refHttp (refEnv (fun l => l))
      (ctxOf [("page", "2"); ("size", "5")] []) (freshWorld crowdedDB)
    = (Json StatusOK
         {| restModel.ProductsResponse.Products :=
              map rest.NewProduct
                (take 10
                   (merge_sort
                      (byCreatedDescId Product.CreatedAt Product.Id)
                      (products crowdedDB)));
            restModel.ProductsResponse.Pagination :=
              {| Pagination.Page := 2; Pagination.Size := 5;
                 Pagination.Total := 11; Pagination.TotalPages := 3 |} |},
       w')
    /\ db w' = crowdedDB.
Proof.
  apply (getProducts_ignores_the_page refHttp (refEnv (fun l => l))
           (ctxOf [("page", "2"); ("size", "5")] []) (freshWorld crowdedDB)).
  - constructor.
  - intros it Hit. simpl in Hit. rewrite lookup_empty in Hit. discriminate.
Defined.

(** X16: the user list handler pages.  On a store that answers, with a
    cache that agrees with it, for the page and size the query string gives
    (1 and 10 where it gives none that can be used; (page - 1) * size within
    [int]), [getUsers] answers 200 with the users of that page, newest
    first: those from position (page - 1) * size on, at most size of them,
    none when the page lies behind the last one; the pagination of the
    answer carries that page and size, the number of all user rows as total
    and the page count for it.  The tables are unchanged. *)
Theorem getUsers_returns_the_requested_page
    (http : Http) (env : Env) (c : Ctx) (w : World) :
  let pg := Pagination.NewPaginationFromRequest http c in
  Reliable w ->
  usersFresh env
    {| GetUsersRequest.Ids := [];
       GetUsersRequest.Limit := Pagination.Limit pg;
       GetUsersRequest.Offset := Pagination.Offset pg |} w ->
  Pagination.Page pg <= MaxInt ->
  (Pagination.Page pg - 1) * Pagination.Size pg <= MaxInt ->
  exists w',
    rest.getUsers http env c w
    = (Json StatusOK
         {| restModel.UsersResponse.Users :=
              map (rest.NewUser env)
                (take (Z.to_nat (Pagination.Size pg))
                   (drop (Z.to_nat ((Pagination.Page pg - 1)
                                    * Pagination.Size pg))
                      (merge_sort
                         (byCreatedDescId User.CreatedAt User.Id)
                         (users (db w)))));
            restModel.UsersResponse.Pagination :=
              Pagination.CalculateTotalPages
                (Pagination.withTotal
                   (Z.of_nat (length (users (db w)))) pg) |},
       w')
    /\ db w' = db w.
Proof.
  intros pg Hrel Hfresh Hpage Hmax.
  destruct (NewPaginationFromRequest_bounds http c) as [Hp Hs].
  fold pg in Hp, Hs.
  pose proof (Pagination_Limit_size pg Hs) as Hlimit.
  assert (Hoffset : Pagination.Offset pg
                    = (Pagination.Page pg - 1) * Pagination.Size pg).
  { rewrite <- Hlimit. apply Pagination_Offset_exact;
      [exact Hp | rewrite Hlimit; exact Hmax | exact Hpage]. }
  set (req := {| GetUsersRequest.Ids := [];
                 GetUsersRequest.Limit := Pagination.Limit pg;
                 GetUsersRequest.Offset := Pagination.Offset pg |}) in *.
  destruct (Users_reliable env req w Hrel Hfresh) as [Hrun Hrel1].
  pose proof (Users_frame env req w) as (Hdb1 & _).
  set (w1 := snd (userStorage.Users env req w)) in *.
  destruct (CountUsers_reliable env w1 Hrel1) as [Hcount Hdb2].
  set (w2 := snd (userStorage.CountUsers env rest.noUserFilter w1)) in *.
  exists w2. split; [|congruence].
  unfold rest.getUsers, userAppService.Users, userAppService.CountUsers.
  fold pg. fold req. rewrite Hrun, Hcount, Hdb1. unfold req.
  rewrite selectUsers_page by (rewrite ?Hlimit, ?Hoffset; nia).
  rewrite Hlimit, Hoffset. reflexivity.
Qed.

Lemma getUsers_returns_the_requested_page_witness :
  exists w',
    rest.getUsers refHttp (refEnv (fun l => l))
      (ctxOf [("page", "2"); ("size", "2")] []) (freshWorld threeUsersDB)
    = (Json StatusOK
         {| restModel.UsersResponse.Users :=
              [rest.NewUser (refEnv (fun l => l)) (sampleUser 9)];
            restModel.UsersResponse.Pagination :=
              {| Pagination.Page := 2; Pagination.Size := 2;
                 Pagination.Total := 3; Pagination.TotalPages := 2 |} |},
       w')
    /\ db w' = threeUsersDB.
Proof.
  apply (getUsers_returns_the_requested_page refHttp (refEnv (fun l => l))
           (ctxOf [("page", "2"); ("size", "2")] [])
           (freshWorld threeUsersDB)).
  - constructor.
  - intros it Hit. simpl in Hit. rewrite lookup_empty in Hit. discriminate.
  - vm_compute. discriminate.
  - vm_compute. discriminate.
Defined.

(* ================================================================== *)
(** * The order list handler *)

Section OrderList.

Variable env : Env.

Lemma selectOrders_length r d :
  (length (SQL.selectOrders (GetOrdersRequest.Validate r) d)
   <= Z.to_nat (clampLimit (GetOrdersRequest.Limit r)))%nat.
Proof.
  unfold SQL.selectOrders, page. simpl. rewrite length_take.
  apply Nat.le_min_l.
Qed.

Lemma selectOrders_elem r d o :
  o ∈ SQL.selectOrders r d ->
  o ∈ orders d /\ SQL.orderMatches r o = true.
Proof.
  unfold SQL.selectOrders. intros H. apply page_subseteq in H.
  rewrite merge_sort_Permutation in H.
  apply list_elem_of_filter in H. destruct H as [Hm Hin].
  split; [exact Hin|]. apply Is_true_true. exact Hm.
Qed.

Lemma ordersAnswer_length r d :
  length (ordersAnswer r d) = length (SQL.selectOrders r d).
Proof.
  unfold ordersAnswer. destruct (SQL.selectOrders r d) as [|row rows];
    [reflexivity|].
  unfold orderStorage.assignItems. apply length_map.
Qed.

(** What the store answers are rows of the [orders] table that match, each
    with items of its own. *)
Lemma ordersAnswer_elem r d o :
  o ∈ ordersAnswer r d ->
  exists row, row ∈ orders d /\ SQL.orderMatches r row = true
              /\ Order.Id o = Order.Id row
              /\ Order.UserId o = Order.UserId row
              /\ Order.Status o = Order.Status row
              /\ forall it, it ∈ Order.Items o ->
                   it ∈ order_items d
                   /\ OrderItem.OrderId it = Order.Id o.
Proof.
  unfold ordersAnswer.
  destruct (SQL.selectOrders r d) as [|row0 rows] eqn:E.
  { intros H. apply not_elem_of_nil in H. contradiction. }
  unfold orderStorage.assignItems. intros H.
  apply (list_elem_of_fmap_1 _) in H. destruct H as (row & -> & Hrow).
  rewrite <- E in Hrow. apply selectOrders_elem in Hrow.
  destruct Hrow as [Hin Hm].
  exists row. split; [exact Hin|]. split; [exact Hm|].
  split; [reflexivity|]. split; [reflexivity|]. split; [reflexivity|].
  simpl. intros it Hit. apply list_elem_of_filter in Hit.
  destruct Hit as [Hid Hit]. split.
  - unfold SQL.selectOrderItems in Hit.
    rewrite merge_sort_Permutation in Hit.
    apply list_elem_of_filter in Hit. apply Hit.
  - apply Is_true_true in Hid. apply N.eqb_eq in Hid. exact Hid.
Qed.

End OrderList.

(** X17: the order list handler shows at most ten orders and counts only
    those.  [getOrders] asks for orders with no limit and no offset, so the
    domain request defaults to the first ten, and it takes the length of
    what came back as the total.  A [user_id] that is given but cannot be
    read is answered with 400 before anything is touched.  Otherwise, on a
    store that answers, with a cache that agrees with it, whatever page and
    size the query string holds: the answer is 200 with the orders the
    store gives for that request, at most ten of them, each an order row
    (of the user asked for, if one was) with items of its own; the total is
    the number of orders in this answer, hence never above ten however many
    orders there are, and the tables are unchanged. *)
Theorem getOrders_counts_what_it_shows
    (http : Http) (env : Env) (c : Ctx) (w : World) :
  (Query c "user_id" <> "" ->
   uuidParse http (Query c "user_id") = None ->
   rest.getOrders http env c w
   = (NewError StatusBadRequest (MsgText "invalid user_id format"), w))
  /\ forall userIds,
       (Query c "user_id" = "" /\ userIds = []
        \/ Query c "user_id" <> ""
           /\ exists userId, uuidParse http (Query c "user_id") = Some userId
                             /\ userIds = [userId]) ->
       Reliable w ->
       ordersFresh env (rest.ordersOf userIds) w ->
       exists shown w',
         rest.getOrders http env c w
         = (Json StatusOK
              {| restModel.OrdersResponse.Orders := map rest.NewOrder shown;
                 restModel.OrdersResponse.Pagination :=
                   Pagination.CalculateTotalPages
                     (Pagination.withTotal (Z.of_nat (length shown))
                        (Pagination.NewPaginationFromRequest http c)) |},
            w')
         /\ shown
            = ordersAnswer (GetOrdersRequest.Validate (rest.ordersOf userIds))
                (db w)
         /\ (length shown <= 10)%nat
         /\ (forall o, o ∈ shown ->
               (exists row, row ∈ orders (db w)
                            /\ Order.Id row = Order.Id o
                            /\ Order.UserId row = Order.UserId o
                            /\ Order.Status row = Order.Status o)
               /\ (forall userId, userIds = [userId] ->
                     Order.UserId o = userId)
               /\ forall it, it ∈ Order.Items o ->
                    it ∈ order_items (db w)
                    /\ OrderItem.OrderId it = Order.Id o)
         /\ db w' = db w.
Proof.
  split.
  - intros Hne Hbad. unfold rest.getOrders.
    destruct (String.eqb_spec (Query c "user_id") ""); [contradiction|].
    rewrite Hbad. reflexivity.
  - intros userIds Hids Hrel Hfresh.
    destruct (Orders_reliable env (rest.ordersOf userIds) w Hrel Hfresh)
      as [Hrun _].
    pose proof (Orders_frame env (rest.ordersOf userIds) w) as (Hdb & _).
    set (shown := ordersAnswer
                    (GetOrdersRequest.Validate (rest.ordersOf userIds))
                    (db w)) in *.
    exists shown, (snd (orderStorage.Orders env (rest.ordersOf userIds) w)).
    split.
    { unfold rest.getOrders, orderAppService.Orders.
      destruct Hids as [[Hq ->]|(Hq & userId & Hparse & ->)].
      - rewrite Hq. simpl. rewrite Hrun. reflexivity.
      - destruct (String.eqb_spec (Query c "user_id") ""); [contradiction|].
        rewrite Hparse, Hrun. reflexivity. }
    split; [reflexivity|]. split.
    { unfold shown. rewrite ordersAnswer_length.
      apply (selectOrders_length (rest.ordersOf userIds)). }
    split; [|exact Hdb].
    intros o Ho. unfold shown in Ho.
    destruct (ordersAnswer_elem _ _ _ Ho)
      as (row & Hin & Hm & Hid & Huid & Hst & Hitems).
    split; [exists row; auto|]. split; [|exact Hitems].
    intros userId ->. rewrite Huid.
    unfold SQL.orderMatches in Hm. simpl in Hm.
    rewrite andb_true_r in Hm. apply inIfAny_singleton. exact Hm.
Qed.

Lemma getOrders_counts_what_it_shows_witness :
  exists shown w',
    rest.getOrders refHttp (refEnv (fun l => l))
      (ctxOf [("user_id", "7"); ("size", "100")] [])
      (freshWorld manyOrdersDB)
    = (Json StatusOK
         {| restModel.OrdersResponse.Orders := map rest.NewOrder shown;
            restModel.OrdersResponse.Pagination :=
              {| Pagination.Page := 1; Pagination.Size := 100;
                 Pagination.Total := 10; Pagination.TotalPages := 1 |} |},
       w')
    /\ length shown = 10%nat
    /\ length (orders manyOrdersDB) = 12%nat.
Proof.
  destruct (getOrders_counts_what_it_shows refHttp (refEnv (fun l => l))
              (ctxOf [("user_id", "7"); ("size", "100")] [])
              (freshWorld manyOrdersDB)) as [_ Hlist].
  destruct (Hlist [7%N]) as (shown & w' & Hrun & Hshown & _).
  - right. split; [discriminate|]. exists 7%N. split; reflexivity.
  - constructor.
  - intros it Hit. simpl in Hit. rewrite lookup_empty in Hit. discriminate.
  - assert (Hlen : length shown = 10%nat)
      by (rewrite Hshown; vm_compute; reflexivity).
    exists shown, w'. rewrite Hrun, Hlen. repeat split; reflexivity.
Defined.

(* ================================================================== *)
(** * The user row and its hexadecimal columns *)

Section UserRows.

Lemma hexDecode_cons b rest :
  hexDecode (String (hexDigit (Byte.to_N b / 16))
               (String (hexDigit (Byte.to_N b mod 16)) rest))
  = match hexDecode rest with
    | inl bytes => inl (b :: bytes)
    | inr err => inr err
    end.
Proof. destruct b; reflexivity. Qed.

Lemma hexDecode_hexEncode src : hexDecode (hexEncode src) = inl src.
Proof.
  induction src as [|b rest IH]; [reflexivity|].
  cbn [hexEncode]. rewrite hexDecode_cons, IH. reflexivity.
Qed.

Lemma hexEncode_nonempty src : src <> [] -> hexEncode src <> "".
Proof. destruct src; [congruence | discriminate]. Qed.

End UserRows.

(** X18: a user survives the trip through its row.  With an encoder that
    gives no empty text for bytes that are there and a decoder that reads
    back what the encoder wrote, [toUserDto] followed by [toDomain] returns
    the user it started from, for every user: the hash and the salt are
    stored as text, an empty one as the empty string, which [toDomain] does
    not decode but reads as empty again.  A column that is not empty and
    does not decode makes [toDomain] fail with the decoder's error. *)
Theorem userDto_round_trip (hex : Hex) :
  ((forall src, src <> [] -> EncodeToString hex src <> "") ->
   (forall src, DecodeString hex (EncodeToString hex src) = inl src) ->
   forall user,
   exists dto,
     userDto.toUserDto hex user = inl dto
     /\ userDto.toDomain hex dto = inl user
     /\ (userDto.PasswordHash dto = "" <-> User.PasswordHash user = [])
     /\ (userDto.Salt dto = "" <-> User.Salt user = []))
  /\ forall dto err,
       (userDto.PasswordHash dto <> ""
        /\ DecodeString hex (userDto.PasswordHash dto) = inr err)
       \/ ((userDto.PasswordHash dto = ""
            \/ exists h, DecodeString hex (userDto.PasswordHash dto) = inl h)
           /\ userDto.Salt dto <> ""
           /\ DecodeString hex (userDto.Salt dto) = inr err) ->
       userDto.toDomain hex dto = inr err.
Proof.
  split.
  - intros Hne Hrt user. eexists. split; [reflexivity|].
    destruct user as [id fn ln age married hash salt created].
    unfold userDto.toDomain. cbn [userDto.PasswordHash userDto.Salt
      userDto.Id userDto.FirstName userDto.LastName userDto.Age
      userDto.IsMarried userDto.CreatedAt User.PasswordHash User.Salt
      User.Id User.FirstName User.LastName User.Age User.IsMarried
      User.CreatedAt].
    destruct hash as [|h hash], salt as [|s salt]; cbn [length Nat.ltb Nat.leb].
    + simpl. split; [reflexivity|]. split; split; reflexivity.
    + change (0 <? S (length salt))%nat with true. cbn iota.
      destruct (String.eqb_spec (EncodeToString hex (s :: salt)) "")
        as [E|E]; [exfalso; revert E; apply Hne; discriminate|].
      simpl. rewrite Hrt. split; [reflexivity|].
      split; split; try reflexivity; try discriminate.
      intros H. contradiction.
    + change (0 <? S (length hash))%nat with true. cbn iota.
      destruct (String.eqb_spec (EncodeToString hex (h :: hash)) "")
        as [E|E]; [exfalso; revert E; apply Hne; discriminate|].
      simpl. rewrite Hrt. split; [reflexivity|].
      split; split; try reflexivity; try discriminate.
      intros H. contradiction.
    + change (0 <? S (length hash))%nat with true.
      change (0 <? S (length salt))%nat with true. cbn iota.
      destruct (String.eqb_spec (EncodeToString hex (h :: hash)) "")
        as [E|E]; [exfalso; revert E; apply Hne; discriminate|].
      destruct (String.eqb_spec (EncodeToString hex (s :: salt)) "")
        as [E'|E']; [exfalso; revert E'; apply Hne; discriminate|].
      simpl. rewrite !Hrt. split; [reflexivity|].
      split; split; try discriminate; intros H; contradiction.
  - intros dto err [[Hne Hbad]|(Hhash & Hne & Hbad)]; unfold userDto.toDomain.
    + destruct (String.eqb_spec (userDto.PasswordHash dto) "");
        [contradiction|].
      simpl. rewrite Hbad. reflexivity.
    + destruct (String.eqb_spec (userDto.Salt dto) ""); [contradiction|].
      destruct Hhash as [->|[h Hh]].
      * simpl. rewrite Hbad. reflexivity.
      * destruct (String.eqb_spec (userDto.PasswordHash dto) "");
          simpl; [|rewrite Hh]; rewrite Hbad; reflexivity.
Qed.

Lemma userDto_round_trip_witness :
  exists dto,
    userDto.toUserDto refHex (sampleUser 7) = inl dto
    /\ userDto.toDomain refHex dto = inl (sampleUser 7)
    /\ userDto.PasswordHash dto = "01"
    /\ userDto.Salt dto = "02".
Proof.
  destruct (proj1 (userDto_round_trip refHex) hexEncode_nonempty
              hexDecode_hexEncode (sampleUser 7))
    as (dto & Hto & Hfrom & _).
  exists dto. split; [exact Hto|]. split; [exact Hfrom|].
  inversion Hto; subst. split; reflexivity.
Defined.
(* ================================================================== *)
(** * An order placed and then cancelled *)

Section OrderThenCancel.

Variable env : Env.

Implicit Types (w : World) (d : DB).

Lemma sumZ_Permutation (l l' : list Z) : l ≡ₚ l' -> sumZ l = sumZ l'.
Proof.
  unfold sumZ. induction 1; simpl; lia.
Qed.

Lemma itemsOf_Permutation k (items items' : list OrderItem.t) :
  items ≡ₚ items' -> itemsOf k items ≡ₚ itemsOf k items'.
Proof.
  intros H. unfold itemsOf. apply Permutation_map.
  apply filter_Permutation. exact H.
Qed.

(** Items that carry the products and quantities of the request's lines
    add up as the lines do. *)
Lemma itemsOf_lines k (lines : list CreateOrderItemRequest.t)
    (items : list OrderItem.t) :
  Forall2 (fun line item =>
             OrderItem.ProductId item = CreateOrderItemRequest.ProductId line
             /\ OrderItem.Quantity item
                = CreateOrderItemRequest.Quantity line) lines items ->
  itemsOf k items = linesOf k lines.
Proof.
  unfold itemsOf, linesOf. induction 1 as [|line item lines items [Hp Hq] _ IH];
    [reflexivity|].
  rewrite !filter_cons.
  destruct (decide (OrderItem.ProductId item = k)),
           (decide (CreateOrderItemRequest.ProductId line = k));
    simpl; try congruence.
Qed.

(** The order a lookup by id returns carries exactly the item rows stored
    under that id. *)
Lemma ordersAnswer_byId_items id d order rest :
  ordersAnswer (GetOrdersRequest.Validate (orderStorage.byId id)) d
  = order :: rest ->
  Order.Items order
  ≡ₚ filter (fun it => OrderItem.OrderId it = id) (order_items d).
Proof.
  unfold ordersAnswer.
  destruct (SQL.selectOrders _ d) as [|row rows] eqn:E; [discriminate|].
  assert (Hrow : row ∈ SQL.selectOrders
                   (GetOrdersRequest.Validate (orderStorage.byId id)) d)
    by (rewrite E; apply list_elem_of_here).
  apply selectOrders_byId_elem in Hrow. destruct Hrow as [_ Hid].
  unfold orderStorage.assignItems. simpl. intros H. inversion H; subst.
  simpl. unfold SQL.selectOrderItems.
  rewrite merge_sort_Permutation, list_filter_filter.
  erewrite list_filter_iff; [reflexivity|].
  intros it. simpl. rewrite Is_true_true, N.eqb_eq, bool_decide_spec.
  split; [intros [Heq _]; exact Heq|].
  intros Heq. split; [exact Heq|]. rewrite Heq. apply list_elem_of_here.
Qed.

Lemma updateOrder_appended now req rows o :
  (forall row, row ∈ rows -> Order.Id row <> UpdateOrderRequest.Id req) ->
  Order.Id o = UpdateOrderRequest.Id req ->
  map (fun o => if N.eqb (Order.Id o) (UpdateOrderRequest.Id req)
                then Order.withStatus (UpdateOrderRequest.Status req) now o
                else o) (rows ++ [o])
  = rows ++ [Order.withStatus (UpdateOrderRequest.Status req) now o].
Proof.
  intros Hrows Hid. rewrite map_app. simpl.
  rewrite Hid, N.eqb_refl. f_equal.
  induction rows as [|row rows IH]; [reflexivity|]. simpl.
  rewrite IH by (intros r Hr; apply Hrows, list_elem_of_further; exact Hr).
  destruct (N.eqb_spec (Order.Id row) (UpdateOrderRequest.Id req)) as [E'|NE];
    [|reflexivity].
  exfalso. apply (Hrows row); [apply list_elem_of_here | exact E'].
Qed.

Lemma filter_none {A : Type} (P : A -> Prop) `{forall x, Decision (P x)}
    (l : list A) :
  (forall x, x ∈ l -> ~ P x) -> filter P l = [].
Proof.
  induction l as [|a l IH]; intros Hl; [reflexivity|].
  rewrite filter_cons_False by (apply Hl, list_elem_of_here).
  apply IH. intros x Hx. apply Hl, list_elem_of_further. exact Hx.
Qed.

Lemma filter_every {A : Type} (P : A -> Prop) `{forall x, Decision (P x)}
    (l : list A) :
  (forall x, x ∈ l -> P x) -> filter P l = l.
Proof.
  induction l as [|a l IH]; intros Hl; [reflexivity|].
  rewrite filter_cons_True by (apply Hl, list_elem_of_here). f_equal.
  apply IH. intros x Hx. apply Hl, list_elem_of_further. exact Hx.
Qed.

Lemma restoredBy_ids amount (rows rows' : list Product.t) :
  Forall2 (restoredBy amount) rows rows' ->
  map Product.Id rows' = map Product.Id rows.
Proof.
  induction 1 as [|p p' rows rows' (Hid & _) _ IH]; [reflexivity|].
  simpl. rewrite Hid, IH. reflexivity.
Qed.

End OrderThenCancel.

(** X19: an order placed and cancelled right away gives the stock back.
    Under the conditions in which an order goes through (a store that
    answers, caches that agree with it, unique product ids, a valid request
    of an existing user for existing products with enough stock), with
    identifiers drawn that no order row or item row carries yet and product
    lookups that do not share a cache key: [CreateOrder] succeeds, and
    [CancelOrder] of the order it returns succeeds next; the order comes
    back cancelled, its row is the last of the orders table with that
    status, its items stay stored, and every product row has its
    description, tags and quantity as before the order was placed. *)
Theorem order_then_cancel_gives_stock_back
    (env : Env) (req : CreateOrderRequest.t) (w : World) :
  CreateOrderRequest.Validate req = None ->
  RangeOk env ->
  (forall n, uuidNew env n <> Nil) ->
  Reliable w ->
  usersFresh env (orderAppService.userById (CreateOrderRequest.UserId req)) w ->
  productsFresh env
    (orderAppService.batch
       (orderAppService.productIds (CreateOrderRequest.Items req))) w ->
  (exists u, u ∈ users (db w) /\ User.Id u = CreateOrderRequest.UserId req) ->
  NoDup (map Product.Id (products (db w))) ->
  (length (filter (fun p => Product.Id p
                            ∈ orderAppService.productIds
                                (CreateOrderRequest.Items req))
                  (products (db w))) <= 10)%nat ->
  (forall k, k ∈ orderAppService.productIds (CreateOrderRequest.Items req) ->
     exists p, p ∈ products (db w) /\ Product.Id p = k
               /\ sumZ (linesOf k (CreateOrderRequest.Items req))
                  <= Product.Quantity p <= MaxInt
               /\ Product.Description p <> "") ->
  (forall a b,
     a ∈ orderAppService.productIds (CreateOrderRequest.Items req) ->
     b ∈ orderAppService.productIds (CreateOrderRequest.Items req) ->
     productKey env a = productKey env b -> a = b) ->
  (forall n o, o ∈ orders (db w) -> Order.Id o <> uuidNew env n) ->
  (forall n it, it ∈ order_items (db w) ->
     OrderItem.OrderId it <> uuidNew env n) ->
  exists order w1 cancelled w2 now,
    orderAppService.CreateOrder env req w = (Ok order, w1)
    /\ orderAppService.CancelOrder env (Order.Id order) w1
       = (Ok cancelled, w2)
    /\ Order.Id cancelled = Order.Id order
    /\ Order.Status cancelled = OrderStatusCancelled
    /\ Forall2 (fun p p' =>
                  Product.Id p' = Product.Id p
                  /\ Product.Description p' = Product.Description p
                  /\ Product.Tags p' = Product.Tags p
                  /\ Product.CreatedAt p' = Product.CreatedAt p
                  /\ Product.Quantity p' = Product.Quantity p)
         (products (db w)) (products (db w2))
    /\ orders (db w2)
       = orders (db w)
         ++ [Order.withStatus OrderStatusCancelled now
               (Order.withItems [] order)]
    /\ order_items (db w2) = order_items (db w) ++ Order.Items order
    /\ users (db w2) = users (db w).
Proof.
  intros Hvalid Hrange Hnew Hrel Hufresh Hpfresh Huser Huniq Hten Hstock
         Hkeys Hnew_orders Hnew_items.
  destruct (CreateOrder_done env req w Hvalid Hrange Hnew Hrel Hufresh
              Hpfresh Huser Huniq Hten Hstock)
    as (order & w1 & Hrun & Hoid & Huid & Hst & Hitems & Hrows & Ho & Hi
        & Hu & Hrel1 & Hoc1 & Hcache & n & Hn).
  set (items := CreateOrderRequest.Items req) in *.
  destruct (CreateOrderRequest_Validate_None req Hvalid)
    as (_ & _ & Hlines). fold items in Hlines.
  (* the order as the store returns it *)
  assert (Hfound : ordersAnswer
                     (GetOrdersRequest.Validate
                        (orderStorage.byId (Order.Id order))) (db w1) <> []).
  { apply ordersAnswer_byId_found. exists (Order.withItems [] order).
    split; [|reflexivity]. rewrite Ho. apply elem_of_app. right.
    apply list_elem_of_here. }
  destruct (ordersAnswer _ (db w1)) as [|order' rest] eqn:Hans; [congruence|].
  destruct (ordersAnswer_byId_head _ _ _ _ Hans)
    as (row & Hrow & Hrowid & Hid' & Hst').
  assert (Hrow_new : row = Order.withItems [] order).
  { rewrite Ho in Hrow. apply elem_of_app in Hrow.
    destruct Hrow as [Hold|Hlast].
    - exfalso. apply (Hnew_orders n row Hold). congruence.
    - apply list_elem_of_singleton in Hlast. exact Hlast. }
  assert (Hcan : Order.CanBeCancelled order' = true).
  { unfold Order.CanBeCancelled. rewrite Hst', Hrow_new. simpl. rewrite Hst.
    reflexivity. }
  pose proof (ordersAnswer_byId_items _ _ _ _ Hans) as Hperm.
  rewrite Hi, filter_app in Hperm.
  rewrite (filter_none _ (order_items (db w))) in Hperm
    by (intros it Hit Heq; apply (Hnew_items n it Hit); congruence).
  rewrite (filter_every _ (Order.Items order)) in Hperm.
  2: { intros it Hit.
       destruct (Forall2_elem_of_r _ _ _ _ Hitems Hit) as (l & _ & H1 & _).
       exact H1. }
  simpl in Hperm.
  assert (Hsum : forall k, sumZ (itemsOf k (Order.Items order'))
                           = sumZ (linesOf k items)).
  { intros k.
    rewrite (sumZ_Permutation _ _ (itemsOf_Permutation k _ _ Hperm)).
    f_equal. apply itemsOf_lines.
    eapply Forall2_impl; [exact Hitems|].
    intros l it (_ & H2 & H3 & _). split; assumption. }
  assert (Hitem : forall item, item ∈ Order.Items order' ->
            exists l, l ∈ items
              /\ OrderItem.ProductId item = CreateOrderItemRequest.ProductId l
              /\ OrderItem.Quantity item = CreateOrderItemRequest.Quantity l).
  { intros item Hin. rewrite Hperm in Hin.
    destruct (Forall2_elem_of_r _ _ _ _ Hitems Hin)
      as (l & Hl & _ & H2 & H3 & _).
    exists l. auto. }
  assert (Hitem_id : forall item, item ∈ Order.Items order' ->
            OrderItem.ProductId item ∈ orderAppService.productIds items).
  { intros item Hin. destruct (Hitem item Hin) as (l & Hl & -> & _).
    apply (list_elem_of_fmap_2 CreateOrderItemRequest.ProductId). exact Hl. }
  pose proof (restoredBy_ids _ _ _ Hrows) as Hids.
  (* what cancelling needs *)
  assert (Hready : CancelReady env w1 order').
  { constructor.
    - congruence.
    - rewrite Hids. exact Huniq.
    - intros item Hin. destruct (Hitem item Hin) as (l & Hl & -> & ->).
      apply Hlines. exact Hl.
    - intros p item Hp Hin Hpid.
      destruct (Forall2_elem_of_r _ _ _ _ Hrows Hp)
        as (p0 & Hp0 & Hid0 & _ & _ & _ & Hq0).
      assert (Hk : Product.Id p0 ∈ orderAppService.productIds items)
        by (rewrite <- Hid0, <- Hpid; apply Hitem_id; exact Hin).
      destruct (Hstock _ Hk) as (p0' & Hp0' & Hid0' & Hbounds & _).
      assert (p0' = p0)
        by (apply (NoDup_Id_inj (products (db w))); assumption).
      subst p0'. rewrite Hsum, Hid0, Hq0. lia.
    - intros item Hin it Hit.
      destruct (Hcache _ it Hit) as (id & Hid_in & Hkey & Hval).
      assert (OrderItem.ProductId item = id)
        by (apply Hkeys; [apply Hitem_id; exact Hin | exact Hid_in
                         | exact Hkey]).
      subst id. exact Hval.
    - intros a b Ha Hb. apply Hkeys; apply Hitem_id; assumption. }
  assert (Hofresh : ordersFresh env (orderStorage.byId (Order.Id order)) w1).
  { intros it Hit. rewrite Hoc1, lookup_empty in Hit. discriminate. }
  destruct (CancelOrder_done env (Order.Id order) w1 order' rest Hrange Hrel1
              Hofresh Hans Hcan Hready)
    as (o' & w2 & now & Hrun2 & Hid2 & Hst2 & Hrows2 & Ho2 & Hu2 & Hi2).
  exists order, w1, o', w2, now.
  split; [exact Hrun|]. split; [exact Hrun2|]. split; [exact Hid2|].
  split; [exact Hst2|]. split; [|split; [|split]].
  - refine (Forall2_trans _ _ _ _ _ _ _ Hrows Hrows2).
    intros p p1 p2 (A1 & A2 & A3 & A4 & A5) (B1 & B2 & B3 & B4 & B5).
    repeat split; try congruence.
    rewrite B5, A5, Hsum, A1. lia.
  - rewrite Ho2. unfold SQL.updateOrder.
    cbn [orders UpdateOrderRequest.Id UpdateOrderRequest.Status].
    rewrite Ho.
    apply (updateOrder_appended now
             {| UpdateOrderRequest.Id := Order.Id order;
                UpdateOrderRequest.Status := OrderStatusCancelled |}).
    + intros r Hr. simpl. rewrite Hn. apply Hnew_orders. exact Hr.
    + reflexivity.
  - rewrite Hi2. exact Hi.
  - rewrite Hu2. exact Hu.
Qed.

Lemma order_then_cancel_gives_stock_back_witness :
  exists order w1 cancelled w2,
    orderAppService.CreateOrder (refEnv (fun l => l)) splitLines
      (freshWorld pairDB) = (Ok order, w1)
    /\ orderAppService.CancelOrder (refEnv (fun l => l)) (Order.Id order) w1
       = (Ok cancelled, w2)
    /\ Order.Status cancelled = OrderStatusCancelled
    /\ Forall2 (fun p p' =>
                  Product.Id p' = Product.Id p
                  /\ Product.Description p' = Product.Description p
                  /\ Product.Tags p' = Product.Tags p
                  /\ Product.CreatedAt p' = Product.CreatedAt p
                  /\ Product.Quantity p' = Product.Quantity p)
         (products pairDB) (products (db w2)).
Proof.
  destruct (order_then_cancel_gives_stock_back (refEnv (fun l => l))
              splitLines (freshWorld pairDB))
    as (order & w1 & cancelled & w2 & now & Hrun & Hrun2 & _ & Hst & Hrows
        & _).
  - reflexivity.
  - intros n l. reflexivity.
  - intros n. unfold Nil. simpl. lia.
  - constructor.
  - intros it H. cbn [userCache freshWorld] in H.
    rewrite lookup_empty in H. discriminate.
  - intros it H. cbn [productCache freshWorld] in H.
    rewrite lookup_empty in H. discriminate.
  - exists (sampleUser 7). split; [apply list_elem_of_here | reflexivity].
  - simpl. apply NoDup_cons. split.
    + intros H. apply list_elem_of_singleton in H. discriminate.
    + apply NoDup_singleton.
  - vm_compute. lia.
  - intros k Hk. simpl in Hk.
    assert (Hcases : k = 2%N \/ k = 3%N).
    { apply elem_of_cons in Hk. destruct Hk as [->|Hk]; [auto|].
      apply elem_of_cons in Hk. destruct Hk as [->|Hk]; [auto|].
      apply list_elem_of_singleton in Hk. auto. }
    destruct Hcases as [->| ->].
    + exists (sampleProduct 2 4). split; [apply list_elem_of_here|].
      split; [reflexivity|]. split; [|discriminate].
      vm_compute. split; discriminate.
    + exists (sampleProduct 3 10).
      split; [apply list_elem_of_further, list_elem_of_here|].
      split; [reflexivity|]. split; [|discriminate].
      vm_compute. split; discriminate.
  - intros a b Ha Hb. simpl in Ha, Hb.
    assert (Ha' : a = 2%N \/ a = 3%N).
    { apply elem_of_cons in Ha. destruct Ha as [->|Ha]; [auto|].
      apply elem_of_cons in Ha. destruct Ha as [->|Ha]; [auto|].
      apply list_elem_of_singleton in Ha. auto. }
    assert (Hb' : b = 2%N \/ b = 3%N).
    { apply elem_of_cons in Hb. destruct Hb as [->|Hb]; [auto|].
      apply elem_of_cons in Hb. destruct Hb as [->|Hb]; [auto|].
      apply list_elem_of_singleton in Hb. auto. }
    destruct Ha' as [->| ->], Hb' as [->| ->]; intros Hkey;
      try reflexivity; vm_compute in Hkey; discriminate.
  - intros n o Ho. simpl in Ho. apply not_elem_of_nil in Ho. contradiction.
  - intros n it Hit. simpl in Hit. apply not_elem_of_nil in Hit.
    contradiction.
  - exists order, w1, cancelled, w2. auto.
Defined.
(* ================================================================== *)
(** * What a failed order leaves behind *)

Section FailedOrders.

Variable env : Env.

Implicit Types (w : World) (d : DB).

(** A read that returns, on a cache that agrees with the store, returns
    the store's answer, whatever the round trips do. *)
Lemma Products_ok_fresh req w ps w' :
  productsFresh env req w ->
  productStorage.Products env req w = (Ok ps, w') ->
  ps = SQL.selectProducts env (GetProductsRequest.Validate req) (db w).
Proof.
  intros Hfresh. unfold productStorage.Products. simpl.
  pose proof (Get_DeleteExpired (Now (rt w))
                (GetProductsRequest.CacheKey env
                   (GetProductsRequest.Validate req))
                (productCache w)) as Hget.
  destruct (ttlcache.Get _ _ _) as [[cached|] c]; simpl in *.
  - destruct Hget as (it & Hit & Hv). intros H. inversion H; subst.
    apply Hfresh. exact Hit.
  - match goal with |- context [roundTrip ?x] =>
      pose proof (roundTrip_db x) as Hd;
      destruct (roundTrip x) as [[|] w1] end; simpl in *; [discriminate|].
    intros H. inversion H; subst. rewrite Hd. reflexivity.
Qed.

(** An update either leaves the data alone and fails, or has run its
    [UPDATE] statement, whatever it then returns. *)
Lemma UpdateProduct_any req w :
  (db (snd (productStorage.UpdateProduct env req w)) = db w
   /\ exists e, fst (productStorage.UpdateProduct env req w) = Err e)
  \/ db (snd (productStorage.UpdateProduct env req w))
     = SQL.updateProduct env (Now (rt w)) req (db w).
Proof.
  unfold productStorage.UpdateProduct, bind, modify, getWorld, throw, ret,
    roundTripM, ttlcache.DeleteAll. simpl.
  destruct (UpdateProductRequest.Validate env req) as [e0|]; simpl.
  { left. split; [reflexivity | eauto]. }
  set (w0 := withProductCache ∅ w).
  pose proof (roundTrip_db w0) as Hd1.
  destruct (roundTrip w0) as [[|] w1]; simpl in *.
  { left. split; [exact Hd1 | eauto]. }
  set (w2 := withDb (SQL.updateProduct env (Now (rt w)) req (db w1)) w1).
  pose proof (Products_frame env
                (productStorage.byId (UpdateProductRequest.Id req)) w2)
    as (Hd3 & _).
  right.
  destruct (productStorage.Products env
              (productStorage.byId (UpdateProductRequest.Id req)) w2)
    as [[[|p ps]|e] w3]; simpl in *; rewrite Hd3; unfold w2; simpl;
    rewrite Hd1; reflexivity.
Qed.

Lemma ReserveQuantity_inv now q p p' :
  Product.ReserveQuantity now q p = (p', None) ->
  0 < q <= Product.Quantity p
  /\ p' = {| Product.Id := Product.Id p;
             Product.Description := Product.Description p;
             Product.Tags := Product.Tags p;
             Product.Quantity := int_sub (Product.Quantity p) q;
             Product.CreatedAt := Product.CreatedAt p;
             Product.UpdatedAt := now |}.
Proof.
  unfold Product.ReserveQuantity.
  destruct (Z.leb_spec q 0) as [Hq|Hq]; [discriminate|].
  destruct (Z.ltb_spec (Product.Quantity p) q) as [Hle|Hle]; [discriminate|].
  intros Heq. inversion Heq. split; [lia | reflexivity].
Qed.

Lemma restoredBy_nothing (rows : list Product.t) :
  Forall2 (restoredBy (fun k => - amountOf [] k)) rows rows.
Proof.
  apply Forall_Forall2_diag, Forall_forall.
  intros p _. unfold restoredBy, amountOf. simpl.
  repeat split; try reflexivity. lia.
Qed.

(** The reserve loop, whatever the round trips do: when it stops, the
    products of the entries it got through, and no others, have been
    lowered in the table, the last of them possibly by an update that
    itself returned an error after its statement had run. *)
Lemma reserveAll_any entries : forall pm w r w',
  NoDup (map fst entries) ->
  NoDup (map Product.Id (products (db w))) ->
  (forall k q p, (k, q) ∈ entries -> pm !! k = Some p ->
     p ∈ products (db w) /\ Product.Id p = k
     /\ Product.Quantity p <= MaxInt) ->
  orderAppService.reserveAll env pm entries w = (r, w') ->
  exists done,
    done `prefix_of` entries
    /\ Forall2 (restoredBy (fun k => - amountOf done k))
         (products (db w)) (products (db w'))
    /\ users (db w') = users (db w)
    /\ orders (db w') = orders (db w)
    /\ order_items (db w') = order_items (db w)
    /\ forall pm', r = Ok pm' -> done = entries.
Proof.
  induction entries as [|[k q] rest IH]; intros pm w r w' Hnd Huniq Hrows Hrun.
  { simpl in Hrun. unfold ret in Hrun. inversion Hrun; subst.
    exists []. split; [reflexivity|]. split; [apply restoredBy_nothing|].
    auto. }
  assert (Hstop : forall e, (Err e, w) = (r, w') ->
            exists done,
              done `prefix_of` (k, q) :: rest
              /\ Forall2 (restoredBy (fun k => - amountOf done k))
                   (products (db w)) (products (db w'))
              /\ users (db w') = users (db w)
              /\ orders (db w') = orders (db w)
              /\ order_items (db w') = order_items (db w)
              /\ forall pm', r = Ok pm' -> done = (k, q) :: rest).
  { intros e H. inversion H; subst. exists [].
    split; [apply prefix_nil|]. split; [apply restoredBy_nothing|].
    repeat split; try reflexivity. discriminate. }
  simpl in Hnd. apply NoDup_cons in Hnd. destruct Hnd as [Hk_rest Hnd].
  simpl in Hrun. destruct (pm !! k) as [p|] eqn:Hpm.
  2: { unfold throw in Hrun. eapply Hstop. exact Hrun. }
  unfold bind at 1 in Hrun. unfold getWorld at 1 in Hrun.
  destruct (Product.ReserveQuantity (Now (rt w)) q p) as [p1 [e|]] eqn:ER.
  { unfold throw in Hrun. eapply Hstop. exact Hrun. }
  destruct (ReserveQuantity_inv _ _ _ _ ER) as [[Hq Hle] Hp1].
  destruct (Hrows k q p (list_elem_of_here _ _) Hpm) as (Hin & Hid & Hmax).
  assert (Hqty : Product.Quantity p1 = Product.Quantity p + - q).
  { rewrite Hp1. simpl. unfold int_sub. rewrite wrap_id; [lia|].
    unfold is_int, MinInt, MaxInt in *. lia. }
  assert (Hid1 : Product.Id p1 = k) by (rewrite Hp1; exact Hid).
  rewrite Hqty, Hid1 in Hrun.
  set (ureq := {| UpdateProductRequest.Id := k;
                  UpdateProductRequest.Description := None;
                  UpdateProductRequest.Tags := [];
                  UpdateProductRequest.Quantity :=
                    Some (Product.Quantity p + - q) |}) in *.
  assert (Hstep : Forall2 (restoredBy (fun id => if decide (k = id)
                                                 then - q else 0))
                    (products (db w))
                    (products (SQL.updateProduct env (Now (rt w)) ureq
                                 (db w)))).
  { apply updateProduct_quantity_rows; assumption. }
  pose proof (UpdateProduct_any ureq w) as Hany.
  unfold bind in Hrun.
  destruct (productStorage.UpdateProduct env ureq w) as [[pr|e] w2] eqn:EU;
    simpl in Hany.
  - (* the update went through: on with the rest *)
    destruct Hany as [[_ [e He]]|Hdb2]; [discriminate|].
    destruct (IH (<[k := p1]> pm) w2 r w') as
      (done & Hpre & Hdone & Hu & Ho & Hi & Hall);
      [exact Hnd | rewrite Hdb2, updateProduct_ids; exact Huniq | | exact Hrun|].
    { intros k' q' p' Hin' Hp'.
      assert (Hne : k' <> k).
      { intros ->. apply Hk_rest.
        apply (list_elem_of_fmap_2 fst) in Hin'. exact Hin'. }
      rewrite lookup_insert_ne in Hp' by congruence.
      destruct (Hrows k' q' p' (list_elem_of_further _ _ _ Hin') Hp')
        as (Hin2 & Hid2 & Hmax2).
      split; [|auto]. rewrite Hdb2.
      apply updateProduct_keeps_other_rows; [exact Hin2|].
      simpl. congruence. }
    exists ((k, q) :: done). rewrite Hdb2 in Hdone, Hu, Ho, Hi.
    split; [apply prefix_cons; exact Hpre|].
    split; [|split; [exact Hu | split; [exact Ho | split; [exact Hi|]]]].
    + exact (Forall2_trans _ _ _ _ _ _ (takenBy_compose k q done)
               Hstep Hdone).
    + intros pm' Hr. rewrite (Hall pm' Hr). reflexivity.
  - (* the update returned an error *)
    inversion Hrun; subst r w'. destruct Hany as [[Hdb2 _]|Hdb2].
    + exists []. split; [apply prefix_nil|]. rewrite Hdb2.
      split; [apply restoredBy_nothing|].
      repeat split; try reflexivity. discriminate.
    + exists [(k, q)]. split; [apply prefix_cons, prefix_nil|].
      rewrite Hdb2. split.
      * exact (Forall2_trans _ _ _ _ _ _ (takenBy_compose k q [])
                 Hstep (restoredBy_nothing _)).
      * repeat split; try reflexivity. discriminate.
Qed.

(** The order storage's [CreateOrder] adds the order with its items or
    leaves the data as it was. *)
Lemma storage_CreateOrder_any order w :
  let order' := fst (fst (orderStorage.CreateOrder env order w)) in
  let err := snd (fst (orderStorage.CreateOrder env order w)) in
  let w' := snd (orderStorage.CreateOrder env order w) in
  (err = None
   /\ db w' = {| users := users (db w); products := products (db w);
                 orders := orders (db w) ++ [Order.withItems [] order'];
                 order_items := order_items (db w) ++ Order.Items order' |})
  \/ (err <> None /\ db w' = db w).
Proof.
  unfold orderStorage.CreateOrder.
  change (rt (withOrderCache (ttlcache.DeleteAll (orderCache w)) w))
    with (rt w).
  destruct (Order.Validate env order (rt w)) as [[o' [e|]] r'] eqn:EV;
    simpl in *.
  { right. split; [discriminate | reflexivity]. }
  set (w0 := withRt r' (withOrderCache (ttlcache.DeleteAll (orderCache w)) w)).
  assert (Hdb0 : db w0 = db w) by reflexivity.
  pose proof (roundTrip_db w0) as Hdb1.
  destruct (roundTrip w0) as [[|] w1]; simpl in *.
  { right. split; [discriminate | congruence]. }
  pose proof (txExec_db (SQL.insertOrder o') (db w1) w1) as Hdb2.
  pose proof (txExec_ok (SQL.insertOrder o') (db w1) w1) as Hok2.
  destruct (orderStorage.txExec (SQL.insertOrder o') (db w1) w1)
    as [[tx|e] w2]; simpl in *.
  2: { right. split; [discriminate|]. rewrite txRollback_db. congruence. }
  specialize (Hok2 _ _ eq_refl). subst tx.
  destruct (insertItems_spec (Order.Items o')
              (SQL.insertOrder o' (db w1)) w2) as [Hdb3 Hok3].
  destruct (orderStorage.insertItems (Order.Items o')
              (SQL.insertOrder o' (db w1)) w2) as [[tx'|e] w3]; simpl in *.
  2: { right. split; [discriminate|]. rewrite txRollback_db. congruence. }
  specialize (Hok3 _ _ eq_refl). subst tx'.
  unfold orderStorage.txCommit.
  pose proof (roundTrip_db w3) as Hdb4.
  destruct (roundTrip w3) as [[|] w4]; simpl in *.
  { right. split; [discriminate | congruence]. }
  left. split; [reflexivity|]. rewrite Hdb1. reflexivity.
Qed.

End FailedOrders.

(** X20: a failed order gives nothing back.  With a product cache that
    agrees with the store for the batch request, unique product ids and
    quantities within [int], whatever the round trips to the database do
    and however [CreateOrder] ends: the users are untouched, and the
    product rows are as before except that, for the products the reserve
    loop got through (a prefix of the entries in the order the loop visits
    them), the quantity is lowered by the quantity asked of that product.
    When the call returns an order, that prefix is all the entries and the
    order and its items have been appended; when it returns an error, no
    order row and no item row has been added, and what had been taken from
    the stock stays taken: no code path gives it back. *)
Theorem CreateOrder_gives_nothing_back
    (env : Env) (req : CreateOrderRequest.t) (w : World)
    (r : result Order.t) (w' : World) :
  RangeOk env ->
  productsFresh env
    (orderAppService.batch
       (orderAppService.productIds (CreateOrderRequest.Items req))) w ->
  NoDup (map Product.Id (products (db w))) ->
  (forall p, p ∈ products (db w) -> Product.Quantity p <= MaxInt) ->
  orderAppService.CreateOrder env req w = (r, w') ->
  exists done,
    done `prefix_of`
      mapRange env (S (seed (rt w)))
        (map_to_list
           (orderAppService.requestedQuantities
              (CreateOrderRequest.Items req)))
    /\ Forall2 (restoredBy (fun k => - amountOf done k))
         (products (db w)) (products (db w'))
    /\ users (db w') = users (db w)
    /\ match r with
       | Err _ =>
           orders (db w') = orders (db w)
           /\ order_items (db w') = order_items (db w)
       | Ok order =>
           done = mapRange env (S (seed (rt w)))
                    (map_to_list
                       (orderAppService.requestedQuantities
                          (CreateOrderRequest.Items req)))
           /\ orders (db w') = orders (db w) ++ [Order.withItems [] order]
           /\ order_items (db w') = order_items (db w) ++ Order.Items order
       end.
Proof.
  intros Hrange Hfresh Huniq Hmax Hrun.
  set (items := CreateOrderRequest.Items req) in *.
  set (all := mapRange env (S (seed (rt w)))
                (map_to_list (orderAppService.requestedQuantities items))).
  assert (Hstop : forall e w0, db w0 = db w -> (Err e, w0) = (r, w') ->
            exists done,
              done `prefix_of` all
              /\ Forall2 (restoredBy (fun k => - amountOf done k))
                   (products (db w)) (products (db w'))
              /\ users (db w') = users (db w)
              /\ match r with
                 | Err _ =>
                     orders (db w') = orders (db w)
                     /\ order_items (db w') = order_items (db w)
                 | Ok order =>
                     done = all
                     /\ orders (db w')
                        = orders (db w) ++ [Order.withItems [] order]
                     /\ order_items (db w')
                        = order_items (db w) ++ Order.Items order
                 end).
  { intros e w0 Hdb H. inversion H; subst. exists [].
    split; [apply prefix_nil|]. rewrite Hdb.
    split; [apply restoredBy_nothing|]. auto. }
  unfold orderAppService.CreateOrder in Hrun.
  destruct (CreateOrderRequest.Validate req) as [e|].
  { unfold throw in Hrun. apply (Hstop e w); [reflexivity | exact Hrun]. }
  (* the user *)
  unfold bind at 1 in Hrun.
  pose proof (Users_frame env
                (orderAppService.userById (CreateOrderRequest.UserId req)) w)
    as (Hdb1 & Hpc1 & _ & Hs1).
  destruct (userStorage.Users env _ w) as [[us|e] w1]; simpl in *.
  2: { apply (Hstop e w1); [exact Hdb1 | exact Hrun]. }
  destruct us as [|u us].
  { unfold throw in Hrun. eapply (Hstop _ w1); [exact Hdb1 | exact Hrun]. }
  (* the products *)
  unfold bind at 1 in Hrun.
  pose proof (Products_frame env
                (orderAppService.batch (orderAppService.productIds items)) w1)
    as (Hdb2 & _ & _ & Hs2).
  assert (Hfresh1 : productsFresh env
                      (orderAppService.batch
                         (orderAppService.productIds items)) w1)
    by (apply (productsFresh_frame env _ w); assumption).
  pose proof (Products_ok_fresh env
                (orderAppService.batch (orderAppService.productIds items)) w1)
    as Hps.
  destruct (productStorage.Products env _ w1) as [[ps|e] w2]; simpl in *.
  2: { apply (Hstop e w2); [congruence | exact Hrun]. }
  specialize (Hps ps w2 Hfresh1 eq_refl). rewrite Hdb1 in Hps.
  (* the stock check *)
  destruct (rangeMap_spec env (orderAppService.requestedQuantities items)
              w2 Hrange) as (HR1 & _ & _).
  rewrite (bind_ok _ _ _ _ _ HR1) in Hrun.
  set (wa := withRt {| clock := clock (rt w2); seed := S (seed (rt w2)) |} w2)
    in *.
  destruct (orderAppService.checkStock _ _) as [e|].
  { unfold throw in Hrun. apply (Hstop e wa); [|exact Hrun].
    unfold wa. simpl. congruence. }
  (* the reserve loop *)
  unfold orderAppService.afterCheck in Hrun. fold items in Hrun.
  destruct (rangeMap_spec env (orderAppService.requestedQuantities items)
              wa Hrange) as (HR2 & _ & Hnd).
  rewrite (bind_ok _ _ _ _ _ HR2) in Hrun.
  assert (Hall : mapRange env (seed (rt wa))
                   (map_to_list (orderAppService.requestedQuantities items))
                 = all).
  { unfold all, wa. simpl. rewrite Hs2, Hs1. reflexivity. }
  rewrite Hall in Hrun, Hnd.
  set (wb := withRt {| clock := clock (rt wa); seed := S (seed (rt wa)) |} wa)
    in *.
  assert (Hdbb : db wb = db w) by (unfold wb, wa; simpl; congruence).
  unfold bind at 1 in Hrun.
  pose proof (reserveAll_any env all (orderAppService.productMap ps) wb)
    as Hloop.
  destruct (orderAppService.reserveAll env _ all wb) as [r3 w3].
  destruct (Hloop r3 w3 Hnd) as (done & Hpre & Hdone & Hu & Ho & Hi & Hfull);
    [rewrite Hdbb; exact Huniq | | reflexivity |].
  { intros k q p _ Hp. rewrite Hps in Hp.
    apply productMap_lookup in Hp. destruct Hp as [Hin Hid].
    apply selectProducts_elem in Hin. destruct Hin as [Hin _].
    rewrite Hdbb. split; [exact Hin|]. split; [exact Hid|].
    apply Hmax. exact Hin. }
  rewrite Hdbb in Hdone, Hu, Ho, Hi.
  destruct r3 as [pm'|e].
  2: { inversion Hrun; subst. exists done. auto. }
  specialize (Hfull pm' eq_refl).
  destruct (orderAppService.buildItems pm' items) as [built|].
  2: { unfold throw in Hrun. inversion Hrun; subst. exists all. auto. }
  match type of Hrun with
  | context [orderStorage.CreateOrder env ?o w3] =>
      pose proof (storage_CreateOrder_any env o w3) as Hstore;
      destruct (orderStorage.CreateOrder env o w3) as [[order [e|]] w4]
  end; simpl in Hstore; inversion Hrun; subst r w'.
  - destruct Hstore as [[Hnone _]|[_ Hdb4]]; [discriminate|].
    exists done. rewrite Hdb4. auto.
  - destruct Hstore as [[_ Hdb4]|[Hsome _]]; [|congruence].
    exists done. rewrite Hdb4. simpl. rewrite Hu, Ho, Hi. subst done.
    repeat split; try reflexivity; assumption.
Qed.

Lemma CreateOrder_gives_nothing_back_witness :
  exists w' done,
    orderAppService.CreateOrder (refEnv (fun l => l)) splitLines
      fifthBreaksWorld = (Err driverError, w')
    /\ done <> []
    /\ Forall2 (restoredBy (fun k => - amountOf done k))
         (products pairDB) (products (db w'))
    /\ map Product.Quantity (products (db w')) = [0; 10]
    /\ orders (db w') = []
    /\ order_items (db w') = [].
Proof.
  destruct (orderAppService.CreateOrder (refEnv (fun l => l)) splitLines
              fifthBreaksWorld) as [r w'] eqn:Hrun.
  assert (Hr : r = Err driverError
               /\ map Product.Quantity (products (db w')) = [0; 10]).
  { pose proof Hrun as Hc. vm_compute in Hc. inversion Hc; subst.
    split; reflexivity. }
  destruct Hr as [-> Hquantities].
  destruct (CreateOrder_gives_nothing_back (refEnv (fun l => l)) splitLines
              fifthBreaksWorld (Err driverError) w')
    as (done & _ & Hrows & _ & Ho & Hi).
  - intros n l. reflexivity.
  - intros it H. cbn [productCache fifthBreaksWorld] in H.
    rewrite lookup_empty in H. discriminate.
  - simpl. apply NoDup_cons. split.
    + intros H. apply list_elem_of_singleton in H. discriminate.
    + apply NoDup_singleton.
  - intros p Hp. simpl in Hp.
    apply elem_of_cons in Hp. destruct Hp as [->|Hp]; [vm_compute; discriminate|].
    apply list_elem_of_singleton in Hp. subst p. vm_compute. discriminate.
  - exact Hrun.
  - exists w', done. split; [reflexivity|]. split.
    + intros ->. simpl in Hrows.
      destruct (products (db w')) as [|p1 rest]; [discriminate|].
      inversion Hrows as [|? ? ? ? (_ & _ & _ & _ & Hq) _]; subst.
      simpl in Hquantities. injection Hquantities as Hq1 _.
      rewrite Hq1 in Hq. vm_compute in Hq. discriminate.
    + split; [exact Hrows|]. split; [exact Hquantities|].
      split; [exact Ho | exact Hi].
Defined.
(* ================================================================== *)
(** * Cancelling twice *)

Section CancelTwice.

Variable env : Env.

Implicit Types (w : World) (d : DB).

(** A read of orders that returns, on a cache that agrees with the store,
    returns the store's answer, whatever the round trips do. *)
Lemma Orders_ok_fresh req w os w' :
  ordersFresh env req w ->
  orderStorage.Orders env req w = (Ok os, w') ->
  os = ordersAnswer (GetOrdersRequest.Validate req) (db w).
Proof.
  intros Hfresh. unfold orderStorage.Orders. simpl.
  pose proof (Get_DeleteExpired (Now (rt w))
                (GetOrdersRequest.CacheKey env
                   (GetOrdersRequest.Validate req))
                (orderCache w)) as Hget.
  destruct (ttlcache.Get _ _ _) as [[cached|] c]; simpl in *.
  - destruct Hget as (it & Hit & Hv). intros H. inversion H; subst.
    apply Hfresh. exact Hit.
  - match goal with |- context [roundTrip ?x] =>
      pose proof (roundTrip_db x) as Hd;
      destruct (roundTrip x) as [[|] w1] end; simpl in *; [discriminate|].
    unfold ordersAnswer. rewrite <- Hd.
    destruct (SQL.selectOrders (GetOrdersRequest.Validate req) (db w1))
      as [|row rows].
    + unfold ret. intros H. inversion H. reflexivity.
    + unfold orderStorage.loadOrderItems, bind, roundTripM, getWorld, ret.
      pose proof (roundTrip_db w1) as Hd'.
      destruct (roundTrip w1) as [[|] w2]; simpl in *; [discriminate|].
      intros H. inversion H. rewrite Hd'. reflexivity.
Qed.

(** A status update that returns an order returns it with the status asked
    for, under the id asked for, and leaves it in the cache. *)
Lemma UpdateOrder_Ok req w o w' :
  orderStorage.UpdateOrder env req w = (Ok o, w') ->
  Order.Id o = UpdateOrderRequest.Id req
  /\ Order.Status o = UpdateOrderRequest.Status req
  /\ exists rest,
       orderCache w'
       !! GetOrdersRequest.CacheKey env
            (GetOrdersRequest.Validate
               (orderStorage.byId (UpdateOrderRequest.Id req)))
       = Some {| ttlcache.value := o :: rest;
                 ttlcache.expiresAt := Now (rt w') + Hour |}.
Proof.
  unfold orderStorage.UpdateOrder, bind, modify, getWorld, throw, ret,
    roundTripM, ttlcache.DeleteAll. simpl.
  destruct (UpdateOrderRequest.Validate req) as [e0|]; [discriminate|].
  set (w0 := withOrderCache ∅ w).
  pose proof (roundTrip_caches w0) as (_ & _ & Hoc1).
  destruct (roundTrip w0) as [[|] w1]; simpl in *; [discriminate|].
  destruct (SQL.rowsAffected req (db w1) =? 0)%nat; [discriminate|].
  set (w2 := withDb (SQL.updateOrder (Now (rt w)) req (db w1)) w1).
  assert (Hfresh : ordersFresh env
                     (orderStorage.byId (UpdateOrderRequest.Id req)) w2).
  { intros it Hit. unfold w2 in Hit. simpl in Hit.
    rewrite Hoc1 in Hit. unfold w0 in Hit. simpl in Hit.
    rewrite lookup_empty in Hit. discriminate. }
  pose proof (Orders_ok_fresh
                (orderStorage.byId (UpdateOrderRequest.Id req)) w2) as Hans.
  pose proof (Orders_caches env
                (orderStorage.byId (UpdateOrderRequest.Id req)) w2) as Hcache.
  destruct (orderStorage.Orders env
              (orderStorage.byId (UpdateOrderRequest.Id req)) w2)
    as [[[|o1 os]|e] w3]; simpl; try discriminate.
  intros H. inversion H; subst o1 w3.
  specialize (Hans _ _ Hfresh eq_refl). specialize (Hcache _ _ eq_refl).
  symmetry in Hans.
  destruct (ordersAnswer_byId_head _ _ _ _ Hans)
    as (row & Hrow & Hrowid & Hid & Hst).
  split; [exact Hid|]. split; [|exists os; exact Hcache].
  rewrite Hst. apply (updateOrder_rows (Now (rt w)) req (db w1)).
  - exact Hrow.
  - exact Hrowid.
Qed.

(** A cancellation that returns went through the status update of the
    order it had read. *)
Lemma CancelOrder_Ok orderId w o w1 :
  ordersFresh env (orderStorage.byId orderId) w ->
  orderAppService.CancelOrder env orderId w = (Ok o, w1) ->
  exists wc,
    orderStorage.UpdateOrder env
      {| UpdateOrderRequest.Id := orderId;
         UpdateOrderRequest.Status := OrderStatusCancelled |} wc
    = (Ok o, w1).
Proof.
  intros Hfresh. unfold orderAppService.CancelOrder.
  unfold bind at 1.
  pose proof (Orders_ok_fresh (orderStorage.byId orderId) w) as Hans.
  destruct (orderStorage.Orders env (orderStorage.byId orderId) w)
    as [[[|order rest]|e] wa]; try discriminate.
  specialize (Hans _ _ Hfresh eq_refl). symmetry in Hans.
  destruct (ordersAnswer_byId_head _ _ _ _ Hans) as (_ & _ & _ & Hid & _).
  destruct (Order.CanBeCancelled order) eqn:Hcan; simpl; [|discriminate].
  unfold bind at 1.
  destruct (rangeMap env _ wa) as [[entries|e] wb]; [|discriminate].
  unfold bind at 1.
  destruct (orderAppService.restoreAll env entries wb) as [[u|e] wc];
    [|discriminate].
  unfold bind, getWorld.
  rewrite (proj1 (Cancel_spec (Now (rt wc)) order) Hcan). simpl.
  rewrite Hid. intros H. exists wc. exact H.
Qed.

End CancelTwice.

(** X21: an order that has been cancelled is not cancelled again.  When
    [CancelOrder] has returned an order (read with a cache that agreed with
    the store), that order carries the id asked for and the status
    cancelled, and a second [CancelOrder] for the same id within the hour
    is refused with [OrderValidation], naming the status cancelled: it is
    answered from the cache, makes no round trip and leaves the data as it
    is, so no stock is given back twice. *)
Theorem cancelled_order_is_not_cancelled_again
    (env : Env) (orderId : UUID) (w : World) (o : Order.t) (w1 : World)
    (d : Z) :
  ordersFresh env (orderStorage.byId orderId) w ->
  orderAppService.CancelOrder env orderId w = (Ok o, w1) ->
  d <= Hour ->
  Order.Id o = orderId
  /\ Order.Status o = OrderStatusCancelled
  /\ exists w2,
       orderAppService.CancelOrder env orderId (elapse d w1)
       = (Err (Errorf ErrOrderValidation
                 "%w: order in status %s cannot be cancelled"
                 [ArgStr OrderStatusCancelled]), w2)
       /\ db w2 = db w1
       /\ io w2 = io w1.
Proof.
  intros Hfresh Hrun Hd.
  destruct (CancelOrder_Ok env orderId w o w1 Hfresh Hrun) as [wc Hupd].
  destruct (UpdateOrder_Ok env _ _ _ _ Hupd) as (Hid & Hst & rest & Hcache).
  simpl in Hid, Hst, Hcache.
  split; [exact Hid|]. split; [exact Hst|].
  destruct (Orders_hit env (orderStorage.byId orderId) (elapse d w1) _ Hcache)
    as (Hfst & Hio & Hdb & _).
  { simpl. unfold Now. simpl.
    rewrite (isExpired_later (clock (rt w1)) d _ (o :: rest)).
    apply Z.ltb_ge. exact Hd. }
  unfold orderAppService.CancelOrder, bind.
  destruct (orderStorage.Orders env (orderStorage.byId orderId) (elapse d w1))
    as [r w2]; simpl in *. subst r.
  exists w2. split; [|split; [exact Hdb | exact Hio]].
  unfold Order.CanBeCancelled. rewrite Hst. reflexivity.
Qed.

Lemma cancelled_order_is_not_cancelled_again_witness :
  exists o w1 w2,
    orderAppService.CancelOrder (refEnv (fun l => l)) 1002 placedWorld
    = (Ok o, w1)
    /\ Order.Status o = OrderStatusCancelled
    /\ orderAppService.CancelOrder (refEnv (fun l => l)) 1002 (elapse Hour w1)
       = (Err (Errorf ErrOrderValidation
                 "%w: order in status %s cannot be cancelled"
                 [ArgStr OrderStatusCancelled]), w2)
    /\ db w2 = db w1.
Proof.
  destruct (orderAppService.CancelOrder (refEnv (fun l => l)) 1002
              placedWorld) as [r w1] eqn:Hrun.
  assert (Hr : exists o, r = Ok o).
  { pose proof Hrun as Hc. vm_compute in Hc. inversion Hc. eauto. }
  destruct Hr as [o ->].
  destruct (cancelled_order_is_not_cancelled_again (refEnv (fun l => l))
              1002 placedWorld o w1 Hour)
    as (_ & Hst & w2 & Hrun2 & Hdb & _).
  - intros it Hit.
    assert (Hempty : orderCache placedWorld = ∅) by (vm_compute; reflexivity).
    rewrite Hempty, lookup_empty in Hit. discriminate.
  - exact Hrun.
  - lia.
  - exists o, w1, w2. auto.
Defined.
